(** * NvNmos: a shallow embedding of the node implementation

    The development follows [src/nvnmos.cpp] (the C facade and the
    [nvnmos::server] class), [src/nvnmos_impl.h] and the node implementation
    that lives in namespace [nvnmos] / [nvnmos::impl].

    Conventions.
    - [utility::string_t] is a byte string ([String.string]).
    - [nmos::id] is the textual form of a UUID.
    - Exceptions are results in a sum type; stateful functions pass the two
      resource stores (and the settings) explicitly.
    - Functions of the nmos-cpp, cpprest, Boost and C++ standard libraries
      are not part of [src/]; they are fields of the record [nmos_cpp],
      and every fact the proofs need about them is a stated law
      ([nmos_cpp_laws], [emits_faithfully]). *)

From Stdlib Require Import ZArith List String Ascii Bool Lia DecimalString.
From stdpp Require Import base option list strings gmap.

Local Open Scope string_scope.
Local Open Scope list_scope.
Local Open Scope Z_scope.

(** ** Strings and bytes *)

(** [utility::conversions::details::to_string_t(int)] and
    [utility::ostringstreamed(int)]: the decimal rendering of an integer. *)
Definition to_string_t (n : Z) : string :=
  NilZero.string_of_int (Z.to_int n).

(** The bytes of a narrow string. *)
Definition bytes_of_string (s : string) : list Z :=
  map (fun c => Z.of_N (N_of_ascii c)) (list_ascii_of_string s).

(** [std::string::find(char)]: the index of the first occurrence. *)
Fixpoint string_find (c : ascii) (s : string) : option nat :=
  match s with
  | EmptyString => None
  | String a s' => if Ascii.eqb a c then Some 0%nat else S <$> string_find c s'
  end.

(** [boost::algorithm::to_lower_copy] in the classic locale. *)
Definition to_lower_ascii (c : ascii) : ascii :=
  let n := N_of_ascii c in
  if ((65 <=? n) && (n <=? 90))%N then ascii_of_N (n + 32) else c.

Fixpoint to_lower_copy (s : string) : string :=
  match s with
  | EmptyString => EmptyString
  | String a s' => String (to_lower_ascii a) (to_lower_copy s')
  end.

(** [boost::algorithm::starts_with]. *)
Definition starts_with (s p : string) : bool := String.prefix p s.

(** ** SHA-1 (FIPS 180-4), on 32-bit words held in [Z] *)

Module SHA1.

Definition w32 (x : Z) : Z := Z.land x 4294967295.
Definition add32 (a b : Z) : Z := w32 (a + b).
Definition rotl (n x : Z) : Z :=
  w32 (Z.lor (Z.shiftl x n) (Z.shiftr x (32 - n))).

(** Big-endian split of a word of [n] bytes. *)
Fixpoint be_bytes (n : nat) (x : Z) : list Z :=
  match n with
  | O => []
  | S n' => Z.land (Z.shiftr x (8 * Z.of_nat n')) 255 :: be_bytes n' x
  end.

Definition be_word (bs : list Z) : Z :=
  fold_left (fun acc b => Z.lor (Z.shiftl acc 8) b) bs 0.

(** Message padding: 0x80, zeros up to 56 mod 64, then the bit length. *)
Definition pad (msg : list Z) : list Z :=
  let len := Z.of_nat (length msg) in
  let zeros := Z.to_nat ((55 - len) mod 64) in
  msg ++ [128] ++ repeat 0 zeros ++ be_bytes 8 (8 * len).

Fixpoint chunks (fuel n : nat) (l : list Z) : list (list Z) :=
  match fuel with
  | O => []
  | S fuel' =>
      match l with
      | [] => []
      | _ => firstn n l :: chunks fuel' n (skipn n l)
      end
  end.

(** The message schedule, most recent word first. *)
Fixpoint extend (k : nat) (rev_w : list Z) : list Z :=
  match k with
  | O => rev_w
  | S k' =>
      let x := Z.lxor (Z.lxor (nth 2 rev_w 0) (nth 7 rev_w 0))
                      (Z.lxor (nth 13 rev_w 0) (nth 15 rev_w 0)) in
      extend k' (rotl 1 x :: rev_w)
  end.

Definition schedule (block : list Z) : list Z :=
  rev (extend 64 (rev (map be_word (chunks 16 4 block)))).

Definition f_k (t : nat) (b c d : Z) : Z * Z :=
  if (t <? 20)%nat then
    (Z.lor (Z.land b c) (Z.land (Z.lxor b 4294967295) d), 1518500249)
  else if (t <? 40)%nat then
    (Z.lxor (Z.lxor b c) d, 1859775393)
  else if (t <? 60)%nat then
    (Z.lor (Z.lor (Z.land b c) (Z.land b d)) (Z.land c d), 2400959708)
  else
    (Z.lxor (Z.lxor b c) d, 3395469782).

Record state := State { ha : Z; hb : Z; hc : Z; hd : Z; he : Z }.

Definition round (st : nat * state) (w : Z) : nat * state :=
  let '(t, State a b c d e) := st in
  let '(f, k) := f_k t b c d in
  let tmp := add32 (add32 (add32 (add32 (rotl 5 a) f) e) k) w in
  (S t, State tmp a (rotl 30 b) c d).

Definition compress (h : state) (block : list Z) : state :=
  let '(_, State a b c d e) := fold_left round (schedule block) (O, h) in
  State (add32 (ha h) a) (add32 (hb h) b) (add32 (hc h) c)
        (add32 (hd h) d) (add32 (he h) e).

Definition init : state :=
  State 1732584193 4023233417 2562383102 271733878 3285377520.

Definition digest (msg : list Z) : list Z :=
  let p := pad msg in
  let h := fold_left compress (chunks (length p) 64 p) init in
  be_bytes 4 (ha h) ++ be_bytes 4 (hb h) ++ be_bytes 4 (hc h)
    ++ be_bytes 4 (hd h) ++ be_bytes 4 (he h).

End SHA1.

(** ** UUIDs *)

Definition hex_digit (n : Z) : ascii :=
  if n <? 10 then ascii_of_N (Z.to_N (48 + n)) else ascii_of_N (Z.to_N (87 + n)).

Definition hex_value (c : ascii) : option Z :=
  let n := Z.of_N (N_of_ascii c) in
  if (48 <=? n) && (n <=? 57) then Some (n - 48)
  else if (97 <=? n) && (n <=? 102) then Some (n - 87)
  else if (65 <=? n) && (n <=? 70) then Some (n - 55)
  else None.

Definition hex_of_bytes (bs : list Z) : string :=
  string_of_list_ascii
    (flat_map (fun b => [hex_digit (Z.shiftr b 4); hex_digit (Z.land b 15)]) bs).

Fixpoint bytes_of_nibbles (ns : list Z) : list Z :=
  match ns with
  | hi :: lo :: ns' => (16 * hi + lo) :: bytes_of_nibbles ns'
  | _ => []
  end.

(** [boost::uuids::string_generator]: the sixteen bytes of a textual UUID
    (the hyphens carry no information). *)
Definition uuid_bytes (u : string) : list Z :=
  bytes_of_nibbles (omap hex_value (list_ascii_of_string u)).

(** [boost::uuids::to_string]: 8-4-4-4-12 lower-case hexadecimal. *)
Definition uuid_to_string (bs : list Z) : string :=
  hex_of_bytes (firstn 4 bs) +:+ "-" +:+
  hex_of_bytes (firstn 2 (skipn 4 bs)) +:+ "-" +:+
  hex_of_bytes (firstn 2 (skipn 6 bs)) +:+ "-" +:+
  hex_of_bytes (firstn 2 (skipn 8 bs)) +:+ "-" +:+
  hex_of_bytes (firstn 6 (skipn 10 bs)).

(** The name-based UUID of RFC 4122 with SHA-1 (version 5). *)
Definition uuid5_bytes (ns : list Z) (name : list Z) : list Z :=
  let d := firstn 16 (SHA1.digest (ns ++ name)) in
  let d := <[6%nat := Z.lor (Z.land (nth 6 d 0) 15) 80]> d in
  <[8%nat := Z.lor (Z.land (nth 8 d 0) 63) 128]> d.

Definition uuid5 (ns : string) (name : string) : string :=
  uuid_to_string (uuid5_bytes (uuid_bytes ns) (bytes_of_string name)).

(** Modelled from the spec: [nmos::make_repeatable_id] is a function of
    nmos-cpp and is not in [src/]; section 4.1 of the specification fixes it
    as the version-5 (name-based, SHA-1) UUID of the name in the namespace. *)
Definition make_repeatable_id (namespace_id : string) (name : string) : string :=
  uuid5 namespace_id name.

(** ** Exceptions, results and JSON values *)

(** The exceptions that cross the functions below.  [server::log_current_exception]
    tells them apart only to choose a log message. *)
Inductive exn :=
| node_implementation_exception
| json_exception
| logic_error (what : string)
| runtime_error (what : string).

Inductive result (A : Type) :=
| Ok (a : A)
| Throw (e : exn).
Arguments Ok {A} a.
Arguments Throw {A} e.

#[global] Instance result_ret : MRet result := fun A a => Ok a.
#[global] Instance result_bind : MBind result := fun A B f m =>
  match m with
  | Ok a => f a
  | Throw e => Throw e
  end.
#[global] Instance result_fmap : FMap result := fun A B f m =>
  match m with
  | Ok a => Ok (f a)
  | Throw e => Throw e
  end.

(** [web::json::value]. *)
#[local] Set Warnings "-register-all".
Inductive value :=
| Null
| Boolean (b : bool)
| Number (n : Z)
| Str (s : string)
| Array (xs : list value)
| Object (fs : list (string * value)).

Definition is_null (v : value) : bool :=
  match v with Null => true | _ => false end.
Definition is_integer (v : value) : bool :=
  match v with Number _ => true | _ => false end.
Definition as_string (v : value) : result string :=
  match v with Str s => Ok s | _ => Throw json_exception end.
Definition as_integer (v : value) : result Z :=
  match v with Number n => Ok n | _ => Throw json_exception end.
Definition as_bool (v : value) : result bool :=
  match v with Boolean b => Ok b | _ => Throw json_exception end.

Section Assoc.
Context {V : Type}.

Fixpoint assoc_get (k : string) (fs : list (string * V)) : option V :=
  match fs with
  | [] => None
  | (k', v) :: fs' => if String.eqb k' k then Some v else assoc_get k fs'
  end.

Fixpoint assoc_set (k : string) (x : V) (fs : list (string * V)) : list (string * V) :=
  match fs with
  | [] => [(k, x)]
  | (k', v) :: fs' =>
      if String.eqb k' k then (k', x) :: fs' else (k', v) :: assoc_set k x fs'
  end.

Definition assoc_erase (k : string) (fs : list (string * V)) : list (string * V) :=
  filter (fun kv => negb (String.eqb (fst kv) k)) fs.
End Assoc.

(** [v.at(k)]: throws when the member is missing. *)
Definition value_at (k : string) (v : value) : result value :=
  match v with
  | Object fs => match assoc_get k fs with Some x => Ok x | None => Throw json_exception end
  | _ => Throw json_exception
  end.

(** Reading [v[k]] on a non-const value: a missing member is created as null. *)
Definition value_get (k : string) (v : value) : value :=
  match v with
  | Object fs => default Null (assoc_get k fs)
  | _ => Null
  end.

(** [v[k] = x]: a value that is not yet an object becomes one. *)
Definition value_set (k : string) (x : value) (v : value) : value :=
  match v with
  | Object fs => Object (assoc_set k x fs)
  | _ => Object [(k, x)]
  end.

Definition value_erase (k : string) (v : value) : value :=
  match v with
  | Object fs => Object (assoc_erase k fs)
  | _ => v
  end.

(** [xs[i]] on a non-const array: the array grows with nulls up to [i]. *)
Definition array_alter (f : value -> value) (i : nat) (xs : list value) : list value :=
  if (i <? length xs)%nat then alter f i xs
  else xs ++ repeat Null (i - length xs) ++ [f Null].

(** ** Resource types, clocks, host interfaces *)

(** [nmos::types]. *)
Inductive type := node | device | source | flow | sender | receiver.

#[global] Instance type_eq_dec : EqDecision type.
Proof. solve_decision. Defined.

Definition type_name (t : type) : string :=
  match t with
  | node => "node"
  | device => "device"
  | source => "source"
  | flow => "flow"
  | sender => "sender"
  | receiver => "receiver"
  end.

(** The members of a node's [clocks] array, as built by
    [nmos::make_internal_clock] and [nmos::make_ptp_clock]. *)
Inductive clock :=
| make_internal_clock (name : string)
| make_ptp_clock (name : string) (traceable : bool) (gmid : string) (locked : bool).

#[global] Instance clock_eq_dec : EqDecision clock.
Proof. solve_decision. Defined.

(** [nmos::fields::name] of a clock. *)
Definition clock_fields_name (c : clock) : string :=
  match c with
  | make_internal_clock n => n
  | make_ptp_clock n _ _ _ => n
  end.

(** [nmos::clock_names::clk0]. *)
Definition clk0 : string := "clk0".

(** [web::hosts::experimental::host_interface]: the name, the addresses and
    the remaining members (index, physical address, domain). *)
Record host_interface := {
  hi_name : string;
  hi_addresses : list string;
  hi_other : string
}.

(** A member of a node's [interfaces] array. *)
Record node_interface := {
  ni_name : string;
  ni_other : string
}.

#[global] Instance node_interface_eq_dec : EqDecision node_interface.
Proof. solve_decision. Defined.

(** [nmos::rational]. *)
Definition rational : Type := Z * Z.

(** ** Resources *)

(** [nmos::resource] in the IS-04 store: the members of [data] that the node
    implementation reads or writes are fields; everything else the library
    puts into [data] is carried in [fields_other]. *)
Record resource := {
  resource_id : string;
  resource_type : type;
  fields_version : string;
  fields_label : string;
  fields_description : string;
  fields_tags : list (string * list string);
  fields_device_id : string;
  fields_flow_id : option string;
  fields_source_id : string;
  fields_clock_name : option string;
  fields_interface_bindings : list string;
  fields_senders : list string;
  fields_receivers : list string;
  fields_interfaces : list node_interface;
  fields_clocks : list clock;
  fields_transport : string;
  fields_other : list (string * value)
}.

Definition set_version (x : string) (r : resource) : resource :=
  {| resource_id := resource_id r; resource_type := resource_type r;
     fields_version := x; fields_label := fields_label r;
     fields_description := fields_description r; fields_tags := fields_tags r;
     fields_device_id := fields_device_id r; fields_flow_id := fields_flow_id r;
     fields_source_id := fields_source_id r; fields_clock_name := fields_clock_name r;
     fields_interface_bindings := fields_interface_bindings r;
     fields_senders := fields_senders r; fields_receivers := fields_receivers r;
     fields_interfaces := fields_interfaces r; fields_clocks := fields_clocks r;
     fields_transport := fields_transport r; fields_other := fields_other r |}.

Definition set_label (x : string) (r : resource) : resource :=
  {| resource_id := resource_id r; resource_type := resource_type r;
     fields_version := fields_version r; fields_label := x;
     fields_description := fields_description r; fields_tags := fields_tags r;
     fields_device_id := fields_device_id r; fields_flow_id := fields_flow_id r;
     fields_source_id := fields_source_id r; fields_clock_name := fields_clock_name r;
     fields_interface_bindings := fields_interface_bindings r;
     fields_senders := fields_senders r; fields_receivers := fields_receivers r;
     fields_interfaces := fields_interfaces r; fields_clocks := fields_clocks r;
     fields_transport := fields_transport r; fields_other := fields_other r |}.

Definition set_description (x : string) (r : resource) : resource :=
  {| resource_id := resource_id r; resource_type := resource_type r;
     fields_version := fields_version r; fields_label := fields_label r;
     fields_description := x; fields_tags := fields_tags r;
     fields_device_id := fields_device_id r; fields_flow_id := fields_flow_id r;
     fields_source_id := fields_source_id r; fields_clock_name := fields_clock_name r;
     fields_interface_bindings := fields_interface_bindings r;
     fields_senders := fields_senders r; fields_receivers := fields_receivers r;
     fields_interfaces := fields_interfaces r; fields_clocks := fields_clocks r;
     fields_transport := fields_transport r; fields_other := fields_other r |}.

Definition set_tags (x : list (string * list string)) (r : resource) : resource :=
  {| resource_id := resource_id r; resource_type := resource_type r;
     fields_version := fields_version r; fields_label := fields_label r;
     fields_description := fields_description r; fields_tags := x;
     fields_device_id := fields_device_id r; fields_flow_id := fields_flow_id r;
     fields_source_id := fields_source_id r; fields_clock_name := fields_clock_name r;
     fields_interface_bindings := fields_interface_bindings r;
     fields_senders := fields_senders r; fields_receivers := fields_receivers r;
     fields_interfaces := fields_interfaces r; fields_clocks := fields_clocks r;
     fields_transport := fields_transport r; fields_other := fields_other r |}.

Definition set_senders (x : list string) (r : resource) : resource :=
  {| resource_id := resource_id r; resource_type := resource_type r;
     fields_version := fields_version r; fields_label := fields_label r;
     fields_description := fields_description r; fields_tags := fields_tags r;
     fields_device_id := fields_device_id r; fields_flow_id := fields_flow_id r;
     fields_source_id := fields_source_id r; fields_clock_name := fields_clock_name r;
     fields_interface_bindings := fields_interface_bindings r;
     fields_senders := x; fields_receivers := fields_receivers r;
     fields_interfaces := fields_interfaces r; fields_clocks := fields_clocks r;
     fields_transport := fields_transport r; fields_other := fields_other r |}.

Definition set_receivers (x : list string) (r : resource) : resource :=
  {| resource_id := resource_id r; resource_type := resource_type r;
     fields_version := fields_version r; fields_label := fields_label r;
     fields_description := fields_description r; fields_tags := fields_tags r;
     fields_device_id := fields_device_id r; fields_flow_id := fields_flow_id r;
     fields_source_id := fields_source_id r; fields_clock_name := fields_clock_name r;
     fields_interface_bindings := fields_interface_bindings r;
     fields_senders := fields_senders r; fields_receivers := x;
     fields_interfaces := fields_interfaces r; fields_clocks := fields_clocks r;
     fields_transport := fields_transport r; fields_other := fields_other r |}.

Definition set_interfaces (x : list node_interface) (r : resource) : resource :=
  {| resource_id := resource_id r; resource_type := resource_type r;
     fields_version := fields_version r; fields_label := fields_label r;
     fields_description := fields_description r; fields_tags := fields_tags r;
     fields_device_id := fields_device_id r; fields_flow_id := fields_flow_id r;
     fields_source_id := fields_source_id r; fields_clock_name := fields_clock_name r;
     fields_interface_bindings := fields_interface_bindings r;
     fields_senders := fields_senders r; fields_receivers := fields_receivers r;
     fields_interfaces := x; fields_clocks := fields_clocks r;
     fields_transport := fields_transport r; fields_other := fields_other r |}.

Definition set_clocks (x : list clock) (r : resource) : resource :=
  {| resource_id := resource_id r; resource_type := resource_type r;
     fields_version := fields_version r; fields_label := fields_label r;
     fields_description := fields_description r; fields_tags := fields_tags r;
     fields_device_id := fields_device_id r; fields_flow_id := fields_flow_id r;
     fields_source_id := fields_source_id r; fields_clock_name := fields_clock_name r;
     fields_interface_bindings := fields_interface_bindings r;
     fields_senders := fields_senders r; fields_receivers := fields_receivers r;
     fields_interfaces := fields_interfaces r; fields_clocks := x;
     fields_transport := fields_transport r; fields_other := fields_other r |}.

Definition set_other (k : string) (x : value) (r : resource) : resource :=
  {| resource_id := resource_id r; resource_type := resource_type r;
     fields_version := fields_version r; fields_label := fields_label r;
     fields_description := fields_description r; fields_tags := fields_tags r;
     fields_device_id := fields_device_id r; fields_flow_id := fields_flow_id r;
     fields_source_id := fields_source_id r; fields_clock_name := fields_clock_name r;
     fields_interface_bindings := fields_interface_bindings r;
     fields_senders := fields_senders r; fields_receivers := fields_receivers r;
     fields_interfaces := fields_interfaces r; fields_clocks := fields_clocks r;
     fields_transport := fields_transport r;
     fields_other := assoc_set k x (fields_other r) |}.

(** The [/active] endpoint of an IS-05 connection resource. *)
Record endpoint := {
  fields_peer_id : value;             (* receiver_id of a sender, sender_id of a receiver *)
  fields_master_enable : bool;
  fields_activation : value;
  fields_transport_file : value;
  fields_transport_params : list value
}.

(** [nmos::resource] in the IS-05 store. *)
Record connection_resource := {
  connection_id : string;
  connection_type : type;
  connection_version : string;
  fields_endpoint_constraints : list value;
  fields_endpoint_staged : value;
  fields_endpoint_active : endpoint;
  fields_endpoint_transportfile : value
}.

(** ** Settings *)

(** [nmos::settings]: the members the node implementation uses. *)
Record settings := {
  fields_seed_id : string;
  fields_node_label : string;
  fields_node_description : string;
  fields_node_tags : list (string * list string);
  fields_device_label : string;
  fields_device_description : string;
  fields_device_tags : list (string * list string);
  fields_logging_level : Z;
  (* nvnmos::fields::clocks: clock name to ptp_domain_number *)
  fields_settings_clocks : list (string * Z);
  (* nvnmos::fields::senders / receivers: id to the configured SDP *)
  fields_settings_senders : list (string * string);
  fields_settings_receivers : list (string * string);
  fields_settings_other : value
}.

Definition set_settings_clocks (x : list (string * Z)) (s : settings) : settings :=
  {| fields_seed_id := fields_seed_id s; fields_node_label := fields_node_label s;
     fields_node_description := fields_node_description s;
     fields_node_tags := fields_node_tags s; fields_device_label := fields_device_label s;
     fields_device_description := fields_device_description s;
     fields_device_tags := fields_device_tags s;
     fields_logging_level := fields_logging_level s;
     fields_settings_clocks := x;
     fields_settings_senders := fields_settings_senders s;
     fields_settings_receivers := fields_settings_receivers s;
     fields_settings_other := fields_settings_other s |}.

Definition set_settings_senders (x : list (string * string)) (s : settings) : settings :=
  {| fields_seed_id := fields_seed_id s; fields_node_label := fields_node_label s;
     fields_node_description := fields_node_description s;
     fields_node_tags := fields_node_tags s; fields_device_label := fields_device_label s;
     fields_device_description := fields_device_description s;
     fields_device_tags := fields_device_tags s;
     fields_logging_level := fields_logging_level s;
     fields_settings_clocks := fields_settings_clocks s;
     fields_settings_senders := x;
     fields_settings_receivers := fields_settings_receivers s;
     fields_settings_other := fields_settings_other s |}.

Definition set_settings_receivers (x : list (string * string)) (s : settings) : settings :=
  {| fields_seed_id := fields_seed_id s; fields_node_label := fields_node_label s;
     fields_node_description := fields_node_description s;
     fields_node_tags := fields_node_tags s; fields_device_label := fields_device_label s;
     fields_device_description := fields_device_description s;
     fields_device_tags := fields_device_tags s;
     fields_logging_level := fields_logging_level s;
     fields_settings_clocks := fields_settings_clocks s;
     fields_settings_senders := fields_settings_senders s;
     fields_settings_receivers := x;
     fields_settings_other := fields_settings_other s |}.

(** ** Session descriptions *)

(** [sdp::named_value]: an attribute; a flag attribute has a null value. *)
Record named_value := {
  nv_name : string;
  nv_value : value
}.

(** A media description of the parsed SDP: its attributes, and the rest
    (media line, connection data, bandwidth, ...). *)
Record media_description := {
  md_attributes : list named_value;
  md_other : value
}.

(** The JSON form of a session description ([sdp::parse_session_description]). *)
Record session_description := {
  sd_origin_session_version : Z;
  sd_information : string;
  sd_attributes : list named_value;
  sd_media_descriptions : list media_description;
  sd_other : value
}.

Definition set_sd_attributes (x : list named_value) (sd : session_description) :=
  {| sd_origin_session_version := sd_origin_session_version sd;
     sd_information := sd_information sd; sd_attributes := x;
     sd_media_descriptions := sd_media_descriptions sd; sd_other := sd_other sd |}.

Definition set_sd_information (x : string) (sd : session_description) :=
  {| sd_origin_session_version := sd_origin_session_version sd;
     sd_information := x; sd_attributes := sd_attributes sd;
     sd_media_descriptions := sd_media_descriptions sd; sd_other := sd_other sd |}.

Definition set_sd_media_descriptions (x : list media_description) (sd : session_description) :=
  {| sd_origin_session_version := sd_origin_session_version sd;
     sd_information := sd_information sd; sd_attributes := sd_attributes sd;
     sd_media_descriptions := x; sd_other := sd_other sd |}.

(** [sdp::find_name]. *)
Definition find_name (attributes : list named_value) (name : string) : option named_value :=
  List.find (fun nv => String.eqb (nv_name nv) name) attributes.

(** [nmos::sdp_parameters::ts_refclk_t]. *)
Record ts_refclk_t := {
  clock_source : string;
  ptp_version : string;
  ptp_server : string;
  mac_address : string
}.

(** [nmos::sdp_parameters]: the members the node implementation touches. *)
Record sdp_parameters := {
  session_name : string;
  origin_session_version : Z;
  fmtp : list (string * string);
  ts_refclk : list ts_refclk_t;
  group_semantics : string;
  group_media_stream_ids : list string;
  bandwidth_type : string;
  bandwidth : Z;
  packet_time : rational;
  max_packet_time : rational;
  sdp_parameters_other : value
}.

Definition set_fmtp (x : list (string * string)) (p : sdp_parameters) : sdp_parameters :=
  {| session_name := session_name p; origin_session_version := origin_session_version p;
     fmtp := x; ts_refclk := ts_refclk p; group_semantics := group_semantics p;
     group_media_stream_ids := group_media_stream_ids p;
     bandwidth_type := bandwidth_type p; bandwidth := bandwidth p;
     packet_time := packet_time p; max_packet_time := max_packet_time p;
     sdp_parameters_other := sdp_parameters_other p |}.

Definition set_ts_refclk (x : list ts_refclk_t) (p : sdp_parameters) : sdp_parameters :=
  {| session_name := session_name p; origin_session_version := origin_session_version p;
     fmtp := fmtp p; ts_refclk := x; group_semantics := group_semantics p;
     group_media_stream_ids := group_media_stream_ids p;
     bandwidth_type := bandwidth_type p; bandwidth := bandwidth p;
     packet_time := packet_time p; max_packet_time := max_packet_time p;
     sdp_parameters_other := sdp_parameters_other p |}.

Definition set_origin_session_version (x : Z) (p : sdp_parameters) : sdp_parameters :=
  {| session_name := session_name p; origin_session_version := x;
     fmtp := fmtp p; ts_refclk := ts_refclk p; group_semantics := group_semantics p;
     group_media_stream_ids := group_media_stream_ids p;
     bandwidth_type := bandwidth_type p; bandwidth := bandwidth p;
     packet_time := packet_time p; max_packet_time := max_packet_time p;
     sdp_parameters_other := sdp_parameters_other p |}.

Definition set_group (sem : string) (ids : list string) (p : sdp_parameters) : sdp_parameters :=
  {| session_name := session_name p; origin_session_version := origin_session_version p;
     fmtp := fmtp p; ts_refclk := ts_refclk p; group_semantics := sem;
     group_media_stream_ids := ids;
     bandwidth_type := bandwidth_type p; bandwidth := bandwidth p;
     packet_time := packet_time p; max_packet_time := max_packet_time p;
     sdp_parameters_other := sdp_parameters_other p |}.

(** [nmos::video_raw_parameters] and [nmos::video_jxsv_parameters]. *)
Record video_parameters := {
  video_exactframerate : rational;
  video_width : Z;
  video_height : Z;
  video_interlace : bool;
  video_colorimetry : string;
  video_tcs : string;
  video_sampling : string;
  video_depth : Z;
  video_profile : string;
  video_level : string;
  video_sublevel : string;
  video_packetmode : bool;
  video_transmode : Z;
  video_tp : string
}.

(** [nmos::audio_L_parameters]. *)
Record audio_L_parameters := {
  audio_channel_count : Z;
  audio_bit_depth : Z;
  audio_sample_rate : rational
}.

(** [nmos::video_smpte291_parameters]. *)
Record video_smpte291_parameters := {
  data_did_sdids : value;
  data_exactframerate : rational
}.

(** ** Constants of the libraries *)

Definition media_types_video_raw : string := "video/raw".
Definition media_types_video_jxsv : string := "video/jxsv".
Definition media_types_audio_L (bit_depth : Z) : string := "audio/L" +:+ to_string_t bit_depth.
Definition media_types_video_smpte291 : string := "video/smpte291".
Definition media_types_video_SMPTE2022_6 : string := "video/SMPTE2022-6".
Definition media_types_application_sdp : string := "application/sdp".

Definition transports_rtp : string := "urn:x-nmos:transport:rtp".
Definition formats_video : string := "urn:x-nmos:format:video".

Definition ts_refclk_sources_ptp : string := "ptp".
Definition ts_refclk_sources_local_mac : string := "localmac".
Definition ptp_versions_IEEE1588_2008 : string := "IEEE1588-2008".

Definition sdp_attributes_ts_refclk : string := "ts-refclk".
Definition sdp_attributes_inactive : string := "inactive".
Definition group_semantics_duplication : string := "DUP".

Definition interlace_modes_progressive : string := "progressive".
Definition interlace_modes_interlaced_tff : string := "interlaced_tff".
Definition interlace_modes_interlaced_bff : string := "interlaced_bff".
Definition interlace_modes_interlaced_psf : string := "interlaced_psf".
Definition packet_transmission_modes_codestream : string := "codestream".

(** [nmos::fields::group_hint], the BCP-002-01 tag. *)
Definition fields_group_hint : string := "urn:x-nmos:tag:grouphint/v1.0".

(** ** Custom settings and attributes ([nvnmos_impl.h]) *)

Definition attributes_internal_id : string := "x-nvnmos-id".
Definition attributes_group_hint : string := "x-nvnmos-group-hint".
Definition attributes_interface_ip : string := "x-nvnmos-iface-ip".
Definition attributes_source_port : string := "x-nvnmos-src-port".

(** [nvnmos::fields::internal_id_tag]. *)
Definition fields_internal_id_tag : string := "urn:x-nvnmos:id".

(** ** Logging *)

Inductive severity := devel | verbose | info | warning | error | severe | fatal.

(** The numeric levels of [nvnmos.h]. *)
Definition severity_level (s : severity) : Z :=
  match s with
  | devel => -40
  | verbose => -10
  | info => 0
  | warning => 10
  | error => 20
  | severe => 30
  | fatal => 40
  end.

Definition log_message : Type := severity * string.

(** ** The libraries the node implementation is built on

    nmos-cpp, cpprest, Boost and the C++ standard library are not part of
    this repository.  What the node implementation calls is collected in
    one record; the functions below are written against it. *)
Record nmos_cpp := {
  (* sdp/sdp.h *)
  parse_session_description : string -> result session_description;
  sdp_make_session_description : session_description -> string;
  (* nmos/sdp_utils.h *)
  get_session_description_sdp_parameters : session_description -> result sdp_parameters;
  nmos_get_session_description_transport_params : session_description -> result (list value);
  nmos_make_session_description : sdp_parameters -> list value -> result session_description;
  get_media_type : sdp_parameters -> string;
  get_video_raw_parameters : sdp_parameters -> result video_parameters;
  get_video_jxsv_parameters : sdp_parameters -> result video_parameters;
  get_audio_L_parameters : sdp_parameters -> result audio_L_parameters;
  get_video_smpte291_parameters : sdp_parameters -> result video_smpte291_parameters;
  get_video_SMPTE2022_6_parameters : sdp_parameters -> result unit;
  make_ts_refclk : resource -> resource -> resource -> Z -> list ts_refclk_t;
  parse_packet_transmission_mode : bool -> Z -> string;
  (* nmos/node_resources.h, nmos/node_resource.h *)
  make_node : string -> list clock -> settings -> resource;
  make_device : string -> string -> settings -> resource;
  make_video_source : string -> string -> string -> rational -> settings -> resource;
  make_audio_source :
    string -> string -> string -> rational -> list (string * Z) -> settings -> resource;
  make_data_source : string -> string -> string -> rational -> settings -> resource;
  make_mux_source : string -> string -> string -> rational -> settings -> resource;
  make_raw_video_flow :
    string -> string -> string -> rational -> Z -> Z -> string -> string -> string ->
    string -> Z -> settings -> resource;
  make_video_jxsv_flow :
    string -> string -> string -> rational -> Z -> Z -> string -> string -> string ->
    string -> Z -> string -> string -> string -> Z -> settings -> resource;
  make_raw_audio_flow : string -> string -> string -> rational -> Z -> settings -> resource;
  make_sdianc_data_flow : string -> string -> string -> value -> settings -> resource;
  make_mux_flow : string -> string -> string -> settings -> resource;
  make_sender :
    string -> string -> string -> string -> string -> list string -> settings -> resource;
  make_receiver :
    string -> string -> string -> list string -> string -> list string -> settings -> resource;
  make_audio_receiver : string -> string -> string -> list string -> Z -> settings -> resource;
  make_sdianc_data_receiver : string -> string -> string -> list string -> settings -> resource;
  make_mux_receiver : string -> string -> string -> list string -> settings -> resource;
  make_node_interfaces : list host_interface -> list node_interface;
  make_rational : rational -> value;
  make_manifest_api_manifest : string -> settings -> string;
  (* nmos/capabilities.h *)
  make_caps_rational_constraint : list rational -> value;
  make_caps_integer_constraint : list Z -> option Z -> option Z -> value;
  make_caps_string_constraint : list string -> value;
  make_caps_number_constraint : list rational -> value;
  (* nmos/connection_resources.h, nmos/activation_utils.h *)
  make_connection_rtp_sender : string -> bool -> connection_resource;
  make_connection_rtp_receiver : string -> bool -> connection_resource;
  make_connection_rtp_sender_transportfile : string -> value;
  make_activation : value;
  set_resource_subscription : bool -> string -> resource -> resource;
  details_resolve_auto : value -> string -> value -> value;
  resolve_rtp_auto : type -> list value -> list value;
  transport_base : string -> string;
  (* nmos/slog.h: the text written to the log for the id and the type of a resource *)
  id_type_text : string * type -> string;
  (* nmos/settings.h *)
  default_ptp_domain_number : Z;
  random_seed_id : string;
  (* nmos/node_server.h: opening the ports may fail *)
  node_server_open : settings -> result unit;
  (* cpprest/basic_utils.h, <functional> *)
  istringstreamed : string -> Z -> Z;
  std_hash : string -> Z;
  (* Boost.MultiIndex: [modify] erases the element when the modifier throws;
     a container that kept it would hold it as the modifier left it *)
  modify_throw_erases : bool;
  (* floating point: impl::get_format_bit_rate, impl::get_transport_bit_rate *)
  get_format_bit_rate : sdp_parameters -> Z;
  get_transport_bit_rate : sdp_parameters -> Z
}.

(** ** The model and the operations on it *)

(** [nmos::node_model] (the two stores and the settings), with the messages
    written to the [slog::base_gate] that every function is handed. *)
Record node_model := {
  node_resources : gmap string resource;
  connection_resources : gmap string connection_resource;
  model_settings : settings;
  gate : list log_message
}.

Definition set_node_resources (x : gmap string resource) (m : node_model) : node_model :=
  {| node_resources := x; connection_resources := connection_resources m;
     model_settings := model_settings m; gate := gate m |}.
Definition set_connection_resources (x : gmap string connection_resource) (m : node_model) :=
  {| node_resources := node_resources m; connection_resources := x;
     model_settings := model_settings m; gate := gate m |}.
Definition set_model_settings (x : settings) (m : node_model) : node_model :=
  {| node_resources := node_resources m; connection_resources := connection_resources m;
     model_settings := x; gate := gate m |}.
Definition set_gate (x : list log_message) (m : node_model) : node_model :=
  {| node_resources := node_resources m; connection_resources := connection_resources m;
     model_settings := model_settings m; gate := x |}.

(** A computation on the model that may throw; the model it leaves behind
    is part of the outcome in both cases. *)
Definition M (A : Type) : Type := node_model -> result A * node_model.

Definition ret {A} (a : A) : M A := fun m => (Ok a, m).
Definition bind {A B} (c : M A) (k : A -> M B) : M B := fun m =>
  match c m with
  | (Ok a, m') => k a m'
  | (Throw e, m') => (Throw e, m')
  end.
Definition throw {A} (e : exn) : M A := fun m => (Throw e, m).
Definition lift {A} (r : result A) : M A := fun m => (r, m).
Definition get_model : M node_model := fun m => (Ok m, m).
Definition modify_model (f : node_model -> node_model) : M unit := fun m => (Ok tt, f m).

Declare Scope M_scope.
Delimit Scope M_scope with M.
Notation "'do' x <- c ; k" := (bind c (fun x => k))
  (at level 10, x name, c at level 100, k at level 200) : M_scope.
Notation "'do' ' p <- c ; k" := (bind c (fun x => match x with p => k end))
  (at level 10, p pattern, c at level 100, k at level 200) : M_scope.
Notation "c ;;; k" := (bind c (fun _ => k))
  (at level 100, k at level 200, right associativity, only parsing) : M_scope.
Local Open Scope M_scope.

(** [slog::log<level>(gate, SLOG_FLF) << message]. *)
Definition slog (level : severity) (message : string) : M unit :=
  modify_model (fun m => set_gate (gate m ++ [(level, message)]) m).

(** *** The resource store (Boost.MultiIndex container of [nmos::resource])

    Modelled from the spec: section 4.3 gives the store as a set of
    resources indexed by identifier and by type with [insert], [modify],
    [erase], [find] and iteration by type; the functions are nmos-cpp's
    ([nmos/resources.h]). *)

(** [nmos::find_resource(resources, {id, type})]. *)
Definition find_resource (resources : gmap string resource) (id_type : string * type)
  : option resource :=
  match resources !! id_type.1 with
  | Some r => if decide (resource_type r = id_type.2) then Some r else None
  | None => None
  end.

(** [nmos::insert_resource]: [.second] tells whether the resource went in. *)
Definition insert_resource {A} (resources : gmap string A) (id : string) (r : A)
  : gmap string A * bool :=
  match resources !! id with
  | Some _ => (resources, false)
  | None => (<[id := r]> resources, true)
  end.

(** [nmos::erase_resource]. *)
Definition erase_resource {A} (resources : gmap string A) (id : string) : gmap string A :=
  delete id resources.

(** [nmos::modify_resource]: the modifier works on the element in place, so
    when it throws the element is as the modifier left it, or gone. *)
Definition modify_resource {A} (erases : bool) (resources : gmap string A) (id : string)
    (modifier : A -> result unit * A) : result bool * gmap string A :=
  match resources !! id with
  | None => (Ok false, resources)
  | Some r =>
      match modifier r with
      | (Ok _, r') => (Ok true, <[id := r']> resources)
      | (Throw e, r') =>
          (Throw e, if erases then delete id resources else <[id := r']> resources)
      end
  end.

(** Iteration over the type index: [by_type.equal_range(has_data(type))]. *)
Definition resources_of_type (resources : gmap string resource) (t : type) : list resource :=
  filter (fun r => resource_type r = t) (map_to_list resources).*2.

(** What an operation reads from its surroundings: the host's interfaces
    ([web::hosts::experimental::host_interfaces()], read once per operation),
    the version stamp of the current time ([nmos::make_version()]) and the
    NTP clock ([sdp::ntp_now()]). *)
Record env := {
  host_interfaces : list host_interface;
  make_version : string;
  ntp_now : Z
}.

(** ** Node implementation details (namespace [nvnmos::impl]) *)

(** Supported formats. *)
Inductive format := format_video | format_audio | format_data | format_mux.

(** Identify the supported format from the media type. *)
Definition get_format (media_type : string) : result format :=
  if String.eqb media_types_video_raw media_type then Ok format_video
  else if String.eqb media_types_video_jxsv media_type then Ok format_video
  else if String.eqb (media_types_audio_L 24) media_type then Ok format_audio
  else if String.eqb (media_types_audio_L 16) media_type then Ok format_audio
  else if String.eqb media_types_video_smpte291 media_type then Ok format_data
  else if String.eqb media_types_video_SMPTE2022_6 media_type then Ok format_mux
  else Throw node_implementation_exception.

(** Find the interface with the specified address. *)
Definition find_interface (interfaces : list host_interface) (address : string)
  : option host_interface :=
  List.find (fun i => existsb (String.eqb address) (hi_addresses i)) interfaces.

(** [seed_namespace_id] of [nvnmos.cpp]. *)
Definition seed_namespace_id : string := "18daddcf-a234-4f59-808a-dbf6a42e17bb".

(** Generate repeatable ids for the node's resources. *)
Definition make_id (seed_id : string) (t : type) (internal_id : string) : string :=
  make_repeatable_id seed_id ("/x-nmos/node/" +:+ type_name t +:+ "/" +:+ internal_id).

(** [boost::asio::ip::address_v4(uint32_t).to_bytes()]: network byte order. *)
Definition address_v4_to_bytes (h : Z) : list Z :=
  let u := h mod 2 ^ 32 in
  [Z.land (Z.shiftr u 24) 255; Z.land (Z.shiftr u 16) 255;
   Z.land (Z.shiftr u 8) 255; Z.land u 255].

(** [boost::asio::ip::address_v4(bytes).to_string()]: dotted decimal. *)
Definition address_v4_to_string (a : list Z) : string :=
  to_string_t (nth 0 a 0) +:+ "." +:+ to_string_t (nth 1 a 0) +:+ "." +:+
  to_string_t (nth 2 a 0) +:+ "." +:+ to_string_t (nth 3 a 0).

(** The bytes of the source-specific multicast address of a sender's leg:
    [a[0] = 232; a[2] |= 1]. *)
Definition make_source_specific_multicast_bytes (hash : string -> Z) (id : string) (leg : Z)
  : list Z :=
  let s := id +:+ "/" +:+ to_string_t leg in
  let h := hash s in
  let a := address_v4_to_bytes h in
  let a := <[0%nat := 232]> a in
  <[2%nat := Z.lor (nth 2 a 0) 1]> a.

(** Generate a repeatable source-specific multicast address for each leg of a sender. *)
Definition make_source_specific_multicast_address_v4 (hash : string -> Z) (id : string) (leg : Z)
  : string :=
  address_v4_to_string (make_source_specific_multicast_bytes hash id leg).

(** Set / get the internal id for the sender or receiver as a resource tag. *)
Definition set_internal_id (internal_id : string) (r : resource) : resource :=
  set_tags (assoc_set fields_internal_id_tag [internal_id] (fields_tags r)) r.

Definition get_internal_id (r : resource) : string :=
  match default [] (assoc_get fields_internal_id_tag (fields_tags r)) with
  | x :: _ => x
  | [] => ""
  end.

(** Set / get the group hint for the sender or receiver as a resource tag. *)
Definition set_group_hint (group_hint : string) (r : resource) : resource :=
  set_tags (assoc_set fields_group_hint [group_hint] (fields_tags r)) r.

Definition get_group_hint (r : resource) : string :=
  match default [] (assoc_get fields_group_hint (fields_tags r)) with
  | x :: _ => x
  | [] => ""
  end.

(** Find the source for the flow referenced by the sender. *)
Definition find_source_for_sender (resources : gmap string resource) (sender_ : resource)
  : option resource :=
  match fields_flow_id sender_ with
  | None => None
  | Some flow_id =>
      match find_resource resources (flow_id, flow) with
      | None => None
      | Some flow_ => find_resource resources (fields_source_id flow_, source)
      end
  end.

(** [std::string::substr(0, colon)] and [substr(colon + 1)]. *)
Definition substr_to (colon : option nat) (s : string) : string :=
  match colon with
  | Some n => String.substring 0 n s
  | None => s
  end.
Definition substr_from (n : nat) (s : string) : string :=
  String.substring n (String.length s - n) s.

Definition is_ptp_with_server (t : ts_refclk_t) : bool :=
  String.eqb ts_refclk_sources_ptp (clock_source t)
  && String.eqb ptp_versions_IEEE1588_2008 (ptp_version t)
  && negb (String.eqb (ptp_server t) "").

Definition is_ptp_traceable (t : ts_refclk_t) : bool :=
  String.eqb ts_refclk_sources_ptp (clock_source t)
  && String.eqb ptp_versions_IEEE1588_2008 (ptp_version t)
  && String.eqb (ptp_server t) "".

(** See the EUI tutorial cited in the source. *)
Definition null_gmid : string := "ff-ff-ff-ff-ff-ff-ff-ff".

(** Make a node clock based on the SDP ts-refclk attributes of each leg and
    get the PTP domain if present.  The second component is [ptp_domain]
    after the call (it is passed by reference). *)
Definition make_node_clock (istringstreamed_ : string -> Z -> Z)
    (clock_name : string) (ts_refclks : list (list ts_refclk_t)) (ptp_domain : Z)
  : clock * Z :=
  match ts_refclks with
  | [] => (make_internal_clock clock_name, ptp_domain)
  | ts_refclk_ :: _ =>
      (* for now, assume either all legs have the same PTP clock reference,
         or all legs have a localmac clock reference, so just use the first leg *)
      let traceable := existsb is_ptp_traceable ts_refclk_ in
      match List.find is_ptp_with_server ts_refclk_ with
      | None =>
          if negb traceable then (make_internal_clock clock_name, ptp_domain)
          else (make_ptp_clock clock_name true null_gmid true, ptp_domain)
      | Some t =>
          let colon := string_find ":" (ptp_server t) in
          let gmid := to_lower_copy (substr_to colon (ptp_server t)) in
          let ptp_domain' :=
            match colon with
            | Some c => istringstreamed_ (substr_from (c + 1) (ptp_server t)) ptp_domain
            | None => ptp_domain
            end in
          (make_ptp_clock clock_name traceable gmid true, ptp_domain')
      end
  end.

(** A string member of an SDP attribute value, empty when absent. *)
Definition sdp_field (k : string) (v : value) : string :=
  match value_get k v with
  | Str s => s
  | _ => ""
  end.

Definition parse_ts_refclk (v : value) : ts_refclk_t :=
  let clock_source_ := sdp_field "clock_source" v in
  if String.eqb ts_refclk_sources_ptp clock_source_ then
    (* no ptp-server implies traceable *)
    {| clock_source := ts_refclk_sources_ptp; ptp_version := sdp_field "ptp_version" v;
       ptp_server := sdp_field "ptp_server" v; mac_address := "" |}
  else if String.eqb ts_refclk_sources_local_mac clock_source_ then
    {| clock_source := ts_refclk_sources_local_mac; ptp_version := "";
       ptp_server := ""; mac_address := sdp_field "mac_address" v |}
  else
    {| clock_source := ""; ptp_version := ""; ptp_server := ""; mac_address := "" |}.

Definition parse_ts_refclks (attributes : list named_value) : list ts_refclk_t :=
  List.filter (fun t => negb (String.eqb (clock_source t) ""))
    (map (fun nv => parse_ts_refclk (nv_value nv))
       (List.filter (fun nv => String.eqb (nv_name nv) sdp_attributes_ts_refclk) attributes)).

(** Like [nmos::get_session_description_sdp_parameters], with support for
    multiple ts-refclk attributes in each media description. *)
Definition get_session_description_ts_refclks (sd : session_description)
  : list (list ts_refclk_t) :=
  map (fun md =>
         let ts_refclks := parse_ts_refclks (md_attributes md) in
         (* default to the "session-level" value if no "media-level" value *)
         match ts_refclks with
         | [] => parse_ts_refclks (sd_attributes sd)
         | _ => ts_refclks
         end)
      (sd_media_descriptions sd).

(** Get the internal id / the optional group hint from the custom attribute,
    and the optional session information. *)
Definition get_session_description_internal_id (sd : session_description) : result string :=
  match find_name (sd_attributes sd) attributes_internal_id with
  | Some nv => as_string (nv_value nv)
  | None => Ok ""
  end.

Definition get_session_description_group_hint (sd : session_description) : result string :=
  match find_name (sd_attributes sd) attributes_group_hint with
  | Some nv => as_string (nv_value nv)
  | None => Ok ""
  end.

Definition get_session_description_session_info (sd : session_description) : string :=
  sd_information sd.

Section NodeImplementation.
Context (L : nmos_cpp).

(** *** SDP: transport parameters and the internal form *)

(** One leg of [impl::get_session_description_transport_params]. *)
Definition transport_param_of_leg (t : type) (transport_param : value)
    (media_description_ : media_description) : result value :=
  let transport_param :=
    if decide (t = sender) then
      let destination_ip :=
        value_get (if negb (is_null (value_get "multicast_ip" transport_param))
                   then "multicast_ip" else "interface_ip") transport_param in
      let transport_param := value_set "destination_ip" destination_ip transport_param in
      let transport_param := value_erase "multicast_ip" transport_param in
      let transport_param := value_erase "interface_ip" transport_param in
      (* hm, source port is unknown unless the custom SDP attribute is present... *)
      value_set "source_port" (Str "auto") transport_param
    else transport_param in
  let ma := md_attributes media_description_ in
  let transport_param :=
    match find_name ma attributes_interface_ip with
    | Some interface_ip =>
        value_set (if decide (t = sender) then "source_ip" else "interface_ip")
                  (nv_value interface_ip) transport_param
    | None => transport_param
    end in
  transport_param ←
    (if decide (t = sender) then
       match find_name ma attributes_source_port with
       | Some source_port =>
           s ← as_string (nv_value source_port);
           let sp := istringstreamed L s 0 in
           Ok (value_set "source_port" (Number sp) transport_param)
       | None => Ok transport_param
       end
     else Ok transport_param);
  (* set rtp_enabled to false in legs for media descriptions which include
     an 'a=inactive' attribute line *)
  match find_name ma sdp_attributes_inactive with
  | Some _ => Ok (value_set "rtp_enabled" (Boolean false) transport_param)
  | None => Ok transport_param
  end.

(** The loop over the legs: [media_descriptions.at(leg)] throws when the
    session description has fewer media descriptions than legs. *)
Fixpoint transport_params_of_legs (t : type) (transport_params : list value)
    (media_descriptions : list media_description) : result (list value) :=
  match transport_params with
  | [] => Ok []
  | transport_param :: transport_params' =>
      match media_descriptions with
      | [] => Throw json_exception
      | md :: media_descriptions' =>
          tp ← transport_param_of_leg t transport_param md;
          tps ← transport_params_of_legs t transport_params' media_descriptions';
          Ok (tp :: tps)
      end
  end.

(** Like [nmos::get_session_description_transport_params], with support for
    the custom SDP attributes for senders as well as receivers. *)
Definition get_session_description_transport_params (t : type) (sd : session_description)
  : result (list value) :=
  transport_params ← nmos_get_session_description_transport_params L sd;
  transport_params_of_legs t transport_params (sd_media_descriptions sd).

(** The attributes [impl::make_session_description] appends to one leg. *)
Definition custom_media_attributes (t : type) (transport_param : value)
  : result (list named_value) :=
  let source_port_ :=
    if decide (t = sender) then
      match value_get "source_port" transport_param with
      | Number n => [{| nv_name := attributes_source_port; nv_value := Str (to_string_t n) |}]
      | _ => []
      end
    else [] in
  address ← as_string (value_get (if decide (t = receiver) then "interface_ip" else "source_ip")
                                 transport_param);
  rtp_enabled ← as_bool (value_get "rtp_enabled" transport_param);
  Ok (source_port_
        ++ [{| nv_name := attributes_interface_ip; nv_value := Str address |}]
        (* include an 'a=inactive' attribute line in media descriptions for
           legs where rtp_enabled is false *)
        ++ (if negb rtp_enabled
            then [{| nv_name := sdp_attributes_inactive; nv_value := Null |}] else [])).

Fixpoint add_custom_media_attributes (t : type) (transport_params : list value)
    (media_descriptions : list media_description) : result (list media_description) :=
  match transport_params with
  | [] => Ok media_descriptions
  | transport_param :: transport_params' =>
      match media_descriptions with
      | [] => Throw json_exception
      | md :: media_descriptions' =>
          extra ← custom_media_attributes t transport_param;
          mds ← add_custom_media_attributes t transport_params' media_descriptions';
          Ok ({| md_attributes := md_attributes md ++ extra; md_other := md_other md |} :: mds)
      end
  end.

(** Like [nmos::make_session_description] for 'internal' use, with support
    for the custom SDP attributes for senders as well as receivers. *)
Definition make_session_description (t : type) (internal_id group_hint session_info : string)
    (sdp_params : sdp_parameters) (transport_params : list value)
  : result session_description :=
  session_description_ ← nmos_make_session_description L sdp_params transport_params;
  let session_attributes :=
    sd_attributes session_description_
      ++ [{| nv_name := attributes_internal_id; nv_value := Str internal_id |}]
      ++ (if negb (String.eqb group_hint "")
          then [{| nv_name := attributes_group_hint; nv_value := Str group_hint |}]
          else []) in
  let session_description_ := set_sd_attributes session_attributes session_description_ in
  let session_description_ :=
    if negb (String.eqb session_info "")
    then set_sd_information session_info session_description_
    else session_description_ in
  media_descriptions ←
    add_custom_media_attributes t transport_params (sd_media_descriptions session_description_);
  Ok (set_sd_media_descriptions media_descriptions session_description_).

(** *** Maintenance of the node resource *)

Definition on_node_resources {A}
    (f : gmap string resource -> result A * gmap string resource) : M A := fun m =>
  let '(r, nr) := f (node_resources m) in (r, set_node_resources nr m).

Definition on_connection_resources {A}
    (f : gmap string connection_resource -> result A * gmap string connection_resource)
  : M A := fun m =>
  let '(r, cr) := f (connection_resources m) in (r, set_connection_resources cr m).

Definition modify_settings (f : settings -> settings) : M unit :=
  modify_model (fun m => set_model_settings (f (model_settings m)) m).

Definition replace_clock (clock_ : clock) (clocks : list clock) : list clock :=
  (fix go (cs : list clock) : list clock :=
     match cs with
     | [] => []
     | c :: cs' =>
         if String.eqb (clock_fields_name clock_) (clock_fields_name c)
         then clock_ :: cs' else c :: go cs'
     end) clocks.

(** Modify the node resource if necessary to update the specified clock,
    which must already exist. *)
Definition update_node_clock (version : string) (node_id : string) (clock_ : clock)
    (node_resources_ : gmap string resource) : result unit * gmap string resource :=
  match find_resource node_resources_ (node_id, node) with
  | None => (Throw node_implementation_exception, node_resources_)
  | Some node_ =>
      match List.find (fun c => String.eqb (clock_fields_name clock_) (clock_fields_name c))
                      (fields_clocks node_) with
      | None => (Throw node_implementation_exception, node_resources_)
      | Some c =>
          if decide (clock_ <> c) then
            let '(r, nr) :=
              modify_resource (modify_throw_erases L) node_resources_ node_id
                (fun n => (Ok tt, set_clocks (replace_clock clock_ (fields_clocks n))
                                    (set_version version n))) in
            (_ ← r; Ok tt, nr)
          else (Ok tt, node_resources_)
      end
  end.

(** The names bound by the senders and receivers of the store
    (the [std::set] built by [impl::update_node_interfaces]). *)
Definition bound_interface_names (node_resources_ : gmap string resource) : gset string :=
  list_to_set (flat_map fields_interface_bindings (resources_of_type node_resources_ sender))
  ∪ list_to_set (flat_map fields_interface_bindings (resources_of_type node_resources_ receiver)).

(** Modify the node resource if necessary to include all of the specified
    interfaces that currently have interface_bindings in any senders or
    receivers. *)
Definition update_node_interfaces (version : string) (node_id : string)
    (host_interfaces_ : list host_interface) (node_resources_ : gmap string resource)
  : result unit * gmap string resource :=
  match find_resource node_resources_ (node_id, node) with
  | None => (Throw node_implementation_exception, node_resources_)
  | Some node_ =>
      let interface_names := bound_interface_names node_resources_ in
      let interfaces :=
        make_node_interfaces L
          (List.filter (fun i => bool_decide (hi_name i ∈ interface_names)) host_interfaces_) in
      if decide (interfaces <> fields_interfaces node_) then
        let '(r, nr) :=
          modify_resource (modify_throw_erases L) node_resources_ node_id
            (fun n => (Ok tt, set_interfaces interfaces (set_version version n))) in
        (_ ← r; Ok tt, nr)
      else (Ok tt, node_resources_)
  end.
End NodeImplementation.

Section NodeOperations.
Context (L : nmos_cpp).

(** *** The auto resolver ([make_node_implementation_auto_resolver]) *)

(** [web::json::front(nmos::fields::constraint_enum(constraints.at(leg).at(field)))]. *)
Definition constraint_enum_front (field : string) (constraint_ : value) : value :=
  match value_get "enum" (value_get field constraint_) with
  | Array (x :: _) => x
  | _ => Null
  end.

Definition auto_resolver (resource_ : resource) (id : string) (t : type)
    (constraints : list value) (transport_params : list value) : list value :=
  let is_rtp := String.eqb transports_rtp (transport_base L (fields_transport resource_)) in
  if bool_decide (t = sender) && is_rtp then
    let transport_params :=
      fold_left
        (fun tps lc =>
           array_alter
             (fun tp =>
                let tp := details_resolve_auto L tp "source_ip"
                            (constraint_enum_front "source_ip" lc.2) in
                details_resolve_auto L tp "destination_ip"
                  (Str (make_source_specific_multicast_address_v4 (std_hash L) id
                          (Z.of_nat lc.1))))
             lc.1 tps)
        (imap pair constraints) transport_params in
    (* lastly, apply the specification defaults for any properties not handled above *)
    resolve_rtp_auto L t transport_params
  else if bool_decide (t = receiver) && is_rtp then
    let transport_params :=
      fold_left
        (fun tps lc =>
           array_alter
             (fun tp => details_resolve_auto L tp "interface_ip"
                          (constraint_enum_front "interface_ip" lc.2))
             lc.1 tps)
        (imap pair constraints) transport_params in
    resolve_rtp_auto L t transport_params
  else transport_params.

(** *** [node_implementation_init_] *)

Definition insert_node_resource (r : resource) : M bool :=
  on_node_resources (fun nr =>
    let '(nr', inserted) := insert_resource nr (resource_id r) r in (Ok inserted, nr')).

Definition insert_connection_resource (r : connection_resource) : M bool :=
  on_connection_resources (fun cr =>
    let '(cr', inserted) := insert_resource cr (connection_id r) r in (Ok inserted, cr')).

Definition node_implementation_init_ : M unit :=
  do m <- get_model;
  let settings_ := model_settings m in
  let seed_id := fields_seed_id settings_ in
  let node_id := make_id seed_id node "" in
  let device_id := make_id seed_id device "" in
  (* for now, only manage a single clock *)
  let clock_ := clk0 in
  (* node *)
  let clocks := [make_internal_clock clock_] in
  let node_ := make_node L node_id clocks settings_ in
  let node_ := set_label (fields_node_label settings_) node_ in
  let node_ := set_description (fields_node_description settings_) node_ in
  let node_ := set_tags (fields_node_tags settings_) node_ in
  do inserted <- insert_node_resource node_;
  if negb inserted then throw node_implementation_exception else
  (* device *)
  let device_ := make_device L device_id node_id settings_ in
  let device_ := set_label (fields_device_label settings_) device_ in
  let device_ := set_description (fields_device_description settings_) device_ in
  let device_ := set_tags (fields_device_tags settings_) device_ in
  do inserted <- insert_node_resource device_;
  if negb inserted then throw node_implementation_exception else
  (* insert empty clock, sender and receiver configs *)
  modify_settings (fun s =>
    set_settings_receivers [] (set_settings_senders [] (set_settings_clocks [] s))).

(** *** [node_implementation_add_sender_] *)

(** The interface bound by each leg: the host interface with the leg's address. *)
Fixpoint interface_names_of (field : string) (internal_id : string)
    (host_interfaces_ : list host_interface) (transport_params : list value)
  : M (list string) :=
  match transport_params with
  | [] => ret []
  | transport_param :: transport_params' =>
      do address <- lift (as_string (value_get field transport_param));
      match find_interface host_interfaces_ address with
      | None =>
          slog severe ("No network interface corresponding to the connection address: "
                       +:+ address +:+ " for: " +:+ internal_id) ;;;
          throw node_implementation_exception
      | Some interface =>
          do names <- interface_names_of field internal_id host_interfaces_ transport_params';
          ret (hi_name interface :: names)
      end
  end.

Definition interlace_mode_of (interlace : bool) : string :=
  if interlace then interlace_modes_interlaced_tff else interlace_modes_progressive.

(** The source and the flow of a sender, by format. *)
Definition make_source_and_flow (format_ : format) (media_type : string)
    (sdp_params : sdp_parameters) (source_id flow_id device_id clock_ : string)
    (settings_ : settings) : result (resource * resource) :=
  match format_ with
  | format_video =>
      if String.eqb media_types_video_raw media_type then
        video ← get_video_raw_parameters L sdp_params;
        Ok (make_video_source L source_id device_id clock_ (video_exactframerate video) settings_,
            make_raw_video_flow L flow_id source_id device_id (video_exactframerate video)
              (video_width video) (video_height video)
              (interlace_mode_of (video_interlace video))
              (video_colorimetry video) (video_tcs video) (video_sampling video)
              (video_depth video) settings_)
      else
        (* nmos::media_types::video_jxsv *)
        video ← get_video_jxsv_parameters L sdp_params;
        let format_bit_rate := get_format_bit_rate L sdp_params in
        (* nmos::make_video_jxsv_flow currently takes bits_per_pixel not bit_rate *)
        let flow_ :=
          make_video_jxsv_flow L flow_id source_id device_id (video_exactframerate video)
            (video_width video) (video_height video)
            (interlace_mode_of (video_interlace video))
            (video_colorimetry video) (video_tcs video) (video_sampling video)
            (video_depth video) (video_profile video) (video_level video)
            (video_sublevel video) 0 settings_ in
        Ok (make_video_source L source_id device_id clock_ (video_exactframerate video) settings_,
            set_other "bit_rate" (Number format_bit_rate) flow_)
  | format_audio =>
      audio ← get_audio_L_parameters L sdp_params;
      let channels :=
        map (fun index => ("", 1 + Z.of_nat index))
            (seq 0 (Z.to_nat (audio_channel_count audio))) in
      (* hmm, should this take account of audio.packet_time? *)
      let grain_rate := audio_sample_rate audio in
      let flow_ := make_raw_audio_flow L flow_id source_id device_id
                     (audio_sample_rate audio) (audio_bit_depth audio) settings_ in
      Ok (make_audio_source L source_id device_id clock_ grain_rate channels settings_,
          set_other "grain_rate" (make_rational L grain_rate) flow_)
  | format_data =>
      data ← get_video_smpte291_parameters L sdp_params;
      let grain_rate := data_exactframerate data in
      let flow_ := make_sdianc_data_flow L flow_id source_id device_id
                     (data_did_sdids data) settings_ in
      Ok (make_data_source L source_id device_id clock_ grain_rate settings_,
          set_other "grain_rate" (make_rational L grain_rate) flow_)
  | format_mux =>
      _ ← get_video_SMPTE2022_6_parameters L sdp_params;
      (* hmm, this should take account of sdp_params.framerate *)
      let grain_rate := (50, 1) in
      let flow_ := make_mux_flow L flow_id source_id device_id settings_ in
      Ok (make_mux_source L source_id device_id clock_ grain_rate settings_,
          set_other "grain_rate" (make_rational L grain_rate) flow_)
  end.

(** The additional sender attributes required by BCP-006-01. *)
Definition add_jxsv_sender_attributes (format_ : format) (media_type : string)
    (sdp_params : sdp_parameters) (sender_ : resource) : result resource :=
  match format_ with
  | format_video =>
      if String.eqb media_types_video_jxsv media_type then
        video ← get_video_jxsv_parameters L sdp_params;
        let transport_bit_rate := get_transport_bit_rate L sdp_params in
        let sender_ :=
          if negb (transport_bit_rate =? 0)
          then set_other "bit_rate" (Number transport_bit_rate) sender_ else sender_ in
        let packet_transmission_mode :=
          parse_packet_transmission_mode L (video_packetmode video) (video_transmode video) in
        let sender_ :=
          if negb (String.eqb packet_transmission_modes_codestream packet_transmission_mode)
          then set_other "packet_transmission_mode" (Str packet_transmission_mode) sender_
          else sender_ in
        Ok (if negb (String.eqb (video_tp video) "")
            then set_other "st2110_21_sender_type" (Str (video_tp video)) sender_
            else sender_)
      else Ok sender_
  | _ => Ok sender_
  end.

(** [constraints[leg][field] = { "enum": [ field(transport_params.at(leg)) ] }]. *)
Fixpoint add_constraints (field : string) (leg : nat) (transport_params : list value)
    (constraints : list value) : result (list value) :=
  match constraints with
  | [] => Ok []
  | c :: constraints' =>
      match transport_params !! leg with
      | None => Throw json_exception
      | Some tp =>
          cs ← add_constraints field (S leg) transport_params constraints';
          Ok (value_set field (Object [("enum", Array [value_get field tp])]) c :: cs)
      end
  end.

Definition set_endpoint_constraints (x : list value) (c : connection_resource) :=
  {| connection_id := connection_id c; connection_type := connection_type c;
     connection_version := connection_version c; fields_endpoint_constraints := x;
     fields_endpoint_staged := fields_endpoint_staged c;
     fields_endpoint_active := fields_endpoint_active c;
     fields_endpoint_transportfile := fields_endpoint_transportfile c |}.

Definition set_endpoint_active (x : endpoint) (c : connection_resource) :=
  {| connection_id := connection_id c; connection_type := connection_type c;
     connection_version := connection_version c;
     fields_endpoint_constraints := fields_endpoint_constraints c;
     fields_endpoint_staged := fields_endpoint_staged c;
     fields_endpoint_active := x;
     fields_endpoint_transportfile := fields_endpoint_transportfile c |}.

Definition set_endpoint_transportfile (x : value) (c : connection_resource) :=
  {| connection_id := connection_id c; connection_type := connection_type c;
     connection_version := connection_version c;
     fields_endpoint_constraints := fields_endpoint_constraints c;
     fields_endpoint_staged := fields_endpoint_staged c;
     fields_endpoint_active := fields_endpoint_active c;
     fields_endpoint_transportfile := x |}.

Definition set_connection_version (x : string) (c : connection_resource) :=
  {| connection_id := connection_id c; connection_type := connection_type c;
     connection_version := x;
     fields_endpoint_constraints := fields_endpoint_constraints c;
     fields_endpoint_staged := fields_endpoint_staged c;
     fields_endpoint_active := fields_endpoint_active c;
     fields_endpoint_transportfile := fields_endpoint_transportfile c |}.

Definition set_transport_params (x : list value) (e : endpoint) : endpoint :=
  {| fields_peer_id := fields_peer_id e; fields_master_enable := fields_master_enable e;
     fields_activation := fields_activation e;
     fields_transport_file := fields_transport_file e;
     fields_transport_params := x |}.

(** The connection resource of a sender or receiver: the constraints and
    the resolved [/active] transport parameters. *)
Definition prepare_connection_resource (field : string) (resource_ : resource)
    (transport_params : list value) (connection_ : connection_resource)
  : result connection_resource :=
  (* add some constraints; these should be completed fully! *)
  constraints ← add_constraints field 0 transport_params
                  (fields_endpoint_constraints connection_);
  let connection_ := set_endpoint_constraints constraints connection_ in
  let active := fields_endpoint_active connection_ in
  let resolved :=
    auto_resolver resource_ (connection_id connection_) (connection_type connection_)
      constraints (fields_transport_params active) in
  Ok (set_endpoint_active (set_transport_params resolved active) connection_).

Definition settings_ptp_domain_number (clock_ : string) (s : settings) : Z :=
  default (default_ptp_domain_number L) (assoc_get clock_ (fields_settings_clocks s)).

(** The resources of a new sender, together with what the insertion needs:
    the first half of [node_implementation_add_sender_], up to the first
    [insert_resource]. *)
Record sender_resources := {
  new_source : resource;
  new_flow : resource;
  new_sender : resource;
  new_connection_sender : connection_resource;
  new_sender_id : string;
  new_sender_ts_refclks : list (list ts_refclk_t)
}.

Definition make_sender_resources (sdp_ : string)
    (host_interfaces_ : list host_interface) : M sender_resources :=
  do sdp <- lift (parse_session_description L sdp_);
  do sdp_params <- lift (get_session_description_sdp_parameters L sdp);
  let ts_refclks := get_session_description_ts_refclks sdp in
  do transport_params <- lift (get_session_description_transport_params L sender sdp);
  do internal_id <- lift (get_session_description_internal_id sdp);
  (* hm, could check the internal id is unique across all senders and receivers *)
  do group_hint <- lift (get_session_description_group_hint sdp);
  let session_info := get_session_description_session_info sdp in
  do m <- get_model;
  let settings_ := model_settings m in
  let seed_id := fields_seed_id settings_ in
  let device_id := make_id seed_id device "" in
  let source_id := make_id seed_id source internal_id in
  let flow_id := make_id seed_id flow internal_id in
  let sender_id := make_id seed_id sender internal_id in
  (* for now, only manage a single clock *)
  let clock_ := clk0 in
  let media_type := get_media_type L sdp_params in
  do format_ <- lift (get_format media_type);
  do interface_names <-
    interface_names_of "source_ip" internal_id host_interfaces_ transport_params;
  do '(source_, flow_) <-
    lift (make_source_and_flow format_ media_type sdp_params source_id flow_id device_id
            clock_ settings_);
  let manifest_href := make_manifest_api_manifest L sender_id settings_ in
  let sender_ := make_sender L sender_id flow_id transports_rtp device_id manifest_href
                   interface_names settings_ in
  do sender_ <- lift (add_jxsv_sender_attributes format_ media_type sdp_params sender_);
  let connection_sender :=
    make_connection_rtp_sender L sender_id (1 <? length transport_params)%nat in
  do connection_sender <-
    lift (prepare_connection_resource "source_ip" sender_ transport_params connection_sender);
  (* override default label and description from model.settings *)
  let sender_ := set_label (session_name sdp_params) sender_ in
  let sender_ := set_description session_info sender_ in
  (* set the internal id as a resource tag *)
  let sender_ := set_internal_id internal_id sender_ in
  (* set the group hint as a resource tag *)
  let sender_ := if negb (String.eqb group_hint "")
                 then set_group_hint group_hint sender_ else sender_ in
  ret {| new_source := source_; new_flow := flow_; new_sender := sender_;
         new_connection_sender := connection_sender; new_sender_id := sender_id;
         new_sender_ts_refclks := ts_refclks |}.

Definition node_implementation_add_sender_ (sdp_ : string)
    (host_interfaces_ : list host_interface) (version : string) : M unit :=
  do new <- make_sender_resources sdp_ host_interfaces_;
  do m <- get_model;
  let settings_ := model_settings m in
  let seed_id := fields_seed_id settings_ in
  let node_id := make_id seed_id node "" in
  let device_id := make_id seed_id device "" in
  let sender_id := new_sender_id new in
  let clock_ := clk0 in
  do inserted <- insert_node_resource (new_source new);
  if negb inserted then throw node_implementation_exception else
  do inserted <- insert_node_resource (new_flow new);
  if negb inserted then throw node_implementation_exception else
  do inserted <- insert_node_resource (new_sender new);
  if negb inserted then throw node_implementation_exception else
  do inserted <- insert_connection_resource (new_connection_sender new);
  if negb inserted then throw node_implementation_exception else
  (* update device's deprecated senders array *)
  do _ <- on_node_resources (fun nr =>
    modify_resource (modify_throw_erases L) nr device_id (fun device_ =>
      (Ok tt, set_senders (fields_senders device_ ++ [sender_id])
                (set_version version device_))));
  (* update node's interfaces *)
  on_node_resources (update_node_interfaces L version node_id host_interfaces_) ;;;
  (* update node's clocks *)
  let ptp_domain := settings_ptp_domain_number clock_ settings_ in
  let '(clock_value, ptp_domain) :=
    make_node_clock (istringstreamed L) clock_ (new_sender_ts_refclks new) ptp_domain in
  on_node_resources (update_node_clock L version node_id clock_value) ;;;
  modify_settings (fun s =>
    set_settings_clocks (assoc_set clock_ ptp_domain (fields_settings_clocks s)) s) ;;;
  (* insert into settings *)
  modify_settings (fun s =>
    set_settings_senders (assoc_set sender_id sdp_ (fields_settings_senders s)) s).
End NodeOperations.

Section Receivers.
Context (L : nmos_cpp).

(** [web::json::value_of] on fields: a field with an empty name is left out. *)
Definition value_of (fields : list (string * value)) : value :=
  Object (List.filter (fun kv => negb (String.eqb (fst kv) "")) fields).

(** [receiver.data[caps][constraint_sets] = ...]. *)
Definition set_caps_constraint_sets (constraint_sets : value) (r : resource) : resource :=
  set_other "caps"
    (value_set "constraint_sets" constraint_sets
       (default Null (assoc_get "caps" (fields_other r)))) r.

(** [receiver.data[version] = receiver.data[caps][version] = make_version()]. *)
Definition set_caps_version (version : string) (r : resource) : resource :=
  set_version version
    (set_other "caps"
       (value_set "version" (Str version) (default Null (assoc_get "caps" (fields_other r)))) r).

Definition make_receiver_for (format_ : format) (media_type : string)
    (sdp_params : sdp_parameters) (receiver_id device_id : string)
    (interface_names : list string) (settings_ : settings) (version : string)
  : result resource :=
  match format_ with
  | format_video =>
      let receiver_ := make_receiver L receiver_id device_id transports_rtp interface_names
                         formats_video [media_type] settings_ in
      (* add a constraint set; these should be completed fully! *)
      receiver_ ←
        (if String.eqb media_types_video_raw media_type then
           video ← get_video_raw_parameters L sdp_params;
           let interlace_modes :=
             if video_interlace video
             then [interlace_modes_interlaced_bff; interlace_modes_interlaced_tff;
                   interlace_modes_interlaced_psf]
             else [interlace_modes_progressive] in
           Ok (set_caps_constraint_sets
                 (Array [value_of
                    [("urn:x-nmos:cap:format:grain_rate",
                      make_caps_rational_constraint L [video_exactframerate video]);
                     ("urn:x-nmos:cap:format:frame_width",
                      make_caps_integer_constraint L [video_width video] None None);
                     ("urn:x-nmos:cap:format:frame_height",
                      make_caps_integer_constraint L [video_height video] None None);
                     ("urn:x-nmos:cap:format:interlace_mode",
                      make_caps_string_constraint L interlace_modes);
                     ("urn:x-nmos:cap:format:color_sampling",
                      make_caps_string_constraint L [video_sampling video])]])
                 receiver_)
         else if String.eqb media_types_video_jxsv media_type then
           video ← get_video_jxsv_parameters L sdp_params;
           let format_bit_rate := get_format_bit_rate L sdp_params in
           let transport_bit_rate := get_transport_bit_rate L sdp_params in
           let packet_transmission_mode :=
             parse_packet_transmission_mode L (video_packetmode video) (video_transmode video) in
           Ok (set_caps_constraint_sets
                 (Array [value_of
                    [(if negb (String.eqb (video_profile video) "")
                      then "urn:x-nmos:cap:format:profile" else "",
                      make_caps_string_constraint L [video_profile video]);
                     (if negb (String.eqb (video_level video) "")
                      then "urn:x-nmos:cap:format:level" else "",
                      make_caps_string_constraint L [video_level video]);
                     (if negb (String.eqb (video_sublevel video) "")
                      then "urn:x-nmos:cap:format:sublevel" else "",
                      make_caps_string_constraint L [video_sublevel video]);
                     (if negb (format_bit_rate =? 0)
                      then "urn:x-nmos:cap:format:bit_rate" else "",
                      make_caps_integer_constraint L [] None (Some format_bit_rate));
                     (if negb (transport_bit_rate =? 0)
                      then "urn:x-nmos:cap:transport:bit_rate" else "",
                      make_caps_integer_constraint L [] None (Some transport_bit_rate));
                     ("urn:x-nmos:cap:transport:packet_transmission_mode",
                      make_caps_string_constraint L [packet_transmission_mode])]])
                 receiver_)
         else Ok receiver_);
      Ok (set_caps_version version receiver_)
  | format_audio =>
      audio ← get_audio_L_parameters L sdp_params;
      let receiver_ := make_audio_receiver L receiver_id device_id transports_rtp
                         interface_names (audio_bit_depth audio) settings_ in
      (* add a constraint set; these should be completed fully! *)
      let receiver_ :=
        set_caps_constraint_sets
          (Array [value_of
             [("urn:x-nmos:cap:format:channel_count",
               make_caps_integer_constraint L [audio_channel_count audio] None None);
              ("urn:x-nmos:cap:format:sample_rate",
               make_caps_rational_constraint L [audio_sample_rate audio]);
              ("urn:x-nmos:cap:format:sample_depth",
               make_caps_integer_constraint L [audio_bit_depth audio] None None);
              (if negb ((packet_time sdp_params).1 =? 0)
               then "urn:x-nmos:cap:transport:packet_time" else "",
               make_caps_number_constraint L [packet_time sdp_params]);
              (if negb ((max_packet_time sdp_params).1 =? 0)
               then "urn:x-nmos:cap:transport:max_packet_time" else "",
               make_caps_number_constraint L [max_packet_time sdp_params])]])
          receiver_ in
      Ok (set_caps_version version receiver_)
  | format_data =>
      data ← get_video_smpte291_parameters L sdp_params;
      let receiver_ := make_sdianc_data_receiver L receiver_id device_id transports_rtp
                         interface_names settings_ in
      (* add a constraint set; these should be completed fully! *)
      if negb ((data_exactframerate data).1 =? 0) then
        Ok (set_caps_version version
              (set_caps_constraint_sets
                 (Array [value_of
                    [("urn:x-nmos:cap:format:grain_rate",
                      make_caps_rational_constraint L [data_exactframerate data])]])
                 receiver_))
      else Ok receiver_
  | format_mux =>
      _ ← get_video_SMPTE2022_6_parameters L sdp_params;
      (* hmm, add a constraint set, e.g. taking account of sdp_params.framerate *)
      Ok (make_mux_receiver L receiver_id device_id transports_rtp interface_names settings_)
  end.

(** *** [node_implementation_add_receiver_] *)

(** The resources of a new receiver: the first half of
    [node_implementation_add_receiver_], up to the first [insert_resource]. *)
Record receiver_resources := {
  new_receiver : resource;
  new_connection_receiver : connection_resource;
  new_receiver_id : string
}.

Definition make_receiver_resources (sdp_ : string)
    (host_interfaces_ : list host_interface) (version : string) : M receiver_resources :=
  do sdp <- lift (parse_session_description L sdp_);
  do sdp_params <- lift (get_session_description_sdp_parameters L sdp);
  do transport_params <- lift (get_session_description_transport_params L receiver sdp);
  do internal_id <- lift (get_session_description_internal_id sdp);
  (* hm, could check the internal id is unique across all senders and receivers *)
  do group_hint <- lift (get_session_description_group_hint sdp);
  let session_info := get_session_description_session_info sdp in
  do m <- get_model;
  let settings_ := model_settings m in
  let seed_id := fields_seed_id settings_ in
  let device_id := make_id seed_id device "" in
  let receiver_id := make_id seed_id receiver internal_id in
  let media_type := get_media_type L sdp_params in
  do format_ <- lift (get_format media_type);
  do interface_names <-
    interface_names_of "interface_ip" internal_id host_interfaces_ transport_params;
  do receiver_ <-
    lift (make_receiver_for format_ media_type sdp_params receiver_id device_id
            interface_names settings_ version);
  let connection_receiver :=
    make_connection_rtp_receiver L receiver_id (1 <? length transport_params)%nat in
  do connection_receiver <-
    lift (prepare_connection_resource L "interface_ip" receiver_ transport_params
            connection_receiver);
  (* override default label and description from settings *)
  let receiver_ := set_label (session_name sdp_params) receiver_ in
  let receiver_ := set_description session_info receiver_ in
  (* set the internal id as a resource tag *)
  let receiver_ := set_internal_id internal_id receiver_ in
  (* set the group hint as a resource tag *)
  let receiver_ := if negb (String.eqb group_hint "")
                   then set_group_hint group_hint receiver_ else receiver_ in
  ret {| new_receiver := receiver_; new_connection_receiver := connection_receiver;
         new_receiver_id := receiver_id |}.

Definition node_implementation_add_receiver_ (sdp_ : string)
    (host_interfaces_ : list host_interface) (version : string) : M unit :=
  do new <- make_receiver_resources sdp_ host_interfaces_ version;
  do m <- get_model;
  let seed_id := fields_seed_id (model_settings m) in
  let node_id := make_id seed_id node "" in
  let device_id := make_id seed_id device "" in
  let receiver_id := new_receiver_id new in
  do inserted <- insert_node_resource (new_receiver new);
  if negb inserted then throw node_implementation_exception else
  do inserted <- insert_connection_resource (new_connection_receiver new);
  if negb inserted then throw node_implementation_exception else
  (* update device's deprecated receivers array *)
  do _ <- on_node_resources (fun nr =>
    modify_resource (modify_throw_erases L) nr device_id (fun device_ =>
      (Ok tt, set_receivers (fields_receivers device_ ++ [receiver_id])
                (set_version version device_))));
  (* update node's interfaces *)
  on_node_resources (update_node_interfaces L version node_id host_interfaces_) ;;;
  (* insert into settings *)
  modify_settings (fun s =>
    set_settings_receivers (assoc_set receiver_id sdp_ (fields_settings_receivers s)) s).

(** *** [node_implementation_remove_connection_] *)

(** [refs.erase(std::find(refs.begin(), refs.end(), id))]: the first occurrence. *)
Fixpoint erase_first (id : string) (refs : list string) : list string :=
  match refs with
  | [] => []
  | x :: refs' => if String.eqb x id then refs' else x :: erase_first id refs'
  end.

Definition node_implementation_remove_connection_ (t : type) (internal_id : string)
    (host_interfaces_ : list host_interface) (version : string) : M unit :=
  (* find sender or receiver with specified internal id *)
  do m <- get_model;
  let settings_ := model_settings m in
  let seed_id := fields_seed_id settings_ in
  let node_id := make_id seed_id node "" in
  let id := make_id seed_id t internal_id in
  match find_resource (node_resources m) (id, t) with
  | Some resource_ =>
      (* erase connection resource *)
      on_connection_resources (fun cr => (Ok tt, erase_resource cr id)) ;;;
      (* erase node resources (sender before flow before source) *)
      let device_id := fields_device_id resource_ in
      let '(flow_id, source_id) :=
        if decide (sender = resource_type resource_) then
          (* cf. impl::find_source_for_sender *)
          match fields_flow_id resource_ with
          | Some flow_id =>
              match find_resource (node_resources m) (flow_id, flow) with
              | Some flow_ => (flow_id, fields_source_id flow_)
              | None => (flow_id, "")
              end
          | None => ("", "")
          end
        else ("", "") in
      on_node_resources (fun nr => (Ok tt, erase_resource nr id)) ;;;
      (if negb (String.eqb flow_id "")
       then on_node_resources (fun nr => (Ok tt, erase_resource nr flow_id))
       else ret tt) ;;;
      (if negb (String.eqb source_id "")
       then on_node_resources (fun nr => (Ok tt, erase_resource nr source_id))
       else ret tt) ;;;
      (* update device's deprecated senders/receivers array *)
      do _ <- on_node_resources (fun nr =>
        modify_resource (modify_throw_erases L) nr device_id (fun device_ =>
          let refs := if decide (sender = t)
                      then fields_senders device_ else fields_receivers device_ in
          if existsb (String.eqb id) refs then
            let device_ := set_version version device_ in
            (Ok tt, if decide (sender = t)
                    then set_senders (erase_first id refs) device_
                    else set_receivers (erase_first id refs) device_)
          else (Ok tt, device_)));
      (* update node's interfaces *)
      on_node_resources (update_node_interfaces L version node_id host_interfaces_) ;;;
      (* erase from settings *)
      modify_settings (fun s =>
        if decide (sender = t)
        then set_settings_senders (assoc_erase id (fields_settings_senders s)) s
        else set_settings_receivers (assoc_erase id (fields_settings_receivers s)) s)
  | None =>
      slog error ("Could not find " +:+ type_name t +:+ " with internal id: " +:+ internal_id) ;;;
      throw node_implementation_exception
  end.
End Receivers.

Section Activation.
Context (L : nmos_cpp).

(** *** The transport file of a sender ([make_node_implementation_transportfile_setter]) *)

Definition is_custom_fmtp (param : string * string) : bool :=
  starts_with param.1 "x-nvnmos-".

(** The session parameters handed to [nmos::make_session_description] for
    the [/transportfile] endpoint. *)
Definition transportfile_sdp_parameters (e : env) (node_resources_ : gmap string resource)
    (settings_ : settings) (sender_ : resource) (sdp_data : string)
  : result sdp_parameters :=
  parsed_sdp ← parse_session_description L sdp_data;
  sdp_params ← get_session_description_sdp_parameters L parsed_sdp;
  (* remove custom nvnmos parameters *)
  let sdp_params :=
    set_fmtp (List.filter (fun param => negb (is_custom_fmtp param)) (fmtp sdp_params))
             sdp_params in
  (* update ts-refclk based on current clock *)
  let seed_id := fields_seed_id settings_ in
  let node_id := make_id seed_id node "" in
  match find_resource node_resources_ (node_id, node) with
  | None => Throw node_implementation_exception
  | Some node_ =>
      match find_source_for_sender node_resources_ sender_ with
      | None => Throw node_implementation_exception
      | Some source_ =>
          match fields_clock_name source_ with
          | None => Throw node_implementation_exception
          | Some clock_ =>
              let ptp_domain := settings_ptp_domain_number L clock_ settings_ in
              let sdp_params :=
                set_ts_refclk (make_ts_refclk L node_ source_ sender_ ptp_domain) sdp_params in
              (* update session version since the resulting /transportfile isn't
                 necessarily identical to the original SDP data *)
              Ok (set_origin_session_version (Z.shiftr (ntp_now e) 32) sdp_params)
          end
      end
  end.

(** The session description behind the [/transportfile] endpoint, when
    the setter writes one. *)
Definition transportfile_session_description (e : env)
    (node_resources_ : gmap string resource) (settings_ : settings)
    (sender_ : resource) (connection_sender : connection_resource)
  : result (option session_description) :=
  let config := assoc_get (resource_id sender_) (fields_settings_senders settings_) in
  let is_rtp := String.eqb transports_rtp (transport_base L (fields_transport sender_)) in
  match config with
  | Some sdp_data =>
      if is_rtp then
        sdp_params ← transportfile_sdp_parameters e node_resources_ settings_ sender_ sdp_data;
        let transport_params :=
          fields_transport_params (fields_endpoint_active connection_sender) in
        (* use nmos::make_session_description rather than impl::make_session_description
           for /transportfile because e.g. the custom SDP attributes in
           nvnmos::attributes are only for 'internal' use *)
        sd ← nmos_make_session_description L sdp_params transport_params;
        Ok (Some sd)
      else Ok None
  | None => Ok None
  end.

(** The setter: the [/transportfile] endpoint after the call. *)
Definition set_transportfile (e : env) (node_resources_ : gmap string resource)
    (settings_ : settings) (sender_ : resource) (connection_sender : connection_resource)
    (endpoint_transportfile : value) : result value :=
  sd ← transportfile_session_description e node_resources_ settings_ sender_ connection_sender;
  match sd with
  | Some session_description_ =>
      let sdp := sdp_make_session_description L session_description_ in
      Ok (make_connection_rtp_sender_transportfile L sdp)
  | None => Ok endpoint_transportfile
  end.

(** *** [node_implementation_activate_rtp_connection_] *)

(** The modifier of the connection resource.  It works in place: the
    second component is the element as the modifier leaves it, also when
    it throws. *)
Definition activate_connection_modifier (e : env) (node_resources_ : gmap string resource)
    (settings_ : settings) (resource_ : resource) (sdp : string)
    (connection_resource_ : connection_resource) : result unit * connection_resource :=
  let at_ := make_version e in
  let connection_resource_ := set_connection_version at_ connection_resource_ in
  (* Update the IS-05 resource's /active endpoint *)
  let active := fields_endpoint_active connection_resource_ in
  let active :=
    {| fields_peer_id := Null;
       fields_master_enable := negb (String.eqb sdp "");
       fields_activation := make_activation L;
       fields_transport_file := fields_transport_file active;
       fields_transport_params := fields_transport_params active |} in
  let active :=
    if negb (String.eqb sdp "") && bool_decide (receiver = connection_type connection_resource_)
    then {| fields_peer_id := fields_peer_id active;
            fields_master_enable := fields_master_enable active;
            fields_activation := fields_activation active;
            fields_transport_file :=
              Object [("data", Str sdp); ("type", Str media_types_application_sdp)];
            fields_transport_params := fields_transport_params active |}
    else active in
  let connection_resource_ := set_endpoint_active active connection_resource_ in
  let transport_params :=
    if negb (String.eqb sdp "") then
      parsed ← parse_session_description L sdp;
      get_session_description_transport_params L (connection_type connection_resource_) parsed
    else Ok (fields_transport_params active) in
  match transport_params with
  | Throw ex => (Throw ex, connection_resource_)
  | Ok transport_params =>
      let connection_resource_ :=
        set_endpoint_active (set_transport_params transport_params active)
          connection_resource_ in
      (* Update an IS-05 sender's /transportfile endpoint *)
      if decide (sender = resource_type resource_) then
        match set_transportfile e node_resources_ settings_ resource_ connection_resource_
                (fields_endpoint_transportfile connection_resource_) with
        | Throw ex => (Throw ex, connection_resource_)
        | Ok transportfile =>
            (Ok tt, set_endpoint_transportfile transportfile connection_resource_)
        end
      else (Ok tt, connection_resource_)
  end.

Definition node_implementation_activate_rtp_connection_ (e : env)
    (internal_id : string) (sdp : string) : M unit :=
  (* find sender or receiver with specified internal id *)
  do m <- get_model;
  let seed_id := fields_seed_id (model_settings m) in
  let node_id := make_id seed_id node "" in
  let sender_id := make_id seed_id sender internal_id in
  let receiver_id := make_id seed_id receiver internal_id in
  let resource_ :=
    match find_resource (node_resources m) (sender_id, sender) with
    | Some r => Some r
    | None => find_resource (node_resources m) (receiver_id, receiver)
    end in
  match resource_ with
  | Some resource_ =>
      (* hmm, consider how to handle this 'internal' activation
         for now, setting /active endpoint directly *)
      let id := resource_id resource_ in
      let id_type := (resource_id resource_, resource_type resource_) in
      slog info ("Updating " +:+ id_type_text L id_type +:+ " with internal id: "
                 +:+ internal_id) ;;;
      (if bool_decide (sender = resource_type resource_) && negb (String.eqb sdp "") then
         match find_source_for_sender (node_resources m) resource_ with
         | None => throw node_implementation_exception
         | Some source_ =>
             match fields_clock_name source_ with
             | None => throw node_implementation_exception
             | Some clock_ =>
                 do parsed_sdp <- lift (parse_session_description L sdp);
                 let ts_refclks := get_session_description_ts_refclks parsed_sdp in
                 let ptp_domain := settings_ptp_domain_number L clock_ (model_settings m) in
                 let '(clock_value, ptp_domain) :=
                   make_node_clock (istringstreamed L) clock_ ts_refclks ptp_domain in
                 on_node_resources
                   (update_node_clock L (make_version e) node_id clock_value) ;;;
                 modify_settings (fun s =>
                   set_settings_clocks
                     (assoc_set clock_ ptp_domain (fields_settings_clocks s)) s)
             end
         end
       else ret tt) ;;;
      do m' <- get_model;
      do _ <- on_connection_resources (fun cr =>
        modify_resource (modify_throw_erases L) cr id
          (activate_connection_modifier e (node_resources m') (model_settings m')
             resource_ sdp));
      do _ <- on_node_resources (fun nr =>
        modify_resource (modify_throw_erases L) nr id (fun r =>
          (Ok tt, set_resource_subscription L (negb (String.eqb sdp "")) (make_version e) r)));
      ret tt
  | None =>
      slog error ("Could not find sender or receiver with internal id: " +:+ internal_id)
  end.

(** *** The functions of [nvnmos_impl.h]: the write lock is taken, the
    host interfaces are read, and the model is notified at the end. *)

Definition node_implementation_init (e : env) : M unit :=
  node_implementation_init_ L.

Definition node_implementation_add_sender (e : env) (sdp : string) : M unit :=
  node_implementation_add_sender_ L sdp (host_interfaces e) (make_version e).

Definition node_implementation_add_receiver (e : env) (sdp : string) : M unit :=
  node_implementation_add_receiver_ L sdp (host_interfaces e) (make_version e).

Definition node_implementation_remove_sender (e : env) (internal_id : string) : M unit :=
  node_implementation_remove_connection_ L sender internal_id (host_interfaces e)
    (make_version e).

Definition node_implementation_remove_receiver (e : env) (internal_id : string) : M unit :=
  node_implementation_remove_connection_ L receiver internal_id (host_interfaces e)
    (make_version e).

Definition node_implementation_activate_rtp_connection (e : env)
    (internal_id : string) (sdp : string) : M unit :=
  node_implementation_activate_rtp_connection_ e internal_id sdp.
End Activation.

(** ** The [nvnmos::server] class and the C functions of [nvnmos.h] *)

(** [NvNmosAssetConfig]. *)
Record NvNmosAssetConfig := {
  manufacturer : string;
  product : string;
  instance_id : string;
  functions : list string
}.

(** [NvNmosNodeConfig]; a null pointer is [None].  Host name, addresses and
    ports only reach settings that the node implementation does not read;
    they are carried in [config_other]. *)
Record NvNmosNodeConfig := {
  config_label : option string;
  config_description : option string;
  config_asset_tags : option NvNmosAssetConfig;
  config_seed : option string;
  config_receivers : list (option string);
  config_senders : list (option string);
  config_log_level : Z;
  config_log_categories : list (option string);
  config_other : value
}.

(** [NvNmosNodeServer]: [impl] is the opaque pointer to the [nvnmos::server]. *)
Record NvNmosNodeServer := {
  user_data : Z;
  impl : option node_model
}.

Section Facade.
Context (L : nmos_cpp).

Definition join (sep : string) (xs : list string) : string :=
  match xs with
  | [] => ""
  | x :: xs' => fold_left (fun acc y => acc +:+ sep +:+ y) xs' x
  end.

(** [server::make_settings]. *)
Definition make_settings (config : NvNmosNodeConfig) : result settings :=
  let label_ :=
    match config_label config, config_asset_tags config with
    | Some l, _ => l
    | None, Some asset => join " " [manufacturer asset; product asset; instance_id asset]
    | None, None => ""
    end in
  let description_ :=
    match config_description config, config_asset_tags config with
    | Some d, _ => d
    | None, Some asset => join ", " (functions asset)
    | None, None => ""
    end in
  let node_tags :=
    match config_asset_tags config with
    | Some asset =>
        [("urn:x-nmos:tag:asset:manufacturer/v1.0", [manufacturer asset]);
         ("urn:x-nmos:tag:asset:product/v1.0", [product asset]);
         ("urn:x-nmos:tag:asset:instance-id/v1.0", [instance_id asset])]
    | None => []
    end in
  let device_tags :=
    match config_asset_tags config with
    | Some asset => node_tags ++ [("urn:x-nmos:tag:asset:function/v1.0", functions asset)]
    | None => []
    end in
  let seed_id :=
    match config_seed config with
    | Some seed => make_repeatable_id seed_namespace_id seed
    | None => random_seed_id L      (* nmos::insert_node_default_settings *)
    end in
  if existsb (fun c => bool_decide (c = None)) (config_log_categories config)
  then Throw (logic_error "invalid log category")
  else
    Ok {| fields_seed_id := seed_id;
          fields_node_label := label_; fields_node_description := description_;
          fields_node_tags := node_tags;
          fields_device_label := label_; fields_device_description := description_;
          fields_device_tags := device_tags;
          fields_logging_level := config_log_level config;
          fields_settings_clocks := []; fields_settings_senders := [];
          fields_settings_receivers := [];
          fields_settings_other := config_other config |}.

(** [server::log_current_exception]. *)
Definition log_current_exception (ex : exn) : M unit :=
  match ex with
  | node_implementation_exception => ret tt   (* node implementation writes the log message *)
  | json_exception => slog error "JSON error"
  | runtime_error what => slog error ("Implementation error: " +:+ what)
  | logic_error what => slog error ("Unexpected exception: " +:+ what)
  end.

(** [try { ... } catch (...) { log_current_exception(); throw; }]. *)
Definition try_log {A} (c : M A) : M A := fun m =>
  match c m with
  | (Ok a, m') => (Ok a, m')
  | (Throw ex, m') => (Throw ex, (log_current_exception ex m').2)
  end.

Fixpoint add_all (what : string) (add : string -> M unit) (configs : list (option string))
  : M unit :=
  match configs with
  | [] => ret tt
  | None :: _ => throw (logic_error what)
  | Some sdp :: configs' => add sdp ;;; add_all what add configs'
  end.

(** [server::server]: a constructor that throws leaves no object behind. *)
Definition server_server (e : env) (config : NvNmosNodeConfig) : result node_model :=
  settings_ ← make_settings config;
  let body : M unit :=
    slog info "Starting NvNmos node" ;;;
    (* Set up the node resources, etc. *)
    node_implementation_init L e ;;;
    add_all "invalid receiver config" (node_implementation_add_receiver L e)
      (config_receivers config) ;;;
    add_all "invalid sender config" (node_implementation_add_sender L e)
      (config_senders config) ;;;
    (* Open the API ports and start up node operation *)
    slog info "Preparing for connections" ;;;
    lift (node_server_open L settings_) ;;;
    slog info "Ready for connections" in
  match try_log body
          {| node_resources := ∅; connection_resources := ∅;
             model_settings := settings_; gate := [] |} with
  | (Ok _, m) => Ok m
  | (Throw ex, _) => Throw ex
  end.

Definition server_add_receiver (e : env) (config : option string) : M unit :=
  try_log (match config with
           | None => throw (logic_error "invalid receiver config")
           | Some sdp => node_implementation_add_receiver L e sdp
           end).

Definition server_remove_receiver (e : env) (id : string) : M unit :=
  try_log (node_implementation_remove_receiver L e id).

Definition server_add_sender (e : env) (config : option string) : M unit :=
  try_log (match config with
           | None => throw (logic_error "invalid sender config")
           | Some sdp => node_implementation_add_sender L e sdp
           end).

Definition server_remove_sender (e : env) (id : string) : M unit :=
  try_log (node_implementation_remove_sender L e id).

Definition server_activate_rtp_connection (e : env) (id : string) (sdp : string) : M unit :=
  try_log (node_implementation_activate_rtp_connection L e id sdp).

Definition set_impl (x : option node_model) (s : NvNmosNodeServer) : NvNmosNodeServer :=
  {| user_data := user_data s; impl := x |}.

(** [try { impl->op(); return true; } catch (...) { return false; }]:
    the server object is as the operation left it in both cases. *)
Definition call (s : NvNmosNodeServer) (m : node_model) (op : M unit)
  : bool * option NvNmosNodeServer :=
  match op m with
  | (Ok _, m') => (true, Some (set_impl (Some m') s))
  | (Throw _, m') => (false, Some (set_impl (Some m') s))
  end.

(** The functions take the pointers of the C interface as options and
    return the result with the server structure after the call. *)

Definition create_nmos_node_server (e : env) (config : option NvNmosNodeConfig)
    (server : option NvNmosNodeServer) : bool * option NvNmosNodeServer :=
  match config, server with
  | Some config, Some s =>
      match server_server e config with
      | Ok m => (true, Some (set_impl (Some m) s))
      | Throw _ => (false, server)
      end
  | _, _ => (false, server)
  end.

Definition destroy_nmos_node_server (server : option NvNmosNodeServer)
  : bool * option NvNmosNodeServer :=
  match server with
  | None => (false, None)
  | Some s =>
      (* delete impl (a null pointer is deleted without effect); server->impl = 0 *)
      (true, Some (set_impl None s))
  end.

Definition add_nmos_receiver_to_node_server (e : env) (server : option NvNmosNodeServer)
    (config : option (option string)) : bool * option NvNmosNodeServer :=
  match server with
  | None => (false, server)
  | Some s =>
      match impl s with
      | None => (false, server)
      | Some m =>
          match config with
          | None => (false, server)
          | Some config => call s m (server_add_receiver e config)
          end
      end
  end.

Definition remove_nmos_receiver_from_node_server (e : env)
    (server : option NvNmosNodeServer) (id : option string)
  : bool * option NvNmosNodeServer :=
  match server with
  | None => (false, server)
  | Some s =>
      match impl s with
      | None => (false, server)
      | Some m =>
          match id with
          | None => (false, server)
          | Some id => call s m (server_remove_receiver e id)
          end
      end
  end.

Definition add_nmos_sender_to_node_server (e : env) (server : option NvNmosNodeServer)
    (config : option (option string)) : bool * option NvNmosNodeServer :=
  match server with
  | None => (false, server)
  | Some s =>
      match impl s with
      | None => (false, server)
      | Some m =>
          match config with
          | None => (false, server)
          | Some config => call s m (server_add_sender e config)
          end
      end
  end.

Definition remove_nmos_sender_from_node_server (e : env)
    (server : option NvNmosNodeServer) (id : option string)
  : bool * option NvNmosNodeServer :=
  match server with
  | None => (false, server)
  | Some s =>
      match impl s with
      | None => (false, server)
      | Some m =>
          match id with
          | None => (false, server)
          | Some id => call s m (server_remove_sender e id)
          end
      end
  end.

Definition nmos_connection_rtp_activate (e : env) (server : option NvNmosNodeServer)
    (id : option string) (sdp : option string) : bool * option NvNmosNodeServer :=
  match server with
  | None => (false, server)
  | Some s =>
      match impl s with
      | None => (false, server)
      | Some m =>
          match id with
          | None => (false, server)
          | Some id =>
              (* if (!sdp) sdp = "" *)
              call s m (server_activate_rtp_connection e id (default "" sdp))
          end
      end
  end.
End Facade.

(** ** A reference instance of the libraries

    A small stand-in for nmos-cpp, used to run the operations on concrete
    documents.  Its parser knows the documents of [documents] (parsed by
    hand, as [sdp::parse_session_description] lays them out) and rejects
    every other text. *)
Module Reference.

Definition crlf : string := String (ascii_of_nat 13) (String (ascii_of_nat 10) "").

Definition text (lines : list string) : string :=
  fold_right (fun l acc => l +:+ crlf +:+ acc) "" lines.

(** [is >> int]: the leading decimal digits, or the default. *)
Fixpoint digits (s : string) (acc : option Z) : option Z :=
  match s with
  | EmptyString => acc
  | String c s' =>
      let n := Z.of_N (N_of_ascii c) in
      if (48 <=? n) && (n <=? 57)
      then digits s' (Some (10 * default 0 acc + (n - 48)))
      else acc
  end.

Definition read_int (s : string) (default_value : Z) : Z :=
  default default_value (digits s None).

(** A polynomial string hash on 64 bits. *)
Definition hash (s : string) : Z :=
  fold_left (fun h b => (31 * h + b) mod 2 ^ 64) (bytes_of_string s) 7.

Definition attribute (name : string) (v : string) : named_value :=
  {| nv_name := name; nv_value := Str v |}.

Definition ts_refclk_ptp (server : string) : named_value :=
  {| nv_name := sdp_attributes_ts_refclk;
     nv_value := Object [("clock_source", Str "ptp"); ("ptp_version", Str "IEEE1588-2008");
                         ("ptp_server", Str server)] |}.

Definition ts_refclk_traceable : named_value :=
  {| nv_name := sdp_attributes_ts_refclk;
     nv_value := Object [("clock_source", Str "ptp"); ("ptp_version", Str "IEEE1588-2008");
                         ("traceable", Boolean true)] |}.

Definition fmtp_attribute (params : list (string * string)) : named_value :=
  {| nv_name := "fmtp";
     nv_value :=
       Object [("format_specific_parameters",
                Array (map (fun p => Object [("name", Str p.1); ("value", Str p.2)]) params))] |}.

Definition video_fmtp : list (string * string) :=
  [("sampling", "YCbCr-4:2:2"); ("width", "1920"); ("height", "1080");
   ("exactframerate", "50"); ("depth", "10"); ("TCS", "SDR"); ("colorimetry", "BT709");
   ("PM", "2110GPM"); ("SSN", "ST2110-20:2017"); ("TP", "2110TPN")].

(** The video SDP of the example application ([main.c], [init_video_sdp]). *)
Definition video_text (sender_ : bool) (id interface_ip group_hint src_port : string)
  : string :=
  text (["v=0";
         "o=- 1700000000 1700000000 IN IP4 " +:+ interface_ip;
         "s=NvNmos Video";
         "i=YCbCr-4:2:2, 10 bit, 1920 x 1080, progressive, 50 Hz";
         "t=0 0";
         "a=x-nvnmos-id:" +:+ id;
         "a=x-nvnmos-group-hint:" +:+ group_hint;
         "m=video 5020 RTP/AVP 96";
         "c=IN IP4 233.252.0.0/64";
         "a=source-filter: incl IN IP4 233.252.0.0 "
           +:+ (if sender_ then interface_ip else "192.0.2.0");
         "a=x-nvnmos-iface-ip:" +:+ interface_ip;
         "a=x-nvnmos-src-port:" +:+ src_port;
         "a=rtpmap:96 raw/90000";
         "a=fmtp:96 sampling=YCbCr-4:2:2; width=1920; height=1080; exactframerate=50; depth=10; TCS=SDR; colorimetry=BT709; PM=2110GPM; SSN=ST2110-20:2017; TP=2110TPN; "]
        ++ (if sender_
            then ["a=ts-refclk:ptp=IEEE1588-2008:AC-DE-48-23-45-67-01-9F:42";
                  "a=ts-refclk:ptp=IEEE1588-2008:traceable"]
            else [])
        ++ ["a=mediaclk:direct=0"]).

Definition video_parsed (sender_ : bool) (id interface_ip group_hint src_port : string)
  : session_description :=
  {| sd_origin_session_version := 1700000000;
     sd_information := "YCbCr-4:2:2, 10 bit, 1920 x 1080, progressive, 50 Hz";
     sd_attributes := [attribute attributes_internal_id id;
                       attribute attributes_group_hint group_hint];
     sd_media_descriptions :=
       [{| md_attributes :=
             [{| nv_name := "source-filter";
                 nv_value :=
                   Object [("destination_address", Str "233.252.0.0");
                           ("source_addresses",
                            Array [Str (if sender_ then interface_ip else "192.0.2.0")])] |};
              attribute attributes_interface_ip interface_ip;
              attribute attributes_source_port src_port;
              attribute "rtpmap" "96 raw/90000";
              fmtp_attribute video_fmtp]
             ++ (if sender_
                 then [ts_refclk_ptp "AC-DE-48-23-45-67-01-9F:42"; ts_refclk_traceable]
                 else [])
             ++ [attribute "mediaclk" "direct=0"];
           md_other := Object [("media_type", Str "video/raw"); ("port", Number 5020);
                               ("connection_address", Str "233.252.0.0")] |}];
     sd_other := Object [("session_name", Str "NvNmos Video")] |}.

Definition sink_0 : string := video_text true "sink-0" "192.0.2.10" "tx-0:video" "5004".
Definition sink_1 : string := video_text true "sink-1" "192.0.2.10" "tx-0:video" "5004".
Definition sink_2 : string := video_text true "sink-2" "192.0.2.10" "tx-0:video" "abc".
Definition source_0 : string := video_text false "source-0" "192.0.2.11" "rx-0:video" "5004".
Definition source_1 : string := video_text false "source-1" "192.0.2.10" "rx-0:video" "5004".

Definition documents : list (string * session_description) :=
  [(sink_0, video_parsed true "sink-0" "192.0.2.10" "tx-0:video" "5004");
   (sink_1, video_parsed true "sink-1" "192.0.2.10" "tx-0:video" "5004");
   (sink_2, video_parsed true "sink-2" "192.0.2.10" "tx-0:video" "abc");
   (source_0, video_parsed false "source-0" "192.0.2.11" "rx-0:video" "5004");
   (source_1, video_parsed false "source-1" "192.0.2.10" "rx-0:video" "5004")].

Definition parse (s : string) : result session_description :=
  match assoc_get s documents with
  | Some sd => Ok sd
  | None => Throw (runtime_error "sdp parse error")
  end.

Definition fmtp_of (attributes : list named_value) : list (string * string) :=
  match find_name attributes "fmtp" with
  | Some nv =>
      match value_get "format_specific_parameters" (nv_value nv) with
      | Array ps => map (fun p => (sdp_field "name" p, sdp_field "value" p)) ps
      | _ => []
      end
  | None => []
  end.

Definition sdp_parameters_of (sd : session_description) : result sdp_parameters :=
  match sd_media_descriptions sd with
  | [] => Throw (logic_error "no media descriptions")
  | md :: _ =>
      Ok {| session_name := sdp_field "session_name" (sd_other sd);
            origin_session_version := sd_origin_session_version sd;
            fmtp := fmtp_of (md_attributes md);
            ts_refclk := flat_map (fun t => firstn 1 t) (get_session_description_ts_refclks sd);
            group_semantics := ""; group_media_stream_ids := [];
            bandwidth_type := ""; bandwidth := 0;
            packet_time := (0, 1); max_packet_time := (0, 1);
            sdp_parameters_other :=
              Object [("media_type", Str (sdp_field "media_type" (md_other md)))] |}
  end.

Definition transport_params_of (sd : session_description) : result (list value) :=
  Ok (map (fun md =>
             let source_ip :=
               match find_name (md_attributes md) "source-filter" with
               | Some nv =>
                   match value_get "source_addresses" (nv_value nv) with
                   | Array (x :: _) => x
                   | _ => Null
                   end
               | None => Null
               end in
             Object [("source_ip", source_ip);
                     ("multicast_ip", value_get "connection_address" (md_other md));
                     ("interface_ip", Str "auto");
                     ("destination_port", value_get "port" (md_other md));
                     ("rtp_enabled", Boolean true)])
          (sd_media_descriptions sd)).

Definition ts_refclk_attribute (t : ts_refclk_t) : named_value :=
  {| nv_name := sdp_attributes_ts_refclk;
     nv_value := Object [("clock_source", Str (clock_source t));
                         ("ptp_version", Str (ptp_version t));
                         ("ptp_server", Str (ptp_server t));
                         ("mac_address", Str (mac_address t))] |}.

Definition session_description_of (p : sdp_parameters) (transport_params : list value)
  : result session_description :=
  Ok {| sd_origin_session_version := origin_session_version p;
        sd_information := "";
        sd_attributes := [];
        sd_media_descriptions :=
          imap (fun leg tp =>
                  {| md_attributes :=
                       [attribute "rtpmap" (sdp_field "media_type" (sdp_parameters_other p));
                        fmtp_attribute (fmtp p)]
                       ++ map ts_refclk_attribute (firstn 1 (skipn leg (ts_refclk p)))
                       ++ [attribute "mediaclk" "direct=0"];
                     md_other :=
                       Object [("media_type", value_get "media_type" (sdp_parameters_other p));
                               ("port", value_get "destination_port" tp);
                               ("connection_address",
                                match value_get "destination_ip" tp with
                                | Null => value_get "multicast_ip" tp
                                | v => v
                                end)] |})
               transport_params;
        sd_other := Object [("session_name", Str (session_name p))] |}.

Definition render_attribute (nv : named_value) : string :=
  match nv_value nv with
  | Str s => "a=" +:+ nv_name nv +:+ ":" +:+ s
  | _ => "a=" +:+ nv_name nv
  end.

Definition render (sd : session_description) : string :=
  text (["v=0"; "o=- " +:+ to_string_t (sd_origin_session_version sd);
         "s=" +:+ sdp_field "session_name" (sd_other sd)]
        ++ (if String.eqb (sd_information sd) "" then [] else ["i=" +:+ sd_information sd])
        ++ map render_attribute (sd_attributes sd)
        ++ flat_map (fun md =>
                       ("m=" +:+ sdp_field "media_type" (md_other md))
                         :: map render_attribute (md_attributes md))
                    (sd_media_descriptions sd)).

Definition fmtp_number (name : string) (p : sdp_parameters) : Z :=
  read_int (default "" (assoc_get name (fmtp p))) 0.

Definition video_parameters_of (p : sdp_parameters) : result video_parameters :=
  Ok {| video_exactframerate := (fmtp_number "exactframerate" p, 1);
        video_width := fmtp_number "width" p; video_height := fmtp_number "height" p;
        video_interlace := bool_decide (is_Some (assoc_get "interlace" (fmtp p)));
        video_colorimetry := default "" (assoc_get "colorimetry" (fmtp p));
        video_tcs := default "" (assoc_get "TCS" (fmtp p));
        video_sampling := default "" (assoc_get "sampling" (fmtp p));
        video_depth := fmtp_number "depth" p;
        video_profile := default "" (assoc_get "profile" (fmtp p));
        video_level := default "" (assoc_get "level" (fmtp p));
        video_sublevel := default "" (assoc_get "sublevel" (fmtp p));
        video_packetmode := false; video_transmode := 1;
        video_tp := default "" (assoc_get "TP" (fmtp p)) |}.

(** The common part of every IS-04 resource. *)
Definition core (id : string) (t : type) (s : settings) : resource :=
  {| resource_id := id; resource_type := t; fields_version := "0:0";
     fields_label := ""; fields_description := ""; fields_tags := [];
     fields_device_id := ""; fields_flow_id := None; fields_source_id := "";
     fields_clock_name := None; fields_interface_bindings := [];
     fields_senders := []; fields_receivers := []; fields_interfaces := [];
     fields_clocks := []; fields_transport := ""; fields_other := [] |}.

Definition with_parents (device_id : string) (flow_id : option string) (source_id : string)
    (clock_ : option string) (bindings : list string) (transport : string) (r : resource)
  : resource :=
  {| resource_id := resource_id r; resource_type := resource_type r;
     fields_version := fields_version r; fields_label := fields_label r;
     fields_description := fields_description r; fields_tags := fields_tags r;
     fields_device_id := device_id; fields_flow_id := flow_id;
     fields_source_id := source_id; fields_clock_name := clock_;
     fields_interface_bindings := bindings;
     fields_senders := fields_senders r; fields_receivers := fields_receivers r;
     fields_interfaces := fields_interfaces r; fields_clocks := fields_clocks r;
     fields_transport := transport; fields_other := fields_other r |}.

Definition source_of (id device_id clock_ : string) (s : settings) : resource :=
  with_parents device_id None "" (Some clock_) [] "" (core id source s).

Definition flow_of (id source_id device_id : string) (s : settings) : resource :=
  with_parents device_id None source_id None [] "" (core id flow s).

Definition receiver_of (id device_id transport : string) (bindings : list string)
    (s : settings) : resource :=
  with_parents device_id None "" None bindings transport (core id receiver s).

Definition auto_params (t : type) : value :=
  if decide (t = sender)
  then Object [("source_ip", Str "auto"); ("destination_ip", Str "auto");
               ("source_port", Str "auto"); ("destination_port", Str "auto");
               ("rtp_enabled", Boolean true)]
  else Object [("source_ip", Null); ("multicast_ip", Null); ("interface_ip", Str "auto");
               ("destination_port", Str "auto"); ("rtp_enabled", Boolean true)].

Definition connection_of (t : type) (id : string) (smpte2022_7 : bool)
  : connection_resource :=
  let legs := if smpte2022_7 then 2%nat else 1%nat in
  let endpoint_ :=
    {| fields_peer_id := Null; fields_master_enable := false;
       fields_activation := Object [("mode", Null)];
       fields_transport_file := Object [("data", Null); ("type", Null)];
       fields_transport_params := repeat (auto_params t) legs |} in
  {| connection_id := id; connection_type := t; connection_version := "0:0";
     fields_endpoint_constraints := repeat (Object []) legs;
     fields_endpoint_staged :=
       Object [("master_enable", Boolean false)];
     fields_endpoint_active := endpoint_;
     fields_endpoint_transportfile := Object [("data", Null); ("type", Null)] |}.

Definition resolve_auto (tp : value) (k : string) (v : value) : value :=
  match value_get k tp with
  | Str "auto" => value_set k v tp
  | _ => tp
  end.

Definition ts_refclk_of (node_ source_ sender_ : resource) (ptp_domain : Z)
  : list ts_refclk_t :=
  map (fun _ =>
         match List.find
                 (fun c => bool_decide (Some (clock_fields_name c) = fields_clock_name source_))
                 (fields_clocks node_) with
         | Some (make_ptp_clock _ _ gmid _) =>
             {| clock_source := ts_refclk_sources_ptp;
                ptp_version := ptp_versions_IEEE1588_2008;
                ptp_server := gmid +:+ ":" +:+ to_string_t ptp_domain; mac_address := "" |}
         | _ =>
             {| clock_source := ts_refclk_sources_local_mac; ptp_version := "";
                ptp_server := ""; mac_address := "00-00-00-00-00-00" |}
         end)
      (fields_interface_bindings sender_).

(** The instance; [erases] says what [nmos::modify_resource] does with an
    element whose modifier throws. *)
Definition lib_with (erases : bool) : nmos_cpp :=
  {| parse_session_description := parse;
     sdp_make_session_description := render;
     get_session_description_sdp_parameters := sdp_parameters_of;
     nmos_get_session_description_transport_params := transport_params_of;
     nmos_make_session_description := session_description_of;
     get_media_type := fun p => sdp_field "media_type" (sdp_parameters_other p);
     get_video_raw_parameters := video_parameters_of;
     get_video_jxsv_parameters := video_parameters_of;
     get_audio_L_parameters := fun p =>
       Ok {| audio_channel_count := 2; audio_bit_depth := 24; audio_sample_rate := (48000, 1) |};
     get_video_smpte291_parameters := fun p =>
       Ok {| data_did_sdids := Array []; data_exactframerate := (fmtp_number "exactframerate" p, 1) |};
     get_video_SMPTE2022_6_parameters := fun p => Ok tt;
     make_ts_refclk := ts_refclk_of;
     parse_packet_transmission_mode := fun _ _ => packet_transmission_modes_codestream;
     make_node := fun id clocks s => set_clocks clocks (core id node s);
     make_device := fun id node_id s => core id device s;
     make_video_source := fun id device_id clock_ _ s => source_of id device_id clock_ s;
     make_audio_source := fun id device_id clock_ _ _ s => source_of id device_id clock_ s;
     make_data_source := fun id device_id clock_ _ s => source_of id device_id clock_ s;
     make_mux_source := fun id device_id clock_ _ s => source_of id device_id clock_ s;
     make_raw_video_flow := fun id source_id device_id _ _ _ _ _ _ _ _ s =>
       flow_of id source_id device_id s;
     make_video_jxsv_flow := fun id source_id device_id _ _ _ _ _ _ _ _ _ _ _ _ s =>
       flow_of id source_id device_id s;
     make_raw_audio_flow := fun id source_id device_id _ _ s => flow_of id source_id device_id s;
     make_sdianc_data_flow := fun id source_id device_id _ s => flow_of id source_id device_id s;
     make_mux_flow := fun id source_id device_id s => flow_of id source_id device_id s;
     make_sender := fun id flow_id transport device_id manifest_href bindings s =>
       set_other "manifest_href" (Str manifest_href)
         (with_parents device_id
            (if String.eqb flow_id "" then None else Some flow_id) "" None bindings transport
            (core id sender s));
     make_receiver := fun id device_id transport bindings _ _ s =>
       receiver_of id device_id transport bindings s;
     make_audio_receiver := fun id device_id transport bindings _ s =>
       receiver_of id device_id transport bindings s;
     make_sdianc_data_receiver := fun id device_id transport bindings s =>
       receiver_of id device_id transport bindings s;
     make_mux_receiver := fun id device_id transport bindings s =>
       receiver_of id device_id transport bindings s;
     make_node_interfaces := map (fun h => {| ni_name := hi_name h; ni_other := hi_other h |});
     make_rational := fun r => Object [("numerator", Number r.1); ("denominator", Number r.2)];
     make_manifest_api_manifest := fun id s => "/x-manifest/senders/" +:+ id +:+ "/manifest";
     make_caps_rational_constraint := fun rs =>
       Object [("enum", Array (map (fun r : rational =>
                  Object [("numerator", Number r.1); ("denominator", Number r.2)]) rs))];
     make_caps_integer_constraint := fun ns _ _ => Object [("enum", Array (map Number ns))];
     make_caps_string_constraint := fun ss => Object [("enum", Array (map Str ss))];
     make_caps_number_constraint := fun rs =>
       Object [("enum", Array (map (fun r : rational => Number r.1) rs))];
     make_connection_rtp_sender := connection_of sender;
     make_connection_rtp_receiver := connection_of receiver;
     make_connection_rtp_sender_transportfile := fun sdp =>
       Object [("data", Str sdp); ("type", Str media_types_application_sdp)];
     make_activation := Object [("mode", Null); ("requested_time", Null)];
     set_resource_subscription := fun active version r =>
       set_other "subscription" (Object [("active", Boolean active)]) (set_version version r);
     details_resolve_auto := resolve_auto;
     resolve_rtp_auto := fun t tps =>
       map (fun tp => resolve_auto (resolve_auto tp "source_port" (Number 5004))
                        "destination_port" (Number 5004)) tps;
     transport_base := fun s => substr_to (string_find "." s) s;
     id_type_text := fun id_type => type_name id_type.2 +:+ ": " +:+ id_type.1;
     default_ptp_domain_number := 0;
     random_seed_id := "00000000-0000-4000-8000-000000000000";
     node_server_open := fun _ => Ok tt;
     istringstreamed := read_int;
     std_hash := hash;
     modify_throw_erases := erases;
     get_format_bit_rate := fun _ => 0;
     get_transport_bit_rate := fun _ => 0 |}.

(** The instance of the examples keeps the element, as the modifier left it. *)
Definition lib : nmos_cpp := lib_with false.

(** The host of the example: two interfaces. *)
Definition eth0 : host_interface :=
  {| hi_name := "eth0"; hi_addresses := ["192.0.2.10"]; hi_other := "02-00-00-00-00-10" |}.
Definition eth1 : host_interface :=
  {| hi_name := "eth1"; hi_addresses := ["192.0.2.11"]; hi_other := "02-00-00-00-00-11" |}.

Definition environment (hs : list host_interface) (version : string) : env :=
  {| host_interfaces := hs; make_version := version; ntp_now := 1700000000 * 2 ^ 32 + 5 |}.

Definition config : NvNmosNodeConfig :=
  {| config_label := None; config_description := None;
     config_asset_tags :=
       Some {| manufacturer := "Acme"; product := "Widget Pro";
               instance_id := "XYZ123-456789"; functions := ["Example"] |};
     config_seed := Some "nmos-api.local:8080";
     config_receivers := []; config_senders := [];
     config_log_level := 20; config_log_categories := [];
     config_other := Null |}.

End Reference.

(** * Specifications and invariants *)

(** ** Statements of the specification, for comparison with the code *)

(** Section 4.1 as worded: the version-5 UUID of the name in the fixed
    namespace. *)
Definition spec_id (t : type) (internal_id : string) : string :=
  uuid5 seed_namespace_id ("/x-nmos/node/" +:+ type_name t +:+ "/" +:+ internal_id).

(** ** What the proofs assume of the libraries *)

(** The members of a resource that tie it into the resource graph. *)
Definition shape (r : resource)
  : string * type * option string * string * string * list string :=
  (resource_id r, resource_type r, fields_flow_id r, fields_source_id r,
   fields_device_id r, fields_interface_bindings r).

Definition is_source (id : string) (r : resource) : Prop :=
  resource_id r = id /\ resource_type r = source.

Definition is_flow (id source_id : string) (r : resource) : Prop :=
  resource_id r = id /\ resource_type r = flow /\ fields_source_id r = source_id.

Definition is_receiver (id device_id : string) (interfaces : list string) (r : resource)
  : Prop :=
  resource_id r = id /\ resource_type r = receiver /\ fields_device_id r = device_id
  /\ fields_interface_bindings r = interfaces.

(** The resource constructors of nmos-cpp return a resource of the type
    they are named after, with the given id and the given references;
    [make_node] without interfaces starts from an empty array;
    [make_node_interfaces] names exactly the interfaces it is given;
    [set_resource_subscription] changes the subscription and the version. *)
Record nmos_cpp_laws (L : nmos_cpp) : Prop := {
  make_node_law : forall id clocks s,
    resource_id (make_node L id clocks s) = id
    /\ resource_type (make_node L id clocks s) = node
    /\ fields_clocks (make_node L id clocks s) = clocks
    /\ fields_interfaces (make_node L id clocks s) = [];
  make_device_law : forall id node_id s,
    resource_id (make_device L id node_id s) = id
    /\ resource_type (make_device L id node_id s) = device;
  make_video_source_law : forall id d c g s, is_source id (make_video_source L id d c g s);
  make_audio_source_law : forall id d c g ch s, is_source id (make_audio_source L id d c g ch s);
  make_data_source_law : forall id d c g s, is_source id (make_data_source L id d c g s);
  make_mux_source_law : forall id d c g s, is_source id (make_mux_source L id d c g s);
  make_raw_video_flow_law : forall id src d a1 a2 a3 a4 a5 a6 a7 a8 s,
    is_flow id src (make_raw_video_flow L id src d a1 a2 a3 a4 a5 a6 a7 a8 s);
  make_video_jxsv_flow_law : forall id src d a1 a2 a3 a4 a5 a6 a7 a8 a9 a10 a11 a12 s,
    is_flow id src (make_video_jxsv_flow L id src d a1 a2 a3 a4 a5 a6 a7 a8 a9 a10 a11 a12 s);
  make_raw_audio_flow_law : forall id src d a1 a2 s,
    is_flow id src (make_raw_audio_flow L id src d a1 a2 s);
  make_sdianc_data_flow_law : forall id src d a1 s,
    is_flow id src (make_sdianc_data_flow L id src d a1 s);
  make_mux_flow_law : forall id src d s, is_flow id src (make_mux_flow L id src d s);
  make_sender_law : forall id flow_id transport d href interfaces s,
    resource_id (make_sender L id flow_id transport d href interfaces s) = id
    /\ resource_type (make_sender L id flow_id transport d href interfaces s) = sender
    /\ (flow_id <> "" ->
        fields_flow_id (make_sender L id flow_id transport d href interfaces s) = Some flow_id)
    /\ fields_device_id (make_sender L id flow_id transport d href interfaces s) = d
    /\ fields_interface_bindings (make_sender L id flow_id transport d href interfaces s)
       = interfaces;
  make_receiver_law : forall id d transport interfaces f mt s,
    is_receiver id d interfaces (make_receiver L id d transport interfaces f mt s);
  make_audio_receiver_law : forall id d transport interfaces b s,
    is_receiver id d interfaces (make_audio_receiver L id d transport interfaces b s);
  make_sdianc_data_receiver_law : forall id d transport interfaces s,
    is_receiver id d interfaces (make_sdianc_data_receiver L id d transport interfaces s);
  make_mux_receiver_law : forall id d transport interfaces s,
    is_receiver id d interfaces (make_mux_receiver L id d transport interfaces s);
  make_connection_rtp_sender_law : forall id b,
    connection_id (make_connection_rtp_sender L id b) = id;
  make_connection_rtp_receiver_law : forall id b,
    connection_id (make_connection_rtp_receiver L id b) = id;
  make_node_interfaces_law : forall hs x,
    x ∈ map ni_name (make_node_interfaces L hs) <-> x ∈ map hi_name hs;
  set_resource_subscription_law : forall active version r,
    shape (set_resource_subscription L active version r) = shape r
    /\ fields_interfaces (set_resource_subscription L active version r) = fields_interfaces r
    /\ fields_clocks (set_resource_subscription L active version r) = fields_clocks r
}.

(** ** Well-formed models *)

Definition all_types : list type := [node; device; source; flow; sender; receiver].

(** The ids derived from the internal ids of [U] (and from the empty
    internal id of the node and the device). *)
Definition derivations (U : list string) : list (type * string) :=
  t ← all_types; i ← remove_dups ("" :: U); [(t, i)].

Definition derived_ids (seed_id : string) (U : list string) : list string :=
  (fun p => make_id seed_id p.1 p.2) <$> derivations U.

(** No two of them collide. *)
Definition collision_free (seed_id : string) (U : list string) : Prop :=
  NoDup (derived_ids seed_id U).

(** What the store holds under the key [k]. *)
Definition resource_ok (seed_id : string) (U : list string)
    (resources : gmap string resource) (k : string) (r : resource) : Prop :=
  match resource_type r with
  | node => k = make_id seed_id node ""
  | device => k = make_id seed_id device ""
  | source => exists i, i ∈ U /\ k = make_id seed_id source i
  | flow =>
      exists i, i ∈ U /\ k = make_id seed_id flow i
                /\ fields_source_id r = make_id seed_id source i
                /\ is_Some (resources !! make_id seed_id source i)
  | sender =>
      exists i, i ∈ U /\ k = make_id seed_id sender i
                /\ fields_flow_id r = Some (make_id seed_id flow i)
                /\ fields_device_id r = make_id seed_id device ""
                /\ is_Some (resources !! make_id seed_id flow i)
  | receiver =>
      exists i, i ∈ U /\ k = make_id seed_id receiver i
                /\ fields_device_id r = make_id seed_id device ""
  end.

(** The invariant of the two stores: the node exists and has the clock
    [clk0]; every resource sits under the id derived for its type; a flow
    comes with its source and a sender with its flow; every connection
    resource is the twin of a sender or receiver. *)
Record wf (U : list string) (m : node_model) : Prop := {
  wf_node :
    exists n,
      node_resources m !! make_id (fields_seed_id (model_settings m)) node "" = Some n
      /\ resource_type n = node
      /\ is_Some (List.find (fun c => String.eqb clk0 (clock_fields_name c)) (fields_clocks n));
  wf_resources :
    forall k r,
      node_resources m !! k = Some r ->
      resource_ok (fields_seed_id (model_settings m)) U (node_resources m) k r;
  wf_connections :
    forall k c,
      connection_resources m !! k = Some c ->
      exists r, node_resources m !! k = Some r
                /\ (resource_type r = sender \/ resource_type r = receiver)
}.

(** The interface names bound by senders and receivers all exist on the host. *)
Definition bindings_on_host (hs : list host_interface) (resources : gmap string resource) : Prop :=
  forall k r b,
    resources !! k = Some r ->
    resource_type r = sender \/ resource_type r = receiver ->
    b ∈ fields_interface_bindings r -> b ∈ map hi_name hs.

(** The node's [interfaces] array names exactly the bound interfaces. *)
Definition interfaces_invariant (m : node_model) : Prop :=
  exists n,
    node_resources m !! make_id (fields_seed_id (model_settings m)) node "" = Some n
    /\ forall x, x ∈ map ni_name (fields_interfaces n) <-> x ∈ bound_interface_names (node_resources m).

(** ** Operations at the embedding boundary *)

Inductive operation :=
| op_add_sender (config : option string)
| op_add_receiver (config : option string)
| op_remove_sender (id : string)
| op_remove_receiver (id : string)
| op_activate (id : string) (sdp : option string).

Definition apply_operation (L : nmos_cpp) (e : env) (op : operation)
    (server : option NvNmosNodeServer) : bool * option NvNmosNodeServer :=
  match op with
  | op_add_sender config => add_nmos_sender_to_node_server L e server (Some config)
  | op_add_receiver config => add_nmos_receiver_to_node_server L e server (Some config)
  | op_remove_sender id => remove_nmos_sender_from_node_server L e server (Some id)
  | op_remove_receiver id => remove_nmos_receiver_from_node_server L e server (Some id)
  | op_activate id sdp => nmos_connection_rtp_activate L e server (Some id) sdp
  end.

(** A sequence of operations, each in its own environment. *)
Definition apply_operations (L : nmos_cpp) (ops : list (env * operation))
    (server : option NvNmosNodeServer) : option NvNmosNodeServer :=
  fold_left (fun s eo => (apply_operation L eo.1 eo.2 s).2) ops server.

(** The internal id an operation is about. *)
Definition sdp_internal_id (L : nmos_cpp) (sdp : string) : list string :=
  match parse_session_description L sdp with
  | Ok sd =>
      match get_session_description_internal_id sd with
      | Ok i => [i]
      | Throw _ => []
      end
  | Throw _ => []
  end.

Definition operation_ids (L : nmos_cpp) (op : operation) : list string :=
  match op with
  | op_add_sender (Some sdp) | op_add_receiver (Some sdp) => sdp_internal_id L sdp
  | op_add_sender None | op_add_receiver None => []
  | op_remove_sender id | op_remove_receiver id | op_activate id _ => [id]
  end.

Definition is_add_or_remove (op : operation) : bool :=
  match op with
  | op_activate _ _ => false
  | _ => true
  end.

(** ** The effect of the operations *)

(** The array [update_node_interfaces] computes: the host interfaces whose
    name is bound by a sender or receiver, as [nmos::make_node_interfaces]
    lays them out. *)
Definition node_interfaces_for (L : nmos_cpp) (hs : list host_interface)
    (resources : gmap string resource) : list node_interface :=
  make_node_interfaces L
    (List.filter (fun i => bool_decide (hi_name i ∈ bound_interface_names resources)) hs).

(** Two stores with the same keys, whose resources have the same shape. *)
Definition same_shapes (st st' : gmap string resource) : Prop :=
  forall k, option_Forall2 (fun r r' => shape r' = shape r) (st !! k) (st' !! k).

(** The flow and the source that go with the resource being removed. *)
Definition removal_refs (resources : gmap string resource) (r : resource) : string * string :=
  if decide (sender = resource_type r) then
    match fields_flow_id r with
    | Some flow_id =>
        match find_resource resources (flow_id, flow) with
        | Some flow_ => (flow_id, fields_source_id flow_)
        | None => (flow_id, "")
        end
    | None => ("", "")
    end
  else ("", "").

(** [erase_resource] under [if (!id.empty())]: nothing is erased when no
    flow or source was found. *)
Definition erase_unless_empty (k : string) (resources : gmap string resource)
  : gmap string resource :=
  if String.eqb k "" then resources else delete k resources.

(** The modifier of the device in [node_implementation_remove_connection_]. *)
Definition remove_ref (t : type) (id version : string) (device_ : resource) : resource :=
  let refs := if decide (sender = t) then fields_senders device_ else fields_receivers device_ in
  if existsb (String.eqb id) refs then
    if decide (sender = t)
    then set_senders (erase_first id refs) (set_version version device_)
    else set_receivers (erase_first id refs) (set_version version device_)
  else device_.

(** The node store of [node_implementation_remove_connection_] after the
    erasures and the modification of the device, before
    [update_node_interfaces]. *)
Definition after_removal (t : type) (id version : string) (r : resource)
    (resources : gmap string resource) : gmap string resource :=
  let refs := removal_refs resources r in
  alter (remove_ref t id version) (fields_device_id r)
    (erase_unless_empty refs.2 (erase_unless_empty refs.1 (delete id resources))).

(** A computation that only writes to the log: the stores and the settings
    are as before. *)
Definition logs_only {A} (c : M A) : Prop :=
  forall m, exists g, (c m).2 = set_gate g m.

(** The method of [nvnmos::server] behind an operation. *)
Definition server_operation (L : nmos_cpp) (e : env) (op : operation) : M unit :=
  match op with
  | op_add_sender config => server_add_sender L e config
  | op_add_receiver config => server_add_receiver L e config
  | op_remove_sender id => server_remove_sender L e id
  | op_remove_receiver id => server_remove_receiver L e id
  | op_activate id sdp => server_activate_rtp_connection L e id (default "" sdp)
  end.

(** The invariants of the model between two operations, for a host with
    the interfaces [hs]. *)
Definition invariant (U : list string) (hs : list host_interface) (seed_id : string)
    (m : node_model) : Prop :=
  fields_seed_id (model_settings m) = seed_id
  /\ wf U m
  /\ bindings_on_host hs (node_resources m)
  /\ interfaces_invariant m.

(** What a removal does to the device and the node: the device has gone
    through the modifier [remove_ref]; the node is as before or has new
    [interfaces] and a new version. *)
Definition device_and_node_after (e : env) (t : type) (k did nid : string)
    (nr nr' : gmap string resource) : Prop :=
  forall d n,
    nr !! did = Some d -> nr !! nid = Some n ->
    nr' !! did = Some (remove_ref t k (make_version e) d)
    /\ (nr' !! nid = Some n
        \/ exists interfaces,
             nr' !! nid = Some (set_interfaces interfaces (set_version (make_version e) n))).

(** Additions and removals on a host whose interfaces stay [hs], about
    internal ids of [U]. *)
Definition admissible (L : nmos_cpp) (U : list string) (hs : list host_interface)
    (eo : env * operation) : Prop :=
  host_interfaces eo.1 = hs
  /\ is_add_or_remove eo.2 = true
  /\ forall i, i ∈ operation_ids L eo.2 -> i ∈ U.

(** ** The example

    A server created from [Reference.config] on a host with two
    interfaces, and the model after a sender and a receiver have been
    added. *)
Module Fixture.
Definition hosts : list host_interface := [Reference.eth0; Reference.eth1].
Definition e : env := Reference.environment hosts "1:0".
Definition universe : list string := ["sink-0"; "sink-1"; "sink-2"; "source-0"; "source-1"].
Definition seed_id : string := make_repeatable_id seed_namespace_id "nmos-api.local:8080".
Definition handle : NvNmosNodeServer := {| user_data := 0; impl := None |}.
Definition empty_model : node_model :=
  {| node_resources := ∅; connection_resources := ∅;
     model_settings :=
       {| fields_seed_id := ""; fields_node_label := ""; fields_node_description := "";
          fields_node_tags := []; fields_device_label := "";
          fields_device_description := ""; fields_device_tags := [];
          fields_logging_level := 0; fields_settings_clocks := [];
          fields_settings_senders := []; fields_settings_receivers := [];
          fields_settings_other := Null |};
     gate := [] |}.
Definition created (e : env) : option NvNmosNodeServer :=
  (create_nmos_node_server Reference.lib e (Some Reference.config) (Some handle)).2.
Definition model_of (s : option NvNmosNodeServer) : node_model :=
  default empty_model (s ≫= impl).
Definition model_after (ops : list (env * operation)) : node_model :=
  model_of (apply_operations Reference.lib ops (created e)).
Definition add_sink_0 : env * operation := (e, op_add_sender (Some Reference.sink_0)).
Definition add_source_0 : env * operation := (e, op_add_receiver (Some Reference.source_0)).
Definition model_1 : node_model := model_after [add_sink_0; add_source_0].
End Fixture.

(** ** Session descriptions *)

(** The names of the session-level and media-level attributes of a
    session description. *)
Definition description_attribute_names (sd : session_description) : list string :=
  map nv_name (sd_attributes sd)
  ++ flat_map (fun md => map nv_name (md_attributes md)) (sd_media_descriptions sd).

(** What the proof assumes of [nmos::make_session_description]: the
    description has the session version of the parameters, only the
    attributes of the SDP specifications, and no format-specific parameter
    that is not among the parameters. *)
Definition emits_faithfully (L : nmos_cpp) : Prop :=
  forall params transport_params sd,
    nmos_make_session_description L params transport_params = Ok sd ->
    sd_origin_session_version sd = origin_session_version params
    /\ (forall name, name ∈ description_attribute_names sd ->
                     starts_with name "x-nvnmos-" = false)
    /\ (forall params', get_session_description_sdp_parameters L sd = Ok params' ->
                        forall p, p ∈ fmtp params' -> p ∈ fmtp params).






(** ** Further statements about the code *)

(** The members of a leg that [impl::get_session_description_transport_params]
    may write. *)
Definition touched_members (t : type) : list string :=
  if decide (t = sender)
  then ["destination_ip"; "multicast_ip"; "interface_ip"; "source_port"; "source_ip";
        "rtp_enabled"]
  else ["interface_ip"; "rtp_enabled"].

(** A store with a node and one sender bound to [eth0], for running the
    maintenance functions on their own. *)
Module Small.
Definition node_ : resource :=
  make_node Reference.lib "node" [make_internal_clock clk0]
    (model_settings Fixture.empty_model).
Definition sender_ : resource :=
  make_sender Reference.lib "sender" "flow" transports_rtp "device" "" ["eth0"]
    (model_settings Fixture.empty_model).
Definition store : gmap string resource := <["sender" := sender_]> {["node" := node_]}.
End Small.

(** A computation that throws whatever the model is. *)
Definition never_returns {A} (c : M A) : Prop :=
  forall m, exists ex m', c m = (Throw ex, m').

(** The [/active] endpoint of a receiver after an activation from the
    host with the text [sdp]. *)
Definition receiver_active_after (L : nmos_cpp) (sdp : string) (transport_params : list value)
    (active : endpoint) : endpoint :=
  {| fields_peer_id := Null;
     fields_master_enable := negb (String.eqb sdp "");
     fields_activation := make_activation L;
     fields_transport_file :=
       if String.eqb sdp "" then fields_transport_file active
       else Object [("data", Str sdp); ("type", Str media_types_application_sdp)];
     fields_transport_params := transport_params |}.


(** The modifier of the device in [node_implementation_add_sender_] and
    [node_implementation_add_receiver_]: the id is appended to the
    deprecated array and the version is new. *)
Definition add_ref (t : type) (id version : string) (device_ : resource) : resource :=
  if decide (sender = t)
  then set_senders (fields_senders device_ ++ [id]) (set_version version device_)
  else set_receivers (fields_receivers device_ ++ [id]) (set_version version device_).

(** The settings after a sender has been added: the PTP domain of the
    clock and the configured text. *)
Definition settings_after_add_sender (sender_id sdp : string) (ptp_domain : Z) (s : settings)
  : settings :=
  set_settings_senders (assoc_set sender_id sdp (fields_settings_senders s))
    (set_settings_clocks (assoc_set clk0 ptp_domain (fields_settings_clocks s)) s).

(** The node and the device that [node_implementation_init_] builds from
    the settings, and the settings it leaves. *)
Definition initial_node (L : nmos_cpp) (s : settings) : resource :=
  set_tags (fields_node_tags s)
    (set_description (fields_node_description s)
       (set_label (fields_node_label s)
          (make_node L (make_id (fields_seed_id s) node "") [make_internal_clock clk0] s))).

Definition initial_device (L : nmos_cpp) (s : settings) : resource :=
  set_tags (fields_device_tags s)
    (set_description (fields_device_description s)
       (set_label (fields_device_label s)
          (make_device L (make_id (fields_seed_id s) device "")
             (make_id (fields_seed_id s) node "") s))).

Definition initial_settings (s : settings) : settings :=
  set_settings_receivers [] (set_settings_senders [] (set_settings_clocks [] s)).

(** The key [k] holds a resource of type [t]. *)
Definition has_type (t : type) (resources : gmap string resource) (k : string) : Prop :=
  exists r, resources !! k = Some r /\ resource_type r = t.

(** The deprecated [senders] and [receivers] arrays of the device list the
    senders and the receivers of the store, each of them once. *)
Definition device_lists (m : node_model) : Prop :=
  exists d,
    node_resources m !! make_id (fields_seed_id (model_settings m)) device "" = Some d
    /\ NoDup (fields_senders d) /\ NoDup (fields_receivers d)
    /\ (forall k, k ∈ fields_senders d <-> has_type sender (node_resources m) k)
    /\ (forall k, k ∈ fields_receivers d <-> has_type receiver (node_resources m) k).

(** [nmos::make_device], which [node_implementation_init_] calls with no
    senders and no receivers, returns a device whose arrays are empty. *)
Definition make_device_lists_law (L : nmos_cpp) : Prop :=
  forall id node_id s,
    fields_senders (make_device L id node_id s) = []
    /\ fields_receivers (make_device L id node_id s) = [].

(** What a resource shows of itself: its label, its description and its
    tags. *)
Definition presentation (r : resource) : string * string * list (string * list string) :=
  (fields_label r, fields_description r, fields_tags r).

(** The node and the device of the model show the labels, descriptions
    and tags of the settings [s]. *)
Definition presents_settings (s : settings) (m : node_model) : Prop :=
  exists n d,
    node_resources m !! make_id (fields_seed_id (model_settings m)) node "" = Some n
    /\ node_resources m !! make_id (fields_seed_id (model_settings m)) device "" = Some d
    /\ presentation n = (fields_node_label s, fields_node_description s, fields_node_tags s)
    /\ presentation d
       = (fields_device_label s, fields_device_description s, fields_device_tags s).

(** * The connection activation handler *)

(** [std::vector::resize(n, x)]. *)
Definition resize {A} (n : nat) (x : A) (xs : list A) : list A :=
  take n xs ++ replicate (n - length xs) x.

(** The session parameters of an activation, adjusted to the number of
    legs of the [/active] transport parameters: a single-legged SDP file
    applied to a connection with several legs is duplicated.  The session
    version is updated in every case. *)
Definition activation_sdp_parameters (e : env) (transport_params : list value)
    (sdp_params : sdp_parameters) : sdp_parameters :=
  let sdp_params :=
    if (1 <? length transport_params)%nat then
      let media_stream_ids :=
        if (length (group_media_stream_ids sdp_params) <? length transport_params)%nat
        then map (fun index => to_string_t (Z.of_nat index)) (seq 0 (length transport_params))
        else group_media_stream_ids sdp_params in
      let sdp_params := set_group group_semantics_duplication media_stream_ids sdp_params in
      match ts_refclk sdp_params with
      | [] => sdp_params
      | front :: _ =>
          (* passing a "self referencing" value is OK *)
          set_ts_refclk (resize (length transport_params) front (ts_refclk sdp_params))
            sdp_params
      end
    else sdp_params in
  (* update session version since the resulting SDP data isn't necessarily identical to
     the original sender's /transportfile or receiver's /active transport_file object *)
  set_origin_session_version (Z.shiftr (ntp_now e) 32) sdp_params.

(** The arguments with which the handler calls [rtp_connection_activated],
    if it does: the internal id and the SDP data, empty for a
    deactivation. *)
Definition connection_activation_arguments (L : nmos_cpp) (e : env)
    (resource_ : resource) (connection_resource_ : connection_resource)
  : M (option (string * string)) :=
  let id_type := (resource_id resource_, resource_type resource_) in
  slog info ("Activating " +:+ id_type_text L id_type) ;;;
  do m <- get_model;
  let settings_ := model_settings m in
  let configs :=
    if decide (sender = resource_type resource_)
    then fields_settings_senders settings_ else fields_settings_receivers settings_ in
  let config := assoc_get (resource_id resource_) configs in
  let is_rtp := String.eqb transports_rtp (transport_base L (fields_transport resource_)) in
  match config with
  | Some config_sdp =>
      if is_rtp then
        let internal_id := get_internal_id resource_ in
        let endpoint_active := fields_endpoint_active connection_resource_ in
        (* determine the new state of the sender or receiver *)
        let active := fields_master_enable endpoint_active in
        if active then
          (* get the active transport file from the sender's /transportfile endpoint or
             receiver's /active transport_file object *)
          let transportfile :=
            if decide (sender = id_type.2)
            then fields_endpoint_transportfile connection_resource_
            else fields_transport_file endpoint_active in
          let transportfile_data_or_null := value_get "data" transportfile in
          (* if a transport file hasn't been staged to a receiver, or a sender hasn't been
             activated, assume default values based on the original SDP data *)
          do transportfile_data <-
            lift (match transportfile_data_or_null with
                  | Null => Ok config_sdp
                  | data => s ← as_string data; Ok (if String.eqb s "" then config_sdp else s)
                  end);
          let transport_params := fields_transport_params endpoint_active in
          do parsed_sdp <- lift (parse_session_description L transportfile_data);
          do sdp_params <- lift (get_session_description_sdp_parameters L parsed_sdp);
          let sdp_params := activation_sdp_parameters e transport_params sdp_params in
          let group_hint := get_group_hint resource_ in
          let session_info := fields_description resource_ in
          do merged_sdp <-
            lift (make_session_description L id_type.2 internal_id group_hint session_info
                    sdp_params transport_params);
          let sdp_data := sdp_make_session_description L merged_sdp in
          ret (Some (internal_id, sdp_data))
        else
          (* deactivate sender or receiver *)
          ret (Some (internal_id, ""))
      else ret None
  | None => ret None
  end.

(** The callback that [server::server] hands to the node implementation:
    [activated] is the function of the configuration, if there is one; it
    gets a null SDP when the text is empty, and a warning is logged when it
    returns false. *)
Definition rtp_connection_activated (activated : option (string -> option string -> bool))
    (id sdp : string) : M unit :=
  match activated with
  | None => ret tt
  | Some activated =>
      let success := activated id (if negb (String.eqb sdp "") then Some sdp else None) in
      if negb success
      then slog warning ("Activation failed for internal id: " +:+ id)
      else ret tt
  end.

(** [make_node_implementation_connection_activation_handler]. *)
Definition connection_activation_handler (L : nmos_cpp) (e : env)
    (activated : option (string -> option string -> bool))
    (resource_ : resource) (connection_resource_ : connection_resource) : M unit :=
  do arguments <- connection_activation_arguments L e resource_ connection_resource_;
  match arguments with
  | Some (internal_id, sdp_data) => rtp_connection_activated activated internal_id sdp_data
  | None => ret tt
  end.

(** * Proofs *)

Local Open Scope M_scope.
Opaque uuid5.

(** ** SHA-1 and UUID version 5 against known values *)

Example sha1_abc :
  hex_of_bytes (SHA1.digest (bytes_of_string "abc"))
  = "a9993e364706816aba3e25717850c26c9cd0d89d".
Proof. vm_compute. reflexivity. Qed.

Example uuid5_dns_python_org :
  uuid5 "6ba7b810-9dad-11d1-80b4-00c04fd430c8" "python.org"
  = "886313e1-3b8a-5372-9b90-0c9aee199e5d".
Proof. vm_compute. reflexivity. Qed.

(** ** The C interface: destroying a server *)

(** C10. For every non-null server handle, [destroy_nmos_node_server]
    returns true and leaves [impl] null, also when [impl] is already null
    (a handle that was never created, or a second call), so the function is
    idempotent; it returns false only for a null handle. *)
Theorem destroy_nmos_node_server_idempotent (s : NvNmosNodeServer) :
  destroy_nmos_node_server (Some s) = (true, Some (set_impl None s))
  /\ impl (set_impl None s) = None
  /\ destroy_nmos_node_server (destroy_nmos_node_server (Some s)).2
     = destroy_nmos_node_server (Some s)
  /\ (forall server, (destroy_nmos_node_server server).1 = false <-> server = None).
Proof.
  repeat split.
  - intros H. destruct server as [s'|]; [discriminate H | reflexivity].
  - intros ->. reflexivity.
Qed.

(** ** Source-specific multicast addresses *)

Lemma land_255 (x : Z) : Z.land x 255 = x mod 256.
Proof. change 255 with (Z.ones 8). rewrite Z.land_ones by lia. reflexivity. Qed.

Lemma lor_1 (x : Z) : Z.lor x 1 = 2 * (x / 2) + 1.
Proof.
  apply Z.bits_inj'. intros n Hn.
  rewrite Z.lor_spec.
  destruct (Z.eq_dec n 0) as [->|Hne].
  - rewrite Z.testbit_odd_0. simpl. apply orb_true_r.
  - replace n with (Z.succ (n - 1)) by lia.
    rewrite Z.testbit_odd_succ by lia.
    rewrite Z.div2_bits by lia.
    assert (H1 : Z.testbit 1 (Z.succ (n - 1)) = false).
    { pose proof (Z.testbit_odd_succ 0 (n - 1) ltac:(lia)) as H0.
      change (2 * 0 + 1) with 1 in H0. rewrite H0. apply Z.testbit_0_l. }
    rewrite H1. apply orb_false_r.
Qed.

(** C9. The address of a sender's leg is a function of the hash of
    [sender_id + "/" + leg]: the low 32 bits of the hash in network order,
    with the first octet forced to 232 and the low bit of the third octet
    set; it lies between 232.0.1.0 and 232.255.255.255. *)
Theorem make_source_specific_multicast_address_v4_spec
    (hash : string -> Z) (id : string) (leg : Z) :
  let u := hash (id +:+ "/" +:+ to_string_t leg) mod 2 ^ 32 in
  let o1 := (u / 2 ^ 16) mod 256 in
  let o2 := Z.lor ((u / 2 ^ 8) mod 256) 1 in
  let o3 := u mod 256 in
  make_source_specific_multicast_bytes hash id leg = [232; o1; o2; o3]
  /\ make_source_specific_multicast_address_v4 hash id leg
     = "232." +:+ to_string_t o1 +:+ "." +:+ to_string_t o2 +:+ "." +:+ to_string_t o3
  /\ 0 <= o1 <= 255 /\ 1 <= o2 <= 255 /\ Z.odd o2 = true /\ 0 <= o3 <= 255
  /\ 232 * 2 ^ 24 + 0 * 2 ^ 16 + 1 * 2 ^ 8 + 0
     <= 232 * 2 ^ 24 + o1 * 2 ^ 16 + o2 * 2 ^ 8 + o3
     <= 232 * 2 ^ 24 + 255 * 2 ^ 16 + 255 * 2 ^ 8 + 255.
Proof.
  intros u o1 o2 o3.
  assert (Hb : make_source_specific_multicast_bytes hash id leg = [232; o1; o2; o3]).
  { unfold make_source_specific_multicast_bytes, address_v4_to_bytes.
    fold u. cbn [list_insert insert nth].
    rewrite !land_255, !Z.shiftr_div_pow2 by lia. reflexivity. }
  assert (H1 : 0 <= o1 <= 255).
  { pose proof (Z.mod_pos_bound (u / 2 ^ 16) 256 eq_refl). subst o1. lia. }
  assert (H3 : 0 <= o3 <= 255).
  { pose proof (Z.mod_pos_bound u 256 eq_refl). subst o3. lia. }
  assert (H2 : 1 <= o2 <= 255 /\ Z.odd o2 = true).
  { subst o2. rewrite lor_1.
    pose proof (Z.mod_pos_bound (u / 2 ^ 8) 256 eq_refl) as Hm.
    generalize dependent ((u / 2 ^ 8) mod 256). intros y Hy.
    split.
    - assert (0 <= y / 2) by (apply Z.div_pos; lia).
      assert (y / 2 < 128) by (apply Z.div_lt_upper_bound; lia).
      lia.
    - rewrite Z.add_comm, Z.odd_add_mul_2. reflexivity. }
  split; [exact Hb|].
  split.
  { unfold make_source_specific_multicast_address_v4. rewrite Hb.
    unfold address_v4_to_string. cbn [nth]. reflexivity. }
  repeat split; try lia; try tauto.
Qed.

(** ** Identifiers *)

(** C1 fails as stated: with the seed of the example application the node
    id is not the UUID of its name in the fixed namespace. *)
Lemma make_id_fixed_namespace_counterexample :
  exists s,
    make_settings Reference.lib Reference.config = Ok s
    /\ make_id (fields_seed_id s) node "" = "898d6e75-a4aa-54bc-acad-a04ea404b4af"
    /\ spec_id node "" = "cb7ba5aa-7359-56b4-a8ff-61a2aeb168ba"
    /\ make_id (fields_seed_id s) node "" <> spec_id node "".
Proof.
  eexists. split; [reflexivity|].
  split; [vm_compute; reflexivity|].
  split; [vm_compute; reflexivity|].
  vm_compute. discriminate.
Qed.

(** C1, amended. The identifier is the version-5 UUID of
    ["/x-nmos/node/" + kind + "/" + internal_id] in the namespace [seed_id],
    and [seed_id] is the version-5 UUID of the seed string in the fixed
    namespace 18daddcf-a234-4f59-808a-dbf6a42e17bb; two servers configured
    with the same seed derive the same identifier. *)
Theorem make_id_seeded (L : nmos_cpp) (config : NvNmosNodeConfig) (seed : string)
    (s : settings) (t : type) (internal_id : string) :
  config_seed config = Some seed ->
  make_settings L config = Ok s ->
  make_id (fields_seed_id s) t internal_id
  = uuid5 (uuid5 "18daddcf-a234-4f59-808a-dbf6a42e17bb" seed)
          ("/x-nmos/node/" +:+ type_name t +:+ "/" +:+ internal_id)
  /\ (forall L' config' s',
        config_seed config' = Some seed ->
        make_settings L' config' = Ok s' ->
        make_id (fields_seed_id s') t internal_id = make_id (fields_seed_id s) t internal_id).
Proof.
  assert (Hseed : forall L0 c0 s0, config_seed c0 = Some seed -> make_settings L0 c0 = Ok s0 ->
                    fields_seed_id s0 = make_repeatable_id seed_namespace_id seed).
  { intros L0 c0 s0 Hc Hm. unfold make_settings in Hm. rewrite Hc in Hm.
    destruct (existsb _ _); [discriminate|]. injection Hm as <-. reflexivity. }
  intros Hc Hm. split.
  - rewrite (Hseed _ _ _ Hc Hm). reflexivity.
  - intros L' config' s' Hc' Hm'.
    rewrite (Hseed _ _ _ Hc Hm), (Hseed _ _ _ Hc' Hm'). reflexivity.
Qed.

Lemma make_id_seeded_witness :
  exists s,
    make_settings Reference.lib Reference.config = Ok s
    /\ make_id (fields_seed_id s) sender "sink-0"
       = uuid5 (uuid5 "18daddcf-a234-4f59-808a-dbf6a42e17bb" "nmos-api.local:8080")
               "/x-nmos/node/sender/sink-0".
Proof.
  eexists. split; [reflexivity|].
  exact (proj1 (make_id_seeded Reference.lib Reference.config "nmos-api.local:8080" _
                  sender "sink-0" eq_refl eq_refl)).
Defined.

(** ** The node clock *)

Lemma string_find_app_colon (g rest : string) :
  string_find ":" g = None ->
  string_find ":" (g +:+ String ":" rest) = Some (String.length g).
Proof.
  induction g as [|c g IH]; simpl; intros H.
  - reflexivity.
  - destruct (Ascii.eqb c ":"); [discriminate|].
    destruct (string_find ":" g); [discriminate|].
    rewrite IH by reflexivity. reflexivity.
Qed.

Lemma substring_all (s : string) : substring 0 (String.length s) s = s.
Proof. induction s as [|c s IH]; simpl; [reflexivity | by rewrite IH]. Qed.

Lemma substring_prefix_app (g r : string) : substring 0 (String.length g) (g +:+ r) = g.
Proof.
  induction g as [|c g IH]; simpl.
  - destruct r; reflexivity.
  - by rewrite IH.
Qed.

Lemma length_app_colon (g d : string) :
  String.length (g +:+ String ":" d) = (String.length g + 1 + String.length d)%nat.
Proof. induction g as [|c g IH]; simpl; [reflexivity | rewrite IH; lia]. Qed.

Lemma substr_from_app_colon (g d : string) :
  substr_from (String.length g + 1) (g +:+ String ":" d) = d.
Proof.
  unfold substr_from. rewrite length_app_colon.
  replace (String.length g + 1 + String.length d - (String.length g + 1))%nat
    with (String.length d) by lia.
  induction g as [|c g IH]; simpl.
  - apply substring_all.
  - exact IH.
Qed.

Lemma find_app_first {A} (f : A -> bool) (pre post : list A) (t : A) :
  Forall (fun x => f x = false) pre -> f t = true ->
  List.find f (pre ++ t :: post) = Some t.
Proof.
  induction 1 as [|x pre Hx _ IH]; simpl; intros Ht.
  - by rewrite Ht.
  - rewrite Hx. by apply IH.
Qed.

Lemma find_none_forall {A} (f : A -> bool) (l : list A) :
  Forall (fun x => f x = false) l -> List.find f l = None.
Proof. induction 1 as [|x l Hx _ IH]; simpl; [reflexivity | by rewrite Hx]. Qed.

Lemma existsb_Exists {A} (f : A -> bool) (l : list A) :
  Exists (fun x => f x = true) l -> existsb f l = true.
Proof.
  induction 1 as [x l Hx | x l _ IH]; simpl.
  - by rewrite Hx.
  - rewrite IH. apply orb_true_r.
Qed.

(** C7 fails as stated: a PTP reference in the second leg only is not
    used, nor is one of another PTP version. *)
Lemma make_node_clock_any_leg_counterexample :
  let localmac := {| clock_source := "localmac"; ptp_version := ""; ptp_server := "";
                     mac_address := "CA-FE-01-CA-FE-02" |} in
  let ptp := {| clock_source := "ptp"; ptp_version := "IEEE1588-2008";
                ptp_server := "AC-DE-48-23-45-67-01-9F:42"; mac_address := "" |} in
  let ptp_2002 := {| clock_source := "ptp"; ptp_version := "IEEE1588-2002";
                     ptp_server := "AC-DE-48-23-45-67-01-9F:42"; mac_address := "" |} in
  make_node_clock Reference.read_int clk0 [[localmac]; [ptp]] 0 = (make_internal_clock clk0, 0)
  /\ make_node_clock Reference.read_int clk0 [[ptp_2002]] 0 = (make_internal_clock clk0, 0).
Proof. split; reflexivity. Qed.

(** C7, amended. The clock is made from the references of the first leg
    only, and only IEEE1588-2008 PTP references count.  If the first such
    reference with a grandmaster is [ptp=IEEE1588-2008:<gmid>[:<domain>]],
    the clock is a PTP clock with the lower-case gmid and the domain is the
    parsed one when present, otherwise the carried-over one; if the leg has
    no such reference but a traceable one, the clock is PTP with gmid
    ff-ff-ff-ff-ff-ff-ff-ff and traceable; if the leg has only localmac
    references (or there is no leg), the clock is internal. *)
Theorem make_node_clock_first_leg (iss : string -> Z -> Z) (name : string)
    (leg : list ts_refclk_t) (legs : list (list ts_refclk_t)) (ptp_domain : Z) :
  let r := make_node_clock iss name (leg :: legs) ptp_domain in
  (forall pre t post gmid,
      leg = pre ++ t :: post ->
      Forall (fun x => is_ptp_with_server x = false) pre ->
      clock_source t = "ptp" -> ptp_version t = "IEEE1588-2008" ->
      gmid <> "" -> string_find ":" gmid = None ->
      (ptp_server t = gmid ->
       r = (make_ptp_clock name (existsb is_ptp_traceable leg) (to_lower_copy gmid) true,
            ptp_domain))
      /\ (forall domain,
            ptp_server t = gmid +:+ ":" +:+ domain ->
            r = (make_ptp_clock name (existsb is_ptp_traceable leg) (to_lower_copy gmid) true,
                 iss domain ptp_domain)))
  /\ (Forall (fun x => is_ptp_with_server x = false) leg ->
      Exists (fun x => is_ptp_traceable x = true) leg ->
      r = (make_ptp_clock name true "ff-ff-ff-ff-ff-ff-ff-ff" true, ptp_domain))
  /\ (Forall (fun x => clock_source x = "localmac") leg ->
      r = (make_internal_clock name, ptp_domain))
  /\ make_node_clock iss name [] ptp_domain = (make_internal_clock name, ptp_domain).
Proof.
  intros r. subst r. unfold make_node_clock.
  split; [|split; [|split]].
  - intros pre t post gmid -> Hpre Hsrc Hver Hne Hcolon.
    assert (Hgm : forall srv, ptp_server t = srv -> srv <> "" -> is_ptp_with_server t = true).
    { intros srv Hs Hn. unfold is_ptp_with_server. rewrite Hsrc, Hver, Hs.
      destruct (String.eqb_spec srv ""); [contradiction | reflexivity]. }
    split.
    + intros Hs. rewrite (find_app_first _ _ _ _ Hpre (Hgm _ Hs Hne)).
      rewrite Hs, Hcolon. reflexivity.
    + intros domain Hs.
      assert (Hn : gmid +:+ ":" +:+ domain <> "") by (destruct gmid; [contradiction | discriminate]).
      rewrite (find_app_first _ _ _ _ Hpre (Hgm _ Hs Hn)).
      rewrite Hs. change (":" +:+ domain) with (String ":" domain).
      rewrite (string_find_app_colon _ _ Hcolon). cbn [substr_to].
      rewrite substring_prefix_app, substr_from_app_colon. reflexivity.
  - intros Hnone Htr. rewrite (find_none_forall _ _ Hnone), (existsb_Exists _ _ Htr).
    reflexivity.
  - intros Hlocal.
    assert (Hnone : Forall (fun x => is_ptp_with_server x = false) leg).
    { eapply Forall_impl; [exact Hlocal|]. intros x Hx. unfold is_ptp_with_server.
      by rewrite Hx. }
    assert (Htr : existsb is_ptp_traceable leg = false).
    { clear -Hlocal. induction Hlocal as [|x l Hx _ IH]; simpl; [reflexivity|].
      rewrite IH. unfold is_ptp_traceable. by rewrite Hx. }
    rewrite (find_none_forall _ _ Hnone), Htr. reflexivity.
  - reflexivity.
Qed.

Lemma make_node_clock_first_leg_witness :
  let t := {| clock_source := "ptp"; ptp_version := "IEEE1588-2008";
              ptp_server := "AC-DE-48-23-45-67-01-9F:42"; mac_address := "" |} in
  let tr := {| clock_source := "ptp"; ptp_version := "IEEE1588-2008";
               ptp_server := ""; mac_address := "" |} in
  let lm := {| clock_source := "localmac"; ptp_version := ""; ptp_server := "";
               mac_address := "CA-FE-01-CA-FE-02" |} in
  make_node_clock Reference.read_int "clk0" [[t; tr]] 0
  = (make_ptp_clock "clk0" true "ac-de-48-23-45-67-01-9f" true, 42)
  /\ make_node_clock Reference.read_int "clk0" [[tr]] 7
     = (make_ptp_clock "clk0" true "ff-ff-ff-ff-ff-ff-ff-ff" true, 7)
  /\ make_node_clock Reference.read_int "clk0" [[lm]] 7 = (make_internal_clock "clk0", 7).
Proof.
  intros t tr lm.
  pose proof (make_node_clock_first_leg Reference.read_int "clk0" [t; tr] [] 0) as [H1 _].
  pose proof (make_node_clock_first_leg Reference.read_int "clk0" [tr] [] 7) as (_ & H2 & _).
  pose proof (make_node_clock_first_leg Reference.read_int "clk0" [lm] [] 7) as (_ & _ & H3 & _).
  split; [|split].
  - destruct (H1 [] t [tr] "AC-DE-48-23-45-67-01-9F" eq_refl ltac:(constructor) eq_refl eq_refl
                ltac:(discriminate) eq_refl) as [_ Hd].
    exact (Hd "42" eq_refl).
  - apply H2.
    + repeat constructor.
    + constructor. reflexivity.
  - apply H3. repeat constructor.
Defined.

(** ** Stores: basic facts *)

Lemma find_resource_Some (resources : gmap string resource) k t r :
  find_resource resources (k, t) = Some r <-> resources !! k = Some r /\ resource_type r = t.
Proof.
  unfold find_resource. simpl. destruct (resources !! k) as [r'|] eqn:Hk.
  - destruct (decide (resource_type r' = t)) as [Ht|Ht]; split.
    + intros [= ->]. done.
    + intros [[= ->] _]. done.
    + discriminate.
    + intros [[= ->] Ht']. contradiction.
  - split; [discriminate | intros [? _]; discriminate].
Qed.

Lemma find_resource_None (resources : gmap string resource) k t :
  find_resource resources (k, t) = None <->
  (forall r, resources !! k = Some r -> resource_type r <> t).
Proof.
  split.
  - intros H r Hr Ht. assert (find_resource resources (k, t) = Some r) as H'
      by (apply find_resource_Some; done). congruence.
  - intros H. destruct (find_resource resources (k, t)) as [r|] eqn:Hf; [|done].
    apply find_resource_Some in Hf as [Hr Ht]. by destruct (H r Hr).
Qed.

Lemma elem_of_resources_of_type (resources : gmap string resource) t r :
  r ∈ resources_of_type resources t <->
  (exists k, resources !! k = Some r) /\ resource_type r = t.
Proof.
  unfold resources_of_type. rewrite list_elem_of_filter, list_elem_of_fmap.
  split.
  - intros [Ht ([k r'] & -> & Hin)]. apply elem_of_map_to_list in Hin. eauto.
  - intros [[k Hk] Ht]. split; [done|]. exists (k, r). split; [done|].
    by apply elem_of_map_to_list.
Qed.

Lemma elem_of_bound_interface_names (resources : gmap string resource) x :
  x ∈ bound_interface_names resources <->
  exists k r, resources !! k = Some r
              /\ (resource_type r = sender \/ resource_type r = receiver)
              /\ x ∈ fields_interface_bindings r.
Proof.
  unfold bound_interface_names.
  rewrite elem_of_union, !elem_of_list_to_set, !list_elem_of_In, !in_flat_map.
  split.
  - intros [(r & Hr & Hx) | (r & Hr & Hx)];
      apply list_elem_of_In, elem_of_resources_of_type in Hr as [[k Hk] Ht];
      exists k, r; rewrite list_elem_of_In; eauto.
  - intros (k & r & Hk & [Ht|Ht] & Hx); [left | right]; exists r;
      rewrite <- !list_elem_of_In; (split; [|done]);
      apply elem_of_resources_of_type; eauto.
Qed.

(** Replacing a resource by one of the same shape does not change the
    bound names. *)
Lemma bound_interface_names_insert_same (resources : gmap string resource) k r r' :
  resources !! k = Some r -> shape r' = shape r ->
  bound_interface_names (<[k := r']> resources) = bound_interface_names resources.
Proof.
  intros Hk Hs. apply set_eq. intros x. rewrite !elem_of_bound_interface_names.
  unfold shape in Hs. injection Hs as _ Ht _ _ _ Hb.
  split.
  - intros (k0 & r0 & Hk0 & Ht0 & Hx). destruct (decide (k = k0)) as [->|Hne].
    + rewrite lookup_insert_eq in Hk0. injection Hk0 as <-.
      exists k0, r. rewrite <- Ht, <- Hb. done.
    + rewrite lookup_insert_ne in Hk0 by done. eauto.
  - intros (k0 & r0 & Hk0 & Ht0 & Hx). destruct (decide (k = k0)) as [->|Hne].
    + exists k0, r'. rewrite lookup_insert_eq. rewrite Hk in Hk0. injection Hk0 as <-.
      rewrite Ht, Hb. done.
    + exists k0, r0. rewrite lookup_insert_ne by done. done.
Qed.

Lemma modify_resource_Some {A} erases (st : gmap string A) id (f : A -> A) r :
  st !! id = Some r ->
  modify_resource erases st id (fun x => (Ok tt, f x)) = (Ok true, <[id := f r]> st).
Proof. intros H. unfold modify_resource. by rewrite H. Qed.

Lemma modify_resource_None {A} erases (st : gmap string A) id
    (f : A -> result unit * A) :
  st !! id = None -> modify_resource erases st id f = (Ok false, st).
Proof. intros H. unfold modify_resource. by rewrite H. Qed.

(** *** Collisions *)

Lemma NoDup_fmap_inj {A B} (f : A -> B) (l : list A) x y :
  NoDup (f <$> l) -> x ∈ l -> y ∈ l -> f x = f y -> x = y.
Proof.
  induction l as [|a l IH]; simpl; intros Hnd Hx Hy Hf.
  - by apply elem_of_nil in Hx.
  - apply NoDup_cons in Hnd as [Ha Hnd].
    apply elem_of_cons in Hx as [->|Hx]; apply elem_of_cons in Hy as [->|Hy].
    + done.
    + destruct Ha. rewrite Hf. by apply list_elem_of_fmap_2.
    + destruct Ha. rewrite <- Hf. by apply list_elem_of_fmap_2.
    + by apply IH.
Qed.

Lemma elem_of_derivations U t i : i ∈ "" :: U -> (t, i) ∈ derivations U.
Proof.
  intros Hi. unfold derivations. apply list_elem_of_bind. exists t. split.
  - apply list_elem_of_bind. exists i. split; [apply list_elem_of_singleton; done|].
    by apply elem_of_remove_dups.
  - unfold all_types. destruct t; repeat constructor.
Qed.

Lemma collision_free_inj seed_id U t t' i i' :
  collision_free seed_id U -> i ∈ "" :: U -> i' ∈ "" :: U ->
  make_id seed_id t i = make_id seed_id t' i' -> t = t' /\ i = i'.
Proof.
  intros Hcf Hi Hi' Heq.
  assert ((t, i) = (t', i')) as [= -> ->]; [|done].
  eapply (NoDup_fmap_inj (fun p => make_id seed_id p.1 p.2)); [exact Hcf | | | exact Heq];
    by apply elem_of_derivations.
Qed.

(** *** Shapes *)

Lemma shape_set_version x r : shape (set_version x r) = shape r.
Proof. reflexivity. Qed.
Lemma shape_set_label x r : shape (set_label x r) = shape r.
Proof. reflexivity. Qed.
Lemma shape_set_description x r : shape (set_description x r) = shape r.
Proof. reflexivity. Qed.
Lemma shape_set_tags x r : shape (set_tags x r) = shape r.
Proof. reflexivity. Qed.
Lemma shape_set_senders x r : shape (set_senders x r) = shape r.
Proof. reflexivity. Qed.
Lemma shape_set_receivers x r : shape (set_receivers x r) = shape r.
Proof. reflexivity. Qed.
Lemma shape_set_interfaces x r : shape (set_interfaces x r) = shape r.
Proof. reflexivity. Qed.
Lemma shape_set_clocks x r : shape (set_clocks x r) = shape r.
Proof. reflexivity. Qed.
Lemma shape_set_other k x r : shape (set_other k x r) = shape r.
Proof. reflexivity. Qed.
Lemma shape_set_internal_id x r : shape (set_internal_id x r) = shape r.
Proof. reflexivity. Qed.
Lemma shape_set_group_hint x r : shape (set_group_hint x r) = shape r.
Proof. reflexivity. Qed.
Lemma shape_set_caps_constraint_sets x r : shape (set_caps_constraint_sets x r) = shape r.
Proof. reflexivity. Qed.
Lemma shape_set_caps_version x r : shape (set_caps_version x r) = shape r.
Proof. reflexivity. Qed.

Lemma shape_eq r r' :
  shape r' = shape r ->
  resource_id r' = resource_id r /\ resource_type r' = resource_type r
  /\ fields_flow_id r' = fields_flow_id r /\ fields_source_id r' = fields_source_id r
  /\ fields_device_id r' = fields_device_id r
  /\ fields_interface_bindings r' = fields_interface_bindings r.
Proof. unfold shape. intros [= -> -> -> -> -> ->]. done. Qed.

(** *** The node's interfaces and clocks *)

Lemma update_node_interfaces_found L version nid hs (resources : gmap string resource) n :
  resources !! nid = Some n -> resource_type n = node ->
  exists n',
    update_node_interfaces L version nid hs resources = (Ok tt, <[nid := n']> resources)
    /\ fields_interfaces n' = node_interfaces_for L hs resources
    /\ shape n' = shape n /\ fields_clocks n' = fields_clocks n
    /\ (n' = n \/ n' = set_interfaces (node_interfaces_for L hs resources) (set_version version n))
    /\ (node_interfaces_for L hs resources = fields_interfaces n -> n' = n).
Proof.
  intros Hn Ht. unfold update_node_interfaces.
  assert (Hf : find_resource resources (nid, node) = Some n) by (by apply find_resource_Some).
  rewrite Hf. fold (node_interfaces_for L hs resources).
  destruct (decide (node_interfaces_for L hs resources <> fields_interfaces n)) as [Hne|He].
  - rewrite (modify_resource_Some _ _ _
               (fun n0 => set_interfaces (node_interfaces_for L hs resources)
                            (set_version version n0)) n Hn).
    eexists. split; [reflexivity|]. repeat split; auto. intros; contradiction.
  - apply dec_stable in He. exists n. rewrite insert_id by done. repeat split; auto.
Qed.

Lemma update_node_interfaces_missing L version nid hs (resources : gmap string resource) :
  find_resource resources (nid, node) = None ->
  update_node_interfaces L version nid hs resources
  = (Throw node_implementation_exception, resources).
Proof. intros H. unfold update_node_interfaces. by rewrite H. Qed.

Lemma find_replace_clock c cs :
  is_Some (List.find (fun c' => String.eqb (clock_fields_name c) (clock_fields_name c')) cs) ->
  is_Some (List.find (fun c' => String.eqb (clock_fields_name c) (clock_fields_name c'))
                     (replace_clock c cs)).
Proof.
  induction cs as [|a cs IH]; simpl; [done|].
  destruct (String.eqb (clock_fields_name c) (clock_fields_name a)) eqn:E.
  - intros _. simpl. rewrite String.eqb_refl. eauto.
  - intros H. simpl. rewrite E. by apply IH.
Qed.

Lemma update_node_clock_found L version nid c (resources : gmap string resource) n :
  resources !! nid = Some n -> resource_type n = node ->
  is_Some (List.find (fun c' => String.eqb (clock_fields_name c) (clock_fields_name c'))
                     (fields_clocks n)) ->
  exists n',
    update_node_clock L version nid c resources = (Ok tt, <[nid := n']> resources)
    /\ fields_interfaces n' = fields_interfaces n
    /\ shape n' = shape n
    /\ is_Some (List.find (fun c' => String.eqb (clock_fields_name c) (clock_fields_name c'))
                          (fields_clocks n'))
    /\ (n' = n \/ n' = set_clocks (replace_clock c (fields_clocks n)) (set_version version n)).
Proof.
  intros Hn Ht [c0 Hc]. unfold update_node_clock.
  assert (Hf : find_resource resources (nid, node) = Some n) by (by apply find_resource_Some).
  rewrite Hf, Hc.
  destruct (decide (c <> c0)) as [Hne|He].
  - rewrite (modify_resource_Some _ _ _
               (fun n0 => set_clocks (replace_clock c (fields_clocks n0))
                            (set_version version n0)) n Hn).
    eexists. split; [reflexivity|]. repeat split; auto.
    simpl. apply find_replace_clock. eauto.
  - exists n. rewrite insert_id by done. repeat split; eauto.
Qed.

Lemma update_node_clock_unchanged_or_throw L version nid c (resources : gmap string resource) :
  (forall n, resources !! nid = Some n -> resource_type n = node ->
             List.find (fun c' => String.eqb (clock_fields_name c) (clock_fields_name c'))
                       (fields_clocks n) = None) ->
  update_node_clock L version nid c resources
  = (Throw node_implementation_exception, resources).
Proof.
  intros H. unfold update_node_clock.
  destruct (find_resource resources (nid, node)) as [n|] eqn:Hf; [|done].
  apply find_resource_Some in Hf as [Hn Ht]. by rewrite (H n Hn Ht).
Qed.

Lemma make_node_clock_name iss name ts d :
  clock_fields_name (make_node_clock iss name ts d).1 = name.
Proof.
  unfold make_node_clock. destruct ts as [|leg legs]; [done|].
  destruct (List.find _ leg); [done|]. by destruct (negb _).
Qed.

(** *** Stores that differ by resources of the same shape *)

Lemma same_shapes_refl st : same_shapes st st.
Proof. intros k. destruct (st !! k); constructor. reflexivity. Qed.

Lemma same_shapes_trans st1 st2 st3 :
  same_shapes st1 st2 -> same_shapes st2 st3 -> same_shapes st1 st3.
Proof.
  intros H12 H23 k. specialize (H12 k). specialize (H23 k).
  destruct H12 as [r1 r2 H|]; inversion H23; subst; constructor. congruence.
Qed.

Lemma same_shapes_insert st k r r' :
  st !! k = Some r -> shape r' = shape r -> same_shapes st (<[k := r']> st).
Proof.
  intros Hk Hs k0. destruct (decide (k = k0)) as [->|Hne].
  - rewrite lookup_insert_eq, Hk. by constructor.
  - rewrite lookup_insert_ne by done. apply same_shapes_refl.
Qed.

Lemma same_shapes_alter st k f :
  (forall r, shape (f r) = shape r) -> same_shapes st (alter f k st).
Proof.
  intros Hf k0. rewrite lookup_alter. destruct (decide (k = k0)) as [->|Hne].
  - destruct (st !! k0); constructor. apply Hf.
  - destruct (st !! k0); constructor. reflexivity.
Qed.

Lemma same_shapes_Some st st' k r' :
  same_shapes st st' -> st' !! k = Some r' -> exists r, st !! k = Some r /\ shape r' = shape r.
Proof. intros H Hk. specialize (H k). rewrite Hk in H. inversion H; subst. eauto. Qed.

Lemma same_shapes_Some_l st st' k r :
  same_shapes st st' -> st !! k = Some r -> exists r', st' !! k = Some r' /\ shape r' = shape r.
Proof. intros H Hk. specialize (H k). rewrite Hk in H. inversion H; subst. eauto. Qed.

Lemma same_shapes_is_Some st st' k :
  same_shapes st st' -> is_Some (st !! k) <-> is_Some (st' !! k).
Proof.
  intros H. specialize (H k). split; intros [x Hx]; rewrite Hx in H; inversion H; eauto.
Qed.

Lemma same_shapes_bound_interface_names st st' :
  same_shapes st st' -> bound_interface_names st' = bound_interface_names st.
Proof.
  intros H. apply set_eq. intros x. rewrite !elem_of_bound_interface_names.
  split.
  - intros (k & r' & Hk & Ht & Hx).
    destruct (same_shapes_Some _ _ _ _ H Hk) as (r & Hr & Hs).
    apply shape_eq in Hs as (_ & Hty & _ & _ & _ & Hb).
    exists k, r. rewrite <- Hty, <- Hb. done.
  - intros (k & r & Hk & Ht & Hx).
    destruct (same_shapes_Some_l _ _ _ _ H Hk) as (r' & Hr & Hs).
    apply shape_eq in Hs as (_ & Hty & _ & _ & _ & Hb).
    exists k, r'. rewrite Hty, Hb. done.
Qed.

Lemma resource_ok_same_shapes seed_id U st st' k r r' :
  same_shapes st st' -> shape r' = shape r ->
  resource_ok seed_id U st k r -> resource_ok seed_id U st' k r'.
Proof.
  intros H Hs. apply shape_eq in Hs as (_ & Hty & Hfl & Hsrc & Hdev & _).
  unfold resource_ok. rewrite Hty, Hfl, Hsrc, Hdev.
  destruct (resource_type r); try done.
  - intros (i & Hi & -> & Hsid & Hsome). exists i. repeat split; try done.
    by apply (same_shapes_is_Some _ _ _ H).
  - intros (i & Hi & -> & Hf & Hd & Hsome). exists i. repeat split; try done.
    by apply (same_shapes_is_Some _ _ _ H).
Qed.

Lemma resources_ok_same_shapes seed_id U st st' :
  same_shapes st st' ->
  (forall k r, st !! k = Some r -> resource_ok seed_id U st k r) ->
  (forall k r, st' !! k = Some r -> resource_ok seed_id U st' k r).
Proof.
  intros H Hok k r' Hk. destruct (same_shapes_Some _ _ _ _ H Hk) as (r & Hr & Hs).
  eapply resource_ok_same_shapes; eauto.
Qed.

Lemma bindings_on_host_same_shapes hs st st' :
  same_shapes st st' -> bindings_on_host hs st -> bindings_on_host hs st'.
Proof.
  intros H Hb k r' b Hk Ht Hx.
  destruct (same_shapes_Some _ _ _ _ H Hk) as (r & Hr & Hs).
  apply shape_eq in Hs as (_ & Hty & _ & _ & _ & Hbind).
  apply (Hb k r b Hr); [by rewrite <- Hty | by rewrite <- Hbind].
Qed.

(** ** Removing a sender or receiver *)

(** Unfolds the monad of the model. *)
Ltac munfold :=
  unfold bind, ret, throw, lift, get_model, modify_model, modify_settings,
    on_node_resources, on_connection_resources, slog,
    insert_node_resource, insert_connection_resource in *.

Lemma modify_resource_alter {A} erases (st : gmap string A) id
    (modifier : A -> result unit * A) (f : A -> A) :
  (forall x, modifier x = (Ok tt, f x)) ->
  exists b, modify_resource erases st id modifier = (Ok b, alter f id st).
Proof.
  intros Hm. unfold modify_resource. destruct (st !! id) as [r|] eqn:E.
  - rewrite Hm. exists true. f_equal. apply map_eq. intros k. rewrite lookup_alter.
    destruct (decide (id = k)) as [->|Hne].
    + by rewrite lookup_insert_eq, E.
    + by rewrite lookup_insert_ne.
  - exists false. f_equal. apply map_eq. intros k. rewrite lookup_alter.
    destruct (decide (id = k)) as [->|Hne]; [by rewrite E | done].
Qed.

Lemma shape_remove_ref t id version d : shape (remove_ref t id version d) = shape d.
Proof. unfold remove_ref. destruct (existsb _ _); [|done]. by destruct (decide _). Qed.

Section Removal.
Context (L : nmos_cpp).

Lemma remove_connection_found t internal_id hs version m r :
  let seed_id := fields_seed_id (model_settings m) in
  let id := make_id seed_id t internal_id in
  find_resource (node_resources m) (id, t) = Some r ->
  node_implementation_remove_connection_ L t internal_id hs version m
  = let nr := after_removal t id version r (node_resources m) in
    let '(res, nr') := update_node_interfaces L version (make_id seed_id node "") hs nr in
    let m' := {| node_resources := nr';
                 connection_resources := delete id (connection_resources m);
                 model_settings := model_settings m;
                 gate := gate m |} in
    match res with
    | Ok _ =>
        (Ok tt,
         set_model_settings
           (if decide (sender = t)
            then set_settings_senders
                   (assoc_erase id (fields_settings_senders (model_settings m)))
                   (model_settings m)
            else set_settings_receivers
                   (assoc_erase id (fields_settings_receivers (model_settings m)))
                   (model_settings m)) m')
    | Throw ex => (Throw ex, m')
    end.
Proof.
  intros seed_id id Hf.
  unfold node_implementation_remove_connection_. munfold.
  fold seed_id. fold id. rewrite Hf.
  unfold after_removal, removal_refs, erase_unless_empty, erase_resource.
  cbn [node_resources connection_resources model_settings gate set_connection_resources
       set_node_resources set_model_settings fst snd].
  set (refs := if decide (sender = resource_type r) then _ else _).
  destruct refs as [fl src].
  cbn [fst snd].
  destruct (String.eqb fl ""), (String.eqb src "");
    cbn [negb node_resources connection_resources model_settings gate
         set_connection_resources set_node_resources set_model_settings];
    match goal with
    | |- context [modify_resource ?e ?st ?k ?f] =>
        destruct (modify_resource_alter e st k f (remove_ref t id version)) as [b Hb];
          [intros x; unfold remove_ref; destruct (existsb _ _); reflexivity|]
    end;
    rewrite Hb;
    cbn [node_resources connection_resources model_settings gate
         set_connection_resources set_node_resources set_model_settings];
    destruct (update_node_interfaces _ _ _ _ _) as [[[]|ex] nr']; reflexivity.
Qed.

Lemma remove_connection_missing t internal_id hs version m :
  let seed_id := fields_seed_id (model_settings m) in
  find_resource (node_resources m) (make_id seed_id t internal_id, t) = None ->
  node_implementation_remove_connection_ L t internal_id hs version m
  = (Throw node_implementation_exception,
     set_gate (gate m ++ [(error, "Could not find " +:+ type_name t
                                    +:+ " with internal id: " +:+ internal_id)]) m).
Proof.
  intros seed_id Hf.
  unfold node_implementation_remove_connection_. munfold.
  fold seed_id. rewrite Hf. reflexivity.
Qed.
End Removal.

(** ** Well-formed models: what they contain *)

Transparent uuid5.
Lemma make_id_nonempty seed_id t i : make_id seed_id t i <> "".
Proof.
  unfold make_id, make_repeatable_id, uuid5, uuid_to_string.
  destruct (hex_of_bytes _); discriminate.
Qed.
Opaque uuid5.

Section WellFormed.
Context (U : list string) (m : node_model).
Let seed_id := fields_seed_id (model_settings m).
Hypothesis Hcf : collision_free seed_id U.
Hypothesis Hwf : wf U m.

Lemma wf_key_type t i r :
  i ∈ "" :: U -> node_resources m !! make_id seed_id t i = Some r -> resource_type r = t.
Proof.
  intros Hi Hk. pose proof (wf_resources _ _ Hwf _ _ Hk) as Hok.
  unfold resource_ok in Hok. fold seed_id in Hok.
  assert (He : "" ∈ "" :: U) by constructor.
  destruct (resource_type r) eqn:Ht.
  - by destruct (collision_free_inj _ _ _ _ _ _ Hcf Hi He Hok) as [-> _].
  - by destruct (collision_free_inj _ _ _ _ _ _ Hcf Hi He Hok) as [-> _].
  - destruct Hok as (j & Hj & Hok).
    by destruct (collision_free_inj _ _ _ _ _ _ Hcf Hi (list_elem_of_further _ _ _ Hj) Hok)
      as [-> _].
  - destruct Hok as (j & Hj & Hok & _).
    by destruct (collision_free_inj _ _ _ _ _ _ Hcf Hi (list_elem_of_further _ _ _ Hj) Hok)
      as [-> _].
  - destruct Hok as (j & Hj & Hok & _).
    by destruct (collision_free_inj _ _ _ _ _ _ Hcf Hi (list_elem_of_further _ _ _ Hj) Hok)
      as [-> _].
  - destruct Hok as (j & Hj & Hok & _).
    by destruct (collision_free_inj _ _ _ _ _ _ Hcf Hi (list_elem_of_further _ _ _ Hj) Hok)
      as [-> _].
Qed.

Lemma wf_flow i fl :
  i ∈ U -> node_resources m !! make_id seed_id flow i = Some fl ->
  resource_type fl = flow
  /\ fields_source_id fl = make_id seed_id source i
  /\ exists src, node_resources m !! make_id seed_id source i = Some src
                 /\ resource_type src = source.
Proof.
  intros Hi Hk.
  pose proof (wf_key_type flow i fl (list_elem_of_further _ _ _ Hi) Hk) as Ht.
  pose proof (wf_resources _ _ Hwf _ _ Hk) as Hok.
  unfold resource_ok in Hok. rewrite Ht in Hok. fold seed_id in Hok.
  destruct Hok as (j & Hj & Hkj & Hsrc & [src Hs]).
  destruct (collision_free_inj _ _ _ _ _ _ Hcf (list_elem_of_further _ _ _ Hi)
              (list_elem_of_further _ _ _ Hj) Hkj) as [_ <-].
  repeat split; try done. exists src. split; [done|].
  by apply (wf_key_type source i src (list_elem_of_further _ _ _ Hi)).
Qed.

Lemma wf_sender i r :
  i ∈ U -> node_resources m !! make_id seed_id sender i = Some r ->
  resource_type r = sender
  /\ fields_flow_id r = Some (make_id seed_id flow i)
  /\ fields_device_id r = make_id seed_id device ""
  /\ exists fl, node_resources m !! make_id seed_id flow i = Some fl.
Proof.
  intros Hi Hk.
  pose proof (wf_key_type sender i r (list_elem_of_further _ _ _ Hi) Hk) as Ht.
  pose proof (wf_resources _ _ Hwf _ _ Hk) as Hok.
  unfold resource_ok in Hok. rewrite Ht in Hok. fold seed_id in Hok.
  destruct Hok as (j & Hj & Hkj & Hfl & Hdev & [fl Hf]).
  destruct (collision_free_inj _ _ _ _ _ _ Hcf (list_elem_of_further _ _ _ Hi)
              (list_elem_of_further _ _ _ Hj) Hkj) as [_ <-].
  repeat split; try done. eauto.
Qed.

Lemma wf_receiver i r :
  i ∈ U -> node_resources m !! make_id seed_id receiver i = Some r ->
  resource_type r = receiver /\ fields_device_id r = make_id seed_id device "".
Proof.
  intros Hi Hk.
  pose proof (wf_key_type receiver i r (list_elem_of_further _ _ _ Hi) Hk) as Ht.
  pose proof (wf_resources _ _ Hwf _ _ Hk) as Hok.
  unfold resource_ok in Hok. rewrite Ht in Hok. fold seed_id in Hok.
  destruct Hok as (j & Hj & Hkj & Hdev). done.
Qed.

(** Absent source: no flow, no sender, no connection twin. *)
Lemma wf_absent_source i :
  i ∈ U -> node_resources m !! make_id seed_id source i = None ->
  node_resources m !! make_id seed_id flow i = None
  /\ node_resources m !! make_id seed_id sender i = None
  /\ connection_resources m !! make_id seed_id sender i = None.
Proof.
  intros Hi Hs.
  assert (Hf : node_resources m !! make_id seed_id flow i = None).
  { destruct (node_resources m !! make_id seed_id flow i) as [fl|] eqn:E; [|done].
    destruct (wf_flow i fl Hi E) as (_ & _ & src & Hsrc & _). congruence. }
  assert (Hsn : node_resources m !! make_id seed_id sender i = None).
  { destruct (node_resources m !! make_id seed_id sender i) as [r|] eqn:E; [|done].
    destruct (wf_sender i r Hi E) as (_ & _ & _ & fl & Hfl). congruence. }
  split; [exact Hf|]. split; [exact Hsn|].
  destruct (connection_resources m !! make_id seed_id sender i) as [c|] eqn:E; [|done].
  destruct (wf_connections _ _ Hwf _ _ E) as (r & Hr & _). congruence.
Qed.

Lemma wf_absent_receiver i :
  i ∈ U -> node_resources m !! make_id seed_id receiver i = None ->
  connection_resources m !! make_id seed_id receiver i = None.
Proof.
  intros Hi Hs.
  destruct (connection_resources m !! make_id seed_id receiver i) as [c|] eqn:E; [|done].
  destruct (wf_connections _ _ Hwf _ _ E) as (r & Hr & _). congruence.
Qed.

Lemma make_id_ne t t' i i' :
  i ∈ "" :: U -> i' ∈ "" :: U -> t <> t' \/ i <> i' ->
  make_id seed_id t i <> make_id seed_id t' i'.
Proof.
  intros Hi Hi' Hne Heq.
  destruct (collision_free_inj _ _ _ _ _ _ Hcf Hi Hi' Heq) as [-> ->].
  destruct Hne; done.
Qed.
End WellFormed.

Section RemovalWellFormed.
Context (L : nmos_cpp) (U : list string) (m : node_model).
Let seed_id := fields_seed_id (model_settings m).
Let nid := make_id seed_id node "".
Let did := make_id seed_id device "".
Hypothesis Hcf : collision_free seed_id U.
Hypothesis Hwf : wf U m.

Lemma wf_node_found :
  exists n, node_resources m !! nid = Some n /\ resource_type n = node
            /\ is_Some (List.find (fun c => String.eqb clk0 (clock_fields_name c))
                                  (fields_clocks n)).
Proof. exact (wf_node _ _ Hwf). Qed.

(** The store and the node after a successful removal. *)
Lemma remove_sender_run x hs version r :
  x ∈ U ->
  find_resource (node_resources m) (make_id seed_id sender x, sender) = Some r ->
  let sid := make_id seed_id sender x in
  let fid := make_id seed_id flow x in
  let srcid := make_id seed_id source x in
  let nr4 := alter (remove_ref sender sid version) did
               (delete srcid (delete fid (delete sid (node_resources m)))) in
  exists n n',
    node_resources m !! nid = Some n
    /\ nr4 !! nid = Some n
    /\ node_implementation_remove_connection_ L sender x hs version m
       = (Ok tt,
          {| node_resources := <[nid := n']> nr4;
             connection_resources := delete sid (connection_resources m);
             model_settings :=
               set_settings_senders
                 (assoc_erase sid (fields_settings_senders (model_settings m)))
                 (model_settings m);
             gate := gate m |})
    /\ fields_interfaces n' = node_interfaces_for L hs nr4
    /\ shape n' = shape n /\ fields_clocks n' = fields_clocks n
    /\ (n' = n \/ n' = set_interfaces (node_interfaces_for L hs nr4) (set_version version n))
    /\ (node_interfaces_for L hs nr4 = fields_interfaces n -> n' = n).
Proof.
  intros Hx Hfind sid fid srcid nr4.
  pose proof Hfind as Hfind0.
  apply find_resource_Some in Hfind as [Hr Ht].
  destruct (wf_sender U m Hcf Hwf x r Hx Hr) as (_ & Hfl & Hdev & fl & Hflk).
  destruct (wf_flow U m Hcf Hwf x fl Hx Hflk) as (Hflt & Hsrc & src & Hsrck & Hsrct).
  destruct wf_node_found as (n & Hn & Hnt & Hclk).
  assert (Hix : x ∈ "" :: U) by (by apply list_elem_of_further).
  assert (Hie : "" ∈ "" :: U) by constructor.
  assert (Hn1 : nid <> sid) by (apply (make_id_ne U m Hcf); auto).
  assert (Hn2 : nid <> fid) by (apply (make_id_ne U m Hcf); auto).
  assert (Hn3 : nid <> srcid) by (apply (make_id_ne U m Hcf); auto).
  assert (Hn4 : nid <> did) by (apply (make_id_ne U m Hcf); auto).
  assert (Hrefs : removal_refs (node_resources m) r = (fid, srcid)).
  { unfold removal_refs. rewrite Ht. destruct (decide (sender = sender)); [|done].
    fold seed_id in Hfl. rewrite Hfl.
    assert (Hff : find_resource (node_resources m) (make_id seed_id flow x, flow) = Some fl)
      by (by apply find_resource_Some).
    rewrite Hff. by rewrite Hsrc. }
  assert (Hnr4 : after_removal sender sid version r (node_resources m) = nr4).
  { unfold after_removal. rewrite Hrefs. cbn [fst snd]. unfold erase_unless_empty.
    destruct (String.eqb_spec fid ""); [by destruct (make_id_nonempty seed_id flow x)|].
    destruct (String.eqb_spec srcid ""); [by destruct (make_id_nonempty seed_id source x)|].
    fold seed_id in Hdev. rewrite Hdev. reflexivity. }
  assert (Hn4' : nr4 !! nid = Some n).
  { unfold nr4. rewrite lookup_alter_ne by done.
    rewrite !lookup_delete_ne by done. exact Hn. }
  destruct (update_node_interfaces_found L version nid hs nr4 n Hn4' Hnt)
    as (n' & Hupd & Hif & Hsh & Hcl & Hcases & Hsame).
  exists n, n'. split; [exact Hn|]. split; [exact Hn4'|].
  split; [|done].
  rewrite (remove_connection_found L sender x hs version m r Hfind0).
  cbv zeta. fold seed_id. fold sid. rewrite Hnr4. fold nid. rewrite Hupd.
  destruct (decide (sender = sender)); [|done]. reflexivity.
Qed.

Lemma remove_receiver_run x hs version r :
  x ∈ U ->
  find_resource (node_resources m) (make_id seed_id receiver x, receiver) = Some r ->
  let rid := make_id seed_id receiver x in
  let nr4 := alter (remove_ref receiver rid version) did (delete rid (node_resources m)) in
  exists n n',
    node_resources m !! nid = Some n
    /\ nr4 !! nid = Some n
    /\ node_implementation_remove_connection_ L receiver x hs version m
       = (Ok tt,
          {| node_resources := <[nid := n']> nr4;
             connection_resources := delete rid (connection_resources m);
             model_settings :=
               set_settings_receivers
                 (assoc_erase rid (fields_settings_receivers (model_settings m)))
                 (model_settings m);
             gate := gate m |})
    /\ fields_interfaces n' = node_interfaces_for L hs nr4
    /\ shape n' = shape n /\ fields_clocks n' = fields_clocks n
    /\ (n' = n \/ n' = set_interfaces (node_interfaces_for L hs nr4) (set_version version n))
    /\ (node_interfaces_for L hs nr4 = fields_interfaces n -> n' = n).
Proof.
  intros Hx Hfind rid nr4.
  pose proof Hfind as Hfind0.
  apply find_resource_Some in Hfind as [Hr Ht].
  destruct (wf_receiver U m Hcf Hwf x r Hx Hr) as (_ & Hdev).
  destruct wf_node_found as (n & Hn & Hnt & Hclk).
  assert (Hix : x ∈ "" :: U) by (by apply list_elem_of_further).
  assert (Hie : "" ∈ "" :: U) by constructor.
  assert (Hn1 : nid <> rid) by (apply (make_id_ne U m Hcf); auto).
  assert (Hn4 : nid <> did) by (apply (make_id_ne U m Hcf); auto).
  assert (Hnr4 : after_removal receiver rid version r (node_resources m) = nr4).
  { unfold after_removal, removal_refs. rewrite Ht.
    destruct (decide (sender = receiver)); [done|]. cbn [fst snd].
    unfold erase_unless_empty. cbn [String.eqb].
    fold seed_id in Hdev. rewrite Hdev. reflexivity. }
  assert (Hn4' : nr4 !! nid = Some n).
  { unfold nr4. rewrite lookup_alter_ne by done.
    rewrite !lookup_delete_ne by done. exact Hn. }
  destruct (update_node_interfaces_found L version nid hs nr4 n Hn4' Hnt)
    as (n' & Hupd & Hif & Hsh & Hcl & Hcases & Hsame).
  exists n, n'. split; [exact Hn|]. split; [exact Hn4'|].
  split; [|done].
  rewrite (remove_connection_found L receiver x hs version m r Hfind0).
  cbv zeta. fold seed_id. fold rid. rewrite Hnr4. fold nid. rewrite Hupd.
  destruct (decide (sender = receiver)); [done|]. reflexivity.
Qed.
End RemovalWellFormed.

(** ** The invariants after a removal *)

Lemma resource_ok_weaken seed_id U (st st' : gmap string resource) k r :
  resource_ok seed_id U st k r ->
  (forall i, i ∈ U -> resource_type r = flow -> k = make_id seed_id flow i ->
             is_Some (st' !! make_id seed_id source i)) ->
  (forall i, i ∈ U -> resource_type r = sender -> k = make_id seed_id sender i ->
             is_Some (st' !! make_id seed_id flow i)) ->
  resource_ok seed_id U st' k r.
Proof.
  unfold resource_ok. intros Hok Hfl Hsn. destruct (resource_type r); try done.
  - destruct Hok as (i & Hi & Hk & Hs & _). exists i. repeat split; auto.
  - destruct Hok as (i & Hi & Hk & Hf & Hd & _). exists i. repeat split; auto.
Qed.

Lemma names_of_node_interfaces_for L hs (st : gmap string resource) :
  nmos_cpp_laws L -> bindings_on_host hs st ->
  forall x, x ∈ map ni_name (node_interfaces_for L hs st) <-> x ∈ bound_interface_names st.
Proof.
  intros HL Hb x. unfold node_interfaces_for.
  rewrite (make_node_interfaces_law L HL).
  rewrite list_elem_of_In, in_map_iff. split.
  - intros (h & <- & Hin). apply filter_In in Hin as [_ Hd].
    by apply bool_decide_eq_true_1 in Hd.
  - intros Hx. pose proof Hx as Hx0.
    apply elem_of_bound_interface_names in Hx as (k & r & Hk & Ht & Hin).
    pose proof (Hb k r x Hk Ht Hin) as Hh.
    apply list_elem_of_In, in_map_iff in Hh as (h & <- & Hh).
    exists h. split; [done|]. apply filter_In. split; [done|].
    by apply bool_decide_eq_true_2.
Qed.

Section RemovalInvariants.
Context (L : nmos_cpp) (U : list string) (m : node_model).
Let seed_id := fields_seed_id (model_settings m).
Let nid := make_id seed_id node "".
Let did := make_id seed_id device "".
Hypothesis HL : nmos_cpp_laws L.
Hypothesis Hcf : collision_free seed_id U.
Hypothesis Hwf : wf U m.

Lemma wf_after_remove_sender x hs version r m' :
  x ∈ U ->
  find_resource (node_resources m) (make_id seed_id sender x, sender) = Some r ->
  node_implementation_remove_connection_ L sender x hs version m = (Ok tt, m') ->
  wf U m'
  /\ fields_seed_id (model_settings m') = seed_id
  /\ (bindings_on_host hs (node_resources m) ->
      bindings_on_host hs (node_resources m') /\ interfaces_invariant m').
Proof.
  intros Hx Hfind Hrun.
  destruct (remove_sender_run L U m Hcf Hwf x hs version r Hx Hfind)
    as (n & n' & Hn & Hn4 & Hrun' & Hif & Hsh & Hcl & _ & _).
  fold seed_id in Hrun'. rewrite Hrun' in Hrun. injection Hrun as <-.
  set (sid := make_id seed_id sender x) in *.
  set (fid := make_id seed_id flow x) in *.
  set (srcid := make_id seed_id source x) in *.
  set (nr3 := delete srcid (delete fid (delete sid (node_resources m)))) in *.
  set (nr4 := alter (remove_ref sender sid version) did nr3) in *.
  assert (Hix : x ∈ "" :: U) by (by apply list_elem_of_further).
  assert (Hss : same_shapes nr3 (<[nid := n']> nr4)).
  { eapply same_shapes_trans.
    - apply (same_shapes_alter nr3 did). apply shape_remove_ref.
    - by apply (same_shapes_insert nr4 nid n n'). }
  assert (Hsub : forall k r0, nr3 !! k = Some r0 ->
                   node_resources m !! k = Some r0 /\ k <> sid /\ k <> fid /\ k <> srcid).
  { intros k r0 Hk. unfold nr3 in Hk.
    apply lookup_delete_Some in Hk as [Hk1 Hk].
    apply lookup_delete_Some in Hk as [Hk2 Hk].
    apply lookup_delete_Some in Hk as [Hk3 Hk]. done. }
  assert (Hkeep : forall k, is_Some (node_resources m !! k) ->
                    k <> sid -> k <> fid -> k <> srcid -> is_Some (nr3 !! k)).
  { intros k [r0 Hk] H1 H2 H3. exists r0. unfold nr3.
    by rewrite !lookup_delete_ne. }
  assert (Hok3 : forall k r0, nr3 !! k = Some r0 -> resource_ok seed_id U nr3 k r0).
  { intros k r0 Hk. destruct (Hsub k r0 Hk) as (Hk0 & Hk1 & Hk2 & Hk3).
    eapply resource_ok_weaken; [exact (wf_resources _ _ Hwf k r0 Hk0)|..].
    - intros i Hi Ht ->.
      destruct (wf_flow U m Hcf Hwf i r0 Hi Hk0) as (_ & _ & src & Hsrc & _).
      assert (Hii : i ∈ "" :: U) by (by apply list_elem_of_further).
      apply Hkeep; [eauto|..]; apply (make_id_ne U m Hcf); auto.
      right. intros ->. done.
    - intros i Hi Ht ->.
      destruct (wf_sender U m Hcf Hwf i r0 Hi Hk0) as (_ & _ & _ & fl & Hfl).
      assert (Hii : i ∈ "" :: U) by (by apply list_elem_of_further).
      apply Hkeep; [eauto|..]; apply (make_id_ne U m Hcf); auto.
      right. intros ->. done. }
  split; [|split].
  - constructor; cbn [node_resources connection_resources model_settings].
    + exists n'. change (fields_seed_id (set_settings_senders _ _)) with seed_id.
      fold nid. rewrite lookup_insert_eq.
      destruct (wf_node_found U m Hwf) as (n0 & Hn0 & Hnt & Hclk).
      pose proof (eq_trans (eq_sym Hn) Hn0) as Hnn. injection Hnn as <-.
      apply shape_eq in Hsh as (_ & Hty & _). rewrite Hty, Hcl. done.
    + change (fields_seed_id (set_settings_senders _ _)) with seed_id.
      exact (resources_ok_same_shapes seed_id U _ _ Hss Hok3).
    + intros k c Hk. apply lookup_delete_Some in Hk as [Hks Hk].
      destruct (wf_connections _ _ Hwf k c Hk) as (r0 & Hr0 & Hty).
      assert (Hk3 : is_Some (nr3 !! k)).
      { apply Hkeep; [eauto | done | |].
        - intros ->. destruct (wf_sender U m Hcf Hwf x r Hx) as (_ & _ & _ & fl & Hfl).
          { by apply find_resource_Some in Hfind as [? _]. }
          destruct (wf_flow U m Hcf Hwf x fl Hx Hfl) as (Hflt & _).
          pose proof (eq_trans (eq_sym Hfl) Hr0) as Hnn. injection Hnn as <-.
          rewrite Hflt in Hty. by destruct Hty.
        - intros ->.
          pose proof (wf_key_type U m Hcf Hwf source x r0 Hix Hr0) as Hst.
          rewrite Hst in Hty. by destruct Hty. }
      destruct Hk3 as [r3 Hr3].
      destruct (same_shapes_Some_l _ _ _ _ Hss Hr3) as (r' & Hr' & Hs').
      exists r'. split; [done|].
      destruct (Hsub k r3 Hr3) as (Hr3' & _). rewrite Hr0 in Hr3'. injection Hr3' as <-.
      apply shape_eq in Hs' as (_ & Hty' & _). by rewrite Hty'.
  - reflexivity.
  - intros Hb. cbn [node_resources].
    assert (Hb3 : bindings_on_host hs nr3).
    { intros k r0 b Hk. destruct (Hsub k r0 Hk) as (Hk0 & _). by apply (Hb k r0 b). }
    assert (Hb4 : bindings_on_host hs nr4).
    { eapply bindings_on_host_same_shapes; [|exact Hb3].
      apply (same_shapes_alter nr3 did). apply shape_remove_ref. }
    split.
    + eapply bindings_on_host_same_shapes; [exact Hss | exact Hb3].
    + exists n'. cbn [node_resources model_settings].
      change (fields_seed_id (set_settings_senders _ _)) with seed_id. fold nid.
      rewrite lookup_insert_eq. split; [done|].
      intros y. rewrite Hif.
      etrans; [apply (names_of_node_interfaces_for L hs nr4 HL Hb4)|].
      rewrite (same_shapes_bound_interface_names nr4 (<[nid := n']> nr4)); [done|].
      by apply (same_shapes_insert nr4 nid n n').
Qed.
Lemma wf_after_remove_receiver x hs version r m' :
  x ∈ U ->
  find_resource (node_resources m) (make_id seed_id receiver x, receiver) = Some r ->
  node_implementation_remove_connection_ L receiver x hs version m = (Ok tt, m') ->
  wf U m'
  /\ fields_seed_id (model_settings m') = seed_id
  /\ (bindings_on_host hs (node_resources m) ->
      bindings_on_host hs (node_resources m') /\ interfaces_invariant m').
Proof.
  intros Hx Hfind Hrun.
  destruct (remove_receiver_run L U m Hcf Hwf x hs version r Hx Hfind)
    as (n & n' & Hn & Hn4 & Hrun' & Hif & Hsh & Hcl & _ & _).
  fold seed_id in Hrun'. rewrite Hrun' in Hrun. injection Hrun as <-.
  set (rid := make_id seed_id receiver x) in *.
  set (nr3 := delete rid (node_resources m)) in *.
  set (nr4 := alter (remove_ref receiver rid version) did nr3) in *.
  assert (Hix : x ∈ "" :: U) by (by apply list_elem_of_further).
  assert (Hss : same_shapes nr3 (<[nid := n']> nr4)).
  { eapply same_shapes_trans.
    - apply (same_shapes_alter nr3 did). apply shape_remove_ref.
    - by apply (same_shapes_insert nr4 nid n n'). }
  assert (Hsub : forall k r0, nr3 !! k = Some r0 ->
                   node_resources m !! k = Some r0 /\ k <> rid).
  { intros k r0 Hk. unfold nr3 in Hk.
    apply lookup_delete_Some in Hk as [Hk1 Hk]. done. }
  assert (Hkeep : forall k, is_Some (node_resources m !! k) ->
                    k <> rid -> is_Some (nr3 !! k)).
  { intros k [r0 Hk] H1. exists r0. unfold nr3. by rewrite !lookup_delete_ne. }
  assert (Hok3 : forall k r0, nr3 !! k = Some r0 -> resource_ok seed_id U nr3 k r0).
  { intros k r0 Hk. destruct (Hsub k r0 Hk) as (Hk0 & Hk1).
    eapply resource_ok_weaken; [exact (wf_resources _ _ Hwf k r0 Hk0)|..].
    - intros i Hi Ht ->.
      destruct (wf_flow U m Hcf Hwf i r0 Hi Hk0) as (_ & _ & src & Hsrc & _).
      assert (Hii : i ∈ "" :: U) by (by apply list_elem_of_further).
      apply Hkeep; [eauto|]. apply (make_id_ne U m Hcf); auto.
    - intros i Hi Ht ->.
      destruct (wf_sender U m Hcf Hwf i r0 Hi Hk0) as (_ & _ & _ & fl & Hfl).
      assert (Hii : i ∈ "" :: U) by (by apply list_elem_of_further).
      apply Hkeep; [eauto|]. apply (make_id_ne U m Hcf); auto. }
  split; [|split].
  - constructor; cbn [node_resources connection_resources model_settings].
    + exists n'. change (fields_seed_id (set_settings_receivers _ _)) with seed_id.
      fold nid. rewrite lookup_insert_eq.
      destruct (wf_node_found U m Hwf) as (n0 & Hn0 & Hnt & Hclk).
      pose proof (eq_trans (eq_sym Hn) Hn0) as Hnn. injection Hnn as <-.
      apply shape_eq in Hsh as (_ & Hty & _). rewrite Hty, Hcl. done.
    + change (fields_seed_id (set_settings_receivers _ _)) with seed_id.
      exact (resources_ok_same_shapes seed_id U _ _ Hss Hok3).
    + intros k c Hk. apply lookup_delete_Some in Hk as [Hks Hk].
      destruct (wf_connections _ _ Hwf k c Hk) as (r0 & Hr0 & Hty).
      assert (Hk3 : is_Some (nr3 !! k)) by (apply Hkeep; [eauto | done]).
      destruct Hk3 as [r3 Hr3].
      destruct (same_shapes_Some_l _ _ _ _ Hss Hr3) as (r' & Hr' & Hs').
      exists r'. split; [done|].
      destruct (Hsub k r3 Hr3) as (Hr3' & _). rewrite Hr0 in Hr3'. injection Hr3' as <-.
      apply shape_eq in Hs' as (_ & Hty' & _). by rewrite Hty'.
  - reflexivity.
  - intros Hb. cbn [node_resources].
    assert (Hb3 : bindings_on_host hs nr3).
    { intros k r0 b Hk. destruct (Hsub k r0 Hk) as (Hk0 & _). by apply (Hb k r0 b). }
    assert (Hb4 : bindings_on_host hs nr4).
    { eapply bindings_on_host_same_shapes; [|exact Hb3].
      apply (same_shapes_alter nr3 did). apply shape_remove_ref. }
    split.
    + eapply bindings_on_host_same_shapes; [exact Hss | exact Hb3].
    + exists n'. cbn [node_resources model_settings].
      change (fields_seed_id (set_settings_receivers _ _)) with seed_id. fold nid.
      rewrite lookup_insert_eq. split; [done|].
      intros y. rewrite Hif.
      etrans; [apply (names_of_node_interfaces_for L hs nr4 HL Hb4)|].
      rewrite (same_shapes_bound_interface_names nr4 (<[nid := n']> nr4)); [done|].
      by apply (same_shapes_insert nr4 nid n n').
Qed.
End RemovalInvariants.

(** ** Computations that only write to the log *)

Lemma set_gate_gate m : set_gate (gate m) m = m.
Proof. by destruct m. Qed.

Lemma logs_only_ret {A} (a : A) : logs_only (ret a).
Proof. intros m. exists (gate m). apply eq_sym, set_gate_gate. Qed.

Lemma logs_only_throw {A} e : logs_only (@throw A e).
Proof. intros m. exists (gate m). apply eq_sym, set_gate_gate. Qed.

Lemma logs_only_lift {A} (r : result A) : logs_only (lift r).
Proof. intros m. exists (gate m). apply eq_sym, set_gate_gate. Qed.

Lemma logs_only_get_model : logs_only get_model.
Proof. intros m. exists (gate m). apply eq_sym, set_gate_gate. Qed.

Lemma logs_only_slog level message : logs_only (slog level message).
Proof. intros m. by eexists. Qed.

Lemma logs_only_bind {A B} (c : M A) (k : A -> M B) :
  logs_only c -> (forall a, logs_only (k a)) -> logs_only (bind c k).
Proof.
  intros Hc Hk m. unfold bind. destruct (Hc m) as [g Hg].
  destruct (c m) as [[a|e] m1]; simpl in Hg; subst m1.
  - destruct (Hk a (set_gate g m)) as [g' Hg']. exists g'. by rewrite Hg'.
  - by exists g.
Qed.

Lemma logs_only_try_log {A} (c : M A) : logs_only c -> logs_only (try_log c).
Proof.
  intros Hc m. unfold try_log. destruct (Hc m) as [g Hg].
  destruct (c m) as [[a|e] m1]; simpl in Hg; subst m1; [by exists g|].
  destruct e; simpl; by eexists.
Qed.

(** What a computation returns, step by step. *)
Lemma bind_Ok {A B} (c : M A) (k : A -> M B) m b m' :
  bind c k m = (Ok b, m') -> exists a m1, c m = (Ok a, m1) /\ k a m1 = (Ok b, m').
Proof. unfold bind. destruct (c m) as [[a|e] m1]; [eauto | discriminate]. Qed.

Lemma lift_Ok {A} (r : result A) m a m' : lift r m = (Ok a, m') -> r = Ok a /\ m' = m.
Proof. unfold lift. by intros [= -> ->]. Qed.

Lemma get_model_Ok m a m' : get_model m = (Ok a, m') -> a = m /\ m' = m.
Proof. unfold get_model. by intros [= -> ->]. Qed.

Lemma ret_Ok {A} (x : A) m a m' : ret x m = (Ok a, m') -> a = x /\ m' = m.
Proof. unfold ret. by intros [= -> ->]. Qed.

Section Construction.
Context (L : nmos_cpp).
Hypothesis HL : nmos_cpp_laws L.

Lemma find_interface_Some hs address h :
  find_interface hs address = Some h -> hi_name h ∈ map hi_name hs.
Proof.
  unfold find_interface. intros H. apply find_some in H as [H _].
  apply list_elem_of_In, in_map, H.
Qed.

Lemma logs_only_interface_names_of field i hs tps :
  logs_only (interface_names_of field i hs tps).
Proof.
  induction tps as [|tp tps IH]; simpl.
  - apply logs_only_ret.
  - apply logs_only_bind; [apply logs_only_lift|]. intros address.
    destruct (find_interface hs address).
    + apply logs_only_bind; [exact IH|]. intros. apply logs_only_ret.
    + apply logs_only_bind; [apply logs_only_slog|]. intros. apply logs_only_throw.
Qed.

Lemma interface_names_of_Ok field i hs tps m names m' :
  interface_names_of field i hs tps m = (Ok names, m') ->
  forall b, b ∈ names -> b ∈ map hi_name hs.
Proof.
  revert names m m'. induction tps as [|tp tps IH]; simpl; intros names m m' H.
  - apply ret_Ok in H as [-> _]. intros b Hb. by apply elem_of_nil in Hb.
  - apply bind_Ok in H as (address & m1 & _ & H).
    destruct (find_interface hs address) as [h|] eqn:Hf.
    + apply bind_Ok in H as (names' & m2 & Hn & H).
      apply ret_Ok in H as [-> _]. intros b Hb.
      apply elem_of_cons in Hb as [->|Hb].
      * by apply (find_interface_Some hs address).
      * by apply (IH names' m1 m2).
    + apply bind_Ok in H as (? & m2 & _ & H). discriminate.
Qed.

Lemma make_source_and_flow_Ok format_ media_type sdp_params source_id flow_id device_id
    clock_ settings_ s f :
  make_source_and_flow L format_ media_type sdp_params source_id flow_id device_id clock_
    settings_ = Ok (s, f) ->
  is_source source_id s /\ is_flow flow_id source_id f.
Proof.
  unfold make_source_and_flow. intros H.
  destruct format_.
  - destruct (String.eqb _ _).
    + destruct (get_video_raw_parameters L sdp_params); simplify_eq/=.
      split; [apply (make_video_source_law L HL) | apply (make_raw_video_flow_law L HL)].
    + destruct (get_video_jxsv_parameters L sdp_params); simplify_eq/=.
      split; [apply (make_video_source_law L HL)|].
      apply (make_video_jxsv_flow_law L HL).
  - destruct (get_audio_L_parameters L sdp_params); simplify_eq/=.
    split; [apply (make_audio_source_law L HL) | apply (make_raw_audio_flow_law L HL)].
  - destruct (get_video_smpte291_parameters L sdp_params); simplify_eq/=.
    split; [apply (make_data_source_law L HL) | apply (make_sdianc_data_flow_law L HL)].
  - destruct (get_video_SMPTE2022_6_parameters L sdp_params); simplify_eq/=.
    split; [apply (make_mux_source_law L HL) | apply (make_mux_flow_law L HL)].
Qed.

Lemma add_jxsv_sender_attributes_Ok format_ media_type sdp_params s s' :
  add_jxsv_sender_attributes L format_ media_type sdp_params s = Ok s' -> shape s' = shape s.
Proof.
  unfold add_jxsv_sender_attributes. intros H.
  destruct format_; [|by injection H as <-..].
  destruct (String.eqb media_types_video_jxsv media_type); [|by injection H as <-].
  destruct (get_video_jxsv_parameters L sdp_params) as [video|]; [|discriminate].
  cbn [mbind result_bind] in H. injection H as <-.
  repeat (match goal with |- context [if ?b then _ else _] => destruct b end);
    rewrite ?shape_set_other; done.
Qed.

Lemma prepare_connection_resource_Ok field r tps c c' :
  prepare_connection_resource L field r tps c = Ok c' ->
  connection_id c' = connection_id c.
Proof.
  unfold prepare_connection_resource. intros H.
  destruct (add_constraints _ _ _ _); simplify_eq/=. done.
Qed.
End Construction.

Section AddSender.
Context (L : nmos_cpp).
Hypothesis HL : nmos_cpp_laws L.

Lemma logs_only_make_sender_resources sdp hs :
  logs_only (make_sender_resources L sdp hs).
Proof.
  unfold make_sender_resources.
  repeat first
    [ apply logs_only_ret
    | apply logs_only_lift
    | apply logs_only_get_model
    | apply logs_only_interface_names_of
    | apply logs_only_bind; [|intros ?]
    | progress cbv zeta
    | match goal with |- logs_only (match ?x with _ => _ end) => destruct x end ].
Qed.

(** What the new resources of a sender are. *)
Lemma make_sender_resources_Ok sdp hs m new m' :
  make_sender_resources L sdp hs m = (Ok new, m') ->
  let seed_id := fields_seed_id (model_settings m) in
  exists i,
    sdp_internal_id L sdp = [i]
    /\ new_sender_id new = make_id seed_id sender i
    /\ is_source (make_id seed_id source i) (new_source new)
    /\ is_flow (make_id seed_id flow i) (make_id seed_id source i) (new_flow new)
    /\ resource_id (new_sender new) = make_id seed_id sender i
    /\ resource_type (new_sender new) = sender
    /\ fields_flow_id (new_sender new) = Some (make_id seed_id flow i)
    /\ fields_device_id (new_sender new) = make_id seed_id device ""
    /\ (forall b, b ∈ fields_interface_bindings (new_sender new) -> b ∈ map hi_name hs)
    /\ connection_id (new_connection_sender new) = make_id seed_id sender i.
Proof.
  intros H seed_id. unfold make_sender_resources in H.
  apply bind_Ok in H as (sd & m1 & Hsd & H). apply lift_Ok in Hsd as [Hsd ->].
  apply bind_Ok in H as (sdp_params & m1 & Hp & H). apply lift_Ok in Hp as [Hp ->].
  cbv zeta in H.
  apply bind_Ok in H as (tps & m1 & Htp & H). apply lift_Ok in Htp as [Htp ->].
  apply bind_Ok in H as (i & m1 & Hi & H). apply lift_Ok in Hi as [Hi ->].
  apply bind_Ok in H as (group_hint & m1 & Hg & H). apply lift_Ok in Hg as [Hg ->].
  cbv zeta in H.
  apply bind_Ok in H as (m0 & m1 & Hm & H). apply get_model_Ok in Hm as [-> ->].
  cbv zeta in H. fold seed_id in H.
  apply bind_Ok in H as (format_ & m1 & Hf & H). apply lift_Ok in Hf as [Hf ->].
  apply bind_Ok in H as (names & m1 & Hn & H).
  pose proof (interface_names_of_Ok _ _ _ _ _ _ _ Hn) as Hnames. clear Hn.
  apply bind_Ok in H as ([s f] & m2 & Hsf & H). apply lift_Ok in Hsf as [Hsf ->].
  apply (make_source_and_flow_Ok L HL) in Hsf as [Hs Hfl].
  cbv zeta in H.
  apply bind_Ok in H as (snd0 & m2 & Hj & H). apply lift_Ok in Hj as [Hj ->].
  apply (add_jxsv_sender_attributes_Ok L) in Hj.
  cbv zeta in H.
  apply bind_Ok in H as (c & m2 & Hc & H). apply lift_Ok in Hc as [Hc ->].
  apply prepare_connection_resource_Ok in Hc.
  rewrite (make_connection_rtp_sender_law L HL) in Hc.
  cbv zeta in H. apply ret_Ok in H as [-> _].
  exists i. cbn [new_sender_id new_source new_flow new_sender new_connection_sender].
  split. { unfold sdp_internal_id. by rewrite Hsd, Hi. }
  split; [done|]. split; [done|]. split; [done|].
  match goal with
  | |- context [resource_id ?r] =>
      assert (Hsh : shape r = shape (make_sender L (make_id seed_id sender i)
                                       (make_id seed_id flow i) transports_rtp
                                       (make_id seed_id device "")
                                       (make_manifest_api_manifest L
                                          (make_id seed_id sender i) (model_settings m))
                                       names (model_settings m)))
  end.
  { destruct (negb _); rewrite ?shape_set_group_hint, shape_set_internal_id,
      shape_set_description, shape_set_label; exact Hj. }
  apply shape_eq in Hsh as (H1 & H2 & H3 & _ & H5 & H6).
  destruct (make_sender_law L HL (make_id seed_id sender i) (make_id seed_id flow i)
              transports_rtp (make_id seed_id device "")
              (make_manifest_api_manifest L (make_id seed_id sender i) (model_settings m))
              names (model_settings m)) as (L1 & L2 & L3 & L4 & L5).
  rewrite H1, H2, H3, H5, H6, L1, L2, L4, L5, (L3 (make_id_nonempty _ _ _)).
  done.
Qed.
End AddSender.

(** ** The invariants after a change of the stores *)

Lemma invariants_after L U hs (m' : node_model) (nr3 nr4 : gmap string resource) n n'' :
  nmos_cpp_laws L ->
  let seed_id := fields_seed_id (model_settings m') in
  let nid := make_id seed_id node "" in
  (forall k r, nr3 !! k = Some r -> resource_ok seed_id U nr3 k r) ->
  same_shapes nr3 nr4 ->
  nr4 !! nid = Some n -> resource_type n = node ->
  node_resources m' = <[nid := n'']> nr4 ->
  shape n'' = shape n ->
  is_Some (List.find (fun c => String.eqb clk0 (clock_fields_name c)) (fields_clocks n'')) ->
  (forall k c, connection_resources m' !! k = Some c ->
               exists r, nr3 !! k = Some r
                         /\ (resource_type r = sender \/ resource_type r = receiver)) ->
  wf U m'
  /\ (bindings_on_host hs nr3 ->
      fields_interfaces n'' = node_interfaces_for L hs nr4 ->
      bindings_on_host hs (node_resources m') /\ interfaces_invariant m').
Proof.
  intros HL seed_id nid Hok Hss Hn4 Hnt Hnr Hsh Hclk Hconn.
  assert (Hss' : same_shapes nr3 (node_resources m')).
  { rewrite Hnr. eapply same_shapes_trans; [exact Hss|].
    by apply (same_shapes_insert nr4 nid n n''). }
  split.
  - constructor.
    + exists n''. fold seed_id. fold nid. rewrite Hnr, lookup_insert_eq.
      apply shape_eq in Hsh as (_ & Hty & _). rewrite Hty. done.
    + exact (resources_ok_same_shapes seed_id U _ _ Hss' Hok).
    + intros k c Hk. destruct (Hconn k c Hk) as (r & Hr & Hty).
      destruct (same_shapes_Some_l _ _ _ _ Hss' Hr) as (r' & Hr' & Hs').
      exists r'. split; [done|].
      apply shape_eq in Hs' as (_ & Hty' & _). by rewrite Hty'.
  - intros Hb Hif. split.
    + eapply bindings_on_host_same_shapes; [exact Hss' | exact Hb].
    + exists n''. fold seed_id. fold nid. rewrite Hnr, lookup_insert_eq. split; [done|].
      intros y. rewrite Hif.
      assert (Hb4 : bindings_on_host hs nr4)
        by (eapply bindings_on_host_same_shapes; [exact Hss | exact Hb]).
      etrans; [apply (names_of_node_interfaces_for L hs nr4 HL Hb4)|].
      rewrite (same_shapes_bound_interface_names nr4 (<[nid := n'']> nr4)); [done|].
      by apply (same_shapes_insert nr4 nid n n'').
Qed.

(** ** Adding a sender or receiver *)

Lemma insert_node_resource_new r m :
  node_resources m !! resource_id r = None ->
  insert_node_resource r m
  = (Ok true, set_node_resources (<[resource_id r := r]> (node_resources m)) m).
Proof.
  intros H. unfold insert_node_resource, on_node_resources, insert_resource. by rewrite H.
Qed.

Lemma insert_node_resource_old r m :
  is_Some (node_resources m !! resource_id r) -> insert_node_resource r m = (Ok false, m).
Proof.
  intros [x H]. unfold insert_node_resource, on_node_resources, insert_resource. rewrite H.
  by destruct m.
Qed.

Lemma insert_connection_resource_new c m :
  connection_resources m !! connection_id c = None ->
  insert_connection_resource c m
  = (Ok true, set_connection_resources (<[connection_id c := c]> (connection_resources m)) m).
Proof.
  intros H. unfold insert_connection_resource, on_connection_resources, insert_resource.
  by rewrite H.
Qed.

Lemma insert_connection_resource_old c m :
  is_Some (connection_resources m !! connection_id c) ->
  insert_connection_resource c m = (Ok false, m).
Proof.
  intros [x H]. unfold insert_connection_resource, on_connection_resources, insert_resource.
  rewrite H. by destruct m.
Qed.

Section AddSenderRun.
Context (L : nmos_cpp) (U : list string) (m : node_model).
Let seed_id := fields_seed_id (model_settings m).
Let nid := make_id seed_id node "".
Let did := make_id seed_id device "".
Hypothesis HL : nmos_cpp_laws L.
Hypothesis Hcf : collision_free seed_id U.
Hypothesis Hwf : wf U m.

Lemma add_sender_run sdp hs version res m' :
  (forall i, i ∈ sdp_internal_id L sdp -> i ∈ U) ->
  node_implementation_add_sender_ L sdp hs version m = (res, m') ->
  (exists e g, res = Throw e /\ m' = set_gate g m)
  \/ (res = Ok tt
      /\ exists i new d n n'' s' g,
           i ∈ U /\ sdp_internal_id L sdp = [i]
           /\ node_resources m !! make_id seed_id source i = None
           /\ node_resources m !! make_id seed_id flow i = None
           /\ node_resources m !! make_id seed_id sender i = None
           /\ is_source (make_id seed_id source i) (new_source new)
           /\ is_flow (make_id seed_id flow i) (make_id seed_id source i) (new_flow new)
           /\ resource_id (new_sender new) = make_id seed_id sender i
           /\ resource_type (new_sender new) = sender
           /\ fields_flow_id (new_sender new) = Some (make_id seed_id flow i)
           /\ fields_device_id (new_sender new) = make_id seed_id device ""
           /\ (forall b, b ∈ fields_interface_bindings (new_sender new) -> b ∈ map hi_name hs)
           /\ (forall r, shape (d r) = shape r)
           /\ let nr4 := alter d did
                           (<[make_id seed_id sender i := new_sender new]>
                              (<[make_id seed_id flow i := new_flow new]>
                                 (<[make_id seed_id source i := new_source new]>
                                    (node_resources m)))) in
              m' = {| node_resources := <[nid := n'']> nr4;
                      connection_resources :=
                        <[make_id seed_id sender i := new_connection_sender new]>
                          (connection_resources m);
                      model_settings := s'; gate := g |}
              /\ fields_seed_id s' = seed_id
              /\ nr4 !! nid = Some n /\ resource_type n = node
              /\ shape n'' = shape n
              /\ fields_interfaces n'' = node_interfaces_for L hs nr4
              /\ is_Some (List.find (fun c => String.eqb clk0 (clock_fields_name c))
                                    (fields_clocks n''))).
Proof.
  intros HU H. unfold node_implementation_add_sender_ in H.
  unfold bind at 1 in H.
  destruct (logs_only_make_sender_resources L sdp hs m) as [g Hg].
  destruct (make_sender_resources L sdp hs m) as [[new|e] m1] eqn:Hmk; simpl in Hg; subst m1;
    [|left; injection H as <- <-; eauto].
  destruct (make_sender_resources_Ok L HL _ _ _ _ _ Hmk)
    as (i & Hi & Hsid & Hsrc & Hfl & Hs1 & Hs2 & Hs3 & Hs4 & Hs5 & Hc).
  fold seed_id in Hi, Hsid, Hsrc, Hfl, Hs1, Hs2, Hs3, Hs4, Hs5, Hc.
  assert (HiU : i ∈ U) by (apply HU; rewrite Hi; constructor).
  assert (Hix : i ∈ "" :: U) by (by apply list_elem_of_further).
  assert (Hie : "" ∈ "" :: U) by constructor.
  destruct Hsrc as [Hsrc1 Hsrc2]. destruct Hfl as (Hfl1 & Hfl2 & Hfl3).
  unfold bind at 1 in H. cbn [get_model] in H. cbv zeta in H.
  change (fields_seed_id (model_settings (set_gate g m))) with seed_id in H.
  fold nid did in H.
  unfold bind at 1 in H.
  destruct (node_resources m !! make_id seed_id source i) as [src|] eqn:Esrc.
  { rewrite insert_node_resource_old in H
      by (rewrite Hsrc1; cbn [node_resources set_gate]; rewrite Esrc; eauto).
    left. injection H as <- <-. eauto. }
  destruct (wf_absent_source U m Hcf Hwf i HiU Esrc) as (Efl & Esn & Ecn).
  fold seed_id in Efl, Esn, Ecn.
  rewrite insert_node_resource_new in H
    by (rewrite Hsrc1; cbn [node_resources set_gate]; exact Esrc).
  cbn [negb] in H. unfold bind at 1 in H.
  cbn [node_resources set_gate set_node_resources] in H.
  assert (N1 : make_id seed_id flow i <> make_id seed_id source i)
    by (apply (make_id_ne U m Hcf); auto).
  assert (N2 : make_id seed_id sender i <> make_id seed_id source i)
    by (apply (make_id_ne U m Hcf); auto).
  assert (N3 : make_id seed_id sender i <> make_id seed_id flow i)
    by (apply (make_id_ne U m Hcf); auto).
  rewrite insert_node_resource_new in H
    by (rewrite Hfl1, Hsrc1; cbn [node_resources set_node_resources set_gate];
        rewrite lookup_insert_ne by exact (not_eq_sym N1); exact Efl).
  cbn [negb] in H. unfold bind at 1 in H.
  cbn [node_resources set_gate set_node_resources] in H.
  rewrite insert_node_resource_new in H
    by (rewrite Hs1, Hfl1, Hsrc1; cbn [node_resources set_node_resources set_gate];
        rewrite lookup_insert_ne by exact (not_eq_sym N3);
        rewrite lookup_insert_ne by exact (not_eq_sym N2); exact Esn).
  cbn [negb] in H. unfold bind at 1 in H.
  cbn [node_resources set_gate set_node_resources] in H.
  rewrite insert_connection_resource_new in H by (rewrite Hc; exact Ecn).
  cbn [negb] in H. unfold bind at 1 in H.
  rewrite Hs1, Hfl1, Hsrc1, Hc, Hsid in H.
  unfold on_node_resources at 1 in H.
  cbn [node_resources connection_resources set_gate set_node_resources
         set_connection_resources] in H.
  pose (d := fun device_ => set_senders (fields_senders device_ ++ [make_id seed_id sender i])
                              (set_version version device_)).
  match type of H with
  | context [modify_resource _ _ _ ?f] =>
      change f with (fun device_ => (Ok tt, d device_)) in H
  end.
  destruct (modify_resource_alter (modify_throw_erases L)
              (<[make_id seed_id sender i := new_sender new]>
                 (<[make_id seed_id flow i := new_flow new]>
                    (<[make_id seed_id source i := new_source new]> (node_resources m))))
              did (fun device_ => (Ok tt, d device_)) d ltac:(done)) as [b Hmod].
  rewrite Hmod in H. clear Hmod.
  set (nr4 := alter d did _) in *.
  destruct (wf_node_found U m Hwf) as (n & Hn & Hnt & Hclk).
  fold seed_id in Hn. fold nid in Hn.
  assert (Hn4 : nr4 !! nid = Some n).
  { unfold nr4. rewrite lookup_alter_ne by (apply (make_id_ne U m Hcf); auto).
    rewrite !lookup_insert_ne by (apply not_eq_sym, (make_id_ne U m Hcf); auto).
    exact Hn. }
  destruct (update_node_interfaces_found L version nid hs nr4 n Hn4 Hnt)
    as (n' & Hupd & Hif & Hsh & Hcl & _ & _).
  unfold bind at 1 in H. unfold on_node_resources at 1 in H.
  cbn [node_resources connection_resources set_gate set_node_resources
         set_connection_resources] in H.
  rewrite Hupd in H.
  destruct (make_node_clock _ _ _ _) as [cv pd] eqn:Hmc.
  pose proof (make_node_clock_name (istringstreamed L) clk0 (new_sender_ts_refclks new)
                (settings_ptp_domain_number L clk0 (model_settings (set_gate g m)))) as Hcn.
  rewrite Hmc in Hcn. cbn [fst] in Hcn.
  assert (Hn' : <[nid := n']> nr4 !! nid = Some n') by apply lookup_insert_eq.
  assert (Hnt' : resource_type n' = node).
  { apply shape_eq in Hsh as (_ & -> & _). done. }
  assert (Hclk' : is_Some (List.find (fun c' => String.eqb (clock_fields_name cv)
                                                  (clock_fields_name c'))
                                     (fields_clocks n'))).
  { rewrite Hcn, Hcl. exact Hclk. }
  destruct (update_node_clock_found L version nid cv (<[nid := n']> nr4) n' Hn' Hnt' Hclk')
    as (n'' & Hupc & Hif' & Hsh' & Hclk'' & _).
  unfold bind at 1 in H. unfold on_node_resources at 1 in H.
  cbn [node_resources connection_resources set_gate set_node_resources
         set_connection_resources] in H.
  rewrite Hupc in H. rewrite insert_insert_eq in H.
  munfold. cbn in H. injection H as <- <-.
  right. split; [done|].
  exists i, new, d, n, n''. eexists. eexists.
  split; [exact HiU|]. split; [exact Hi|]. split; [exact Esrc|]. split; [exact Efl|].
  split; [exact Esn|]. split; [exact (conj Hsrc1 Hsrc2)|].
  split; [exact (conj Hfl1 (conj Hfl2 Hfl3))|].
  split; [exact Hs1|]. split; [exact Hs2|]. split; [exact Hs3|]. split; [exact Hs4|].
  split; [exact Hs5|].
  split. { intros r. unfold d. rewrite shape_set_senders. apply shape_set_version. }
  cbv zeta. fold nr4. split; [reflexivity|].
  split; [reflexivity|]. split; [exact Hn4|]. split; [exact Hnt|].
  split; [exact (eq_trans Hsh' Hsh)|]. split; [exact (eq_trans Hif' Hif)|].
  rewrite Hcn in Hclk''. exact Hclk''.
Qed.

Lemma add_sender_invariants sdp hs version res m' :
  (forall i, i ∈ sdp_internal_id L sdp -> i ∈ U) ->
  node_implementation_add_sender_ L sdp hs version m = (res, m') ->
  (exists e g, res = Throw e /\ m' = set_gate g m)
  \/ (res = Ok tt /\ wf U m' /\ fields_seed_id (model_settings m') = seed_id
      /\ (bindings_on_host hs (node_resources m) ->
          bindings_on_host hs (node_resources m') /\ interfaces_invariant m')).
Proof.
  intros HU H.
  destruct (add_sender_run sdp hs version res m' HU H) as [Hfail|[-> Hok]]; [by left|].
  right. split; [done|].
  destruct Hok as (i & new & d & n & n'' & s' & g & HiU & Hi & Esrc & Efl & Esn & Hsrc & Hfl
                   & Hs1 & Hs2 & Hs3 & Hs4 & Hs5 & Hd & Hm' & Hseed & Hn4 & Hnt & Hsh
                   & Hif & Hclk).
  set (sid := make_id seed_id sender i) in *.
  set (fid := make_id seed_id flow i) in *.
  set (srcid := make_id seed_id source i) in *.
  set (nr3 := <[sid := new_sender new]>
                (<[fid := new_flow new]> (<[srcid := new_source new]> (node_resources m))))
    in *.
  assert (Hix : i ∈ "" :: U) by (by apply list_elem_of_further).
  assert (N1 : fid <> srcid) by (apply (make_id_ne U m Hcf); auto).
  assert (N2 : sid <> srcid) by (apply (make_id_ne U m Hcf); auto).
  assert (N3 : sid <> fid) by (apply (make_id_ne U m Hcf); auto).
  assert (Hsub : forall k, is_Some (node_resources m !! k) -> is_Some (nr3 !! k)).
  { intros k [r Hk]. unfold nr3.
    destruct (decide (sid = k)) as [<-|?]; [rewrite lookup_insert_eq; eauto|].
    rewrite lookup_insert_ne by done.
    destruct (decide (fid = k)) as [<-|?]; [rewrite lookup_insert_eq; eauto|].
    rewrite lookup_insert_ne by done.
    destruct (decide (srcid = k)) as [<-|?]; [rewrite lookup_insert_eq; eauto|].
    rewrite lookup_insert_ne by done. eauto. }
  assert (Hcases : forall k r, nr3 !! k = Some r ->
            (k = sid /\ r = new_sender new) \/ (k = fid /\ r = new_flow new)
            \/ (k = srcid /\ r = new_source new) \/ node_resources m !! k = Some r).
  { intros k r. unfold nr3.
    destruct (decide (sid = k)) as [<-|?].
    { rewrite lookup_insert_eq. intros [= <-]. by left. }
    rewrite lookup_insert_ne by done.
    destruct (decide (fid = k)) as [<-|?].
    { rewrite lookup_insert_eq. intros [= <-]. right. by left. }
    rewrite lookup_insert_ne by done.
    destruct (decide (srcid = k)) as [<-|?].
    { rewrite lookup_insert_eq. intros [= <-]. right. right. by left. }
    rewrite lookup_insert_ne by done. intros Hk. by do 3 right. }
  assert (Hok3 : forall k r, nr3 !! k = Some r -> resource_ok seed_id U nr3 k r).
  { intros k r Hk.
    destruct (Hcases k r Hk) as [[-> ->]|[[-> ->]|[[-> ->]|Hk0]]].
    - unfold resource_ok. rewrite Hs2. exists i. split; [done|]. split; [done|].
      split; [done|]. split; [done|]. unfold nr3.
      rewrite lookup_insert_ne by done. rewrite lookup_insert_eq. eauto.
    - destruct Hfl as (_ & Hf2 & Hf3). unfold resource_ok. rewrite Hf2.
      exists i. split; [done|]. split; [done|]. split; [done|]. unfold nr3.
      rewrite lookup_insert_ne by done. rewrite lookup_insert_ne by done.
      rewrite lookup_insert_eq. eauto.
    - destruct Hsrc as (_ & Hsrc2). unfold resource_ok. rewrite Hsrc2.
      exists i. split; done.
    - eapply resource_ok_weaken; [exact (wf_resources _ _ Hwf k r Hk0)|..].
      + intros j Hj Ht ->.
        destruct (wf_flow U m Hcf Hwf j r Hj Hk0) as (_ & _ & src & Hsrc' & _).
        apply Hsub. eauto.
      + intros j Hj Ht ->.
        destruct (wf_sender U m Hcf Hwf j r Hj Hk0) as (_ & _ & _ & fl & Hfl').
        apply Hsub. eauto. }
  assert (Hseed' : fields_seed_id (model_settings m') = seed_id) by (by rewrite Hm').
  assert (Hnr' : node_resources m' = <[nid := n'']> (alter d did nr3)) by (by rewrite Hm').
  assert (Hcr' : connection_resources m'
                 = <[sid := new_connection_sender new]> (connection_resources m))
    by (by rewrite Hm').
  clear Hm'.
  destruct (invariants_after L U hs m' nr3 (alter d did nr3) n n'' HL) as [Hwf' Hinv].
  - rewrite Hseed'. exact Hok3.
  - by apply same_shapes_alter.
  - rewrite Hseed'. exact Hn4.
  - exact Hnt.
  - rewrite Hseed'. exact Hnr'.
  - exact Hsh.
  - exact Hclk.
  - intros k c. rewrite Hcr'. destruct (decide (sid = k)) as [<-|Hne].
    + intros _. exists (new_sender new). split; [|by left].
      unfold nr3. apply lookup_insert_eq.
    + rewrite lookup_insert_ne by done. intros Hk.
      destruct (wf_connections _ _ Hwf k c Hk) as (r0 & Hr0 & Hty).
      exists r0. split; [|done].
      destruct (Hsub k (ex_intro _ r0 Hr0)) as [r3 Hr3].
      destruct (Hcases k r3 Hr3) as [[-> ->]|[[-> ->]|[[-> ->]|Hk0]]]; congruence.
  - split; [exact Hwf'|]. split; [exact Hseed'|].
    intros Hb. apply Hinv; [|exact Hif].
    intros k r b Hk Hty Hin.
    destruct (Hcases k r Hk) as [[-> ->]|[[-> ->]|[[-> ->]|Hk0]]].
    + by apply Hs5.
    + destruct Hfl as (_ & Hf2 & _). rewrite Hf2 in Hty. by destruct Hty.
    + destruct Hsrc as (_ & Hsrc2). rewrite Hsrc2 in Hty. by destruct Hty.
    + by apply (Hb k r b).
Qed.
End AddSenderRun.

Section AddReceiver.
Context (L : nmos_cpp).
Hypothesis HL : nmos_cpp_laws L.

Lemma is_receiver_shape id d names r r' :
  is_receiver id d names r -> shape r' = shape r -> is_receiver id d names r'.
Proof.
  intros (H1 & H2 & H3 & H4) Hs.
  apply shape_eq in Hs as (E1 & E2 & _ & _ & E5 & E6).
  unfold is_receiver. by rewrite E1, E2, E5, E6.
Qed.

Lemma make_receiver_for_Ok format_ media_type sdp_params receiver_id device_id names
    settings_ version r :
  make_receiver_for L format_ media_type sdp_params receiver_id device_id names settings_
    version = Ok r ->
  is_receiver receiver_id device_id names r.
Proof.
  unfold make_receiver_for. intros H. destruct format_.
  - pose proof (make_receiver_law L HL receiver_id device_id transports_rtp names
                  formats_video [media_type] settings_) as Hr.
    destruct (String.eqb media_types_video_raw media_type).
    + destruct (get_video_raw_parameters L sdp_params) as [video|]; [|discriminate].
      cbn [mbind result_bind] in H. injection H as <-.
      eapply is_receiver_shape; [exact Hr|].
      rewrite shape_set_caps_version. apply shape_set_caps_constraint_sets.
    + destruct (String.eqb media_types_video_jxsv media_type).
      * destruct (get_video_jxsv_parameters L sdp_params) as [video|]; [|discriminate].
        cbn [mbind result_bind] in H. injection H as <-.
        eapply is_receiver_shape; [exact Hr|].
        rewrite shape_set_caps_version. apply shape_set_caps_constraint_sets.
      * cbn [mbind result_bind] in H. injection H as <-.
        eapply is_receiver_shape; [exact Hr|]. apply shape_set_caps_version.
  - destruct (get_audio_L_parameters L sdp_params) as [audio|]; [|discriminate].
    cbn [mbind result_bind] in H. injection H as <-.
    eapply is_receiver_shape; [apply (make_audio_receiver_law L HL)|].
    rewrite shape_set_caps_version. apply shape_set_caps_constraint_sets.
  - destruct (get_video_smpte291_parameters L sdp_params) as [data|]; [|discriminate].
    cbn [mbind result_bind] in H. destruct (negb _); injection H as <-.
    + eapply is_receiver_shape; [apply (make_sdianc_data_receiver_law L HL)|].
      rewrite shape_set_caps_version. apply shape_set_caps_constraint_sets.
    + apply (make_sdianc_data_receiver_law L HL).
  - destruct (get_video_SMPTE2022_6_parameters L sdp_params); [|discriminate].
    cbn [mbind result_bind] in H. injection H as <-.
    apply (make_mux_receiver_law L HL).
Qed.

Lemma logs_only_make_receiver_resources sdp hs version :
  logs_only (make_receiver_resources L sdp hs version).
Proof.
  unfold make_receiver_resources.
  repeat first
    [ apply logs_only_ret
    | apply logs_only_lift
    | apply logs_only_get_model
    | apply logs_only_interface_names_of
    | apply logs_only_bind; [|intros ?]
    | progress cbv zeta ].
Qed.

(** What the new resources of a receiver are. *)
Lemma make_receiver_resources_Ok sdp hs version m new m' :
  make_receiver_resources L sdp hs version m = (Ok new, m') ->
  let seed_id := fields_seed_id (model_settings m) in
  exists i names,
    sdp_internal_id L sdp = [i]
    /\ new_receiver_id new = make_id seed_id receiver i
    /\ is_receiver (make_id seed_id receiver i) (make_id seed_id device "") names
         (new_receiver new)
    /\ (forall b, b ∈ names -> b ∈ map hi_name hs)
    /\ connection_id (new_connection_receiver new) = make_id seed_id receiver i.
Proof.
  intros H seed_id. unfold make_receiver_resources in H.
  apply bind_Ok in H as (sd & m1 & Hsd & H). apply lift_Ok in Hsd as [Hsd ->].
  apply bind_Ok in H as (sdp_params & m1 & Hp & H). apply lift_Ok in Hp as [Hp ->].
  apply bind_Ok in H as (tps & m1 & Htp & H). apply lift_Ok in Htp as [Htp ->].
  apply bind_Ok in H as (i & m1 & Hi & H). apply lift_Ok in Hi as [Hi ->].
  apply bind_Ok in H as (group_hint & m1 & Hg & H). apply lift_Ok in Hg as [Hg ->].
  cbv zeta in H.
  apply bind_Ok in H as (m0 & m1 & Hm & H). apply get_model_Ok in Hm as [-> ->].
  cbv zeta in H. fold seed_id in H.
  apply bind_Ok in H as (format_ & m1 & Hf & H). apply lift_Ok in Hf as [Hf ->].
  apply bind_Ok in H as (names & m1 & Hn & H).
  pose proof (interface_names_of_Ok _ _ _ _ _ _ _ Hn) as Hnames. clear Hn.
  apply bind_Ok in H as (r & m2 & Hr & H). apply lift_Ok in Hr as [Hr ->].
  apply make_receiver_for_Ok in Hr.
  cbv zeta in H.
  apply bind_Ok in H as (c & m2 & Hc & H). apply lift_Ok in Hc as [Hc ->].
  apply prepare_connection_resource_Ok in Hc.
  rewrite (make_connection_rtp_receiver_law L HL) in Hc.
  cbv zeta in H. apply ret_Ok in H as [-> _].
  exists i, names. cbn [new_receiver_id new_receiver new_connection_receiver].
  split. { unfold sdp_internal_id. by rewrite Hsd, Hi. }
  split; [done|]. split; [|done].
  eapply is_receiver_shape; [exact Hr|].
  destruct (negb _); rewrite ?shape_set_group_hint, shape_set_internal_id,
    shape_set_description, shape_set_label; reflexivity.
Qed.
End AddReceiver.

Section AddReceiverRun.
Context (L : nmos_cpp) (U : list string) (m : node_model).
Let seed_id := fields_seed_id (model_settings m).
Let nid := make_id seed_id node "".
Let did := make_id seed_id device "".
Hypothesis HL : nmos_cpp_laws L.
Hypothesis Hcf : collision_free seed_id U.
Hypothesis Hwf : wf U m.

Lemma add_receiver_run sdp hs version res m' :
  (forall i, i ∈ sdp_internal_id L sdp -> i ∈ U) ->
  node_implementation_add_receiver_ L sdp hs version m = (res, m') ->
  (exists e g, res = Throw e /\ m' = set_gate g m)
  \/ (res = Ok tt
      /\ exists i names new d n n'' s' g,
           i ∈ U /\ sdp_internal_id L sdp = [i]
           /\ node_resources m !! make_id seed_id receiver i = None
           /\ is_receiver (make_id seed_id receiver i) did names (new_receiver new)
           /\ (forall b, b ∈ names -> b ∈ map hi_name hs)
           /\ (forall r, shape (d r) = shape r)
           /\ let nr4 := alter d did
                           (<[make_id seed_id receiver i := new_receiver new]>
                              (node_resources m)) in
              m' = {| node_resources := <[nid := n'']> nr4;
                      connection_resources :=
                        <[make_id seed_id receiver i := new_connection_receiver new]>
                          (connection_resources m);
                      model_settings := s'; gate := g |}
              /\ fields_seed_id s' = seed_id
              /\ nr4 !! nid = Some n /\ resource_type n = node
              /\ shape n'' = shape n
              /\ fields_interfaces n'' = node_interfaces_for L hs nr4
              /\ fields_clocks n'' = fields_clocks n).
Proof.
  intros HU H. unfold node_implementation_add_receiver_ in H.
  unfold bind at 1 in H.
  destruct (logs_only_make_receiver_resources L sdp hs version m) as [g Hg].
  destruct (make_receiver_resources L sdp hs version m) as [[new|e] m1] eqn:Hmk;
    simpl in Hg; subst m1; [|left; injection H as <- <-; eauto].
  destruct (make_receiver_resources_Ok L HL _ _ _ _ _ _ Hmk)
    as (i & names & Hi & Hrid & Hr & Hnames & Hc).
  fold seed_id in Hi, Hrid, Hr, Hnames, Hc. fold did in Hr.
  assert (HiU : i ∈ U) by (apply HU; rewrite Hi; constructor).
  assert (Hix : i ∈ "" :: U) by (by apply list_elem_of_further).
  assert (Hie : "" ∈ "" :: U) by constructor.
  pose proof Hr as (Hr1 & Hr2 & Hr3 & Hr4).
  unfold bind at 1 in H. cbn [get_model] in H. cbv zeta in H.
  change (fields_seed_id (model_settings (set_gate g m))) with seed_id in H.
  fold nid did in H.
  unfold bind at 1 in H.
  destruct (node_resources m !! make_id seed_id receiver i) as [rcv|] eqn:Ercv.
  { rewrite insert_node_resource_old in H
      by (rewrite Hr1; cbn [node_resources set_gate]; rewrite Ercv; eauto).
    left. injection H as <- <-. eauto. }
  pose proof (wf_absent_receiver U m Hwf i HiU Ercv) as Ecn.
  fold seed_id in Ecn.
  rewrite insert_node_resource_new in H
    by (rewrite Hr1; cbn [node_resources set_gate]; exact Ercv).
  cbn [negb] in H. unfold bind at 1 in H.
  cbn [node_resources set_gate set_node_resources] in H.
  rewrite insert_connection_resource_new in H by (rewrite Hc; exact Ecn).
  cbn [negb] in H. unfold bind at 1 in H.
  rewrite Hr1, Hc, Hrid in H.
  unfold on_node_resources at 1 in H.
  cbn [node_resources connection_resources set_gate set_node_resources
         set_connection_resources] in H.
  pose (d := fun device_ =>
               set_receivers (fields_receivers device_ ++ [make_id seed_id receiver i])
                 (set_version version device_)).
  match type of H with
  | context [modify_resource _ _ _ ?f] =>
      change f with (fun device_ => (Ok tt, d device_)) in H
  end.
  destruct (modify_resource_alter (modify_throw_erases L)
              (<[make_id seed_id receiver i := new_receiver new]> (node_resources m))
              did (fun device_ => (Ok tt, d device_)) d ltac:(done)) as [b Hmod].
  rewrite Hmod in H. clear Hmod.
  set (nr4 := alter d did _) in *.
  destruct (wf_node_found U m Hwf) as (n & Hn & Hnt & Hclk).
  fold seed_id in Hn. fold nid in Hn.
  assert (Hn4 : nr4 !! nid = Some n).
  { unfold nr4. rewrite lookup_alter_ne by (apply (make_id_ne U m Hcf); auto).
    rewrite !lookup_insert_ne by (apply not_eq_sym, (make_id_ne U m Hcf); auto).
    exact Hn. }
  destruct (update_node_interfaces_found L version nid hs nr4 n Hn4 Hnt)
    as (n' & Hupd & Hif & Hsh & Hcl & _ & _).
  unfold bind at 1 in H. unfold on_node_resources at 1 in H.
  cbn [node_resources connection_resources set_gate set_node_resources
         set_connection_resources] in H.
  rewrite Hupd in H.
  munfold. cbn in H. injection H as <- <-.
  right. split; [done|].
  exists i, names, new, d, n, n'. eexists. eexists.
  split; [exact HiU|]. split; [exact Hi|]. split; [exact Ercv|]. split; [exact Hr|].
  split; [exact Hnames|].
  split. { intros r. unfold d. rewrite shape_set_receivers. apply shape_set_version. }
  cbv zeta. fold nr4. split; [reflexivity|].
  split; [reflexivity|]. split; [exact Hn4|]. split; [exact Hnt|].
  split; [exact Hsh|]. split; [exact Hif|]. exact Hcl.
Qed.

Lemma add_receiver_invariants sdp hs version res m' :
  (forall i, i ∈ sdp_internal_id L sdp -> i ∈ U) ->
  node_implementation_add_receiver_ L sdp hs version m = (res, m') ->
  (exists e g, res = Throw e /\ m' = set_gate g m)
  \/ (res = Ok tt /\ wf U m' /\ fields_seed_id (model_settings m') = seed_id
      /\ (bindings_on_host hs (node_resources m) ->
          bindings_on_host hs (node_resources m') /\ interfaces_invariant m')).
Proof.
  intros HU H.
  destruct (add_receiver_run sdp hs version res m' HU H) as [Hfail|[-> Hok]]; [by left|].
  right. split; [done|].
  destruct Hok as (i & names & new & d & n & n'' & s' & g & HiU & Hi & Ercv & Hr & Hnames
                   & Hd & Hm' & Hseed & Hn4 & Hnt & Hsh & Hif & Hcl).
  set (rid := make_id seed_id receiver i) in *.
  set (nr3 := <[rid := new_receiver new]> (node_resources m)) in *.
  assert (Hix : i ∈ "" :: U) by (by apply list_elem_of_further).
  destruct Hr as (Hr1 & Hr2 & Hr3 & Hr4).
  assert (Hsub : forall k, is_Some (node_resources m !! k) -> is_Some (nr3 !! k)).
  { intros k [r Hk]. unfold nr3.
    destruct (decide (rid = k)) as [<-|?]; [rewrite lookup_insert_eq; eauto|].
    rewrite lookup_insert_ne by done. eauto. }
  assert (Hcases : forall k r, nr3 !! k = Some r ->
            (k = rid /\ r = new_receiver new) \/ node_resources m !! k = Some r).
  { intros k r. unfold nr3.
    destruct (decide (rid = k)) as [<-|?].
    { rewrite lookup_insert_eq. intros [= <-]. by left. }
    rewrite lookup_insert_ne by done. intros Hk. by right. }
  assert (Hok3 : forall k r, nr3 !! k = Some r -> resource_ok seed_id U nr3 k r).
  { intros k r Hk.
    destruct (Hcases k r Hk) as [[-> ->]|Hk0].
    - unfold resource_ok. rewrite Hr2. exists i. split; [done|]. split; done.
    - eapply resource_ok_weaken; [exact (wf_resources _ _ Hwf k r Hk0)|..].
      + intros j Hj Ht ->.
        destruct (wf_flow U m Hcf Hwf j r Hj Hk0) as (_ & _ & src & Hsrc' & _).
        apply Hsub. eauto.
      + intros j Hj Ht ->.
        destruct (wf_sender U m Hcf Hwf j r Hj Hk0) as (_ & _ & _ & fl & Hfl').
        apply Hsub. eauto. }
  assert (Hseed' : fields_seed_id (model_settings m') = seed_id) by (by rewrite Hm').
  assert (Hnr' : node_resources m' = <[nid := n'']> (alter d did nr3)) by (by rewrite Hm').
  assert (Hcr' : connection_resources m'
                 = <[rid := new_connection_receiver new]> (connection_resources m))
    by (by rewrite Hm').
  clear Hm'.
  destruct (wf_node_found U m Hwf) as (n0 & Hn0 & _ & Hclk).
  assert (Hnn : n0 = n).
  { assert (Hx : alter d did nr3 !! nid = Some n0).
    { rewrite lookup_alter_ne by (apply (make_id_ne U m Hcf); auto; constructor).
      unfold nr3. rewrite lookup_insert_ne
        by (apply not_eq_sym, (make_id_ne U m Hcf); auto; constructor).
      exact Hn0. }
    pose proof (eq_trans (eq_sym Hx) Hn4) as E. by injection E. }
  subst n0.
  destruct (invariants_after L U hs m' nr3 (alter d did nr3) n n'' HL) as [Hwf' Hinv].
  - rewrite Hseed'. exact Hok3.
  - by apply same_shapes_alter.
  - rewrite Hseed'. exact Hn4.
  - exact Hnt.
  - rewrite Hseed'. exact Hnr'.
  - exact Hsh.
  - rewrite Hcl. exact Hclk.
  - intros k c. rewrite Hcr'. destruct (decide (rid = k)) as [<-|Hne].
    + intros _. exists (new_receiver new). split; [|by right].
      unfold nr3. apply lookup_insert_eq.
    + rewrite lookup_insert_ne by done. intros Hk.
      destruct (wf_connections _ _ Hwf k c Hk) as (r0 & Hr0 & Hty).
      exists r0. split; [|done].
      destruct (Hsub k (ex_intro _ r0 Hr0)) as [r3 Hk3].
      destruct (Hcases k r3 Hk3) as [[-> ->]|Hk0]; congruence.
  - split; [exact Hwf'|]. split; [exact Hseed'|].
    intros Hb. apply Hinv; [|exact Hif].
    intros k r b Hk Hty Hin.
    destruct (Hcases k r Hk) as [[-> ->]|Hk0].
    + apply Hnames. by rewrite <- Hr4.
    + by apply (Hb k r b).
Qed.
End AddReceiverRun.

(** ** The test double satisfies what the proofs assume *)

Lemma reference_lib_laws : nmos_cpp_laws Reference.lib.
Proof.
  constructor; try (intros; repeat split; reflexivity).
  - intros id flow_id transport d href interfaces s. repeat split.
    intros Hne. cbn. destruct (String.eqb flow_id "") eqn:E; [|done].
    by apply String.eqb_eq in E.
  - intros hs x. cbn. by rewrite map_map.
Qed.

(** ** [node_implementation_init_] on the empty stores *)

Lemma bound_interface_names_none (st : gmap string resource) :
  (forall k r, st !! k = Some r -> resource_type r <> sender /\ resource_type r <> receiver) ->
  bound_interface_names st = ∅.
Proof.
  intros H. apply set_eq. intros x. rewrite elem_of_bound_interface_names.
  split; [|by intros ?%not_elem_of_empty].
  intros (k & r & Hk & [Ht|Ht] & _); destruct (H k r Hk); done.
Qed.

Section Init.
Context (L : nmos_cpp) (U : list string).
Hypothesis HL : nmos_cpp_laws L.

Lemma init_run s g hs :
  collision_free (fields_seed_id s) U ->
  exists m',
    node_implementation_init_ L
      {| node_resources := ∅; connection_resources := ∅; model_settings := s; gate := g |}
    = (Ok tt, m')
    /\ wf U m' /\ fields_seed_id (model_settings m') = fields_seed_id s
    /\ bindings_on_host hs (node_resources m') /\ interfaces_invariant m'
    /\ gate m' = g.
Proof.
  intros Hcf. unfold node_implementation_init_.
  set (m := {| node_resources := ∅; connection_resources := ∅; model_settings := s;
               gate := g |}).
  set (seed_id := fields_seed_id s).
  set (nid := make_id seed_id node "").
  set (did := make_id seed_id device "").
  unfold bind at 1. cbn [get_model]. cbv zeta.
  change (fields_seed_id (model_settings m)) with seed_id. fold nid did.
  set (n := set_tags _ (set_description _ (set_label _ (make_node L nid _ _)))).
  set (d := set_tags _ (set_description _ (set_label _ (make_device L did _ _)))).
  destruct (make_node_law L HL nid [make_internal_clock clk0] (model_settings m))
    as (Hn1 & Hn2 & Hn3 & Hn4).
  destruct (make_device_law L HL did nid (model_settings m)) as (Hd1 & Hd2).
  assert (Hnid : resource_id n = nid) by exact Hn1.
  assert (Hdid : resource_id d = did) by exact Hd1.
  assert (Hne : nid <> did).
  { intros Heq.
    assert (He : "" ∈ "" :: U) by constructor.
    by destruct (collision_free_inj _ _ _ _ _ _ Hcf He He Heq). }
  unfold bind at 1.
  rewrite insert_node_resource_new by (rewrite Hnid; apply lookup_empty).
  cbn [negb]. unfold bind at 1.
  rewrite insert_node_resource_new
    by (rewrite Hdid, Hnid; cbn [node_resources set_node_resources];
        rewrite lookup_insert_ne by exact Hne; apply lookup_empty).
  cbn [negb]. rewrite Hdid, Hnid.
  unfold modify_settings, modify_model.
  eexists. split; [reflexivity|].
  cbn [node_resources set_node_resources model_settings set_model_settings
         connection_resources gate m].
  assert (Hlk : forall k r, (<[did := d]> (<[nid := n]> (∅ : gmap string resource))) !! k
                            = Some r -> (k = did /\ r = d) \/ (k = nid /\ r = n)).
  { intros k r. destruct (decide (did = k)) as [<-|?].
    { rewrite lookup_insert_eq. intros [= <-]. by left. }
    rewrite lookup_insert_ne by done.
    destruct (decide (nid = k)) as [<-|?].
    { rewrite lookup_insert_eq. intros [= <-]. by right. }
    rewrite lookup_insert_ne by done. by rewrite lookup_empty. }
  assert (Hnone : bound_interface_names (<[did := d]> (<[nid := n]> ∅)) = ∅).
  { apply bound_interface_names_none. intros k r Hk.
    destruct (Hlk k r Hk) as [[-> ->]|[-> ->]].
    - change (resource_type d) with (resource_type (make_device L did nid (model_settings m))).
      rewrite Hd2. done.
    - change (resource_type n)
        with (resource_type (make_node L nid [make_internal_clock clk0] (model_settings m))).
      rewrite Hn2. done. }
  split; [|split; [reflexivity|split; [|split; [|reflexivity]]]].
  - constructor;
      cbn [node_resources model_settings connection_resources set_model_settings
             set_node_resources m].
    + exists n. change (fields_seed_id _) with seed_id. fold nid.
      rewrite lookup_insert_ne by exact (not_eq_sym Hne). rewrite lookup_insert_eq.
      split; [done|]. split; [exact Hn2|].
      change (fields_clocks n)
        with (fields_clocks (make_node L nid [make_internal_clock clk0] (model_settings m))).
      rewrite Hn3. cbn. eauto.
    + intros k r Hk. change (fields_seed_id _) with seed_id.
      unfold resource_ok.
      destruct (Hlk k r Hk) as [[-> ->]|[-> ->]].
      * change (resource_type d)
          with (resource_type (make_device L did nid (model_settings m))).
        by rewrite Hd2.
      * change (resource_type n)
          with (resource_type (make_node L nid [make_internal_clock clk0]
                                 (model_settings m))).
        by rewrite Hn2.
    + intros k c Hk. by rewrite lookup_empty in Hk.
  - intros k r b Hk Hty. destruct (Hlk k r Hk) as [[-> ->]|[-> ->]].
    + change (resource_type d)
        with (resource_type (make_device L did nid (model_settings m))) in Hty.
      rewrite Hd2 in Hty. by destruct Hty.
    + change (resource_type n)
        with (resource_type (make_node L nid [make_internal_clock clk0]
                               (model_settings m))) in Hty.
      rewrite Hn2 in Hty. by destruct Hty.
  - exists n.
    cbn [node_resources model_settings connection_resources set_model_settings
           set_node_resources m].
    change (fields_seed_id _) with seed_id. fold nid.
    rewrite lookup_insert_ne by exact (not_eq_sym Hne). rewrite lookup_insert_eq.
    split; [done|]. intros x. rewrite Hnone.
    change (fields_interfaces n)
      with (fields_interfaces (make_node L nid [make_internal_clock clk0]
                                 (model_settings m))).
    rewrite Hn4. cbn. split; [by intros ?%elem_of_nil | by intros ?%not_elem_of_empty].
Qed.
End Init.

(** ** The operations of the server on a model that satisfies the invariants *)

Lemma apply_operation_call L e op s m :
  impl s = Some m ->
  apply_operation L e op (Some s) = call s m (server_operation L e op).
Proof. intros H. destruct op; simpl; by rewrite H. Qed.

Lemma wf_set_gate U g m : wf U m -> wf U (set_gate g m).
Proof. intros [H1 H2 H3]. by constructor. Qed.

Lemma invariant_set_gate U hs seed_id g m :
  invariant U hs seed_id m -> invariant U hs seed_id (set_gate g m).
Proof.
  intros (H1 & H2 & H3 & H4). split; [done|]. split; [by apply wf_set_gate|]. done.
Qed.

Lemma try_log_Throw {A} (c : M A) m ex g :
  c m = (Throw ex, set_gate g m) -> exists g', try_log c m = (Throw ex, set_gate g' m).
Proof. intros H. unfold try_log. rewrite H. destruct ex; simpl; by eexists. Qed.

Lemma try_log_Ok {A} (c : M A) m a m' : c m = (Ok a, m') -> try_log c m = (Ok a, m').
Proof. intros H. unfold try_log. by rewrite H. Qed.

Section Operations.
Context (L : nmos_cpp) (U : list string) (hs : list host_interface) (seed_id : string).
Hypothesis HL : nmos_cpp_laws L.
Hypothesis Hcf : collision_free seed_id U.

(** An addition or removal either succeeds and keeps the invariants, or
    throws and leaves the stores and the settings as they were. *)
Lemma server_operation_step e op m :
  is_add_or_remove op = true ->
  (forall i, i ∈ operation_ids L op -> i ∈ U) ->
  fields_seed_id (model_settings m) = seed_id ->
  wf U m ->
  (exists m', server_operation L e op m = (Ok tt, m')
              /\ fields_seed_id (model_settings m') = seed_id
              /\ wf U m'
              /\ (bindings_on_host (host_interfaces e) (node_resources m) ->
                  bindings_on_host (host_interfaces e) (node_resources m')
                  /\ interfaces_invariant m'))
  \/ (exists ex g, server_operation L e op m = (Throw ex, set_gate g m)).
Proof.
  intros Hop HU Hseed Hwf. subst seed_id.
  destruct op as [config|config|x|x|x sdp]; [| | | |discriminate]; cbn [server_operation].
  - unfold server_add_sender. destruct config as [sdp|].
    + destruct (node_implementation_add_sender L e sdp m) as [res m'] eqn:Hrun.
      pose proof Hrun as Hrun'. unfold node_implementation_add_sender in Hrun'.
      destruct (add_sender_invariants L U m HL Hcf Hwf sdp _ _ res m' HU Hrun')
        as [(ex & g & -> & ->)|(-> & Hwf' & Hseed' & Hinv)].
      * right. destruct (try_log_Throw _ _ _ _ Hrun) as [g' Hg']. eauto.
      * left. exists m'. split; [by apply try_log_Ok|]. done.
    + right. exists (logic_error "invalid sender config"). by eexists.
  - unfold server_add_receiver. destruct config as [sdp|].
    + destruct (node_implementation_add_receiver L e sdp m) as [res m'] eqn:Hrun.
      pose proof Hrun as Hrun'. unfold node_implementation_add_receiver in Hrun'.
      destruct (add_receiver_invariants L U m HL Hcf Hwf sdp _ _ res m' HU Hrun')
        as [(ex & g & -> & ->)|(-> & Hwf' & Hseed' & Hinv)].
      * right. destruct (try_log_Throw _ _ _ _ Hrun) as [g' Hg']. eauto.
      * left. exists m'. split; [by apply try_log_Ok|]. done.
    + right. exists (logic_error "invalid receiver config"). by eexists.
  - unfold server_remove_sender, node_implementation_remove_sender.
    assert (Hx : x ∈ U) by (apply HU; constructor).
    destruct (find_resource (node_resources m)
                (make_id (fields_seed_id (model_settings m)) sender x, sender))
      as [r|] eqn:Hf.
    + destruct (remove_sender_run L U m Hcf Hwf x (host_interfaces e) (make_version e) r
                  Hx Hf) as (n & n' & _ & _ & Hrun & _).
      destruct (wf_after_remove_sender L U m HL Hcf Hwf x _ _ r _ Hx Hf Hrun)
        as (Hwf' & Hseed' & Hinv).
      left. eexists. split; [apply try_log_Ok; exact Hrun|]. done.
    + right. pose proof (remove_connection_missing L sender x (host_interfaces e)
                           (make_version e) m Hf) as Hrun.
      destruct (try_log_Throw _ _ _ _ Hrun) as [g' Hg']. eauto.
  - unfold server_remove_receiver, node_implementation_remove_receiver.
    assert (Hx : x ∈ U) by (apply HU; constructor).
    destruct (find_resource (node_resources m)
                (make_id (fields_seed_id (model_settings m)) receiver x, receiver))
      as [r|] eqn:Hf.
    + destruct (remove_receiver_run L U m Hcf Hwf x (host_interfaces e) (make_version e) r
                  Hx Hf) as (n & n' & _ & _ & Hrun & _).
      destruct (wf_after_remove_receiver L U m HL Hcf Hwf x _ _ r _ Hx Hf Hrun)
        as (Hwf' & Hseed' & Hinv).
      left. eexists. split; [apply try_log_Ok; exact Hrun|]. done.
    + right. pose proof (remove_connection_missing L receiver x (host_interfaces e)
                           (make_version e) m Hf) as Hrun.
      destruct (try_log_Throw _ _ _ _ Hrun) as [g' Hg']. eauto.
Qed.

(** [add_all] of the constructor: every configured receiver or sender
    goes in, or the constructor throws. *)
Lemma add_all_invariant what (add : string -> M unit) e configs :
  (forall sdp m res m',
      (forall i, i ∈ sdp_internal_id L sdp -> i ∈ U) ->
      fields_seed_id (model_settings m) = seed_id -> wf U m ->
      add sdp m = (res, m') ->
      (exists ex g, res = Throw ex /\ m' = set_gate g m)
      \/ (res = Ok tt /\ wf U m' /\ fields_seed_id (model_settings m') = seed_id
          /\ (bindings_on_host (host_interfaces e) (node_resources m) ->
              bindings_on_host (host_interfaces e) (node_resources m')
              /\ interfaces_invariant m'))) ->
  (forall sdp i, Some sdp ∈ configs -> i ∈ sdp_internal_id L sdp -> i ∈ U) ->
  forall m m',
    invariant U (host_interfaces e) seed_id m ->
    add_all what add configs m = (Ok tt, m') ->
    invariant U (host_interfaces e) seed_id m'.
Proof.
  intros Hadd. induction configs as [|[sdp|] configs IH]; intros HU m m' Hinv H.
  - apply ret_Ok in H as [_ ->]. done.
  - simpl in H. apply bind_Ok in H as ([] & m1 & H1 & H).
    destruct Hinv as (Hseed & Hwf & Hb & Hi).
    destruct (Hadd sdp m (Ok tt) m1) as [(ex & g & Hex & _)|(_ & Hwf' & Hseed' & Hinv')];
      [intros i; apply HU; constructor | done | done | done | discriminate |].
    apply (IH (fun sdp' i Hin => HU sdp' i (list_elem_of_further _ _ _ Hin)) m1 m'); [|done].
    destruct (Hinv' Hb). done.
  - discriminate.
Qed.

(** The model of a server that has been created satisfies the invariants. *)
Lemma server_server_invariant e config s m :
  make_settings L config = Ok s ->
  fields_seed_id s = seed_id ->
  host_interfaces e = hs ->
  server_server L e config = Ok m ->
  (forall sdp i, Some sdp ∈ config_receivers config ++ config_senders config ->
                 i ∈ sdp_internal_id L sdp -> i ∈ U) ->
  invariant U hs seed_id m.
Proof.
  intros Hs Hseed <- H HU. unfold server_server in H. rewrite Hs in H.
  cbn [mbind result_bind] in H. unfold try_log in H.
  match type of H with
  | match (let (_, _) := ?c ?m0 in _) with _ => _ end = _ =>
      destruct (c m0) as [[[]|ex] m1] eqn:Hrun; [|discriminate]
  end.
  injection H as ->.
  apply bind_Ok in Hrun as ([] & m1 & H1 & Hrun).
  unfold slog, modify_model in H1. injection H1 as <-.
  apply bind_Ok in Hrun as ([] & m2 & H2 & Hrun).
  unfold node_implementation_init in H2.
  apply bind_Ok in Hrun as ([] & m3 & H3 & Hrun).
  apply bind_Ok in Hrun as ([] & m4 & H4 & Hrun).
  apply bind_Ok in Hrun as ([] & m5 & H5 & Hrun).
  unfold slog, modify_model in H5. injection H5 as <-.
  apply bind_Ok in Hrun as ([] & m6 & H6 & Hrun).
  apply lift_Ok in H6 as [_ ->].
  unfold slog, modify_model in Hrun. injection Hrun as <-.
  assert (Hinv2 : invariant U (host_interfaces e) seed_id m2).
  { rewrite <- Hseed in Hcf.
    destruct (init_run L U HL s [(info, "Starting NvNmos node")] (host_interfaces e) Hcf)
      as (m2' & Hrun' & Hwf' & Hseed' & Hb' & Hi' & _).
    change (node_implementation_init_ L
              {| node_resources := ∅; connection_resources := ∅; model_settings := s;
                 gate := [(info, "Starting NvNmos node")] |} = (Ok tt, m2)) in H2.
    rewrite Hrun' in H2. injection H2 as <-. split; [congruence|]. done. }
  assert (Hinv3 : invariant U (host_interfaces e) seed_id m3).
  { eapply (add_all_invariant _ _ e (config_receivers config)); [| |exact Hinv2|exact H3].
    - intros sdp m res m' HU' Hseed' Hwf' Hrun.
      rewrite <- Hseed' in Hcf.
      destruct (add_receiver_invariants L U m HL Hcf Hwf' sdp _ _ res m' HU' Hrun)
        as [?|(? & ? & ? & ?)]; [by left|right]. rewrite <- Hseed'. done.
    - intros sdp i Hin. apply HU. apply elem_of_app. by left. }
  assert (Hinv4 : invariant U (host_interfaces e) seed_id m4).
  { eapply (add_all_invariant _ _ e (config_senders config)); [| |exact Hinv3|exact H4].
    - intros sdp m res m' HU' Hseed' Hwf' Hrun.
      rewrite <- Hseed' in Hcf.
      destruct (add_sender_invariants L U m HL Hcf Hwf' sdp _ _ res m' HU' Hrun)
        as [?|(? & ? & ? & ?)]; [by left|right]. rewrite <- Hseed'. done.
    - intros sdp i Hin. apply HU. apply elem_of_app. by right. }
  by do 2 apply invariant_set_gate.
Qed.
End Operations.

(** ** Removal cascades *)

Lemma dom_after_removal {A} (st : gmap string A) (D : list string) n v f d :
  is_Some (st !! n) -> n ∉ D ->
  dom (<[n := v]> (alter f d (foldr delete st D))) = dom st ∖ list_to_set D.
Proof.
  intros Hn HD. rewrite dom_insert_L, dom_alter_L.
  assert (Hd : dom (foldr delete st D) = dom st ∖ list_to_set D).
  { clear. induction D as [|a D IH]; simpl.
    - apply set_eq. intros k. rewrite elem_of_difference, elem_of_empty. tauto.
    - rewrite dom_delete_L, IH. apply set_eq. intros k.
      rewrite !elem_of_difference, elem_of_union, elem_of_singleton. tauto. }
  rewrite Hd. apply elem_of_dom in Hn.
  apply set_eq. intros k. rewrite elem_of_union, elem_of_singleton, !elem_of_difference,
    elem_of_list_to_set.
  split; [intros [->|?]; [done|done] | intros [? ?]; by right].
Qed.

(** C3. On a well-formed model, removing the sender with internal id [x]
    succeeds; the sender, its flow and its source were in the store, are
    three different resources, and are the resources that are gone
    afterwards, together with the sender's connection twin; every other
    resource but the device and the node is as before; the device is as
    before or has lost the sender from its [senders] array with a new
    version ([remove_ref]); the node is as before or has new [interfaces] with a new
    version.  Removing a receiver erases the receiver and its connection
    twin only, with the same changes of the device ([receivers]) and the
    node. *)
Theorem remove_connection_cascade (L : nmos_cpp) (U : list string) (m : node_model)
    (e : env) (x : string) :
  let seed_id := fields_seed_id (model_settings m) in
  let nid := make_id seed_id node "" in
  let did := make_id seed_id device "" in
  let sid := make_id seed_id sender x in
  let fid := make_id seed_id flow x in
  let srcid := make_id seed_id source x in
  let rid := make_id seed_id receiver x in
  collision_free seed_id U -> wf U m -> x ∈ U ->
  (forall r,
      find_resource (node_resources m) (sid, sender) = Some r ->
      exists m',
        node_implementation_remove_sender L e x m = (Ok tt, m')
        /\ is_Some (node_resources m !! sid) /\ is_Some (node_resources m !! fid)
        /\ is_Some (node_resources m !! srcid)
        /\ NoDup [sid; fid; srcid; did; nid]
        /\ dom (node_resources m') = dom (node_resources m) ∖ {[sid; fid; srcid]}
        /\ node_resources m' !! sid = None /\ node_resources m' !! fid = None
        /\ node_resources m' !! srcid = None
        /\ connection_resources m' = delete sid (connection_resources m)
        /\ (forall k, k ∉ [sid; fid; srcid; did; nid] ->
                      node_resources m' !! k = node_resources m !! k)
        /\ device_and_node_after e sender sid did nid (node_resources m) (node_resources m'))
  /\ (forall r,
        find_resource (node_resources m) (rid, receiver) = Some r ->
        exists m',
          node_implementation_remove_receiver L e x m = (Ok tt, m')
          /\ is_Some (node_resources m !! rid)
          /\ NoDup [rid; did; nid]
          /\ dom (node_resources m') = dom (node_resources m) ∖ {[rid]}
          /\ node_resources m' !! rid = None
          /\ connection_resources m' = delete rid (connection_resources m)
          /\ (forall k, k ∉ [rid; did; nid] ->
                        node_resources m' !! k = node_resources m !! k)
          /\ device_and_node_after e receiver rid did nid (node_resources m) (node_resources m')).
Proof.
  intros seed_id nid did sid fid srcid rid Hcf Hwf Hx.
  assert (Hix : x ∈ "" :: U) by (by apply list_elem_of_further).
  assert (Hie : "" ∈ "" :: U) by constructor.
  assert (Hne : forall t t' i i', i ∈ "" :: U -> i' ∈ "" :: U -> t <> t' \/ i <> i' ->
                  make_id seed_id t i <> make_id seed_id t' i')
    by exact (make_id_ne U m Hcf).
  split.
  - intros r Hfind.
    destruct (remove_sender_run L U m Hcf Hwf x (host_interfaces e) (make_version e) r Hx Hfind)
      as (n & n' & Hn & Hn4 & Hrun & Hif & Hsh & Hcl & Hcases & _).
    fold seed_id sid fid srcid did nid in Hn, Hn4, Hrun, Hif, Hcases.
    pose proof Hfind as Hfind0. apply find_resource_Some in Hfind as [Hr Ht].
    destruct (wf_sender U m Hcf Hwf x r Hx Hr) as (_ & _ & _ & fl & Hfl).
    destruct (wf_flow U m Hcf Hwf x fl Hx Hfl) as (_ & _ & src & Hsrc & _).
    fold seed_id in Hfl, Hsrc. fold fid in Hfl. fold srcid in Hsrc.
    assert (N1 : sid <> fid) by (apply Hne; auto).
    assert (N2 : sid <> srcid) by (apply Hne; auto).
    assert (N3 : sid <> did) by (apply Hne; auto).
    assert (N4 : sid <> nid) by (apply Hne; auto).
    assert (N5 : fid <> srcid) by (apply Hne; auto).
    assert (N6 : fid <> did) by (apply Hne; auto).
    assert (N7 : fid <> nid) by (apply Hne; auto).
    assert (N8 : srcid <> did) by (apply Hne; auto).
    assert (N9 : srcid <> nid) by (apply Hne; auto).
    assert (N10 : did <> nid) by (apply Hne; auto).
    eexists. split; [exact Hrun|].
    cbn [node_resources connection_resources].
    split; [exists r; exact Hr|]. split; [exists fl; exact Hfl|].
    split; [exists src; exact Hsrc|].
    split.
    { repeat (apply NoDup_cons; split;
              [rewrite ?elem_of_cons, elem_of_nil; intros Hin;
               repeat (destruct Hin as [Hin|Hin]; [contradiction|]); exact Hin|]).
      apply NoDup_nil. done. }
    split.
    { assert (HD : nid ∉ [srcid; fid; sid]).
      { rewrite !not_elem_of_cons. split; [exact (not_eq_sym N9)|].
        split; [exact (not_eq_sym N7)|]. split; [exact (not_eq_sym N4)|].
        apply not_elem_of_nil. }
      pose proof (dom_after_removal (node_resources m) [srcid; fid; sid] nid n'
                    (remove_ref sender sid (make_version e)) did (ex_intro _ n Hn) HD) as Hdom.
      etrans; [exact Hdom|]. clear.
      cbn [list_to_set]. apply set_eq. intros k.
      rewrite !elem_of_difference, !elem_of_union, !elem_of_singleton, elem_of_empty.
      tauto. }
    split. { rewrite lookup_insert_ne by exact (not_eq_sym N4).
             rewrite lookup_alter_ne by exact (not_eq_sym N3).
             rewrite lookup_delete_ne by exact (not_eq_sym N2).
             rewrite lookup_delete_ne by exact (not_eq_sym N1).
             apply lookup_delete_eq. }
    split. { rewrite lookup_insert_ne by exact (not_eq_sym N7).
             rewrite lookup_alter_ne by exact (not_eq_sym N6).
             rewrite lookup_delete_ne by exact (not_eq_sym N5).
             apply lookup_delete_eq. }
    split. { rewrite lookup_insert_ne by exact (not_eq_sym N9).
             rewrite lookup_alter_ne by exact (not_eq_sym N8).
             apply lookup_delete_eq. }
    split; [reflexivity|].
    split.
    { intros k Hk. rewrite !not_elem_of_cons in Hk.
      destruct Hk as (K1 & K2 & K3 & K4 & K5 & _).
      rewrite lookup_insert_ne by exact (not_eq_sym K5).
      rewrite lookup_alter_ne by exact (not_eq_sym K4).
      rewrite lookup_delete_ne by exact (not_eq_sym K3).
      rewrite lookup_delete_ne by exact (not_eq_sym K2).
      apply lookup_delete_ne. exact (not_eq_sym K1). }
    intros d n0 Hd Hn0. split.
    + rewrite lookup_insert_ne by exact (not_eq_sym N10).
      rewrite lookup_alter. destruct (decide (did = did)) as [_|]; [|done].
      rewrite lookup_delete_ne by exact N8.
      rewrite lookup_delete_ne by exact N6.
      rewrite lookup_delete_ne by exact N3.
      by rewrite Hd.
    + rewrite lookup_insert_eq.
      pose proof (eq_trans (eq_sym Hn) Hn0) as E. injection E as ->.
      destruct Hcases as [->| ->]; [by left | right; eauto].
  - intros r Hfind.
    destruct (remove_receiver_run L U m Hcf Hwf x (host_interfaces e) (make_version e) r Hx
                Hfind)
      as (n & n' & Hn & Hn4 & Hrun & Hif & Hsh & Hcl & Hcases & _).
    fold seed_id rid did nid in Hn, Hn4, Hrun, Hif, Hcases.
    pose proof Hfind as Hfind0. apply find_resource_Some in Hfind as [Hr Ht].
    assert (N3 : rid <> did) by (apply Hne; auto).
    assert (N4 : rid <> nid) by (apply Hne; auto).
    assert (N5 : rid <> sid) by (apply Hne; auto).
    assert (N10 : did <> nid) by (apply Hne; auto).
    eexists. split; [exact Hrun|].
    cbn [node_resources connection_resources].
    split; [exists r; exact Hr|].
    split.
    { repeat (apply NoDup_cons; split;
              [rewrite ?elem_of_cons, elem_of_nil; intros Hin;
               repeat (destruct Hin as [Hin|Hin]; [contradiction|]); exact Hin|]).
      apply NoDup_nil. done. }
    split.
    { assert (HD : nid ∉ [rid]).
      { rewrite !not_elem_of_cons. split; [exact (not_eq_sym N4)|]. apply not_elem_of_nil. }
      pose proof (dom_after_removal (node_resources m) [rid] nid n'
                    (remove_ref receiver rid (make_version e)) did (ex_intro _ n Hn) HD) as Hdom.
      etrans; [exact Hdom|]. clear.
      cbn [list_to_set]. apply set_eq. intros k.
      rewrite !elem_of_difference, !elem_of_union, !elem_of_singleton, elem_of_empty.
      tauto. }
    split. { rewrite lookup_insert_ne by exact (not_eq_sym N4).
             rewrite lookup_alter_ne by exact (not_eq_sym N3).
             apply lookup_delete_eq. }
    split; [reflexivity|].
    split.
    { intros k Hk. rewrite !not_elem_of_cons in Hk.
      destruct Hk as (K1 & K4 & K5 & _).
      rewrite lookup_insert_ne by exact (not_eq_sym K5).
      rewrite lookup_alter_ne by exact (not_eq_sym K4).
      apply lookup_delete_ne. exact (not_eq_sym K1). }
    intros d n0 Hd Hn0. split.
    + rewrite lookup_insert_ne by exact (not_eq_sym N10).
      rewrite lookup_alter. destruct (decide (did = did)) as [_|]; [|done].
      rewrite lookup_delete_ne by exact N3.
      by rewrite Hd.
    + rewrite lookup_insert_eq.
      pose proof (eq_trans (eq_sym Hn) Hn0) as E. injection E as ->.
      destruct Hcases as [->| ->]; [by left | right; eauto].
Qed.

(** ** Sequences of operations *)

Lemma call_Ok s m (c : M unit) m' :
  c m = (Ok tt, m') -> call s m c = (true, Some (set_impl (Some m') s)).
Proof. intros H. unfold call. by rewrite H. Qed.

Lemma call_Throw s m (c : M unit) ex m' :
  c m = (Throw ex, m') -> call s m c = (false, Some (set_impl (Some m') s)).
Proof. intros H. unfold call. by rewrite H. Qed.

Section Sequences.
Context (L : nmos_cpp) (U : list string) (hs : list host_interface) (seed_id : string).
Hypothesis HL : nmos_cpp_laws L.
Hypothesis Hcf : collision_free seed_id U.

Lemma apply_operation_invariant eo s m :
  admissible L U hs eo -> impl s = Some m -> invariant U hs seed_id m ->
  exists m', (apply_operation L eo.1 eo.2 (Some s)).2 = Some (set_impl (Some m') s)
             /\ invariant U hs seed_id m'.
Proof.
  intros (He & Hop & HU) Hs (Hseed & Hwf & Hb & Hi).
  rewrite (apply_operation_call L _ _ s m Hs).
  destruct (server_operation_step L U seed_id HL Hcf eo.1 eo.2 m Hop HU Hseed Hwf)
    as [(m' & Hrun & Hseed' & Hwf' & Hinv)|(ex & g & Hrun)].
  - rewrite (call_Ok _ _ _ _ Hrun). exists m'. split; [done|].
    rewrite He in Hinv. destruct (Hinv Hb). done.
  - rewrite (call_Throw _ _ _ _ _ Hrun). exists (set_gate g m). split; [done|].
    by apply invariant_set_gate.
Qed.

Lemma apply_operations_invariant ops s m :
  Forall (admissible L U hs) ops -> impl s = Some m -> invariant U hs seed_id m ->
  exists s' m', apply_operations L ops (Some s) = Some s' /\ impl s' = Some m'
                /\ invariant U hs seed_id m'.
Proof.
  intros Hops. revert s m. induction Hops as [|eo ops Heo Hops IH]; intros s m Hs Hinv.
  - exists s, m. done.
  - destruct (apply_operation_invariant eo s m Heo Hs Hinv) as (m1 & Hrun & Hinv1).
    unfold apply_operations. cbn [fold_left]. rewrite Hrun.
    apply (IH (set_impl (Some m1) s) m1); done.
Qed.
End Sequences.

(** *** The fixtures satisfy the invariants *)

Lemma fixture_collision_free : collision_free Fixture.seed_id Fixture.universe.
Proof. apply (bool_decide_eq_true_1 _). vm_compute. reflexivity. Qed.

Lemma fixture_created :
  exists s m, Fixture.created Fixture.e = Some s /\ impl s = Some m
              /\ invariant Fixture.universe Fixture.hosts Fixture.seed_id m.
Proof.
  destruct (server_server Reference.lib Fixture.e Reference.config) as [m|] eqn:Hm;
    [|vm_compute in Hm; discriminate].
  exists (set_impl (Some m) Fixture.handle), m.
  split. { unfold Fixture.created, create_nmos_node_server. by rewrite Hm. }
  split; [done|].
  destruct (make_settings Reference.lib Reference.config) as [s|] eqn:Hs;
    [|vm_compute in Hs; discriminate].
  apply (server_server_invariant Reference.lib Fixture.universe Fixture.hosts Fixture.seed_id
           reference_lib_laws fixture_collision_free Fixture.e Reference.config s m Hs).
  - assert (E : fields_seed_id <$> make_settings Reference.lib Reference.config
               = Ok Fixture.seed_id) by (vm_compute; reflexivity).
    rewrite Hs in E. by injection E.
  - reflexivity.
  - exact Hm.
  - intros sdp i Hin. change (Some sdp ∈ @nil (option string)) in Hin.
    apply elem_of_nil in Hin. destruct Hin.
Qed.

Lemma fixture_admissible_add_sink_0 :
  admissible Reference.lib Fixture.universe Fixture.hosts Fixture.add_sink_0.
Proof.
  split; [reflexivity|]. split; [reflexivity|]. intros i Hi.
  assert (E : operation_ids Reference.lib Fixture.add_sink_0.2 = ["sink-0"])
    by (vm_compute; reflexivity).
  rewrite E in Hi. apply list_elem_of_singleton in Hi as ->. repeat constructor.
Qed.

Lemma fixture_admissible_add_source_0 :
  admissible Reference.lib Fixture.universe Fixture.hosts Fixture.add_source_0.
Proof.
  split; [reflexivity|]. split; [reflexivity|]. intros i Hi.
  assert (E : operation_ids Reference.lib Fixture.add_source_0.2 = ["source-0"])
    by (vm_compute; reflexivity).
  rewrite E in Hi. apply list_elem_of_singleton in Hi as ->. repeat constructor.
Qed.

Lemma fixture_invariant ops :
  Forall (admissible Reference.lib Fixture.universe Fixture.hosts) ops ->
  invariant Fixture.universe Fixture.hosts Fixture.seed_id (Fixture.model_after ops).
Proof.
  intros Hops. destruct fixture_created as (s & m & Hc & Hs & Hinv).
  destruct (apply_operations_invariant Reference.lib Fixture.universe Fixture.hosts
              Fixture.seed_id reference_lib_laws fixture_collision_free ops s m Hops Hs Hinv)
    as (s' & m' & Hrun & Hs' & Hinv').
  unfold Fixture.model_after, Fixture.model_of. rewrite Hc, Hrun.
  cbn [mbind option_bind]. rewrite Hs'. exact Hinv'.
Qed.

Lemma fixture_added :
  Forall (admissible Reference.lib Fixture.universe Fixture.hosts)
    [Fixture.add_sink_0; Fixture.add_source_0].
Proof.
  constructor; [apply fixture_admissible_add_sink_0|].
  constructor; [apply fixture_admissible_add_source_0|]. constructor.
Qed.

(** C3, on the example: with the sender "sink-0" and the receiver
    "source-0" added, removing either succeeds with the effects above. *)
Lemma remove_connection_cascade_witness :
  (exists m',
      node_implementation_remove_sender Reference.lib Fixture.e "sink-0" Fixture.model_1
      = (Ok tt, m')
      /\ node_resources m' !! make_id Fixture.seed_id sender "sink-0" = None
      /\ node_resources m' !! make_id Fixture.seed_id flow "sink-0" = None
      /\ node_resources m' !! make_id Fixture.seed_id source "sink-0" = None
      /\ connection_resources m'
         = delete (make_id Fixture.seed_id sender "sink-0")
             (connection_resources Fixture.model_1))
  /\ (exists m',
        node_implementation_remove_receiver Reference.lib Fixture.e "source-0" Fixture.model_1
        = (Ok tt, m')
        /\ node_resources m' !! make_id Fixture.seed_id receiver "source-0" = None
        /\ connection_resources m'
           = delete (make_id Fixture.seed_id receiver "source-0")
               (connection_resources Fixture.model_1)).
Proof.
  destruct (fixture_invariant _ fixture_added) as (Hseed & Hwf & _).
  change (Fixture.model_after _) with Fixture.model_1 in Hseed, Hwf.
  pose proof fixture_collision_free as Hcf. rewrite <- Hseed in Hcf.
  split.
  - assert (Hx : "sink-0" ∈ Fixture.universe) by (repeat constructor).
    destruct (remove_connection_cascade Reference.lib Fixture.universe Fixture.model_1
                Fixture.e "sink-0" Hcf Hwf Hx) as [Hsender _].
    rewrite Hseed in Hsender.
    assert (Hr : is_Some (find_resource (node_resources Fixture.model_1)
                            (make_id Fixture.seed_id sender "sink-0", sender)))
      by (apply (bool_decide_eq_true_1 _); vm_compute; reflexivity).
    destruct Hr as [r Hr].
    destruct (Hsender r Hr) as (m' & Hrun & _ & _ & _ & _ & _ & H1 & H2 & H3 & Hcr & _).
    exists m'. split; [exact Hrun|]. split; [exact H1|]. split; [exact H2|].
    split; [exact H3 | exact Hcr].
  - assert (Hx : "source-0" ∈ Fixture.universe) by (repeat constructor).
    destruct (remove_connection_cascade Reference.lib Fixture.universe Fixture.model_1
                Fixture.e "source-0" Hcf Hwf Hx) as [_ Hreceiver].
    rewrite Hseed in Hreceiver.
    assert (Hr : is_Some (find_resource (node_resources Fixture.model_1)
                            (make_id Fixture.seed_id receiver "source-0", receiver)))
      by (apply (bool_decide_eq_true_1 _); vm_compute; reflexivity).
    destruct Hr as [r Hr].
    destruct (Hreceiver r Hr) as (m' & Hrun & _ & _ & _ & H1 & Hcr & _).
    exists m'. split; [exact Hrun|]. split; [exact H1 | exact Hcr].
Defined.

(** ** The node's interfaces *)

(** C4, as stated, fails when the interfaces of the host change between
    two operations: a sender is added on a host with [eth0] only, then a
    receiver on a host with [eth1] only; both calls return true, the sender
    is still bound to [eth0], and the node lists [eth1] alone. *)
Lemma node_interfaces_union_counterexample :
  let e0 := Reference.environment [Reference.eth0] "1:0" in
  let e1 := Reference.environment [Reference.eth1] "2:0" in
  let r1 := apply_operation Reference.lib e0 (op_add_sender (Some Reference.sink_0))
              (Fixture.created e0) in
  let r2 := apply_operation Reference.lib e1 (op_add_receiver (Some Reference.source_0)) r1.2 in
  let m := Fixture.model_of r2.2 in
  r1.1 = true /\ r2.1 = true
  /\ (fields_interfaces
        <$> node_resources m !! make_id (fields_seed_id (model_settings m)) node "")
     = Some [{| ni_name := "eth1"; ni_other := "02-00-00-00-00-11" |}]
  /\ "eth0" ∈ bound_interface_names (node_resources m).
Proof.
  cbv zeta. split; [vm_compute; reflexivity|]. split; [vm_compute; reflexivity|].
  split; [vm_compute; reflexivity|].
  apply (bool_decide_eq_true_1 _). vm_compute. reflexivity.
Qed.

Lemma node_interfaces_for_bound L hs (st st0 : gmap string resource) :
  bound_interface_names st = bound_interface_names st0 ->
  node_interfaces_for L hs st = node_interfaces_for L hs st0.
Proof. intros H. unfold node_interfaces_for. by rewrite H. Qed.

(** C4, amended.  On a host whose interfaces stay the same, after the
    creation of the server and any sequence of additions and removals,
    the names in the node's [interfaces] array are exactly the interface
    names bound by the senders and receivers in the store.  And
    [update_node_interfaces] leaves the store as it is when the bound
    names are those the node's array was computed from; otherwise the
    node is as before or has the recomputed array and a new version. *)
Theorem node_interfaces_on_fixed_host (L : nmos_cpp) (U : list string)
    (hs : list host_interface) (e : env) (config : NvNmosNodeConfig)
    (s0 s : NvNmosNodeServer) (ops : list (env * operation)) :
  nmos_cpp_laws L ->
  host_interfaces e = hs ->
  (forall settings_, make_settings L config = Ok settings_ ->
                     collision_free (fields_seed_id settings_) U) ->
  (forall sdp i, Some sdp ∈ config_receivers config ++ config_senders config ->
                 i ∈ sdp_internal_id L sdp -> i ∈ U) ->
  create_nmos_node_server L e (Some config) (Some s0) = (true, Some s) ->
  Forall (admissible L U hs) ops ->
  (exists s' m' n,
      apply_operations L ops (Some s) = Some s' /\ impl s' = Some m'
      /\ node_resources m' !! make_id (fields_seed_id (model_settings m')) node "" = Some n
      /\ forall x, x ∈ map ni_name (fields_interfaces n)
                   <-> x ∈ bound_interface_names (node_resources m'))
  /\ (forall version nid (st0 st : gmap string resource) n,
        st !! nid = Some n -> resource_type n = node ->
        fields_interfaces n = node_interfaces_for L hs st0 ->
        bound_interface_names st = bound_interface_names st0 ->
        update_node_interfaces L version nid hs st = (Ok tt, st))
  /\ (forall version nid (st : gmap string resource) n,
        st !! nid = Some n -> resource_type n = node ->
        exists n',
          update_node_interfaces L version nid hs st = (Ok tt, <[nid := n']> st)
          /\ (n' = n
              \/ n' = set_interfaces (node_interfaces_for L hs st) (set_version version n))).
Proof.
  intros HL He Hcf HU Hcreate Hops. split; [|split].
  - unfold create_nmos_node_server in Hcreate.
    destruct (server_server L e config) as [m|] eqn:Hm; [|discriminate].
    injection Hcreate as <-.
    assert (Hs : exists settings_, make_settings L config = Ok settings_).
    { unfold server_server in Hm. destruct (make_settings L config); [eauto|discriminate]. }
    destruct Hs as [settings_ Hs].
    pose proof (server_server_invariant L U hs (fields_seed_id settings_) HL (Hcf _ Hs) e config
                  settings_ m Hs eq_refl He Hm HU) as Hinv.
    destruct (apply_operations_invariant L U hs (fields_seed_id settings_) HL (Hcf _ Hs) ops
                (set_impl (Some m) s0) m Hops eq_refl Hinv)
      as (s' & m' & Hrun & Hs' & (_ & _ & _ & (n & Hn & Hi))).
    exists s', m', n. done.
  - intros version nid st0 st n Hn Ht Hif Hb.
    destruct (update_node_interfaces_found L version nid hs st n Hn Ht)
      as (n' & Hupd & _ & _ & _ & _ & Hsame).
    rewrite Hupd, (Hsame (eq_trans (node_interfaces_for_bound L hs st st0 Hb) (eq_sym Hif))).
    by rewrite insert_id.
  - intros version nid st n Hn Ht.
    destruct (update_node_interfaces_found L version nid hs st n Hn Ht)
      as (n' & Hupd & _ & _ & _ & Hcases & _).
    exists n'. done.
Qed.

Lemma fixture_server :
  create_nmos_node_server Reference.lib Fixture.e (Some Reference.config)
    (Some Fixture.handle)
  = (true, Some (set_impl (Some (Fixture.model_of (Fixture.created Fixture.e)))
                   Fixture.handle)).
Proof. vm_compute. reflexivity. Qed.

Lemma fixture_admissible_remove_sink_0 :
  admissible Reference.lib Fixture.universe Fixture.hosts (Fixture.e, op_remove_sender "sink-0").
Proof.
  split; [reflexivity|]. split; [reflexivity|]. intros i Hi.
  apply list_elem_of_singleton in Hi as ->. repeat constructor.
Qed.

(** C4, on the example: a sender and a receiver are added and the sender
    is removed again. *)
Lemma node_interfaces_on_fixed_host_witness :
  exists s' m' n,
    apply_operations Reference.lib
      [Fixture.add_sink_0; Fixture.add_source_0; (Fixture.e, op_remove_sender "sink-0")]
      (Some (set_impl (Some (Fixture.model_of (Fixture.created Fixture.e))) Fixture.handle))
    = Some s'
    /\ impl s' = Some m'
    /\ node_resources m' !! make_id (fields_seed_id (model_settings m')) node "" = Some n
    /\ forall x, x ∈ map ni_name (fields_interfaces n)
                 <-> x ∈ bound_interface_names (node_resources m').
Proof.
  refine (proj1 (node_interfaces_on_fixed_host Reference.lib Fixture.universe Fixture.hosts
                   Fixture.e Reference.config Fixture.handle _ _
                   reference_lib_laws eq_refl _ _ fixture_server _)).
  - intros settings_ Hs.
    assert (E : fields_seed_id <$> make_settings Reference.lib Reference.config
                = Ok Fixture.seed_id) by (vm_compute; reflexivity).
    rewrite Hs in E. injection E as ->. exact fixture_collision_free.
  - intros sdp i Hin. change (Some sdp ∈ @nil (option string)) in Hin.
    apply elem_of_nil in Hin. destruct Hin.
  - constructor; [apply fixture_admissible_add_sink_0|].
    constructor; [apply fixture_admissible_add_source_0|].
    constructor; [apply fixture_admissible_remove_sink_0|]. constructor.
Defined.

(** ** Failing calls *)

(** C5, as stated, fails for [activate]: the session description is parsed
    inside the modifier of the connection resource, after the modifier has
    written the version and the [/active] endpoint.  Activating the
    receiver "source-0" with a text that does not parse returns false and
    leaves the connection resource with a new version and enabled; were
    the store to erase an element whose modifier throws, the connection
    resource would be gone. *)
Lemma failed_activation_counterexample :
  let s := apply_operations Reference.lib [Fixture.add_sink_0; Fixture.add_source_0]
             (Fixture.created Fixture.e) in
  let e2 := Reference.environment Fixture.hosts "2:0" in
  let activate L := nmos_connection_rtp_activate L e2 s (Some "source-0") (Some "garbage") in
  let rid := make_id Fixture.seed_id receiver "source-0" in
  let before := connection_resources (Fixture.model_of s) !! rid in
  let after := connection_resources (Fixture.model_of (activate Reference.lib).2) !! rid in
  let after_erasing :=
    connection_resources (Fixture.model_of (activate (Reference.lib_with true)).2) !! rid in
  (activate Reference.lib).1 = false
  /\ (activate (Reference.lib_with true)).1 = false
  /\ connection_version <$> before = Some "0:0"
  /\ connection_version <$> after = Some "2:0"
  /\ fields_master_enable ∘ fields_endpoint_active <$> before = Some false
  /\ fields_master_enable ∘ fields_endpoint_active <$> after = Some true
  /\ after_erasing = None.
Proof. cbv zeta. repeat split; vm_compute; reflexivity. Qed.

(** C5, amended.  On a well-formed model, an addition or a removal that
    returns false leaves the two stores and the settings exactly as they
    were (the log apart); and a creation that returns false leaves the
    handle as it was. *)
Theorem failed_addition_or_removal_leaves_stores (L : nmos_cpp) (U : list string) (e : env)
    (op : operation) (s : NvNmosNodeServer) (m : node_model) :
  nmos_cpp_laws L ->
  collision_free (fields_seed_id (model_settings m)) U ->
  wf U m ->
  impl s = Some m ->
  is_add_or_remove op = true ->
  (forall i, i ∈ operation_ids L op -> i ∈ U) ->
  (apply_operation L e op (Some s)).1 = false ->
  (exists m',
      (apply_operation L e op (Some s)).2 = Some (set_impl (Some m') s)
      /\ node_resources m' = node_resources m
      /\ connection_resources m' = connection_resources m
      /\ model_settings m' = model_settings m)
  /\ (forall config server,
        (create_nmos_node_server L e config server).1 = false ->
        (create_nmos_node_server L e config server).2 = server).
Proof.
  intros HL Hcf Hwf Hs Hop HU Hfalse. split.
  - rewrite (apply_operation_call L e op s m Hs) in *.
    destruct (server_operation_step L U _ HL Hcf e op m Hop HU eq_refl Hwf)
      as [(m' & Hrun & _)|(ex & g & Hrun)].
    + rewrite (call_Ok _ _ _ _ Hrun) in Hfalse. discriminate.
    + rewrite (call_Throw _ _ _ _ _ Hrun). exists (set_gate g m). done.
  - intros config server. unfold create_nmos_node_server.
    destruct config as [config|], server as [s1|]; try done.
    destruct (server_server L e config); [discriminate|done].
Qed.

(** C5, on the example: the sender "sink-0" is added a second time. *)
Lemma failed_addition_or_removal_leaves_stores_witness :
  let s := set_impl (Some Fixture.model_1) Fixture.handle in
  let r := apply_operation Reference.lib Fixture.e (op_add_sender (Some Reference.sink_0))
             (Some s) in
  r.1 = false
  /\ exists m', r.2 = Some (set_impl (Some m') s)
                /\ node_resources m' = node_resources Fixture.model_1
                /\ connection_resources m' = connection_resources Fixture.model_1
                /\ model_settings m' = model_settings Fixture.model_1.
Proof.
  cbv zeta.
  assert (Hfalse : (apply_operation Reference.lib Fixture.e
                      (op_add_sender (Some Reference.sink_0))
                      (Some (set_impl (Some Fixture.model_1) Fixture.handle))).1 = false)
    by (vm_compute; reflexivity).
  split; [exact Hfalse|].
  destruct (fixture_invariant _ fixture_added) as (Hseed & Hwf & _).
  change (Fixture.model_after _) with Fixture.model_1 in Hseed, Hwf.
  pose proof fixture_collision_free as Hcf. rewrite <- Hseed in Hcf.
  destruct fixture_admissible_add_sink_0 as (_ & Hop & HU).
  exact (proj1 (failed_addition_or_removal_leaves_stores Reference.lib Fixture.universe
                  Fixture.e (op_add_sender (Some Reference.sink_0))
                  (set_impl (Some Fixture.model_1) Fixture.handle) Fixture.model_1
                  reference_lib_laws Hcf Hwf eq_refl Hop HU Hfalse)).
Defined.

(** ** Activation of an unknown id *)

(** C6.  The activation of an internal id that names neither a sender
    nor a receiver writes one message at error level, leaves the stores
    and the settings as they are, and returns true: [nvnmos.h] documents
    the result as "whether the update has been successfully applied", and
    [node_implementation_remove_connection_] throws in the same
    situation. *)
Theorem activate_unknown_id_returns_true (L : nmos_cpp) (e : env) (s : NvNmosNodeServer)
    (m : node_model) (id : string) (sdp : option string) :
  let seed_id := fields_seed_id (model_settings m) in
  impl s = Some m ->
  find_resource (node_resources m) (make_id seed_id sender id, sender) = None ->
  find_resource (node_resources m) (make_id seed_id receiver id, receiver) = None ->
  nmos_connection_rtp_activate L e (Some s) (Some id) sdp
  = (true,
     Some (set_impl
             (Some (set_gate
                      (gate m ++ [(error, "Could not find sender or receiver with internal id: "
                                            +:+ id)]) m)) s)).
Proof.
  intros seed_id Hs Hsn Hrc. unfold nmos_connection_rtp_activate. rewrite Hs.
  apply call_Ok. apply try_log_Ok.
  unfold node_implementation_activate_rtp_connection,
    node_implementation_activate_rtp_connection_.
  unfold bind at 1. cbn [get_model]. cbv zeta. fold seed_id. by rewrite Hsn, Hrc.
Qed.

(** C6, on the example: no sender or receiver is called "nope". *)
Lemma activate_unknown_id_returns_true_witness :
  nmos_connection_rtp_activate Reference.lib Fixture.e
    (Some (set_impl (Some Fixture.model_1) Fixture.handle)) (Some "nope")
    (Some Reference.sink_0)
  = (true,
     Some (set_impl
             (Some (set_gate
                      (gate Fixture.model_1
                         ++ [(error, "Could not find sender or receiver with internal id: nope")])
                      Fixture.model_1)) Fixture.handle)).
Proof.
  apply (activate_unknown_id_returns_true Reference.lib Fixture.e
           (set_impl (Some Fixture.model_1) Fixture.handle) Fixture.model_1 "nope"
           (Some Reference.sink_0) eq_refl); vm_compute; reflexivity.
Defined.

(** ** The transport file of a sender *)

Section Transportfile.
Context (L : nmos_cpp).

Lemma transportfile_sdp_parameters_Ok e nr settings_ sender_ sdp_data params :
  transportfile_sdp_parameters L e nr settings_ sender_ sdp_data = Ok params ->
  origin_session_version params = Z.shiftr (ntp_now e) 32
  /\ forall p, p ∈ fmtp params -> is_custom_fmtp p = false.
Proof.
  unfold transportfile_sdp_parameters. intros H.
  destruct (parse_session_description L sdp_data) as [parsed|]; [|discriminate].
  cbn [mbind result_bind] in H.
  destruct (get_session_description_sdp_parameters L parsed) as [p0|]; [|discriminate].
  cbn [mbind result_bind] in H.
  destruct (find_resource _ _) as [node_|]; [|discriminate].
  destruct (find_source_for_sender _ _) as [source_|]; [|discriminate].
  destruct (fields_clock_name source_) as [clock_|]; [|discriminate].
  injection H as <-. split; [reflexivity|].
  cbn [fmtp set_origin_session_version set_ts_refclk set_fmtp].
  intros p Hp. apply list_elem_of_In, filter_In in Hp as [_ Hp].
  by apply negb_true_iff in Hp.
Qed.
End Transportfile.

Lemma reference_emits_faithfully : emits_faithfully Reference.lib.
Proof.
  intros params tps sd H. cbn in H. unfold Reference.session_description_of in H.
  injection H as <-. split; [reflexivity|]. split.
  - intros name Hin. unfold description_attribute_names in Hin.
    cbn [sd_attributes sd_media_descriptions map app] in Hin.
    apply list_elem_of_In, in_flat_map in Hin as (md & Hmd & Hin).
    apply list_elem_of_In, list_elem_of_lookup in Hmd as [i Hmd].
    rewrite list_lookup_imap in Hmd.
    destruct (tps !! i) as [tp|]; [|discriminate]. injection Hmd as <-.
    cbn [md_attributes app map nv_name Reference.attribute Reference.fmtp_attribute] in Hin.
    destruct Hin as [<-|[<-|Hin]]; [reflexivity..|].
    rewrite map_app in Hin.
    apply in_app_or in Hin as [Hin|Hin].
    { apply in_map_iff in Hin as (t & <- & Ht).
      apply in_map_iff in Ht as (t' & <- & _). reflexivity. }
    destruct Hin as [<-|[]]. reflexivity.
  - intros params' H. cbn in H. unfold Reference.sdp_parameters_of in H.
    cbn [sd_media_descriptions] in H.
    destruct tps as [|tp tps]; [discriminate|].
    cbn [imap md_attributes] in H. injection H as <-. cbn [fmtp].
    intros p Hp.
    assert (E : forall rest l,
               Reference.fmtp_of (Reference.attribute "rtpmap" rest
                                    :: Reference.fmtp_attribute (fmtp params) :: l)
               = fmtp params).
    { intros rest l. unfold Reference.fmtp_of. cbn.
      generalize (fmtp params). intros ps.
      induction ps as [|[a b] ps IH]; [done|]. cbn. by rewrite IH. }
    cbn [app] in Hp. by rewrite E in Hp.
Qed.

(** C8.  When the setter writes the [/transportfile] endpoint of an RTP
    sender, the session description it hands to the SDP writer has the
    current NTP seconds as its origin session version, has no attribute
    whose name starts with "x-nvnmos-", and has no format-specific
    parameter whose name starts with "x-nvnmos-"; the endpoint holds the
    text of that description. *)
Theorem transportfile_has_no_custom_parameters (L : nmos_cpp) (e : env)
    (node_resources_ : gmap string resource) (settings_ : settings) (sender_ : resource)
    (connection_sender : connection_resource) (endpoint_transportfile : value)
    (sd : session_description) :
  emits_faithfully L ->
  transportfile_session_description L e node_resources_ settings_ sender_ connection_sender
  = Ok (Some sd) ->
  sd_origin_session_version sd = Z.shiftr (ntp_now e) 32
  /\ (forall name, name ∈ description_attribute_names sd ->
                   starts_with name "x-nvnmos-" = false)
  /\ (forall params, get_session_description_sdp_parameters L sd = Ok params ->
                     forall p, p ∈ fmtp params -> starts_with p.1 "x-nvnmos-" = false)
  /\ set_transportfile L e node_resources_ settings_ sender_ connection_sender
       endpoint_transportfile
     = Ok (make_connection_rtp_sender_transportfile L (sdp_make_session_description L sd)).
Proof.
  intros HL H. pose proof H as H0. unfold transportfile_session_description in H.
  destruct (assoc_get _ _) as [sdp_data|]; [|discriminate].
  destruct (String.eqb _ _); [|discriminate].
  destruct (transportfile_sdp_parameters L e node_resources_ settings_ sender_ sdp_data)
    as [params|] eqn:Hp; [|discriminate].
  cbn [mbind result_bind] in H.
  destruct (nmos_make_session_description L params _) as [sd'|] eqn:Hsd; [|discriminate].
  cbn [mbind result_bind] in H. injection H as ->.
  destruct (transportfile_sdp_parameters_Ok L _ _ _ _ _ _ Hp) as [Hv Hf].
  destruct (HL _ _ _ Hsd) as (Hv' & Hnames & Hfmtp).
  split; [by rewrite Hv'|]. split; [exact Hnames|]. split.
  - intros params' Hp' p Hin. apply (Hf p). by apply (Hfmtp params').
  - unfold set_transportfile. by rewrite H0.
Qed.

(** C8, on the example: the sender "sink-0" of the fixture. *)
Lemma transportfile_has_no_custom_parameters_witness :
  let sid := make_id Fixture.seed_id sender "sink-0" in
  let nr := node_resources Fixture.model_1 in
  let settings_ := model_settings Fixture.model_1 in
  let sender_ := default (Reference.core "" sender settings_) (nr !! sid) in
  let connection_sender :=
    default (Reference.connection_of sender "" false)
      (connection_resources Fixture.model_1 !! sid) in
  exists sd,
    transportfile_session_description Reference.lib Fixture.e nr settings_ sender_
      connection_sender = Ok (Some sd)
    /\ sd_origin_session_version sd = 1700000000
    /\ forall name, name ∈ description_attribute_names sd ->
                    starts_with name "x-nvnmos-" = false.
Proof.
  cbv zeta.
  destruct (transportfile_session_description Reference.lib Fixture.e
              (node_resources Fixture.model_1) (model_settings Fixture.model_1)
              (default (Reference.core "" sender (model_settings Fixture.model_1))
                 (node_resources Fixture.model_1 !! make_id Fixture.seed_id sender "sink-0"))
              (default (Reference.connection_of sender "" false)
                 (connection_resources Fixture.model_1
                    !! make_id Fixture.seed_id sender "sink-0")))
    as [[sd|]|ex] eqn:H; [|vm_compute in H; discriminate..].
  exists sd. split; [reflexivity|].
  destruct (transportfile_has_no_custom_parameters Reference.lib Fixture.e _ _ _ _ Null sd
              reference_emits_faithfully H) as (Hv & Hnames & _).
  split; [|exact Hnames]. rewrite Hv. vm_compute. reflexivity.
Defined.

(** ** The internal form of a session description *)


Section AssocLemmas.
Context {V : Type}.

Lemma assoc_get_set_eq k (x : V) fs : assoc_get k (assoc_set k x fs) = Some x.
Proof.
  induction fs as [|[k' v] fs IH]; simpl.
  - by rewrite String.eqb_refl.
  - destruct (String.eqb k' k) eqn:E; simpl; rewrite E; [done | exact IH].
Qed.

Lemma assoc_get_set_ne k k' (x : V) fs :
  k <> k' -> assoc_get k (assoc_set k' x fs) = assoc_get k fs.
Proof.
  intros Hne. induction fs as [|[k0 v] fs IH]; simpl.
  - destruct (String.eqb k' k) eqn:E; [|done].
    apply String.eqb_eq in E. congruence.
  - destruct (String.eqb k0 k') eqn:E; simpl.
    + apply String.eqb_eq in E as ->.
      destruct (String.eqb k' k) eqn:E'; [|done].
      apply String.eqb_eq in E'. congruence.
    + by rewrite IH.
Qed.
End AssocLemmas.

Lemma value_get_set_eq k x v : value_get k (value_set k x v) = x.
Proof.
  destruct v; simpl; rewrite ?String.eqb_refl; try done. by rewrite assoc_get_set_eq.
Qed.

Lemma value_get_set_ne k k' x v : k <> k' -> value_get k (value_set k' x v) = value_get k v.
Proof.
  intros Hne. destruct v; simpl;
    try (destruct (String.eqb k' k) eqn:E; [apply String.eqb_eq in E; congruence | done]).
  by rewrite assoc_get_set_ne.
Qed.

Lemma as_string_Ok v s : as_string v = Ok s -> v = Str s.
Proof. destruct v; simpl; congruence. Qed.


Section InternalForm.
Context (L : nmos_cpp).



End InternalForm.

Lemma transport_params_of_legs_length L t tps0 mds tps :
  transport_params_of_legs L t tps0 mds = Ok tps -> length tps = length tps0.
Proof.
  revert mds tps. induction tps0 as [|tp0 tps0 IH]; intros mds tps H.
  - simpl in H. by injection H as <-.
  - simpl in H. destruct mds as [|md0 mds]; [discriminate|].
    destruct (transport_param_of_leg L t tp0 md0) as [tp1|]; [|discriminate].
    cbn [mbind result_bind] in H.
    destruct (transport_params_of_legs L t tps0 mds) as [tps1|] eqn:H2; [|discriminate].
    cbn [mbind result_bind] in H. injection H as <-. simpl. by rewrite (IH mds tps1).
Qed.

(** * Further properties of the code *)

(** A pair whose first component is known. *)
Lemma pair_eq_of_fst {A B} (p : A * B) (a : A) : p.1 = a -> p = (a, p.2).
Proof. destruct p as [a' b]. simpl. by intros ->. Qed.

(** ** Resource tags *)

Lemma assoc_get_erase_eq {V} k (fs : list (string * V)) : assoc_get k (assoc_erase k fs) = None.
Proof.
  unfold assoc_erase. induction fs as [|[k' v] fs IH]; [done|].
  cbn [filter list_filter fst]. destruct (String.eqb k' k) eqn:E; cbn [negb].
  - destruct (decide _) as [H|H]; [destruct H | exact IH].
  - destruct (decide _) as [H|H]; [|destruct (H I)]. cbn [assoc_get]. rewrite E. exact IH.
Qed.

Lemma assoc_get_erase_ne {V} k k' (fs : list (string * V)) :
  k <> k' -> assoc_get k (assoc_erase k' fs) = assoc_get k fs.
Proof.
  intros Hne. unfold assoc_erase. induction fs as [|[k0 v] fs IH]; [done|].
  cbn [filter list_filter fst]. destruct (String.eqb k0 k') eqn:E; cbn [negb].
  - destruct (decide _) as [H|H]; [destruct H|].
    apply String.eqb_eq in E as ->. cbn [assoc_get].
    destruct (String.eqb k' k) eqn:E'; [|exact IH].
    apply String.eqb_eq in E'. congruence.
  - destruct (decide _) as [H|H]; [|destruct (H I)]. cbn [assoc_get].
    destruct (String.eqb k0 k); [done | exact IH].
Qed.

(** X1. The internal id and the group hint are kept as two resource tags:
    what is set is what is read, and setting one tag does not change what
    is read from the other. *)
Theorem resource_tags_round_trip (internal_id group_hint : string) (r : resource) :
  get_internal_id (set_internal_id internal_id r) = internal_id
  /\ get_group_hint (set_group_hint group_hint r) = group_hint
  /\ get_internal_id (set_group_hint group_hint r) = get_internal_id r
  /\ get_group_hint (set_internal_id internal_id r) = get_group_hint r
  /\ get_internal_id (set_group_hint group_hint (set_internal_id internal_id r)) = internal_id.
Proof.
  unfold get_internal_id, get_group_hint, set_internal_id, set_group_hint.
  cbn [fields_tags set_tags].
  rewrite !assoc_get_set_eq.
  rewrite !(assoc_get_set_ne fields_internal_id_tag fields_group_hint) by done.
  rewrite !(assoc_get_set_ne fields_group_hint fields_internal_id_tag) by done.
  rewrite !assoc_get_set_eq. done.
Qed.

(** ** Transport parameters read from a session description *)

Lemma value_at_erase_eq k v : value_at k (value_erase k v) = Throw json_exception.
Proof. destruct v; simpl; try done. by rewrite assoc_get_erase_eq. Qed.

Lemma value_at_erase_ne k k' v : k <> k' -> value_at k (value_erase k' v) = value_at k v.
Proof. intros Hne. destruct v; simpl; try done. by rewrite assoc_get_erase_ne. Qed.

Lemma value_get_erase_ne k k' v : k <> k' -> value_get k (value_erase k' v) = value_get k v.
Proof. intros Hne. destruct v; simpl; try done. by rewrite assoc_get_erase_ne. Qed.

Lemma value_at_set_ne k k' x v : k <> k' -> value_at k (value_set k' x v) = value_at k v.
Proof.
  intros Hne. destruct v; simpl;
    try (destruct (String.eqb k' k) eqn:E; [apply String.eqb_eq in E; congruence | done]).
  by rewrite assoc_get_set_ne.
Qed.

(** X2. Reading the custom attributes into a leg of the transport
    parameters leaves every other member as the library gave it: for a
    receiver only [interface_ip] and [rtp_enabled] can change, for a sender
    also the destination, source and multicast members; and a receiver leg
    whose media description has neither custom attribute is returned
    unchanged. *)
Theorem transport_param_of_leg_frame (L : nmos_cpp) (t : type) (tp0 tp : value)
    (md : media_description) :
  transport_param_of_leg L t tp0 md = Ok tp ->
  (forall k, k ∉ touched_members t -> value_get k tp = value_get k tp0)
  /\ (t <> sender ->
      find_name (md_attributes md) attributes_interface_ip = None ->
      find_name (md_attributes md) sdp_attributes_inactive = None ->
      tp = tp0).
Proof.
  unfold transport_param_of_leg, touched_members. cbv zeta. intros H.
  destruct (decide (t = sender)) as [->|Hns].
  - split; [|done]. intros k Hk. rewrite !not_elem_of_cons in Hk.
    destruct Hk as (K1 & K2 & K3 & K4 & K5 & K6 & _).
    assert (Hfin : forall v tp1,
               (forall k', k' = k -> value_get k' tp1 = value_get k tp0) ->
               match find_name (md_attributes md) sdp_attributes_inactive with
               | Some _ => Ok (value_set "rtp_enabled" (Boolean false) tp1)
               | None => Ok tp1
               end = Ok v -> value_get k v = value_get k tp0).
    { intros v tp1 Htp1 Hv. destruct (find_name _ sdp_attributes_inactive);
        injection Hv as <-; [rewrite value_get_set_ne by exact K6|]; by apply Htp1. }
    set (tp1 := value_set "source_port" (Str "auto") _) in H.
    assert (H1 : value_get k tp1 = value_get k tp0).
    { unfold tp1. rewrite value_get_set_ne by exact K4.
      rewrite value_get_erase_ne by exact K3. rewrite value_get_erase_ne by exact K2.
      by rewrite value_get_set_ne by exact K1. }
    clearbody tp1.
    set (tp2 := match find_name (md_attributes md) attributes_interface_ip with
                | Some interface_ip => _ | None => tp1 end) in H.
    assert (H2 : value_get k tp2 = value_get k tp0).
    { unfold tp2. destruct (find_name _ attributes_interface_ip); [|exact H1].
      by rewrite value_get_set_ne by exact K5. }
    clearbody tp2.
    destruct (find_name (md_attributes md) attributes_source_port) as [sp|].
    + destruct (as_string (nv_value sp)) as [s|]; [|discriminate].
      cbn [mbind result_bind] in H. eapply Hfin; [|exact H]. intros k' ->.
      rewrite value_get_set_ne by exact K4. exact H2.
    + cbn [mbind result_bind] in H. eapply Hfin; [|exact H]. intros k' ->. exact H2.
  - cbn [mbind result_bind] in H. split.
    + intros k Hk. rewrite !not_elem_of_cons in Hk. destruct Hk as (K1 & K2 & _).
      destruct (find_name (md_attributes md) attributes_interface_ip),
        (find_name (md_attributes md) sdp_attributes_inactive);
        injection H as <-; rewrite ?(value_get_set_ne k "rtp_enabled") by exact K2;
        rewrite ?(value_get_set_ne k "interface_ip") by exact K1; reflexivity.
    + intros _ H1 H2. rewrite H1, H2 in H. by injection H.
Qed.

(** X2, on an example: a receiver leg with an interface address. *)
Lemma transport_param_of_leg_frame_witness :
  let tp0 := Object [("interface_ip", Str "auto"); ("destination_port", Number 5004)] in
  let md := {| md_attributes := [{| nv_name := attributes_interface_ip;
                                    nv_value := Str "192.0.2.11" |}];
               md_other := Null |} in
  exists tp, transport_param_of_leg Reference.lib receiver tp0 md = Ok tp
             /\ value_get "destination_port" tp = Number 5004.
Proof.
  cbv zeta.
  set (tp0 := Object [("interface_ip", Str "auto"); ("destination_port", Number 5004)]).
  set (md := {| md_attributes := _; md_other := Null |}).
  destruct (transport_param_of_leg Reference.lib receiver tp0 md) as [tp|] eqn:H;
    [|vm_compute in H; discriminate].
  exists tp. split; [reflexivity|].
  assert (Hk : "destination_port" ∉ touched_members receiver).
  { change (touched_members receiver) with ["interface_ip"; "rtp_enabled"].
    rewrite !not_elem_of_cons.
    split; [done|]. split; [done|]. apply not_elem_of_nil. }
  rewrite (proj1 (transport_param_of_leg_frame Reference.lib receiver tp0 tp md H)
             "destination_port" Hk).
  reflexivity.
Defined.

(** X3. A leg of a sender comes out in the sender's terms: it has no
    [multicast_ip] and no [interface_ip] member, its [destination_ip] is
    the multicast address the library found, or the interface address when
    there is none, and its [source_port] is "auto" unless the media
    description carries the custom source port attribute. *)
Theorem sender_transport_param_members (L : nmos_cpp) (tp0 tp : value)
    (md : media_description) :
  transport_param_of_leg L sender tp0 md = Ok tp ->
  value_at "multicast_ip" tp = Throw json_exception
  /\ value_at "interface_ip" tp = Throw json_exception
  /\ value_get "destination_ip" tp
     = (if is_null (value_get "multicast_ip" tp0)
        then value_get "interface_ip" tp0 else value_get "multicast_ip" tp0)
  /\ (find_name (md_attributes md) attributes_source_port = None ->
      value_get "source_port" tp = Str "auto")
  /\ (find_name (md_attributes md) attributes_interface_ip = None ->
      value_get "source_ip" tp = value_get "source_ip" tp0).
Proof.
  unfold transport_param_of_leg. cbv zeta. intros H.
  destruct (decide (sender = sender)) as [_|]; [|done].
  set (dest := value_get (if negb (is_null (value_get "multicast_ip" tp0))
                          then "multicast_ip" else "interface_ip") tp0) in H.
  set (tp1 := value_set "source_port" (Str "auto") _) in H.
  assert (H1 : value_at "multicast_ip" tp1 = Throw json_exception
               /\ value_at "interface_ip" tp1 = Throw json_exception
               /\ value_get "destination_ip" tp1 = dest
               /\ value_get "source_port" tp1 = Str "auto"
               /\ value_get "source_ip" tp1 = value_get "source_ip" tp0).
  { unfold tp1. split; [|split; [|split; [|split]]].
    - rewrite value_at_set_ne by done. rewrite value_at_erase_ne by done.
      apply value_at_erase_eq.
    - rewrite value_at_set_ne by done. apply value_at_erase_eq.
    - rewrite value_get_set_ne by done. rewrite !value_get_erase_ne by done.
      apply value_get_set_eq.
    - apply value_get_set_eq.
    - rewrite value_get_set_ne by done. rewrite !value_get_erase_ne by done.
      by rewrite value_get_set_ne by done. }
  clearbody tp1.
  set (tp2 := match find_name (md_attributes md) attributes_interface_ip with
              | Some interface_ip => _ | None => tp1 end) in H.
  assert (H2 : value_at "multicast_ip" tp2 = Throw json_exception
               /\ value_at "interface_ip" tp2 = Throw json_exception
               /\ value_get "destination_ip" tp2 = dest
               /\ value_get "source_port" tp2 = Str "auto"
               /\ (find_name (md_attributes md) attributes_interface_ip = None ->
                   value_get "source_ip" tp2 = value_get "source_ip" tp0)).
  { destruct H1 as (A1 & A2 & A3 & A4 & A5). unfold tp2.
    destruct (find_name _ attributes_interface_ip).
    - rewrite !value_at_set_ne by done. rewrite !value_get_set_ne by done. done.
    - done. }
  clearbody tp2. clear H1 tp1.
  assert (Hd : dest = (if is_null (value_get "multicast_ip" tp0)
                       then value_get "interface_ip" tp0 else value_get "multicast_ip" tp0)).
  { unfold dest. by destruct (is_null _). }
  rewrite <- Hd. clearbody dest. clear Hd.
  destruct H2 as (A1 & A2 & A3 & A4 & A5).
  destruct (find_name (md_attributes md) attributes_source_port) as [sp|].
  - destruct (as_string (nv_value sp)) as [s|]; [|discriminate].
    cbn [mbind result_bind] in H.
    destruct (find_name (md_attributes md) sdp_attributes_inactive);
      injection H as <-; rewrite ?value_at_set_ne by done;
      (split; [exact A1|]); (split; [exact A2|]);
      (split; [rewrite ?(value_get_set_ne "destination_ip") by done; exact A3|]);
      (split; [intros [=]|]); intros Hn;
      rewrite ?(value_get_set_ne "source_ip") by done; exact (A5 Hn).
  - cbn [mbind result_bind] in H.
    destruct (find_name (md_attributes md) sdp_attributes_inactive);
      injection H as <-; rewrite ?value_at_set_ne by done;
      (split; [exact A1|]); (split; [exact A2|]);
      (split; [rewrite ?(value_get_set_ne "destination_ip") by done; exact A3|]);
      (split; [intros _; rewrite ?(value_get_set_ne "source_port") by done; exact A4|]);
      intros Hn; rewrite ?(value_get_set_ne "source_ip") by done; exact (A5 Hn).
Qed.

(** X3, on an example: a leg for which the library found a multicast
    address. *)
Lemma sender_transport_param_members_witness :
  let tp0 := Object [("multicast_ip", Str "232.0.0.1"); ("interface_ip", Str "192.0.2.10")] in
  let md := {| md_attributes := []; md_other := Null |} in
  exists tp, transport_param_of_leg Reference.lib sender tp0 md = Ok tp
             /\ value_at "multicast_ip" tp = Throw json_exception
             /\ value_get "destination_ip" tp = Str "232.0.0.1".
Proof.
  cbv zeta.
  set (tp0 := Object [("multicast_ip", Str "232.0.0.1"); ("interface_ip", Str "192.0.2.10")]).
  set (md := {| md_attributes := []; md_other := Null |}).
  destruct (transport_param_of_leg Reference.lib sender tp0 md) as [tp|] eqn:H;
    [|vm_compute in H; discriminate].
  exists tp. split; [reflexivity|].
  destruct (sender_transport_param_members Reference.lib tp0 tp md H) as (H1 & _ & H3 & _).
  split; [exact H1 | exact H3].
Defined.

(** X4. The transport parameters of the legs are read against the media
    descriptions one by one: a session description with fewer media
    descriptions than legs is refused, the only exception that comes out is
    [web::json::json_exception], and a result has one entry per leg. *)
Theorem transport_params_of_legs_errors (L : nmos_cpp) (t : type) (tps : list value)
    (mds : list media_description) :
  ((length mds < length tps)%nat ->
   transport_params_of_legs L t tps mds = Throw json_exception)
  /\ (forall e, transport_params_of_legs L t tps mds = Throw e -> e = json_exception)
  /\ (forall r, transport_params_of_legs L t tps mds = Ok r -> length r = length tps).
Proof.
  assert (Hleg : forall tp md e, transport_param_of_leg L t tp md = Throw e -> e = json_exception).
  { intros tp md e. unfold transport_param_of_leg. cbv zeta.
    match goal with
    | |- mbind _ ?c = _ -> _ => destruct c as [x|e0] eqn:Hc
    end; cbn [mbind result_bind].
    - by destruct (find_name (md_attributes md) sdp_attributes_inactive).
    - intros [= <-]. destruct (decide (t = sender)); [|discriminate].
      destruct (find_name (md_attributes md) attributes_source_port) as [sp|]; [|discriminate].
      destruct (nv_value sp); simpl in Hc; congruence. }
  assert (Hall : forall e, transport_params_of_legs L t tps mds = Throw e -> e = json_exception).
  { revert mds. induction tps as [|tp tps IH]; intros mds e; simpl; [discriminate|].
    destruct mds as [|md mds]; [by intros [= <-]|].
    destruct (transport_param_of_leg L t tp md) as [tp'|e0] eqn:H1; cbn [mbind result_bind].
    - destruct (transport_params_of_legs L t tps mds) as [r|e1] eqn:H2;
        cbn [mbind result_bind]; [discriminate|].
      intros [= <-]. by apply (IH mds).
    - intros [= <-]. by apply (Hleg tp md). }
  split; [|split; [exact Hall|]].
  - intros Hlt. destruct (transport_params_of_legs L t tps mds) as [r|e] eqn:H.
    + exfalso. clear Hall. revert mds r Hlt H.
      induction tps as [|tp tps IH]; intros mds r Hlt H.
      * simpl in Hlt. lia.
      * simpl in H. destruct mds as [|md mds]; [discriminate|].
        destruct (transport_param_of_leg L t tp md); [|discriminate].
        cbn [mbind result_bind] in H.
        destruct (transport_params_of_legs L t tps mds) as [r'|] eqn:H2; [|discriminate].
        apply (IH mds r'); [simpl in Hlt; lia | done].
    + by rewrite (Hall e eq_refl).
  - intros r. apply transport_params_of_legs_length.
Qed.

(** ** The interface bound by each leg *)

Lemma find_interface_spec hs a :
  match find_interface hs a with
  | Some h => h ∈ hs /\ a ∈ hi_addresses h
  | None => forall h, h ∈ hs -> a ∉ hi_addresses h
  end.
Proof.
  unfold find_interface. destruct (List.find _ hs) as [h|] eqn:Hf.
  - apply find_some in Hf as [Hin He]. split; [by apply list_elem_of_In|].
    apply existsb_exists in He as (x & Hx & Hx'). apply String.eqb_eq in Hx' as <-.
    by apply list_elem_of_In.
  - intros h Hh Ha. apply list_elem_of_In in Hh.
    pose proof (find_none _ _ Hf h Hh) as Hn. cbv beta in Hn.
    assert (Ht : existsb (String.eqb a) (hi_addresses h) = true).
    { apply existsb_exists. exists a. split; [by apply list_elem_of_In|].
      apply String.eqb_refl. }
    congruence.
Qed.

(** X5. The interface names of a new sender or receiver are found leg by
    leg: when every leg has an address that some host interface owns, the
    result names, for each leg, the first host interface with the leg's
    address, and nothing is logged; otherwise the call throws: at a leg
    whose address is not a string, or, after one message at severe level,
    at a leg whose address no host interface owns. *)
Theorem interface_names_of_outcome (field internal_id : string) (hs : list host_interface)
    (tps : list value) (m : node_model) :
  match interface_names_of field internal_id hs tps m with
  | (Ok names, m') =>
      m' = m
      /\ Forall2 (fun tp name =>
                    exists a h, value_get field tp = Str a /\ find_interface hs a = Some h
                                /\ h ∈ hs /\ a ∈ hi_addresses h /\ name = hi_name h)
                 tps names
  | (Throw e, m') =>
      (e = json_exception /\ m' = m
       /\ exists tp, tp ∈ tps /\ as_string (value_get field tp) = Throw json_exception)
      \/ (e = node_implementation_exception
          /\ exists tp a,
               tp ∈ tps /\ value_get field tp = Str a
               /\ (forall h, h ∈ hs -> a ∉ hi_addresses h)
               /\ m' = set_gate
                         (gate m ++ [(severe,
                                      "No network interface corresponding to the connection address: "
                                      +:+ a +:+ " for: " +:+ internal_id)]) m)
  end.
Proof.
  induction tps as [|tp tps IH]; cbn [interface_names_of].
  - unfold ret. split; [done|]. constructor.
  - unfold bind at 1. unfold lift.
    destruct (as_string (value_get field tp)) as [a|e] eqn:Ha.
    + apply as_string_Ok in Ha.
      pose proof (find_interface_spec hs a) as Hfi.
      destruct (find_interface hs a) as [h|] eqn:Hf.
      * unfold bind at 1.
        destruct (interface_names_of field internal_id hs tps m) as [[names|e] m'].
        -- unfold ret. destruct IH as [-> IH]. split; [done|].
           constructor; [|exact IH]. exists a, h. destruct Hfi. done.
        -- destruct IH as [(-> & -> & tp' & Hin & Htp')|(-> & tp' & a' & Hin & Ha' & Hno & ->)].
           ++ left. split; [done|]. split; [done|]. exists tp'. split; [|done].
              by apply list_elem_of_further.
           ++ right. split; [done|]. exists tp', a'. split; [by apply list_elem_of_further|].
              done.
      * right. unfold bind, slog, modify_model, throw. split; [done|].
        exists tp, a. split; [constructor|]. done.
    + left. assert (He : e = json_exception).
      { destruct (value_get field tp); simpl in Ha; congruence. }
      subst e. split; [done|]. split; [done|]. exists tp.
      split; [apply list_elem_of_here | exact Ha].
Qed.

(** ** Maintenance of the node resource, repeated *)

(** X6. [update_node_interfaces] settles: when a call has succeeded, a
    second call for the same host interfaces succeeds and leaves the store
    as it is, so that the node gets no new version. *)
Theorem update_node_interfaces_idempotent (L : nmos_cpp) (version version' nid : string)
    (hs : list host_interface) (st st' : gmap string resource) :
  update_node_interfaces L version nid hs st = (Ok tt, st') ->
  update_node_interfaces L version' nid hs st' = (Ok tt, st').
Proof.
  intros H.
  destruct (find_resource st (nid, node)) as [n|] eqn:Hf;
    [|rewrite (update_node_interfaces_missing L version nid hs st Hf) in H; discriminate].
  apply find_resource_Some in Hf as [Hn Ht].
  destruct (update_node_interfaces_found L version nid hs st n Hn Ht)
    as (n' & Hupd & Hif & Hsh & _ & _ & _).
  rewrite Hupd in H. injection H as <-.
  assert (Hn' : <[nid := n']> st !! nid = Some n') by apply lookup_insert_eq.
  assert (Ht' : resource_type n' = node).
  { apply shape_eq in Hsh as (_ & -> & _). exact Ht. }
  destruct (update_node_interfaces_found L version' nid hs (<[nid := n']> st) n' Hn' Ht')
    as (n'' & Hupd' & _ & _ & _ & _ & Hsame).
  rewrite Hupd'. rewrite Hsame.
  - by rewrite insert_insert_eq.
  - rewrite Hif. apply node_interfaces_for_bound.
    by apply bound_interface_names_insert_same with n.
Qed.

Lemma find_replace_clock_eq c cs c0 :
  List.find (fun c' => String.eqb (clock_fields_name c) (clock_fields_name c')) cs = Some c0 ->
  List.find (fun c' => String.eqb (clock_fields_name c) (clock_fields_name c'))
            (replace_clock c cs) = Some c.
Proof.
  induction cs as [|a cs IH]; simpl; [discriminate|].
  destruct (String.eqb (clock_fields_name c) (clock_fields_name a)) eqn:E.
  - intros _. simpl. by rewrite String.eqb_refl.
  - intros H. simpl. rewrite E. by apply IH.
Qed.

Lemma replace_clock_names c cs :
  map clock_fields_name (replace_clock c cs) = map clock_fields_name cs.
Proof.
  induction cs as [|a cs IH]; simpl; [done|].
  destruct (String.eqb (clock_fields_name c) (clock_fields_name a)) eqn:E; simpl.
  - apply String.eqb_eq in E. by rewrite E.
  - by rewrite IH.
Qed.

(** X7. [update_node_clock] replaces a clock of the node by the clock of
    the same name and settles: after a successful call no other resource
    has changed, the node has the same clock names in the same order, the
    first clock of that name is the given one, and a second call with the
    same clock leaves the store as it is. *)
Theorem update_node_clock_idempotent (L : nmos_cpp) (version version' nid : string)
    (c : clock) (st st' : gmap string resource) :
  update_node_clock L version nid c st = (Ok tt, st') ->
  update_node_clock L version' nid c st' = (Ok tt, st')
  /\ (forall k, k <> nid -> st' !! k = st !! k)
  /\ exists n n',
       st !! nid = Some n /\ st' !! nid = Some n'
       /\ map clock_fields_name (fields_clocks n') = map clock_fields_name (fields_clocks n)
       /\ List.find (fun c' => String.eqb (clock_fields_name c) (clock_fields_name c'))
                    (fields_clocks n') = Some c.
Proof.
  intros H. unfold update_node_clock in H.
  destruct (find_resource st (nid, node)) as [n|] eqn:Hf; [|discriminate].
  destruct (List.find _ (fields_clocks n)) as [c0|] eqn:Hc; [|discriminate].
  pose proof Hf as Hf0. apply find_resource_Some in Hf as [Hn Ht].
  destruct (decide (c <> c0)) as [Hne|He].
  - rewrite (modify_resource_Some _ _ _
               (fun n0 => set_clocks (replace_clock c (fields_clocks n0))
                            (set_version version n0)) n Hn) in H.
    cbn [mbind result_bind] in H. injection H as <-.
    set (n' := set_clocks _ _).
    assert (Hc' : List.find (fun c' => String.eqb (clock_fields_name c) (clock_fields_name c'))
                            (fields_clocks n') = Some c).
    { cbn [n' fields_clocks set_clocks]. by apply find_replace_clock_eq with c0. }
    split; [|split].
    + unfold update_node_clock.
      assert (Hf' : find_resource (<[nid := n']> st) (nid, node) = Some n').
      { apply find_resource_Some. split; [apply lookup_insert_eq | exact Ht]. }
      rewrite Hf', Hc'. destruct (decide (c <> c)) as [Hcc|_]; [by destruct Hcc | done].
    + intros k Hk. by rewrite lookup_insert_ne.
    + exists n, n'. split; [exact Hn|]. split; [apply lookup_insert_eq|].
      split; [apply replace_clock_names | exact Hc'].
  - apply dec_stable in He. subst c0. injection H as <-.
    split; [|split].
    + unfold update_node_clock. rewrite Hf0, Hc.
      destruct (decide (c <> c)) as [Hcc|_]; [by destruct Hcc | done].
    + done.
    + exists n, n. done.
Qed.

(** X6, on an example: the node lists no interface yet, the sender is
    bound to [eth0]; the first call gives the node the array and a new
    version, the second changes nothing. *)
Lemma update_node_interfaces_idempotent_witness :
  let r := update_node_interfaces Reference.lib "2:0" "node" Fixture.hosts Small.store in
  r.1 = Ok tt
  /\ update_node_interfaces Reference.lib "3:0" "node" Fixture.hosts r.2 = (Ok tt, r.2)
  /\ fields_version <$> r.2 !! "node" = Some "2:0".
Proof.
  cbv zeta.
  assert (H1 : (update_node_interfaces Reference.lib "2:0" "node" Fixture.hosts
                  Small.store).1 = Ok tt) by (vm_compute; reflexivity).
  pose proof (pair_eq_of_fst _ _ H1) as H.
  split; [exact H1|].
  split; [exact (update_node_interfaces_idempotent Reference.lib "2:0" "3:0" _ _ _ _ H)|].
  vm_compute. reflexivity.
Defined.

(** X7, on an example: the node's internal clock becomes a PTP clock. *)
Lemma update_node_clock_idempotent_witness :
  let c := make_ptp_clock clk0 true "00-11-22-ff-fe-33-44-55" true in
  let r := update_node_clock Reference.lib "2:0" "node" c Small.store in
  r.1 = Ok tt
  /\ update_node_clock Reference.lib "3:0" "node" c r.2 = (Ok tt, r.2)
  /\ fields_clocks <$> r.2 !! "node" = Some [c].
Proof.
  cbv zeta.
  assert (H1 : (update_node_clock Reference.lib "2:0" "node"
                  (make_ptp_clock clk0 true "00-11-22-ff-fe-33-44-55" true) Small.store).1
               = Ok tt) by (vm_compute; reflexivity).
  pose proof (pair_eq_of_fst _ _ H1) as H.
  split; [exact H1|].
  split; [exact (proj1 (update_node_clock_idempotent Reference.lib "2:0" "3:0" _ _ _ _ H))|].
  vm_compute. reflexivity.
Defined.

(** ** The C functions on null pointers and on a destroyed server *)

(** X8. The functions of [nvnmos.h] that add, remove or activate a
    sender or receiver return false and leave the handle as it is when the
    server pointer is null, when the server has not been created or has
    been destroyed ([impl] is null), or when their id or configuration
    argument is null; creation returns false on a null configuration or a
    null server.  [destroy_nmos_node_server] is the exception: it returns
    false only for a null server pointer, and true, leaving [impl] null,
    for a server that has not been created or has been destroyed.  A null
    SDP in [nmos_connection_rtp_activate] stands for the empty string. *)
Theorem null_arguments_are_refused (L : nmos_cpp) (e : env) (op : operation)
    (s : NvNmosNodeServer) (server : option NvNmosNodeServer)
    (config : option NvNmosNodeConfig) (id : option string) :
  apply_operation L e op None = (false, None)
  /\ apply_operation L e op (Some (set_impl None s)) = (false, Some (set_impl None s))
  /\ apply_operation L e op (destroy_nmos_node_server (Some s)).2
     = (false, Some (set_impl None s))
  /\ add_nmos_sender_to_node_server L e server None = (false, server)
  /\ add_nmos_receiver_to_node_server L e server None = (false, server)
  /\ remove_nmos_sender_from_node_server L e server None = (false, server)
  /\ remove_nmos_receiver_from_node_server L e server None = (false, server)
  /\ (forall sdp, nmos_connection_rtp_activate L e server None sdp = (false, server))
  /\ create_nmos_node_server L e None server = (false, server)
  /\ create_nmos_node_server L e config None = (false, None)
  /\ destroy_nmos_node_server None = (false, None)
  /\ destroy_nmos_node_server (Some (set_impl None s)) = (true, Some (set_impl None s))
  /\ nmos_connection_rtp_activate L e server id None
     = nmos_connection_rtp_activate L e server id (Some "").
Proof.
  repeat split.
  - by destruct op.
  - by destruct op.
  - by destruct op.
  - by destruct server as [[u [m|]]|].
  - by destruct server as [[u [m|]]|].
  - by destruct server as [[u [m|]]|].
  - by destruct server as [[u [m|]]|].
  - intros sdp. by destruct server as [[u [m|]]|].
  - by destruct config.
Qed.

(** ** Creation from a configuration with null entries *)

Lemma never_returns_bind_l {A B} (c : M A) (k : A -> M B) :
  never_returns c -> never_returns (bind c k).
Proof. intros H m. destruct (H m) as (ex & m' & Hc). unfold bind. rewrite Hc. eauto. Qed.

Lemma never_returns_bind_r {A B} (c : M A) (k : A -> M B) :
  (forall a, never_returns (k a)) -> never_returns (bind c k).
Proof.
  intros H m. unfold bind. destruct (c m) as [[a|ex] m1]; [apply H | eauto].
Qed.

Lemma add_all_None what (add : string -> M unit) configs :
  None ∈ configs -> never_returns (add_all what add configs).
Proof.
  induction configs as [|[sdp|] configs IH]; intros Hin.
  - by apply elem_of_nil in Hin.
  - apply elem_of_cons in Hin as [?|Hin]; [discriminate|].
    cbn [add_all]. apply never_returns_bind_r. intros _. by apply IH.
  - intros m. cbn [add_all]. unfold throw. eauto.
Qed.

(** X9. A configuration with a null log category, or with a receiver or
    sender configuration whose SDP is null, is refused: creation returns
    false and leaves the handle as it was, whatever the other entries
    are. *)
Theorem create_refuses_null_entries (L : nmos_cpp) (e : env) (config : NvNmosNodeConfig)
    (s : NvNmosNodeServer) :
  None ∈ config_log_categories config \/ None ∈ config_receivers config
  \/ None ∈ config_senders config ->
  create_nmos_node_server L e (Some config) (Some s) = (false, Some s).
Proof.
  intros H. unfold create_nmos_node_server.
  assert (Hs : exists ex, server_server L e config = Throw ex); [|by destruct Hs as [ex ->]].
  unfold server_server.
  destruct (make_settings L config) as [settings_|ex] eqn:Hset; [|by exists ex].
  cbn [mbind result_bind].
  destruct H as [H|H].
  { exfalso. unfold make_settings in Hset.
    assert (Hex : existsb (fun c => bool_decide (c = None)) (config_log_categories config)
                  = true).
    { apply existsb_exists. exists None. split; [by apply list_elem_of_In|].
      by apply bool_decide_eq_true_2. }
    rewrite Hex in Hset. discriminate. }
  match goal with
  | |- exists ex, match try_log ?body ?m0 with _ => _ end = _ =>
      assert (Hn : never_returns body); [|destruct (Hn m0) as (ex & m' & Hb)]
  end.
  { apply never_returns_bind_r. intros _. apply never_returns_bind_r. intros _.
    destruct H as [H|H].
    - apply never_returns_bind_l. by apply add_all_None.
    - apply never_returns_bind_r. intros _. apply never_returns_bind_l. by apply add_all_None. }
  exists ex. unfold try_log. by rewrite Hb.
Qed.

(** X9, on an example: the configuration of the example with one null
    sender configuration after a good one. *)
Lemma create_refuses_null_entries_witness :
  let config :=
    {| config_label := None; config_description := None; config_asset_tags := None;
       config_seed := Some "nmos-api.local:8080"; config_receivers := [];
       config_senders := [Some Reference.sink_0; None];
       config_log_level := 20; config_log_categories := []; config_other := Null |} in
  create_nmos_node_server Reference.lib Fixture.e (Some config) (Some Fixture.handle)
  = (false, Some Fixture.handle).
Proof.
  cbv zeta. apply create_refuses_null_entries.
  right. right. cbn [config_senders]. apply list_elem_of_further, list_elem_of_here.
Defined.

(** ** Activation from the host *)

(** X10. Activating a sender with a text that is not empty and does not
    parse fails before anything is written: the call throws (the parser's
    exception, or [node_implementation_exception] when the sender's source
    or its clock is missing), and the stores and the settings are as
    before; only the message "Updating ..." has been logged. *)
Theorem failed_sender_activation_leaves_stores (L : nmos_cpp) (e : env) (m : node_model)
    (x sdp : string) (r : resource) (ex : exn) :
  find_resource (node_resources m)
    (make_id (fields_seed_id (model_settings m)) sender x, sender) = Some r ->
  sdp <> "" ->
  parse_session_description L sdp = Throw ex ->
  exists ex',
    node_implementation_activate_rtp_connection_ L e x sdp m
    = (Throw ex',
       set_gate (gate m ++ [(info, "Updating " +:+ id_type_text L (resource_id r, sender)
                                     +:+ " with internal id: " +:+ x)]) m)
    /\ (ex' = ex \/ ex' = node_implementation_exception).
Proof.
  intros Hf Hne Hp.
  unfold node_implementation_activate_rtp_connection_.
  unfold bind at 1. cbn [get_model]. cbv zeta. rewrite Hf.
  apply find_resource_Some in Hf as [Hr Ht].
  unfold bind at 1. unfold slog at 1, modify_model.
  assert (E : negb (String.eqb sdp "") = true).
  { apply negb_true_iff. by apply String.eqb_neq. }
  rewrite E, Ht. rewrite (bool_decide_eq_true_2 (sender = sender) eq_refl).
  cbn [andb].
  unfold bind at 1.
  destruct (find_source_for_sender (node_resources m) r) as [source_|].
  - destruct (fields_clock_name source_) as [clock_|].
    + unfold bind at 1. rewrite Hp. unfold lift. eexists. split; [reflexivity | by left].
    + unfold throw. eexists. split; [reflexivity | by right].
  - unfold throw. eexists. split; [reflexivity | by right].
Qed.

(** X11. Activating a receiver from the host succeeds when the text is
    empty (a deactivation) or parses into transport parameters: the
    connection resource gets the new version and an [/active] endpoint
    with [master_enable] set exactly when the text is not empty, no peer,
    and, for a deactivation, the transport parameters and the transport
    file it had, otherwise the parameters read from the text and the text
    as transport file; its constraints, [/staged] and [/transportfile] stay.
    The receiver gets its subscription, and nothing else changes. *)
Theorem receiver_activation_effect (L : nmos_cpp) (e : env) (m : node_model)
    (x sdp : string) (r : resource) (c : connection_resource) (tps : list value) :
  let seed_id := fields_seed_id (model_settings m) in
  let rid := make_id seed_id receiver x in
  find_resource (node_resources m) (make_id seed_id sender x, sender) = None ->
  find_resource (node_resources m) (rid, receiver) = Some r ->
  resource_id r = rid ->
  connection_resources m !! rid = Some c ->
  connection_type c = receiver ->
  (if String.eqb sdp "" then tps = fields_transport_params (fields_endpoint_active c)
   else (sd ← parse_session_description L sdp;
         get_session_description_transport_params L receiver sd) = Ok tps) ->
  node_implementation_activate_rtp_connection_ L e x sdp m
  = (Ok tt,
     {| node_resources :=
          <[rid := set_resource_subscription L (negb (String.eqb sdp ""))
                     (make_version e) r]> (node_resources m);
        connection_resources :=
          <[rid := set_endpoint_active
                     (receiver_active_after L sdp tps (fields_endpoint_active c))
                     (set_connection_version (make_version e) c)]>
            (connection_resources m);
        model_settings := model_settings m;
        gate := gate m ++ [(info, "Updating " +:+ id_type_text L (rid, receiver)
                                   +:+ " with internal id: " +:+ x)] |}).
Proof.
  intros seed_id rid Hs Hf Hid Hc Hct Htps.
  unfold node_implementation_activate_rtp_connection_.
  unfold bind at 1. cbn [get_model]. cbv zeta. fold seed_id. fold rid. rewrite Hs, Hf.
  apply find_resource_Some in Hf as [Hr Ht].
  unfold bind at 1. unfold slog at 1, modify_model.
  rewrite Ht. rewrite Hid.
  rewrite (bool_decide_eq_false_2 (sender = receiver)) by discriminate.
  cbn [andb].
  unfold bind at 1. unfold ret at 1.
  unfold bind at 1. cbn [get_model].
  unfold bind at 1. unfold on_connection_resources at 1.
  cbn [connection_resources node_resources model_settings set_gate].
  unfold modify_resource at 1. rewrite Hc.
  unfold activate_connection_modifier. cbv zeta.
  cbn [connection_type set_connection_version set_endpoint_active fields_endpoint_active
       fields_transport_params fields_transport_file fields_peer_id fields_master_enable
       fields_activation].
  rewrite Hct. rewrite Ht.
  destruct (decide (sender = receiver)) as [Hn|Hn]; [discriminate|]. clear Hn.
  rewrite (bool_decide_eq_true_2 (receiver = receiver) eq_refl).
  destruct (String.eqb sdp "") eqn:E; cbn [negb andb].
  - subst tps.
    cbn [set_connection_version set_endpoint_active fields_endpoint_active
         fields_transport_params].
    unfold bind at 1. unfold on_node_resources at 1.
    cbn [node_resources set_connection_resources set_gate].
    unfold modify_resource at 1. rewrite Hr. unfold ret.
    unfold set_connection_resources, set_node_resources.
    cbn [node_resources connection_resources model_settings gate].
    unfold receiver_active_after, set_transport_params, set_endpoint_active,
      set_connection_version. rewrite E.
    cbn [fields_peer_id fields_master_enable fields_activation fields_transport_file
         fields_transport_params connection_id connection_type connection_version
         fields_endpoint_constraints fields_endpoint_staged fields_endpoint_active
         fields_endpoint_transportfile negb].
    reflexivity.
  - cbn [set_connection_version set_endpoint_active fields_endpoint_active
         fields_transport_params connection_type] in *.
    rewrite Htps.
    unfold bind at 1. unfold on_node_resources at 1.
    cbn [node_resources set_connection_resources set_gate].
    unfold modify_resource at 1. rewrite Hr. unfold ret.
    unfold set_connection_resources, set_node_resources.
    cbn [node_resources connection_resources model_settings gate].
    unfold receiver_active_after, set_transport_params, set_endpoint_active,
      set_connection_version. rewrite E.
    cbn [fields_peer_id fields_master_enable fields_activation fields_transport_file
         fields_transport_params connection_id connection_type connection_version
         fields_endpoint_constraints fields_endpoint_staged fields_endpoint_active
         fields_endpoint_transportfile negb].
    reflexivity.
Qed.

(** X11, on the example: the receiver "source-0" is activated with the
    text it was configured with. *)
Lemma receiver_activation_effect_witness :
  exists m',
    node_implementation_activate_rtp_connection_ Reference.lib Fixture.e "source-0"
      Reference.source_0 Fixture.model_1 = (Ok tt, m')
    /\ (fields_master_enable ∘ fields_endpoint_active
          <$> connection_resources m' !! make_id Fixture.seed_id receiver "source-0")
       = Some true.
Proof.
  assert (Hseed : fields_seed_id (model_settings Fixture.model_1) = Fixture.seed_id)
    by (vm_compute; reflexivity).
  assert (Hr : exists r,
             find_resource (node_resources Fixture.model_1)
               (make_id (fields_seed_id (model_settings Fixture.model_1)) receiver "source-0",
                receiver) = Some r
             /\ resource_id r
                = make_id (fields_seed_id (model_settings Fixture.model_1)) receiver "source-0").
  { eexists. split; vm_compute; reflexivity. }
  destruct Hr as (r & Hr & Hid).
  assert (Hc : exists c,
             connection_resources Fixture.model_1
               !! make_id (fields_seed_id (model_settings Fixture.model_1)) receiver "source-0"
             = Some c /\ connection_type c = receiver).
  { eexists. split; vm_compute; reflexivity. }
  destruct Hc as (c & Hc & Hct).
  assert (Htps : exists tps,
             (sd ← parse_session_description Reference.lib Reference.source_0;
              get_session_description_transport_params Reference.lib receiver sd) = Ok tps).
  { eexists. vm_compute. reflexivity. }
  destruct Htps as (tps & Htps).
  eexists. split.
  - apply (receiver_activation_effect Reference.lib Fixture.e Fixture.model_1 "source-0"
             Reference.source_0 r c tps); [vm_compute; reflexivity | exact Hr | exact Hid
             | exact Hc | exact Hct | exact Htps].
  - cbn [connection_resources]. rewrite Hseed, lookup_insert_eq. reflexivity.
Defined.

(** X10, on the example: the sender "sink-0" is activated with a text
    that does not parse. *)
Lemma failed_sender_activation_leaves_stores_witness :
  exists ex r,
    node_implementation_activate_rtp_connection_ Reference.lib Fixture.e "sink-0" "garbage"
      Fixture.model_1
    = (Throw ex,
       set_gate (gate Fixture.model_1
                   ++ [(info, "Updating sender: " +:+ resource_id r
                                +:+ " with internal id: sink-0")])
         Fixture.model_1).
Proof.
  assert (Hr : is_Some (find_resource (node_resources Fixture.model_1)
                          (make_id (fields_seed_id (model_settings Fixture.model_1)) sender
                             "sink-0", sender)))
    by (apply (bool_decide_eq_true_1 _); vm_compute; reflexivity).
  destruct Hr as [r Hr].
  assert (Hp : exists ex, parse_session_description Reference.lib "garbage" = Throw ex)
    by (eexists; vm_compute; reflexivity).
  destruct Hp as [ex Hp].
  destruct (failed_sender_activation_leaves_stores Reference.lib Fixture.e Fixture.model_1
              "sink-0" "garbage" r ex Hr ltac:(discriminate) Hp) as (ex' & Hrun & _).
  exists ex', r. exact Hrun.
Defined.

(** ** Additions, spelled out *)

Lemma shape_add_ref t id version d : shape (add_ref t id version d) = shape d.
Proof. unfold add_ref. by destruct (decide _). Qed.

Section AddSenderExplicit.
Context (L : nmos_cpp) (U : list string) (m : node_model).
Let seed_id := fields_seed_id (model_settings m).
Let nid := make_id seed_id node "".
Let did := make_id seed_id device "".
Hypothesis HL : nmos_cpp_laws L.
Hypothesis Hcf : collision_free seed_id U.
Hypothesis Hwf : wf U m.

(** The model after a successful [node_implementation_add_sender_]. *)
Lemma add_sender_explicit sdp hs version m' :
  (forall i, i ∈ sdp_internal_id L sdp -> i ∈ U) ->
  node_implementation_add_sender_ L sdp hs version m = (Ok tt, m') ->
  exists i new g n n'' pd,
    make_sender_resources L sdp hs m = (Ok new, set_gate g m)
    /\ i ∈ U /\ sdp_internal_id L sdp = [i]
    /\ node_resources m !! make_id seed_id source i = None
    /\ node_resources m !! make_id seed_id flow i = None
    /\ node_resources m !! make_id seed_id sender i = None
    /\ connection_resources m !! make_id seed_id sender i = None
    /\ is_source (make_id seed_id source i) (new_source new)
    /\ is_flow (make_id seed_id flow i) (make_id seed_id source i) (new_flow new)
    /\ resource_id (new_sender new) = make_id seed_id sender i
    /\ resource_type (new_sender new) = sender
    /\ fields_flow_id (new_sender new) = Some (make_id seed_id flow i)
    /\ fields_device_id (new_sender new) = make_id seed_id device ""
    /\ (forall b, b ∈ fields_interface_bindings (new_sender new) -> b ∈ map hi_name hs)
    /\ let nr4 := alter (add_ref sender (make_id seed_id sender i) version) did
                    (<[make_id seed_id sender i := new_sender new]>
                       (<[make_id seed_id flow i := new_flow new]>
                          (<[make_id seed_id source i := new_source new]>
                             (node_resources m)))) in
       m' = {| node_resources := <[nid := n'']> nr4;
               connection_resources :=
                 <[make_id seed_id sender i := new_connection_sender new]>
                   (connection_resources m);
               model_settings :=
                 settings_after_add_sender (make_id seed_id sender i) sdp pd
                   (model_settings m);
               gate := g |}
       /\ node_resources m !! nid = Some n
       /\ nr4 !! nid = Some n /\ resource_type n = node
       /\ shape n'' = shape n
       /\ fields_interfaces n'' = node_interfaces_for L hs nr4
       /\ is_Some (List.find (fun c => String.eqb clk0 (clock_fields_name c))
                             (fields_clocks n''))
       /\ presentation n'' = presentation n.
Proof.
  intros HU H. unfold node_implementation_add_sender_ in H.
  unfold bind at 1 in H.
  destruct (logs_only_make_sender_resources L sdp hs m) as [g Hg].
  destruct (make_sender_resources L sdp hs m) as [[new|e] m1] eqn:Hmk; simpl in Hg; subst m1;
    [|discriminate].
  destruct (make_sender_resources_Ok L HL _ _ _ _ _ Hmk)
    as (i & Hi & Hsid & Hsrc & Hfl & Hs1 & Hs2 & Hs3 & Hs4 & Hs5 & Hc).
  fold seed_id in Hi, Hsid, Hsrc, Hfl, Hs1, Hs2, Hs3, Hs4, Hs5, Hc.
  assert (HiU : i ∈ U) by (apply HU; rewrite Hi; constructor).
  assert (Hix : i ∈ "" :: U) by (by apply list_elem_of_further).
  assert (Hie : "" ∈ "" :: U) by constructor.
  destruct Hsrc as [Hsrc1 Hsrc2]. destruct Hfl as (Hfl1 & Hfl2 & Hfl3).
  unfold bind at 1 in H. cbn [get_model] in H. cbv zeta in H.
  change (fields_seed_id (model_settings (set_gate g m))) with seed_id in H.
  fold nid did in H.
  unfold bind at 1 in H.
  destruct (node_resources m !! make_id seed_id source i) as [src|] eqn:Esrc.
  { rewrite insert_node_resource_old in H
      by (rewrite Hsrc1; cbn [node_resources set_gate]; rewrite Esrc; eauto).
    discriminate. }
  destruct (wf_absent_source U m Hcf Hwf i HiU Esrc) as (Efl & Esn & Ecn).
  fold seed_id in Efl, Esn, Ecn.
  rewrite insert_node_resource_new in H
    by (rewrite Hsrc1; cbn [node_resources set_gate]; exact Esrc).
  cbn [negb] in H. unfold bind at 1 in H.
  cbn [node_resources set_gate set_node_resources] in H.
  assert (N1 : make_id seed_id flow i <> make_id seed_id source i)
    by (apply (make_id_ne U m Hcf); auto).
  assert (N2 : make_id seed_id sender i <> make_id seed_id source i)
    by (apply (make_id_ne U m Hcf); auto).
  assert (N3 : make_id seed_id sender i <> make_id seed_id flow i)
    by (apply (make_id_ne U m Hcf); auto).
  rewrite insert_node_resource_new in H
    by (rewrite Hfl1, Hsrc1; cbn [node_resources set_node_resources set_gate];
        rewrite lookup_insert_ne by exact (not_eq_sym N1); exact Efl).
  cbn [negb] in H. unfold bind at 1 in H.
  cbn [node_resources set_gate set_node_resources] in H.
  rewrite insert_node_resource_new in H
    by (rewrite Hs1, Hfl1, Hsrc1; cbn [node_resources set_node_resources set_gate];
        rewrite lookup_insert_ne by exact (not_eq_sym N3);
        rewrite lookup_insert_ne by exact (not_eq_sym N2); exact Esn).
  cbn [negb] in H. unfold bind at 1 in H.
  cbn [node_resources set_gate set_node_resources] in H.
  rewrite insert_connection_resource_new in H by (rewrite Hc; exact Ecn).
  cbn [negb] in H. unfold bind at 1 in H.
  rewrite Hs1, Hfl1, Hsrc1, Hc, Hsid in H.
  unfold on_node_resources at 1 in H.
  cbn [node_resources connection_resources set_gate set_node_resources
         set_connection_resources] in H.
  pose (d := add_ref sender (make_id seed_id sender i) version).
  match type of H with
  | context [modify_resource _ _ _ ?f] =>
      change f with (fun device_ => (Ok tt, d device_)) in H
  end.
  destruct (modify_resource_alter (modify_throw_erases L)
              (<[make_id seed_id sender i := new_sender new]>
                 (<[make_id seed_id flow i := new_flow new]>
                    (<[make_id seed_id source i := new_source new]> (node_resources m))))
              did (fun device_ => (Ok tt, d device_)) d ltac:(done)) as [b Hmod].
  rewrite Hmod in H. clear Hmod.
  set (nr4 := alter d did _) in *.
  destruct (wf_node_found U m Hwf) as (n & Hn & Hnt & Hclk).
  fold seed_id in Hn. fold nid in Hn.
  assert (Hn4 : nr4 !! nid = Some n).
  { unfold nr4. rewrite lookup_alter_ne by (apply (make_id_ne U m Hcf); auto).
    rewrite !lookup_insert_ne by (apply not_eq_sym, (make_id_ne U m Hcf); auto).
    exact Hn. }
  destruct (update_node_interfaces_found L version nid hs nr4 n Hn4 Hnt)
    as (n' & Hupd & Hif & Hsh & Hcl & Hpr & _).
  unfold bind at 1 in H. unfold on_node_resources at 1 in H.
  cbn [node_resources connection_resources set_gate set_node_resources
         set_connection_resources] in H.
  rewrite Hupd in H.
  destruct (make_node_clock _ _ _ _) as [cv pd] eqn:Hmc.
  pose proof (make_node_clock_name (istringstreamed L) clk0 (new_sender_ts_refclks new)
                (settings_ptp_domain_number L clk0 (model_settings (set_gate g m)))) as Hcn.
  rewrite Hmc in Hcn. cbn [fst] in Hcn.
  assert (Hn' : <[nid := n']> nr4 !! nid = Some n') by apply lookup_insert_eq.
  assert (Hnt' : resource_type n' = node).
  { apply shape_eq in Hsh as (_ & -> & _). done. }
  assert (Hclk' : is_Some (List.find (fun c' => String.eqb (clock_fields_name cv)
                                                  (clock_fields_name c'))
                                     (fields_clocks n'))).
  { rewrite Hcn, Hcl. exact Hclk. }
  destruct (update_node_clock_found L version nid cv (<[nid := n']> nr4) n' Hn' Hnt' Hclk')
    as (n'' & Hupc & Hif' & Hsh' & Hclk'' & Hpr').
  unfold bind at 1 in H. unfold on_node_resources at 1 in H.
  cbn [node_resources connection_resources set_gate set_node_resources
         set_connection_resources] in H.
  rewrite Hupc in H. rewrite insert_insert_eq in H.
  munfold. cbn in H. injection H as <-.
  exists i, new, g, n, n'', pd.
  split; [reflexivity|].
  split; [exact HiU|]. split; [exact Hi|]. split; [exact Esrc|]. split; [exact Efl|].
  split; [exact Esn|]. split; [exact Ecn|]. split; [exact (conj Hsrc1 Hsrc2)|].
  split; [exact (conj Hfl1 (conj Hfl2 Hfl3))|].
  split; [exact Hs1|]. split; [exact Hs2|]. split; [exact Hs3|]. split; [exact Hs4|].
  split; [exact Hs5|].
  cbv zeta. fold d. fold nr4. split; [reflexivity|].
  split; [exact Hn|]. split; [exact Hn4|]. split; [exact Hnt|].
  split; [exact (eq_trans Hsh' Hsh)|]. split; [exact (eq_trans Hif' Hif)|].
  split; [rewrite Hcn in Hclk''; exact Hclk''|].
  destruct Hpr as [->| ->]; destruct Hpr' as [->| ->]; reflexivity.
Qed.
End AddSenderExplicit.

Section AddReceiverExplicit.
Context (L : nmos_cpp) (U : list string) (m : node_model).
Let seed_id := fields_seed_id (model_settings m).
Let nid := make_id seed_id node "".
Let did := make_id seed_id device "".
Hypothesis HL : nmos_cpp_laws L.
Hypothesis Hcf : collision_free seed_id U.
Hypothesis Hwf : wf U m.

(** The model after a successful [node_implementation_add_receiver_]. *)
Lemma add_receiver_explicit sdp hs version m' :
  (forall i, i ∈ sdp_internal_id L sdp -> i ∈ U) ->
  node_implementation_add_receiver_ L sdp hs version m = (Ok tt, m') ->
  exists i names new g n n'',
    make_receiver_resources L sdp hs version m = (Ok new, set_gate g m)
    /\ i ∈ U /\ sdp_internal_id L sdp = [i]
    /\ node_resources m !! make_id seed_id receiver i = None
    /\ connection_resources m !! make_id seed_id receiver i = None
    /\ is_receiver (make_id seed_id receiver i) did names (new_receiver new)
    /\ (forall b, b ∈ names -> b ∈ map hi_name hs)
    /\ let nr4 := alter (add_ref receiver (make_id seed_id receiver i) version) did
                    (<[make_id seed_id receiver i := new_receiver new]>
                       (node_resources m)) in
       m' = {| node_resources := <[nid := n'']> nr4;
               connection_resources :=
                 <[make_id seed_id receiver i := new_connection_receiver new]>
                   (connection_resources m);
               model_settings :=
                 set_settings_receivers
                   (assoc_set (make_id seed_id receiver i) sdp
                      (fields_settings_receivers (model_settings m)))
                   (model_settings m);
               gate := g |}
       /\ node_resources m !! nid = Some n
       /\ nr4 !! nid = Some n /\ resource_type n = node
       /\ shape n'' = shape n
       /\ fields_interfaces n'' = node_interfaces_for L hs nr4
       /\ fields_clocks n'' = fields_clocks n
       /\ presentation n'' = presentation n.
Proof.
  intros HU H. unfold node_implementation_add_receiver_ in H.
  unfold bind at 1 in H.
  destruct (logs_only_make_receiver_resources L sdp hs version m) as [g Hg].
  destruct (make_receiver_resources L sdp hs version m) as [[new|e] m1] eqn:Hmk;
    simpl in Hg; subst m1; [|discriminate].
  destruct (make_receiver_resources_Ok L HL _ _ _ _ _ _ Hmk)
    as (i & names & Hi & Hrid & Hr & Hnames & Hc).
  fold seed_id in Hi, Hrid, Hr, Hnames, Hc. fold did in Hr.
  assert (HiU : i ∈ U) by (apply HU; rewrite Hi; constructor).
  assert (Hix : i ∈ "" :: U) by (by apply list_elem_of_further).
  assert (Hie : "" ∈ "" :: U) by constructor.
  pose proof Hr as (Hr1 & Hr2 & Hr3 & Hr4).
  unfold bind at 1 in H. cbn [get_model] in H. cbv zeta in H.
  change (fields_seed_id (model_settings (set_gate g m))) with seed_id in H.
  fold nid did in H.
  unfold bind at 1 in H.
  destruct (node_resources m !! make_id seed_id receiver i) as [rcv|] eqn:Ercv.
  { rewrite insert_node_resource_old in H
      by (rewrite Hr1; cbn [node_resources set_gate]; rewrite Ercv; eauto).
    discriminate. }
  pose proof (wf_absent_receiver U m Hwf i HiU Ercv) as Ecn.
  fold seed_id in Ecn.
  rewrite insert_node_resource_new in H
    by (rewrite Hr1; cbn [node_resources set_gate]; exact Ercv).
  cbn [negb] in H. unfold bind at 1 in H.
  cbn [node_resources set_gate set_node_resources] in H.
  rewrite insert_connection_resource_new in H by (rewrite Hc; exact Ecn).
  cbn [negb] in H. unfold bind at 1 in H.
  rewrite Hr1, Hc, Hrid in H.
  unfold on_node_resources at 1 in H.
  cbn [node_resources connection_resources set_gate set_node_resources
         set_connection_resources] in H.
  pose (d := add_ref receiver (make_id seed_id receiver i) version).
  match type of H with
  | context [modify_resource _ _ _ ?f] =>
      change f with (fun device_ => (Ok tt, d device_)) in H
  end.
  destruct (modify_resource_alter (modify_throw_erases L)
              (<[make_id seed_id receiver i := new_receiver new]> (node_resources m))
              did (fun device_ => (Ok tt, d device_)) d ltac:(done)) as [b Hmod].
  rewrite Hmod in H. clear Hmod.
  set (nr4 := alter d did _) in *.
  destruct (wf_node_found U m Hwf) as (n & Hn & Hnt & Hclk).
  fold seed_id in Hn. fold nid in Hn.
  assert (Hn4 : nr4 !! nid = Some n).
  { unfold nr4. rewrite lookup_alter_ne by (apply (make_id_ne U m Hcf); auto).
    rewrite !lookup_insert_ne by (apply not_eq_sym, (make_id_ne U m Hcf); auto).
    exact Hn. }
  destruct (update_node_interfaces_found L version nid hs nr4 n Hn4 Hnt)
    as (n' & Hupd & Hif & Hsh & Hcl & Hpr & _).
  unfold bind at 1 in H. unfold on_node_resources at 1 in H.
  cbn [node_resources connection_resources set_gate set_node_resources
         set_connection_resources] in H.
  rewrite Hupd in H.
  munfold. cbn in H. injection H as <-.
  exists i, names, new, g, n, n'.
  split; [reflexivity|].
  split; [exact HiU|]. split; [exact Hi|]. split; [exact Ercv|]. split; [exact Ecn|].
  split; [exact Hr|]. split; [exact Hnames|].
  cbv zeta. fold d. fold nr4. split; [reflexivity|].
  split; [exact Hn|]. split; [exact Hn4|]. split; [exact Hnt|].
  split; [exact Hsh|]. split; [exact Hif|]. split; [exact Hcl|].
  destruct Hpr as [->| ->]; reflexivity.
Qed.
End AddReceiverExplicit.

Lemma dom_after_addition3 {A} (st : gmap string A) a b c (x y z : A) n v f d :
  is_Some (st !! n) ->
  dom (<[n := v]> (alter f d (<[a := x]> (<[b := y]> (<[c := z]> st)))))
  = dom st ∪ {[a; b; c]}.
Proof.
  intros Hn. rewrite dom_insert_L, dom_alter_L, !dom_insert_L.
  apply elem_of_dom in Hn. revert Hn. generalize (dom st). clear. intros D Hn.
  apply set_eq. intros k.
  rewrite !elem_of_union, !elem_of_singleton.
  split; [intros [->|[->|[->|[->|?]]]]; tauto | tauto].
Qed.

Lemma dom_after_addition1 {A} (st : gmap string A) a (x : A) n v f d :
  is_Some (st !! n) ->
  dom (<[n := v]> (alter f d (<[a := x]> st))) = dom st ∪ {[a]}.
Proof.
  intros Hn. rewrite dom_insert_L, dom_alter_L, !dom_insert_L.
  apply elem_of_dom in Hn. revert Hn. generalize (dom st). clear. intros D Hn.
  apply set_eq. intros k.
  rewrite !elem_of_union, !elem_of_singleton.
  split; [intros [->|[->|?]]; tauto | tauto].
Qed.

(** X12. On a well-formed model, a successful addition of a sender puts
    exactly three resources into the node store, under three ids that were
    free: the sender, its flow and its source, linked to each other and to
    the device, with interface bindings that exist on the host; and one
    connection resource under the sender's id.  The device has the
    sender's id appended to its [senders] array with a new version
    ([add_ref]); every other resource but the node is as before; the
    settings hold the text under the sender's id. *)
Theorem add_sender_effect (L : nmos_cpp) (U : list string) (m m' : node_model)
    (e : env) (sdp : string) :
  let seed_id := fields_seed_id (model_settings m) in
  let nid := make_id seed_id node "" in
  let did := make_id seed_id device "" in
  nmos_cpp_laws L -> collision_free seed_id U -> wf U m ->
  (forall i, i ∈ sdp_internal_id L sdp -> i ∈ U) ->
  node_implementation_add_sender L e sdp m = (Ok tt, m') ->
  exists i src fl snd,
    let sid := make_id seed_id sender i in
    let fid := make_id seed_id flow i in
    let srcid := make_id seed_id source i in
    sdp_internal_id L sdp = [i]
    /\ NoDup [sid; fid; srcid; did; nid]
    /\ node_resources m !! sid = None /\ node_resources m !! fid = None
    /\ node_resources m !! srcid = None /\ connection_resources m !! sid = None
    /\ dom (node_resources m') = dom (node_resources m) ∪ {[sid; fid; srcid]}
    /\ node_resources m' !! sid = Some snd /\ node_resources m' !! fid = Some fl
    /\ node_resources m' !! srcid = Some src
    /\ resource_type snd = sender /\ fields_flow_id snd = Some fid
    /\ fields_device_id snd = did
    /\ (forall b, b ∈ fields_interface_bindings snd -> b ∈ map hi_name (host_interfaces e))
    /\ resource_type fl = flow /\ fields_source_id fl = srcid
    /\ resource_type src = source
    /\ dom (connection_resources m') = dom (connection_resources m) ∪ {[sid]}
    /\ (forall k, k <> sid -> connection_resources m' !! k = connection_resources m !! k)
    /\ (forall k, k ∉ [sid; fid; srcid; did; nid] ->
                  node_resources m' !! k = node_resources m !! k)
    /\ node_resources m' !! did
       = add_ref sender sid (make_version e) <$> node_resources m !! did
    /\ assoc_get sid (fields_settings_senders (model_settings m')) = Some sdp
    /\ fields_seed_id (model_settings m') = seed_id.
Proof.
  intros seed_id nid did HL Hcf Hwf HU Hrun.
  unfold node_implementation_add_sender in Hrun.
  destruct (add_sender_explicit L U m HL Hcf Hwf sdp _ _ m' HU Hrun)
    as (i & new & g & n & n'' & pd & _ & HiU & Hi & Esrc & Efl & Esn & Ecn & Hsrc & Hfl
        & Hs1 & Hs2 & Hs3 & Hs4 & Hs5 & Hm' & Hn & Hn4 & Hnt & Hsh & Hif & Hclk & _).
  fold seed_id nid did in Hi, Esrc, Efl, Esn, Ecn, Hsrc, Hfl, Hs1, Hs3, Hs4, Hm', Hn, Hn4.
  exists i, (new_source new), (new_flow new), (new_sender new). cbv zeta.
  set (sid := make_id seed_id sender i) in *.
  set (fid := make_id seed_id flow i) in *.
  set (srcid := make_id seed_id source i) in *.
  assert (Hix : i ∈ "" :: U) by (by apply list_elem_of_further).
  assert (Hie : "" ∈ "" :: U) by constructor.
  assert (Hne : forall t t' i i', i ∈ "" :: U -> i' ∈ "" :: U -> t <> t' \/ i <> i' ->
                  make_id seed_id t i <> make_id seed_id t' i')
    by exact (make_id_ne U m Hcf).
  assert (N1 : sid <> fid) by (apply Hne; auto).
  assert (N2 : sid <> srcid) by (apply Hne; auto).
  assert (N3 : sid <> did) by (apply Hne; auto).
  assert (N4 : sid <> nid) by (apply Hne; auto).
  assert (N5 : fid <> srcid) by (apply Hne; auto).
  assert (N6 : fid <> did) by (apply Hne; auto).
  assert (N7 : fid <> nid) by (apply Hne; auto).
  assert (N8 : srcid <> did) by (apply Hne; auto).
  assert (N9 : srcid <> nid) by (apply Hne; auto).
  assert (N10 : did <> nid) by (apply Hne; auto).
  assert (Hnr : node_resources m'
                = <[nid := n'']> (alter (add_ref sender sid (make_version e)) did
                    (<[sid := new_sender new]> (<[fid := new_flow new]>
                       (<[srcid := new_source new]> (node_resources m))))))
    by (rewrite Hm'; reflexivity).
  assert (Hcr : connection_resources m'
                = <[sid := new_connection_sender new]> (connection_resources m))
    by (rewrite Hm'; reflexivity).
  assert (Hst : model_settings m'
                = settings_after_add_sender sid sdp pd (model_settings m))
    by (rewrite Hm'; reflexivity).
  clear Hm'.
  split; [exact Hi|].
  split.
  { repeat (apply NoDup_cons; split;
            [rewrite ?elem_of_cons, elem_of_nil; intros Hin;
             repeat (destruct Hin as [Hin|Hin]; [contradiction|]); exact Hin|]).
    apply NoDup_nil. done. }
  split; [exact Esn|]. split; [exact Efl|]. split; [exact Esrc|]. split; [exact Ecn|].
  split.
  { rewrite Hnr. apply dom_after_addition3. exists n. exact Hn. }
  split.
  { rewrite Hnr. rewrite lookup_insert_ne by exact (not_eq_sym N4).
    rewrite lookup_alter_ne by exact (not_eq_sym N3). apply lookup_insert_eq. }
  split.
  { rewrite Hnr. rewrite lookup_insert_ne by exact (not_eq_sym N7).
    rewrite lookup_alter_ne by exact (not_eq_sym N6).
    rewrite lookup_insert_ne by exact N1. apply lookup_insert_eq. }
  split.
  { rewrite Hnr. rewrite lookup_insert_ne by exact (not_eq_sym N9).
    rewrite lookup_alter_ne by exact (not_eq_sym N8).
    rewrite lookup_insert_ne by exact N2. rewrite lookup_insert_ne by exact N5.
    apply lookup_insert_eq. }
  split; [exact Hs2|]. split; [exact Hs3|]. split; [exact Hs4|]. split; [exact Hs5|].
  destruct Hfl as (_ & Hfl2 & Hfl3). destruct Hsrc as (_ & Hsrc2).
  split; [exact Hfl2|]. split; [exact Hfl3|]. split; [exact Hsrc2|].
  split. { rewrite Hcr, dom_insert_L. apply set_eq. intros k.
           rewrite !elem_of_union. tauto. }
  split. { intros k Hk. rewrite Hcr. apply lookup_insert_ne. exact (not_eq_sym Hk). }
  split.
  { intros k Hk. rewrite !not_elem_of_cons in Hk.
    destruct Hk as (K1 & K2 & K3 & K4 & K5 & _). rewrite Hnr.
    rewrite lookup_insert_ne by exact (not_eq_sym K5).
    rewrite lookup_alter_ne by exact (not_eq_sym K4).
    rewrite lookup_insert_ne by exact (not_eq_sym K1).
    rewrite lookup_insert_ne by exact (not_eq_sym K2).
    apply lookup_insert_ne. exact (not_eq_sym K3). }
  split.
  { rewrite Hnr. rewrite lookup_insert_ne by exact (not_eq_sym N10).
    rewrite lookup_alter_eq.
    rewrite lookup_insert_ne by exact N3. rewrite lookup_insert_ne by exact N6.
    rewrite lookup_insert_ne by exact N8. reflexivity. }
  split.
  { rewrite Hst. unfold settings_after_add_sender. cbn [fields_settings_senders
      set_settings_senders]. apply assoc_get_set_eq. }
  rewrite Hst. reflexivity.
Qed.

(** X12, on the example: a second sender, "sink-1", is added to the model
    with the sender "sink-0" and the receiver "source-0". *)
Lemma add_sender_effect_witness :
  let r := node_implementation_add_sender Reference.lib Fixture.e Reference.sink_1
             Fixture.model_1 in
  r.1 = Ok tt
  /\ dom (node_resources r.2)
     = dom (node_resources Fixture.model_1)
       ∪ {[make_id Fixture.seed_id sender "sink-1"; make_id Fixture.seed_id flow "sink-1";
           make_id Fixture.seed_id source "sink-1"]}.
Proof.
  cbv zeta.
  assert (H1 : (node_implementation_add_sender Reference.lib Fixture.e Reference.sink_1
                  Fixture.model_1).1 = Ok tt) by (vm_compute; reflexivity).
  split; [exact H1|].
  pose proof (pair_eq_of_fst _ _ H1) as H.
  destruct (fixture_invariant _ fixture_added) as (Hseed & Hwf & _).
  change (Fixture.model_after _) with Fixture.model_1 in Hseed, Hwf.
  pose proof fixture_collision_free as Hcf. rewrite <- Hseed in Hcf.
  assert (E : sdp_internal_id Reference.lib Reference.sink_1 = ["sink-1"])
    by (vm_compute; reflexivity).
  assert (HU : forall i, i ∈ sdp_internal_id Reference.lib Reference.sink_1
                         -> i ∈ Fixture.universe).
  { intros i Hi. rewrite E in Hi. apply list_elem_of_singleton in Hi as ->.
    repeat constructor. }
  destruct (add_sender_effect Reference.lib Fixture.universe Fixture.model_1 _ Fixture.e
              Reference.sink_1 reference_lib_laws Hcf Hwf HU H)
    as (i & src & fl & snd & Hi & _ & _ & _ & _ & _ & Hdom & _).
  rewrite E in Hi. injection Hi as <-. rewrite Hseed in Hdom. exact Hdom.
Defined.

(** X13. On a well-formed model, a successful addition of a receiver puts
    exactly one resource into the node store, the receiver, under an id
    that was free, linked to the device and bound to interfaces of the
    host; and one connection resource under the same id.  The device has
    the receiver's id appended to its [receivers] array with a new
    version; every other resource but the node is as before, and the node
    keeps its clocks; the settings hold the text under the receiver's
    id. *)
Theorem add_receiver_effect (L : nmos_cpp) (U : list string) (m m' : node_model)
    (e : env) (sdp : string) :
  let seed_id := fields_seed_id (model_settings m) in
  let nid := make_id seed_id node "" in
  let did := make_id seed_id device "" in
  nmos_cpp_laws L -> collision_free seed_id U -> wf U m ->
  (forall i, i ∈ sdp_internal_id L sdp -> i ∈ U) ->
  node_implementation_add_receiver L e sdp m = (Ok tt, m') ->
  exists i rcv,
    let rid := make_id seed_id receiver i in
    sdp_internal_id L sdp = [i]
    /\ NoDup [rid; did; nid]
    /\ node_resources m !! rid = None /\ connection_resources m !! rid = None
    /\ dom (node_resources m') = dom (node_resources m) ∪ {[rid]}
    /\ node_resources m' !! rid = Some rcv
    /\ resource_type rcv = receiver /\ fields_device_id rcv = did
    /\ (forall b, b ∈ fields_interface_bindings rcv -> b ∈ map hi_name (host_interfaces e))
    /\ dom (connection_resources m') = dom (connection_resources m) ∪ {[rid]}
    /\ (forall k, k <> rid -> connection_resources m' !! k = connection_resources m !! k)
    /\ (forall k, k ∉ [rid; did; nid] -> node_resources m' !! k = node_resources m !! k)
    /\ node_resources m' !! did
       = add_ref receiver rid (make_version e) <$> node_resources m !! did
    /\ (fields_clocks <$> node_resources m' !! nid) = (fields_clocks <$> node_resources m !! nid)
    /\ assoc_get rid (fields_settings_receivers (model_settings m')) = Some sdp
    /\ fields_settings_senders (model_settings m') = fields_settings_senders (model_settings m)
    /\ fields_seed_id (model_settings m') = seed_id.
Proof.
  intros seed_id nid did HL Hcf Hwf HU Hrun.
  unfold node_implementation_add_receiver in Hrun.
  destruct (add_receiver_explicit L U m HL Hcf Hwf sdp _ _ m' HU Hrun)
    as (i & names & new & g & n & n'' & _ & HiU & Hi & Ercv & Ecn & Hr & Hnames
        & Hm' & Hn & Hn4 & Hnt & Hsh & Hif & Hcl & _).
  fold seed_id nid did in Hi, Ercv, Ecn, Hr, Hm', Hn, Hn4.
  exists i, (new_receiver new). cbv zeta.
  set (rid := make_id seed_id receiver i) in *.
  assert (Hix : i ∈ "" :: U) by (by apply list_elem_of_further).
  assert (Hie : "" ∈ "" :: U) by constructor.
  assert (Hne : forall t t' i i', i ∈ "" :: U -> i' ∈ "" :: U -> t <> t' \/ i <> i' ->
                  make_id seed_id t i <> make_id seed_id t' i')
    by exact (make_id_ne U m Hcf).
  assert (N3 : rid <> did) by (apply Hne; auto).
  assert (N4 : rid <> nid) by (apply Hne; auto).
  assert (N10 : did <> nid) by (apply Hne; auto).
  assert (Hnr : node_resources m'
                = <[nid := n'']> (alter (add_ref receiver rid (make_version e)) did
                    (<[rid := new_receiver new]> (node_resources m))))
    by (rewrite Hm'; reflexivity).
  assert (Hcr : connection_resources m'
                = <[rid := new_connection_receiver new]> (connection_resources m))
    by (rewrite Hm'; reflexivity).
  assert (Hst : model_settings m'
                = set_settings_receivers
                    (assoc_set rid sdp (fields_settings_receivers (model_settings m)))
                    (model_settings m))
    by (rewrite Hm'; reflexivity).
  clear Hm'.
  destruct Hr as (Hr1 & Hr2 & Hr3 & Hr4).
  split; [exact Hi|].
  split.
  { repeat (apply NoDup_cons; split;
            [rewrite ?elem_of_cons, elem_of_nil; intros Hin;
             repeat (destruct Hin as [Hin|Hin]; [contradiction|]); exact Hin|]).
    apply NoDup_nil. done. }
  split; [exact Ercv|]. split; [exact Ecn|].
  split.
  { rewrite Hnr. apply dom_after_addition1. exists n. exact Hn. }
  split.
  { rewrite Hnr. rewrite lookup_insert_ne by exact (not_eq_sym N4).
    rewrite lookup_alter_ne by exact (not_eq_sym N3). apply lookup_insert_eq. }
  split; [exact Hr2|]. split; [exact Hr3|].
  split. { intros b Hb. apply Hnames. by rewrite <- Hr4. }
  split. { rewrite Hcr, dom_insert_L. apply set_eq. intros k.
           rewrite !elem_of_union. tauto. }
  split. { intros k Hk. rewrite Hcr. apply lookup_insert_ne. exact (not_eq_sym Hk). }
  split.
  { intros k Hk. rewrite !not_elem_of_cons in Hk.
    destruct Hk as (K1 & K4 & K5 & _). rewrite Hnr.
    rewrite lookup_insert_ne by exact (not_eq_sym K5).
    rewrite lookup_alter_ne by exact (not_eq_sym K4).
    apply lookup_insert_ne. exact (not_eq_sym K1). }
  split.
  { rewrite Hnr. rewrite lookup_insert_ne by exact (not_eq_sym N10).
    rewrite lookup_alter_eq.
    rewrite lookup_insert_ne by exact N3. reflexivity. }
  split.
  { rewrite Hnr, lookup_insert_eq, Hn. cbn [fmap option_fmap option_map]. by rewrite Hcl. }
  split.
  { rewrite Hst. cbn [fields_settings_receivers set_settings_receivers].
    apply assoc_get_set_eq. }
  split; rewrite Hst; reflexivity.
Qed.

(** X13, on the example: a second receiver, "source-1", is added. *)
Lemma add_receiver_effect_witness :
  let r := node_implementation_add_receiver Reference.lib Fixture.e Reference.source_1
             Fixture.model_1 in
  r.1 = Ok tt
  /\ dom (node_resources r.2)
     = dom (node_resources Fixture.model_1)
       ∪ {[make_id Fixture.seed_id receiver "source-1"]}.
Proof.
  cbv zeta.
  assert (H1 : (node_implementation_add_receiver Reference.lib Fixture.e Reference.source_1
                  Fixture.model_1).1 = Ok tt) by (vm_compute; reflexivity).
  split; [exact H1|].
  pose proof (pair_eq_of_fst _ _ H1) as H.
  destruct (fixture_invariant _ fixture_added) as (Hseed & Hwf & _).
  change (Fixture.model_after _) with Fixture.model_1 in Hseed, Hwf.
  pose proof fixture_collision_free as Hcf. rewrite <- Hseed in Hcf.
  assert (E : sdp_internal_id Reference.lib Reference.source_1 = ["source-1"])
    by (vm_compute; reflexivity).
  assert (HU : forall i, i ∈ sdp_internal_id Reference.lib Reference.source_1
                         -> i ∈ Fixture.universe).
  { intros i Hi. rewrite E in Hi. apply list_elem_of_singleton in Hi as ->.
    repeat constructor. }
  destruct (add_receiver_effect Reference.lib Fixture.universe Fixture.model_1 _ Fixture.e
              Reference.source_1 reference_lib_laws Hcf Hwf HU H)
    as (i & rcv & Hi & _ & _ & _ & Hdom & _).
  rewrite E in Hi. injection Hi as <-. rewrite Hseed in Hdom. exact Hdom.
Defined.

(** ** Adding an id that is in use *)

(** X14. On a well-formed model, adding a sender whose internal id names
    a sender of the store fails, and so does adding a receiver whose
    internal id names a receiver: the call throws and the stores and the
    settings are as before. *)
Theorem add_existing_id_fails (L : nmos_cpp) (U : list string) (m : node_model) (e : env)
    (sdp i : string) :
  let seed_id := fields_seed_id (model_settings m) in
  nmos_cpp_laws L -> collision_free seed_id U -> wf U m -> i ∈ U ->
  sdp_internal_id L sdp = [i] ->
  (is_Some (node_resources m !! make_id seed_id sender i) ->
   exists ex g, node_implementation_add_sender L e sdp m = (Throw ex, set_gate g m))
  /\ (is_Some (node_resources m !! make_id seed_id receiver i) ->
      exists ex g, node_implementation_add_receiver L e sdp m = (Throw ex, set_gate g m)).
Proof.
  intros seed_id HL Hcf Hwf HiU Hi.
  assert (HU : forall j, j ∈ sdp_internal_id L sdp -> j ∈ U).
  { intros j Hj. rewrite Hi in Hj. by apply list_elem_of_singleton in Hj as ->. }
  split.
  - intros [r Hr]. unfold node_implementation_add_sender.
    destruct (node_implementation_add_sender_ L sdp (host_interfaces e) (make_version e) m)
      as [res m'] eqn:Hrun.
    destruct (add_sender_run L U m HL Hcf Hwf sdp _ _ res m' HU Hrun)
      as [(ex & g & -> & ->)|(_ & Hok)]; [eauto|].
    exfalso.
    destruct Hok as (j & new & d & n & n'' & s' & g & _ & Hj & _ & _ & Esn & _).
    rewrite Hi in Hj. injection Hj as <-. fold seed_id in Esn.
    pose proof (eq_trans (eq_sym Hr) Esn) as Hx. discriminate.
  - intros [r Hr]. unfold node_implementation_add_receiver.
    destruct (node_implementation_add_receiver_ L sdp (host_interfaces e) (make_version e) m)
      as [res m'] eqn:Hrun.
    destruct (add_receiver_run L U m HL Hcf Hwf sdp _ _ res m' HU Hrun)
      as [(ex & g & -> & ->)|(_ & Hok)]; [eauto|].
    exfalso.
    destruct Hok as (j & names & new & d & n & n'' & s' & g & _ & Hj & Ercv & _).
    rewrite Hi in Hj. injection Hj as <-. fold seed_id in Ercv.
    pose proof (eq_trans (eq_sym Hr) Ercv) as Hx. discriminate.
Qed.

(** X14, on the example: "sink-0" and "source-0" are in use. *)
Lemma add_existing_id_fails_witness :
  (exists ex g,
      node_implementation_add_sender Reference.lib Fixture.e Reference.sink_0 Fixture.model_1
      = (Throw ex, set_gate g Fixture.model_1))
  /\ (exists ex g,
        node_implementation_add_receiver Reference.lib Fixture.e Reference.source_0
          Fixture.model_1
        = (Throw ex, set_gate g Fixture.model_1)).
Proof.
  destruct (fixture_invariant _ fixture_added) as (Hseed & Hwf & _).
  change (Fixture.model_after _) with Fixture.model_1 in Hseed, Hwf.
  pose proof fixture_collision_free as Hcf. rewrite <- Hseed in Hcf.
  split.
  - refine (proj1 (add_existing_id_fails Reference.lib Fixture.universe Fixture.model_1
                     Fixture.e Reference.sink_0 "sink-0" reference_lib_laws Hcf Hwf _ _) _).
    + repeat constructor.
    + vm_compute. reflexivity.
    + apply (bool_decide_eq_true_1 _). vm_compute. reflexivity.
  - refine (proj2 (add_existing_id_fails Reference.lib Fixture.universe Fixture.model_1
                     Fixture.e Reference.source_0 "source-0" reference_lib_laws Hcf Hwf _ _) _).
    + repeat constructor.
    + vm_compute. reflexivity.
    + apply (bool_decide_eq_true_1 _). vm_compute. reflexivity.
Defined.

(** ** An addition followed by the removal *)

Lemma existsb_eqb_app_last x l : existsb (String.eqb x) (l ++ [x]) = true.
Proof. rewrite existsb_app. simpl. rewrite String.eqb_refl. by rewrite orb_true_r. Qed.

Lemma erase_first_app_last x l : x ∉ l -> erase_first x (l ++ [x]) = l.
Proof.
  induction l as [|a l IH]; intros Hx; simpl.
  - by rewrite String.eqb_refl.
  - apply not_elem_of_cons in Hx as [Hne Hx].
    destruct (String.eqb a x) eqn:E; [apply String.eqb_eq in E; congruence|].
    by rewrite IH.
Qed.

Lemma assoc_erase_set {V} k (x : V) fs : assoc_erase k (assoc_set k x fs) = assoc_erase k fs.
Proof.
  unfold assoc_erase. induction fs as [|[k' v] fs IH].
  - cbn [assoc_set filter list_filter fst]. rewrite String.eqb_refl. cbn [negb].
    destruct (decide _) as [H|H]; [destruct H | done].
  - cbn [assoc_set]. destruct (String.eqb k' k) eqn:E.
    + cbn [filter list_filter fst]. rewrite E. cbn [negb].
      destruct (decide _) as [H|H]; [destruct H | done].
    + cbn [filter list_filter fst]. rewrite E. cbn [negb].
      destruct (decide _) as [H|H]; [|destruct (H I)]. f_equal. exact IH.
Qed.

Lemma remove_after_add_ref_sender id v v' d :
  id ∉ fields_senders d ->
  fields_senders (remove_ref sender id v' (add_ref sender id v d)) = fields_senders d
  /\ fields_receivers (remove_ref sender id v' (add_ref sender id v d)) = fields_receivers d
  /\ fields_version (remove_ref sender id v' (add_ref sender id v d)) = v'.
Proof.
  intros Hid. unfold remove_ref, add_ref.
  destruct (decide (sender = sender)) as [_|Hn]; [|by destruct Hn].
  cbn [fields_senders set_senders]. rewrite existsb_eqb_app_last.
  cbn [fields_senders fields_receivers fields_version set_senders set_version].
  by rewrite erase_first_app_last.
Qed.

Lemma dom_add_remove3 {A} (st : gmap string A) a b c (x y z : A) n v v' f f' d :
  is_Some (st !! n) -> n <> a -> n <> b -> n <> c ->
  st !! a = None -> st !! b = None -> st !! c = None ->
  dom (<[n := v']> (alter f' d (delete c (delete b (delete a
         (<[n := v]> (alter f d (<[a := x]> (<[b := y]> (<[c := z]> st)))))))))) = dom st.
Proof.
  intros Hn Na Nb Nc Ha Hb Hc.
  rewrite dom_insert_L, dom_alter_L, !dom_delete_L, dom_insert_L, dom_alter_L, !dom_insert_L.
  apply elem_of_dom in Hn. apply not_elem_of_dom in Ha, Hb, Hc.
  revert Hn Ha Hb Hc. generalize (dom st). clear -Na Nb Nc. intros D Hn Ha Hb Hc.
  apply set_eq. intros k.
  rewrite !elem_of_union, !elem_of_difference, !elem_of_union, !elem_of_singleton.
  split.
  - intros [->|[[[[->|[->|[->|[->|?]]]] ?] ?] ?]]; tauto.
  - intros Hk. destruct (decide (k = n)) as [->|?]; [by left|]. right.
    assert (k <> a) by (intros ->; contradiction).
    assert (k <> b) by (intros ->; contradiction).
    assert (k <> c) by (intros ->; contradiction).
    tauto.
Qed.

(** X15. On a well-formed model, a sender that has just been added can
    be removed, and the removal undoes the addition: the connection store
    is the one before the addition, the node store has the keys it had,
    with the same resources apart from the device and the node, the
    device has its [senders] and [receivers] arrays back (when the id was
    not listed before), and the settings no longer hold the text. *)
Theorem add_then_remove_sender (L : nmos_cpp) (U : list string) (m m1 : node_model)
    (e e' : env) (sdp : string) :
  let seed_id := fields_seed_id (model_settings m) in
  let nid := make_id seed_id node "" in
  let did := make_id seed_id device "" in
  nmos_cpp_laws L -> collision_free seed_id U -> wf U m ->
  (forall i, i ∈ sdp_internal_id L sdp -> i ∈ U) ->
  node_implementation_add_sender L e sdp m = (Ok tt, m1) ->
  exists i m2,
    let sid := make_id seed_id sender i in
    sdp_internal_id L sdp = [i]
    /\ node_implementation_remove_sender L e' i m1 = (Ok tt, m2)
    /\ connection_resources m2 = connection_resources m
    /\ dom (node_resources m2) = dom (node_resources m)
    /\ (forall k, k <> nid -> k <> did -> node_resources m2 !! k = node_resources m !! k)
    /\ (forall d, node_resources m !! did = Some d -> sid ∉ fields_senders d ->
                  exists d2, node_resources m2 !! did = Some d2
                             /\ fields_senders d2 = fields_senders d
                             /\ fields_receivers d2 = fields_receivers d
                             /\ fields_version d2 = make_version e')
    /\ fields_settings_senders (model_settings m2)
       = assoc_erase sid (fields_settings_senders (model_settings m))
    /\ fields_settings_receivers (model_settings m2)
       = fields_settings_receivers (model_settings m).
Proof.
  intros seed_id nid did HL Hcf Hwf HU Hrun.
  unfold node_implementation_add_sender in Hrun.
  destruct (add_sender_invariants L U m HL Hcf Hwf sdp _ _ _ m1 HU Hrun)
    as [(ex & g & Hex & _)|(_ & Hwf1 & Hseed1 & _)]; [discriminate|].
  destruct (add_sender_explicit L U m HL Hcf Hwf sdp _ _ m1 HU Hrun)
    as (i & new & g & n & n'' & pd & _ & HiU & Hi & Esrc & Efl & Esn & Ecn & Hsrc & Hfl
        & Hs1 & Hs2 & Hs3 & Hs4 & Hs5 & Hm1 & Hn & Hn4 & Hnt & Hsh & Hif & Hclk & _).
  fold seed_id in Hseed1.
  fold seed_id nid did in Hi, Esrc, Efl, Esn, Ecn, Hsrc, Hfl, Hs1, Hs3, Hs4, Hm1, Hn, Hn4.
  exists i.
  set (sid := make_id seed_id sender i) in *.
  set (fid := make_id seed_id flow i) in *.
  set (srcid := make_id seed_id source i) in *.
  assert (Hix : i ∈ "" :: U) by (by apply list_elem_of_further).
  assert (Hie : "" ∈ "" :: U) by constructor.
  assert (Hne : forall t t' i i', i ∈ "" :: U -> i' ∈ "" :: U -> t <> t' \/ i <> i' ->
                  make_id seed_id t i <> make_id seed_id t' i')
    by exact (make_id_ne U m Hcf).
  assert (N1 : sid <> fid) by (apply Hne; auto).
  assert (N2 : sid <> srcid) by (apply Hne; auto).
  assert (N3 : sid <> did) by (apply Hne; auto).
  assert (N4 : sid <> nid) by (apply Hne; auto).
  assert (N5 : fid <> srcid) by (apply Hne; auto).
  assert (N6 : fid <> did) by (apply Hne; auto).
  assert (N7 : fid <> nid) by (apply Hne; auto).
  assert (N8 : srcid <> did) by (apply Hne; auto).
  assert (N9 : srcid <> nid) by (apply Hne; auto).
  assert (N10 : did <> nid) by (apply Hne; auto).
  assert (Hnr : node_resources m1
                = <[nid := n'']> (alter (add_ref sender sid (make_version e)) did
                    (<[sid := new_sender new]> (<[fid := new_flow new]>
                       (<[srcid := new_source new]> (node_resources m))))))
    by (rewrite Hm1; reflexivity).
  assert (Hcr : connection_resources m1
                = <[sid := new_connection_sender new]> (connection_resources m))
    by (rewrite Hm1; reflexivity).
  assert (Hst : model_settings m1
                = settings_after_add_sender sid sdp pd (model_settings m))
    by (rewrite Hm1; reflexivity).
  clear Hm1.
  assert (Hcf1 : collision_free (fields_seed_id (model_settings m1)) U)
    by (rewrite Hseed1; exact Hcf).
  assert (Hfind : find_resource (node_resources m1)
                    (make_id (fields_seed_id (model_settings m1)) sender i, sender)
                  = Some (new_sender new)).
  { rewrite Hseed1. fold sid. apply find_resource_Some. split; [|exact Hs2].
    rewrite Hnr. rewrite lookup_insert_ne by exact (not_eq_sym N4).
    rewrite lookup_alter_ne by exact (not_eq_sym N3). apply lookup_insert_eq. }
  destruct (remove_sender_run L U m1 Hcf1 Hwf1 i (host_interfaces e') (make_version e')
              (new_sender new) HiU Hfind)
    as (n1 & n1' & Hn1 & _ & Hrun2 & _).
  rewrite Hseed1 in Hrun2. fold sid fid srcid did nid in Hrun2.
  eexists. cbv zeta. split; [exact Hi|].
  split; [exact Hrun2|].
  cbn [node_resources connection_resources model_settings].
  split. { rewrite Hcr. apply delete_insert_id. exact Ecn. }
  split.
  { rewrite Hnr.
    apply dom_add_remove3;
      [exists n; exact Hn | exact (not_eq_sym N4) | exact (not_eq_sym N7)
       | exact (not_eq_sym N9) | exact Esn | exact Efl | exact Esrc]. }
  split.
  { intros k K1 K2. rewrite lookup_insert_ne by exact (not_eq_sym K1).
    rewrite lookup_alter_ne by exact (not_eq_sym K2).
    destruct (decide (k = srcid)) as [->|K3]; [rewrite lookup_delete_eq; exact (eq_sym Esrc)|].
    rewrite lookup_delete_ne by exact (not_eq_sym K3).
    destruct (decide (k = fid)) as [->|K4]; [rewrite lookup_delete_eq; exact (eq_sym Efl)|].
    rewrite lookup_delete_ne by exact (not_eq_sym K4).
    destruct (decide (k = sid)) as [->|K5]; [rewrite lookup_delete_eq; exact (eq_sym Esn)|].
    rewrite lookup_delete_ne by exact (not_eq_sym K5).
    rewrite Hnr. rewrite lookup_insert_ne by exact (not_eq_sym K1).
    rewrite lookup_alter_ne by exact (not_eq_sym K2).
    rewrite lookup_insert_ne by exact (not_eq_sym K5).
    rewrite lookup_insert_ne by exact (not_eq_sym K4).
    apply lookup_insert_ne. exact (not_eq_sym K3). }
  split.
  { intros d Hd Hnot. eexists. split.
    - rewrite lookup_insert_ne by exact (not_eq_sym N10).
      rewrite lookup_alter_eq.
      rewrite lookup_delete_ne by exact N8. rewrite lookup_delete_ne by exact N6.
      rewrite lookup_delete_ne by exact N3.
      rewrite Hnr. rewrite lookup_insert_ne by exact (not_eq_sym N10).
      rewrite lookup_alter_eq.
      rewrite lookup_insert_ne by exact N3. rewrite lookup_insert_ne by exact N6.
      rewrite lookup_insert_ne by exact N8. rewrite Hd. reflexivity.
    - apply remove_after_add_ref_sender. exact Hnot. }
  rewrite Hst. unfold settings_after_add_sender.
  cbn [fields_settings_senders fields_settings_receivers set_settings_senders
       set_settings_clocks].
  split; [apply assoc_erase_set | reflexivity].
Qed.

(** X15, on the example: "sink-1" is added to the model and removed
    again. *)
Lemma add_then_remove_sender_witness :
  let r := node_implementation_add_sender Reference.lib Fixture.e Reference.sink_1
             Fixture.model_1 in
  r.1 = Ok tt
  /\ exists m2,
       node_implementation_remove_sender Reference.lib Fixture.e "sink-1" r.2 = (Ok tt, m2)
       /\ connection_resources m2 = connection_resources Fixture.model_1
       /\ dom (node_resources m2) = dom (node_resources Fixture.model_1).
Proof.
  cbv zeta.
  assert (H1 : (node_implementation_add_sender Reference.lib Fixture.e Reference.sink_1
                  Fixture.model_1).1 = Ok tt) by (vm_compute; reflexivity).
  split; [exact H1|].
  pose proof (pair_eq_of_fst _ _ H1) as H.
  destruct (fixture_invariant _ fixture_added) as (Hseed & Hwf & _).
  change (Fixture.model_after _) with Fixture.model_1 in Hseed, Hwf.
  pose proof fixture_collision_free as Hcf. rewrite <- Hseed in Hcf.
  assert (E : sdp_internal_id Reference.lib Reference.sink_1 = ["sink-1"])
    by (vm_compute; reflexivity).
  assert (HU : forall i, i ∈ sdp_internal_id Reference.lib Reference.sink_1
                         -> i ∈ Fixture.universe).
  { intros i Hi. rewrite E in Hi. apply list_elem_of_singleton in Hi as ->.
    repeat constructor. }
  destruct (add_then_remove_sender Reference.lib Fixture.universe Fixture.model_1 _ Fixture.e
              Fixture.e Reference.sink_1 reference_lib_laws Hcf Hwf HU H)
    as (i & m2 & Hi & Hrun & Hcr & Hdom & _).
  rewrite E in Hi. injection Hi as <-. exists m2.
  split; [exact Hrun|]. split; [exact Hcr | exact Hdom].
Defined.

(** ** What a new sender or receiver says of its configuration *)

Lemma get_internal_id_tagged i g (r : resource) :
  get_internal_id (if negb (String.eqb g "")
                   then set_group_hint g (set_internal_id i r) else set_internal_id i r) = i
  /\ (g <> "" ->
      get_group_hint (if negb (String.eqb g "")
                      then set_group_hint g (set_internal_id i r) else set_internal_id i r) = g).
Proof.
  unfold get_internal_id, get_group_hint, set_internal_id, set_group_hint.
  destruct (String.eqb_spec g "") as [->|Hg]; cbn [negb fields_tags set_tags].
  - rewrite assoc_get_set_eq. done.
  - rewrite (assoc_get_set_ne fields_internal_id_tag fields_group_hint) by done.
    rewrite !assoc_get_set_eq. done.
Qed.

Section Tags.
Context (L : nmos_cpp).

Lemma make_sender_resources_tags sdp hs m new m' :
  make_sender_resources L sdp hs m = (Ok new, m') ->
  exists sd params i g,
    parse_session_description L sdp = Ok sd
    /\ get_session_description_sdp_parameters L sd = Ok params
    /\ get_session_description_internal_id sd = Ok i
    /\ get_session_description_group_hint sd = Ok g
    /\ get_internal_id (new_sender new) = i
    /\ (g <> "" -> get_group_hint (new_sender new) = g)
    /\ fields_label (new_sender new) = session_name params
    /\ fields_description (new_sender new) = sd_information sd.
Proof.
  intros H. unfold make_sender_resources in H.
  apply bind_Ok in H as (sd & m1 & Hsd & H). apply lift_Ok in Hsd as [Hsd ->].
  apply bind_Ok in H as (sdp_params & m1 & Hp & H). apply lift_Ok in Hp as [Hp ->].
  cbv zeta in H.
  apply bind_Ok in H as (tps & m1 & Htp & H). apply lift_Ok in Htp as [Htp ->].
  apply bind_Ok in H as (i & m1 & Hi & H). apply lift_Ok in Hi as [Hi ->].
  apply bind_Ok in H as (group_hint & m1 & Hg & H). apply lift_Ok in Hg as [Hg ->].
  cbv zeta in H.
  apply bind_Ok in H as (m0 & m1 & Hm & H). apply get_model_Ok in Hm as [-> ->].
  cbv zeta in H.
  apply bind_Ok in H as (format_ & m1 & Hf & H). apply lift_Ok in Hf as [Hf ->].
  apply bind_Ok in H as (names & m1 & Hn & H).
  apply bind_Ok in H as ([s f] & m2 & Hsf & H). apply lift_Ok in Hsf as [Hsf ->].
  cbv zeta in H.
  apply bind_Ok in H as (snd0 & m2 & Hj & H). apply lift_Ok in Hj as [Hj ->].
  cbv zeta in H.
  apply bind_Ok in H as (c & m2 & Hc & H). apply lift_Ok in Hc as [Hc ->].
  cbv zeta in H. apply ret_Ok in H as [-> _].
  exists sd, sdp_params, i, group_hint. cbn [new_sender].
  split; [exact Hsd|]. split; [exact Hp|]. split; [exact Hi|]. split; [exact Hg|].
  destruct (get_internal_id_tagged i group_hint
              (set_description (get_session_description_session_info sd)
                 (set_label (session_name sdp_params) snd0))) as [H1 H2].
  split; [exact H1|]. split; [exact H2|].
  split; by destruct (negb _).
Qed.

Lemma make_receiver_resources_tags sdp hs version m new m' :
  make_receiver_resources L sdp hs version m = (Ok new, m') ->
  exists sd params i g,
    parse_session_description L sdp = Ok sd
    /\ get_session_description_sdp_parameters L sd = Ok params
    /\ get_session_description_internal_id sd = Ok i
    /\ get_session_description_group_hint sd = Ok g
    /\ get_internal_id (new_receiver new) = i
    /\ (g <> "" -> get_group_hint (new_receiver new) = g)
    /\ fields_label (new_receiver new) = session_name params
    /\ fields_description (new_receiver new) = sd_information sd.
Proof.
  intros H. unfold make_receiver_resources in H.
  apply bind_Ok in H as (sd & m1 & Hsd & H). apply lift_Ok in Hsd as [Hsd ->].
  apply bind_Ok in H as (sdp_params & m1 & Hp & H). apply lift_Ok in Hp as [Hp ->].
  apply bind_Ok in H as (tps & m1 & Htp & H). apply lift_Ok in Htp as [Htp ->].
  apply bind_Ok in H as (i & m1 & Hi & H). apply lift_Ok in Hi as [Hi ->].
  apply bind_Ok in H as (group_hint & m1 & Hg & H). apply lift_Ok in Hg as [Hg ->].
  cbv zeta in H.
  apply bind_Ok in H as (m0 & m1 & Hm & H). apply get_model_Ok in Hm as [-> ->].
  cbv zeta in H.
  apply bind_Ok in H as (format_ & m1 & Hf & H). apply lift_Ok in Hf as [Hf ->].
  apply bind_Ok in H as (names & m1 & Hn & H).
  apply bind_Ok in H as (r0 & m2 & Hr & H). apply lift_Ok in Hr as [Hr ->].
  cbv zeta in H.
  apply bind_Ok in H as (c & m2 & Hc & H). apply lift_Ok in Hc as [Hc ->].
  cbv zeta in H. apply ret_Ok in H as [-> _].
  exists sd, sdp_params, i, group_hint. cbn [new_receiver].
  split; [exact Hsd|]. split; [exact Hp|]. split; [exact Hi|]. split; [exact Hg|].
  destruct (get_internal_id_tagged i group_hint
              (set_description (get_session_description_session_info sd)
                 (set_label (session_name sdp_params) r0))) as [H1 H2].
  split; [exact H1|]. split; [exact H2|].
  split; by destruct (negb _).
Qed.
End Tags.

(** X16. The sender or receiver that a successful addition leaves in the
    store says where it came from: its internal id tag reads as the
    internal id of the text, its group hint tag as the group hint of the
    text when there is one, its label is the session name and its
    description the session information of the text. *)
Theorem added_resource_is_tagged (L : nmos_cpp) (U : list string) (m m' : node_model)
    (e : env) (sdp : string) (t : type) :
  let seed_id := fields_seed_id (model_settings m) in
  nmos_cpp_laws L -> collision_free seed_id U -> wf U m ->
  (forall i, i ∈ sdp_internal_id L sdp -> i ∈ U) ->
  (t = sender /\ node_implementation_add_sender L e sdp m = (Ok tt, m')
   \/ t = receiver /\ node_implementation_add_receiver L e sdp m = (Ok tt, m')) ->
  exists sd params i g r,
    parse_session_description L sdp = Ok sd
    /\ get_session_description_sdp_parameters L sd = Ok params
    /\ get_session_description_internal_id sd = Ok i
    /\ get_session_description_group_hint sd = Ok g
    /\ node_resources m' !! make_id seed_id t i = Some r
    /\ resource_type r = t
    /\ get_internal_id r = i
    /\ (g <> "" -> get_group_hint r = g)
    /\ fields_label r = session_name params
    /\ fields_description r = sd_information sd.
Proof.
  intros seed_id HL Hcf Hwf HU [[-> Hrun]|[-> Hrun]].
  - unfold node_implementation_add_sender in Hrun.
    destruct (add_sender_explicit L U m HL Hcf Hwf sdp _ _ m' HU Hrun)
      as (i & new & g0 & n & n'' & pd & Hmk & HiU & Hi & _ & _ & _ & _ & _ & _
          & _ & Hs2 & _ & _ & _ & Hm' & _).
    destruct (make_sender_resources_tags L _ _ _ _ _ Hmk)
      as (sd & params & i' & g & Hsd & Hp & Hi' & Hg & T1 & T2 & T3 & T4).
    assert (i' = i) as ->.
    { unfold sdp_internal_id in Hi. rewrite Hsd, Hi' in Hi. by injection Hi. }
    exists sd, params, i, g, (new_sender new).
    split; [exact Hsd|]. split; [exact Hp|]. split; [exact Hi'|]. split; [exact Hg|].
    split.
    { fold seed_id in Hm'. rewrite Hm'. cbn [node_resources].
      assert (Hix : i ∈ "" :: U) by (by apply list_elem_of_further).
      assert (Hie : "" ∈ "" :: U) by constructor.
      rewrite lookup_insert_ne by (apply (make_id_ne U m Hcf); auto).
      rewrite lookup_alter_ne by (apply (make_id_ne U m Hcf); auto).
      apply lookup_insert_eq. }
    split; [exact Hs2|]. split; [exact T1|]. split; [exact T2|]. split; [exact T3 | exact T4].
  - unfold node_implementation_add_receiver in Hrun.
    destruct (add_receiver_explicit L U m HL Hcf Hwf sdp _ _ m' HU Hrun)
      as (i & names & new & g0 & n & n'' & Hmk & HiU & Hi & _ & _ & Hr & _ & Hm' & _).
    destruct (make_receiver_resources_tags L _ _ _ _ _ _ Hmk)
      as (sd & params & i' & g & Hsd & Hp & Hi' & Hg & T1 & T2 & T3 & T4).
    assert (i' = i) as ->.
    { unfold sdp_internal_id in Hi. rewrite Hsd, Hi' in Hi. by injection Hi. }
    exists sd, params, i, g, (new_receiver new).
    split; [exact Hsd|]. split; [exact Hp|]. split; [exact Hi'|]. split; [exact Hg|].
    split.
    { fold seed_id in Hm'. rewrite Hm'. cbn [node_resources].
      assert (Hix : i ∈ "" :: U) by (by apply list_elem_of_further).
      assert (Hie : "" ∈ "" :: U) by constructor.
      rewrite lookup_insert_ne by (apply (make_id_ne U m Hcf); auto).
      rewrite lookup_alter_ne by (apply (make_id_ne U m Hcf); auto).
      apply lookup_insert_eq. }
    destruct Hr as (_ & Hr2 & _).
    split; [exact Hr2|]. split; [exact T1|]. split; [exact T2|]. split; [exact T3 | exact T4].
Qed.

(** X16, on the example: the sender "sink-1" after its addition. *)
Lemma added_resource_is_tagged_witness :
  let r := node_implementation_add_sender Reference.lib Fixture.e Reference.sink_1
             Fixture.model_1 in
  r.1 = Ok tt
  /\ exists snd,
       node_resources r.2 !! make_id Fixture.seed_id sender "sink-1" = Some snd
       /\ get_internal_id snd = "sink-1".
Proof.
  cbv zeta.
  assert (H1 : (node_implementation_add_sender Reference.lib Fixture.e Reference.sink_1
                  Fixture.model_1).1 = Ok tt) by (vm_compute; reflexivity).
  split; [exact H1|].
  pose proof (pair_eq_of_fst _ _ H1) as H.
  destruct (fixture_invariant _ fixture_added) as (Hseed & Hwf & _).
  change (Fixture.model_after _) with Fixture.model_1 in Hseed, Hwf.
  pose proof fixture_collision_free as Hcf. rewrite <- Hseed in Hcf.
  assert (E : sdp_internal_id Reference.lib Reference.sink_1 = ["sink-1"])
    by (vm_compute; reflexivity).
  assert (HU : forall i, i ∈ sdp_internal_id Reference.lib Reference.sink_1
                         -> i ∈ Fixture.universe).
  { intros i Hi. rewrite E in Hi. apply list_elem_of_singleton in Hi as ->.
    repeat constructor. }
  destruct (added_resource_is_tagged Reference.lib Fixture.universe Fixture.model_1 _
              Fixture.e Reference.sink_1 sender reference_lib_laws Hcf Hwf HU
              (or_introl (conj eq_refl H)))
    as (sd & params & i & g & snd & Hsd & _ & Hi & _ & Hsnd & _ & Hid & _).
  assert (Ei : i = "sink-1").
  { unfold sdp_internal_id in E. rewrite Hsd, Hi in E. by injection E. }
  rewrite Ei in Hsnd, Hid. rewrite Hseed in Hsnd. exists snd.
  split; [exact Hsnd | exact Hid].
Defined.

(** ** [node_implementation_init_], spelled out *)

(** What [node_implementation_init_] returns, by what the store holds. *)
Lemma init_explicit (L : nmos_cpp) (m : node_model) :
  let s := model_settings m in
  let nid := make_id (fields_seed_id s) node "" in
  let did := make_id (fields_seed_id s) device "" in
  nmos_cpp_laws L -> nid <> did ->
  node_implementation_init_ L m
  = match node_resources m !! nid, node_resources m !! did with
    | Some _, _ => (Throw node_implementation_exception, m)
    | None, Some _ =>
        (Throw node_implementation_exception,
         set_node_resources (<[nid := initial_node L s]> (node_resources m)) m)
    | None, None =>
        (Ok tt,
         set_model_settings (initial_settings s)
           (set_node_resources
              (<[did := initial_device L s]> (<[nid := initial_node L s]> (node_resources m)))
              m))
    end.
Proof.
  intros s nid did HL Hne.
  destruct (make_node_law L HL nid [make_internal_clock clk0] s) as (Hn1 & Hn2 & Hn3 & Hn4).
  destruct (make_device_law L HL did nid s) as (Hd1 & Hd2).
  assert (Hnid : resource_id (initial_node L s) = nid) by exact Hn1.
  assert (Hdid : resource_id (initial_device L s) = did) by exact Hd1.
  unfold node_implementation_init_.
  unfold bind at 1. cbn [get_model]. cbv zeta. fold s. fold nid did.
  change (set_tags (fields_node_tags s) _) with (initial_node L s).
  change (set_tags (fields_device_tags s) _) with (initial_device L s).
  unfold bind at 1.
  destruct (node_resources m !! nid) as [n0|] eqn:En.
  { rewrite insert_node_resource_old by (rewrite Hnid, En; eauto). reflexivity. }
  rewrite insert_node_resource_new by (rewrite Hnid; exact En).
  cbn [negb]. unfold bind at 1. rewrite Hnid.
  destruct (node_resources m !! did) as [d0|] eqn:Ed.
  { rewrite insert_node_resource_old
      by (rewrite Hdid; cbn [node_resources set_node_resources];
          rewrite lookup_insert_ne by exact Hne; rewrite Ed; eauto).
    reflexivity. }
  rewrite insert_node_resource_new
    by (rewrite Hdid; cbn [node_resources set_node_resources];
        rewrite lookup_insert_ne by exact Hne; exact Ed).
  cbn [negb]. rewrite Hdid. unfold modify_settings, modify_model.
  destruct m. reflexivity.
Qed.

(** X17. [node_implementation_init_] puts the node and the device built
    from the settings into the store and empties the three configuration
    maps of the settings.  On a model that already holds the node it throws
    and changes nothing; on a model that holds the device but not the node
    it throws after it has inserted the node.  The node has the id derived
    for it, the single internal clock [clk0], no interfaces, and the label,
    description and tags of the settings. *)
Theorem init_outcome (L : nmos_cpp) (m : node_model) :
  let s := model_settings m in
  let nid := make_id (fields_seed_id s) node "" in
  let did := make_id (fields_seed_id s) device "" in
  nmos_cpp_laws L -> nid <> did ->
  node_implementation_init_ L m
  = match node_resources m !! nid, node_resources m !! did with
    | Some _, _ => (Throw node_implementation_exception, m)
    | None, Some _ =>
        (Throw node_implementation_exception,
         set_node_resources (<[nid := initial_node L s]> (node_resources m)) m)
    | None, None =>
        (Ok tt,
         set_model_settings (initial_settings s)
           (set_node_resources
              (<[did := initial_device L s]> (<[nid := initial_node L s]> (node_resources m)))
              m))
    end
  /\ resource_id (initial_node L s) = nid /\ resource_type (initial_node L s) = node
  /\ fields_clocks (initial_node L s) = [make_internal_clock clk0]
  /\ fields_interfaces (initial_node L s) = []
  /\ fields_label (initial_node L s) = fields_node_label s
  /\ fields_description (initial_node L s) = fields_node_description s
  /\ fields_tags (initial_node L s) = fields_node_tags s
  /\ resource_id (initial_device L s) = did /\ resource_type (initial_device L s) = device
  /\ fields_label (initial_device L s) = fields_device_label s
  /\ fields_description (initial_device L s) = fields_device_description s
  /\ fields_tags (initial_device L s) = fields_device_tags s.
Proof.
  intros s nid did HL Hne.
  destruct (make_node_law L HL nid [make_internal_clock clk0] s) as (Hn1 & Hn2 & Hn3 & Hn4).
  destruct (make_device_law L HL did nid s) as (Hd1 & Hd2).
  split; [exact (init_explicit L m HL Hne)|]. repeat split; assumption.
Qed.

Lemma dom_insert2_empty {A} a b (x y : A) :
  dom (<[a := x]> (<[b := y]> (∅ : gmap string A))) = {[a; b]}.
Proof.
  rewrite !dom_insert_L, dom_empty_L. apply set_eq. intros k.
  rewrite !elem_of_union, !elem_of_singleton, elem_of_empty. tauto.
Qed.

(** X17, on the example: the empty model with the seed of the example. *)
Lemma init_outcome_witness :
  let m := set_model_settings
             (match make_settings Reference.lib Reference.config with
              | Ok s => s
              | Throw _ => model_settings Fixture.empty_model
              end) Fixture.empty_model in
  exists m',
    node_implementation_init_ Reference.lib m = (Ok tt, m')
    /\ dom (node_resources m')
       = {[make_id Fixture.seed_id device ""; make_id Fixture.seed_id node ""]}
    /\ node_implementation_init_ Reference.lib m'
       = (Throw node_implementation_exception, m').
Proof.
  cbv zeta.
  set (m := set_model_settings _ Fixture.empty_model).
  assert (Hseed : fields_seed_id (model_settings m) = Fixture.seed_id)
    by (vm_compute; reflexivity).
  assert (Hne : make_id (fields_seed_id (model_settings m)) node ""
                <> make_id (fields_seed_id (model_settings m)) device "").
  { rewrite Hseed. intros Heq.
    assert (He : "" ∈ "" :: Fixture.universe) by constructor.
    by destruct (collision_free_inj _ _ _ _ _ _ fixture_collision_free He He Heq). }
  destruct (init_outcome Reference.lib m reference_lib_laws Hne) as (Hrun & Hnid & _).
  change (node_resources m) with (∅ : gmap string resource) in Hrun.
  rewrite !lookup_empty in Hrun.
  eexists. split; [exact Hrun|]. split.
  - cbn [node_resources set_node_resources set_model_settings]. rewrite Hseed.
    apply dom_insert2_empty.
  - match goal with |- node_implementation_init_ _ ?m1 = _ => set (m1' := m1) end.
    assert (Hne' : make_id (fields_seed_id (model_settings m1')) node ""
                   <> make_id (fields_seed_id (model_settings m1')) device "") by exact Hne.
    destruct (init_outcome Reference.lib m1' reference_lib_laws Hne') as (Hrun' & _).
    rewrite Hrun'.
    assert (Hl : is_Some (node_resources m1'
                            !! make_id (fields_seed_id (model_settings m1')) node "")).
    { exists (initial_node Reference.lib (model_settings m)).
      cbn [m1' node_resources set_node_resources set_model_settings].
      rewrite lookup_insert_ne by exact (not_eq_sym Hne). apply lookup_insert_eq. }
    destruct Hl as [x Hx]. rewrite Hx. reflexivity.
Defined.

(** ** The device's lists of senders and receivers *)

Lemma has_type_same_shapes t st st' k :
  same_shapes st st' -> has_type t st k <-> has_type t st' k.
Proof.
  intros H. split; intros (r & Hr & Ht).
  - destruct (same_shapes_Some_l _ _ _ _ H Hr) as (r' & Hr' & Hs).
    exists r'. split; [exact Hr'|]. apply shape_eq in Hs as (_ & -> & _). exact Ht.
  - destruct (same_shapes_Some _ _ _ _ H Hr) as (r' & Hr' & Hs).
    exists r'. split; [exact Hr'|]. apply shape_eq in Hs as (_ & Hs & _). congruence.
Qed.

Lemma has_type_insert t (st : gmap string resource) a x k :
  has_type t (<[a := x]> st) k <-> (k = a /\ resource_type x = t) \/ (k <> a /\ has_type t st k).
Proof.
  unfold has_type. destruct (decide (k = a)) as [->|Hne].
  - rewrite lookup_insert_eq. split.
    + intros (r & [= <-] & Ht). by left.
    + intros [[_ Ht]|[Hn _]]; [eauto | done].
  - rewrite lookup_insert_ne by done. split; [by right|]. intros [[? _]|[_ H]]; done.
Qed.

Lemma has_type_delete t (st : gmap string resource) a k :
  has_type t (delete a st) k <-> k <> a /\ has_type t st k.
Proof.
  unfold has_type. destruct (decide (k = a)) as [->|Hne].
  - rewrite lookup_delete_eq. split; [by intros (r & [=] & _) | by intros [? _]].
  - rewrite lookup_delete_ne by done. split; [done | by intros [_ ?]].
Qed.

Lemma has_type_lookup t (st : gmap string resource) k r :
  st !! k = Some r -> has_type t st k <-> resource_type r = t.
Proof.
  intros Hk. unfold has_type. rewrite Hk. split; [by intros (r' & [= <-] & ?) | eauto].
Qed.

Lemma has_type_None t (st : gmap string resource) k : st !! k = None -> ~ has_type t st k.
Proof. intros Hk (r & Hr & _). congruence. Qed.

(** The senders and receivers of a store that has got a sender, its flow
    and its source, up to changes that keep the types. *)
Lemma has_type_after_add_sender (st st' : gmap string resource) a b c x y z :
  resource_type x = sender -> resource_type y = flow -> resource_type z = source ->
  st !! a = None -> st !! b = None -> st !! c = None ->
  same_shapes (<[a := x]> (<[b := y]> (<[c := z]> st))) st' ->
  (forall k, has_type sender st' k <-> k = a \/ has_type sender st k)
  /\ (forall k, has_type receiver st' k <-> has_type receiver st k).
Proof.
  intros Hx Hy Hz Ha Hb Hc Hss.
  assert (Hfree : forall t k, has_type t st k -> k <> a /\ k <> b /\ k <> c).
  { intros t k Hk. split; [|split]; intros ->; revert Hk; by apply has_type_None. }
  split; intros k; rewrite <- (has_type_same_shapes _ _ _ k Hss), !has_type_insert,
    Hx, Hy, Hz.
  - split.
    + intros [[-> _]|[Hne [[_ ?]|[_ [[_ ?]|[_ H]]]]]]; [by left | discriminate.. | by right].
    + intros [->|H]; [by left|]. destruct (Hfree _ _ H) as (? & ? & ?).
      right. split; [done|]. right. split; [done|]. right. done.
  - split.
    + intros [[_ ?]|[_ [[_ ?]|[_ [[_ ?]|[_ H]]]]]]; [discriminate.. | exact H].
    + intros H. destruct (Hfree _ _ H) as (? & ? & ?).
      right. split; [done|]. right. split; [done|]. right. done.
Qed.

Lemma has_type_after_add_receiver (st st' : gmap string resource) a x :
  resource_type x = receiver ->
  st !! a = None ->
  same_shapes (<[a := x]> st) st' ->
  (forall k, has_type receiver st' k <-> k = a \/ has_type receiver st k)
  /\ (forall k, has_type sender st' k <-> has_type sender st k).
Proof.
  intros Hx Ha Hss.
  pose proof (has_type_None sender st a Ha) as Na.
  pose proof (has_type_None receiver st a Ha) as Na'.
  split; intros k; rewrite <- (has_type_same_shapes _ _ _ k Hss), has_type_insert, Hx.
  - destruct (decide (k = a)) as [->|Hne]; tauto.
  - split; [intros [[_ ?]|[_ ?]]; [discriminate | done]|].
    intros H. right. split; [intros ->; tauto | done].
Qed.

Lemma has_type_after_remove_sender (st st' : gmap string resource) a b c x y z :
  st !! a = Some x -> resource_type x = sender ->
  st !! b = Some y -> resource_type y = flow ->
  st !! c = Some z -> resource_type z = source ->
  same_shapes (delete c (delete b (delete a st))) st' ->
  (forall k, has_type sender st' k <-> has_type sender st k /\ k <> a)
  /\ (forall k, has_type receiver st' k <-> has_type receiver st k).
Proof.
  intros Ha Hx Hb Hy Hc Hz Hss.
  assert (Habc : forall t k, has_type t st k ->
                             (k = a -> t = sender) /\ (k = b -> t = flow)
                             /\ (k = c -> t = source)).
  { intros t k Hk. split; [|split]; intros ->.
    - apply (has_type_lookup t _ _ _ Ha) in Hk. congruence.
    - apply (has_type_lookup t _ _ _ Hb) in Hk. congruence.
    - apply (has_type_lookup t _ _ _ Hc) in Hk. congruence. }
  split; intros k; rewrite <- (has_type_same_shapes _ _ _ k Hss), !has_type_delete.
  - split; [tauto|]. intros [H Hne]. destruct (Habc sender k H) as (_ & H1 & H2).
    split; [intros ->; by specialize (H2 eq_refl)|].
    split; [intros ->; by specialize (H1 eq_refl)|]. done.
  - split; [tauto|]. intros H. destruct (Habc receiver k H) as (H0 & H1 & H2).
    split; [intros ->; by specialize (H2 eq_refl)|].
    split; [intros ->; by specialize (H1 eq_refl)|].
    split; [intros ->; by specialize (H0 eq_refl) | done].
Qed.

Lemma has_type_after_remove_receiver (st st' : gmap string resource) a x :
  st !! a = Some x -> resource_type x = receiver ->
  same_shapes (delete a st) st' ->
  (forall k, has_type receiver st' k <-> has_type receiver st k /\ k <> a)
  /\ (forall k, has_type sender st' k <-> has_type sender st k).
Proof.
  intros Ha Hx Hss.
  split; intros k; rewrite <- (has_type_same_shapes _ _ _ k Hss), has_type_delete.
  - tauto.
  - split; [tauto|]. intros H. split; [|done]. intros ->.
    apply (has_type_lookup sender _ _ _ Ha) in H. congruence.
Qed.

Lemma erase_first_absent x l : existsb (String.eqb x) l = false -> erase_first x l = l.
Proof.
  induction l as [|a l IH]; simpl; [done|]. intros H.
  apply orb_false_iff in H as [Ha Hl]. rewrite String.eqb_sym, Ha. by rewrite IH.
Qed.

Lemma elem_of_erase_first x l k : NoDup l -> k ∈ erase_first x l <-> k ∈ l /\ k <> x.
Proof.
  induction l as [|a l IH]; intros Hnd; simpl.
  - split; [by intros H%elem_of_nil | by intros [H%elem_of_nil _]].
  - apply NoDup_cons in Hnd as [Ha Hnd]. destruct (String.eqb a x) eqn:E.
    + apply String.eqb_eq in E as ->. rewrite elem_of_cons. split.
      * intros H. split; [by right | by intros ->].
      * intros [[?|?] ?]; done.
    + apply String.eqb_neq in E. rewrite !elem_of_cons, (IH Hnd). split.
      * intros [->|[? ?]]; [by split; [left|] | by split; [right|]].
      * intros [[->|?] ?]; [by left | by right].
Qed.

Lemma NoDup_erase_first x l : NoDup l -> NoDup (erase_first x l).
Proof.
  induction l as [|a l IH]; intros Hnd; simpl; [done|].
  pose proof Hnd as Hnd0. apply NoDup_cons in Hnd as [Ha Hnd].
  destruct (String.eqb a x); [done|]. apply NoDup_cons. split; [|by apply IH].
  rewrite (elem_of_erase_first _ _ _ Hnd). by intros [? _].
Qed.

Lemma lists_add_ref_sender id v d :
  fields_senders (add_ref sender id v d) = fields_senders d ++ [id]
  /\ fields_receivers (add_ref sender id v d) = fields_receivers d.
Proof. unfold add_ref. destruct (decide (sender = sender)) as [_|Hn]; [done | by destruct Hn]. Qed.

Lemma lists_add_ref_receiver id v d :
  fields_receivers (add_ref receiver id v d) = fields_receivers d ++ [id]
  /\ fields_senders (add_ref receiver id v d) = fields_senders d.
Proof. unfold add_ref. destruct (decide (sender = receiver)) as [Hn|_]; [discriminate | done]. Qed.

Lemma lists_remove_ref_sender id v d :
  fields_senders (remove_ref sender id v d) = erase_first id (fields_senders d)
  /\ fields_receivers (remove_ref sender id v d) = fields_receivers d.
Proof.
  unfold remove_ref. destruct (decide (sender = sender)) as [_|Hn]; [|by destruct Hn].
  destruct (existsb _ _) eqn:E; [done|]. by rewrite (erase_first_absent _ _ E).
Qed.

Lemma lists_remove_ref_receiver id v d :
  fields_receivers (remove_ref receiver id v d) = erase_first id (fields_receivers d)
  /\ fields_senders (remove_ref receiver id v d) = fields_senders d.
Proof.
  unfold remove_ref. destruct (decide (sender = receiver)) as [Hn|_]; [discriminate|].
  destruct (existsb _ _) eqn:E; [done|]. by rewrite (erase_first_absent _ _ E).
Qed.

(** A list that names the keys with a property, after one key has got the
    property, after nothing has changed, and after one key has lost it. *)
Lemma list_names_grow (l : list string) a (P Q : string -> Prop) :
  NoDup l -> (forall k, k ∈ l <-> P k) -> ~ P a -> (forall k, Q k <-> k = a \/ P k) ->
  NoDup (l ++ [a]) /\ forall k, k ∈ l ++ [a] <-> Q k.
Proof.
  intros Hnd Hl Ha HQ. split.
  - apply NoDup_app. split; [done|]. split; [|apply NoDup_singleton].
    intros k Hk ->%list_elem_of_singleton. by apply Ha, Hl.
  - intros k. rewrite elem_of_app, list_elem_of_singleton, HQ, Hl. tauto.
Qed.

Lemma list_names_keep (l : list string) (P Q : string -> Prop) :
  (forall k, k ∈ l <-> P k) -> (forall k, Q k <-> P k) -> forall k, k ∈ l <-> Q k.
Proof. intros Hl HQ k. by rewrite HQ. Qed.

Lemma list_names_shrink (l : list string) a (P Q : string -> Prop) :
  NoDup l -> (forall k, k ∈ l <-> P k) -> (forall k, Q k <-> P k /\ k <> a) ->
  NoDup (erase_first a l) /\ forall k, k ∈ erase_first a l <-> Q k.
Proof.
  intros Hnd Hl HQ. split; [by apply NoDup_erase_first|].
  intros k. by rewrite (elem_of_erase_first _ _ _ Hnd), HQ, Hl.
Qed.

Section DeviceLists.
Context (L : nmos_cpp) (U : list string) (m : node_model).
Let seed_id := fields_seed_id (model_settings m).
Let nid := make_id seed_id node "".
Let did := make_id seed_id device "".
Hypothesis HL : nmos_cpp_laws L.
Hypothesis Hcf : collision_free seed_id U.
Hypothesis Hwf : wf U m.
Hypothesis Hdl : device_lists m.

Lemma device_lists_add_sender sdp hs version m' :
  (forall i, i ∈ sdp_internal_id L sdp -> i ∈ U) ->
  node_implementation_add_sender_ L sdp hs version m = (Ok tt, m') ->
  device_lists m'.
Proof.
  intros HU Hrun.
  destruct (add_sender_explicit L U m HL Hcf Hwf sdp hs version m' HU Hrun)
    as (i & new & g & n & n'' & pd & _ & HiU & _ & Esrc & Efl & Esn & _ & Hsrc & Hfl & _ & Hst
        & _ & _ & _ & Hm').
  cbv zeta in Hm'. destruct Hm' as (-> & Hn & Hn4 & Hnt & Hsh & _ & _).
  fold seed_id nid did in Esrc, Efl, Esn, Hn, Hn4 |- *.
  destruct Hsrc as [_ Hsrct]. destruct Hfl as (_ & Hflt & _).
  destruct Hdl as (d & Hd & Hnd1 & Hnd2 & Hs & Hr). fold seed_id did in Hd.
  assert (Hix : i ∈ "" :: U) by (by apply list_elem_of_further).
  assert (Hie : "" ∈ "" :: U) by constructor.
  set (sid := make_id seed_id sender i) in *.
  set (fid := make_id seed_id flow i) in *.
  set (srcid := make_id seed_id source i) in *.
  assert (N1 : did <> sid) by (apply (make_id_ne U m Hcf); auto).
  assert (N2 : did <> fid) by (apply (make_id_ne U m Hcf); auto).
  assert (N3 : did <> srcid) by (apply (make_id_ne U m Hcf); auto).
  assert (N4 : did <> nid) by (apply (make_id_ne U m Hcf); auto).
  set (st3 := <[sid := new_sender new]>
                (<[fid := new_flow new]> (<[srcid := new_source new]> (node_resources m))))
    in *.
  assert (Hd3 : st3 !! did = Some d).
  { unfold st3. rewrite lookup_insert_ne by exact (not_eq_sym N1).
    rewrite lookup_insert_ne by exact (not_eq_sym N2).
    rewrite lookup_insert_ne by exact (not_eq_sym N3). exact Hd. }
  assert (Hss : same_shapes st3 (<[nid := n'']> (alter (add_ref sender sid version) did st3))).
  { eapply same_shapes_trans;
      [apply (same_shapes_alter st3 did), shape_add_ref
      | exact (same_shapes_insert _ nid n n'' Hn4 Hsh)]. }
  destruct (has_type_after_add_sender (node_resources m) _ sid fid srcid _ _ _
              Hst Hflt Hsrct Esn Efl Esrc Hss) as [HS HR].
  destruct (lists_add_ref_sender sid version d) as [Eas Ear].
  destruct (list_names_grow (fields_senders d) sid (has_type sender (node_resources m)) _
              Hnd1 Hs (has_type_None sender _ _ Esn) HS) as [HND HM].
  exists (add_ref sender sid version d).
  split.
  { cbn [node_resources model_settings].
    change (fields_seed_id (settings_after_add_sender sid sdp pd (model_settings m)))
      with seed_id. fold did.
    rewrite lookup_insert_ne by exact (not_eq_sym N4).
    rewrite lookup_alter_eq, Hd3. reflexivity. }
  cbn [node_resources]. rewrite Eas, Ear.
  split; [exact HND|]. split; [exact Hnd2|]. split; [exact HM|].
  exact (list_names_keep _ _ _ Hr HR).
Qed.

Lemma device_lists_add_receiver sdp hs version m' :
  (forall i, i ∈ sdp_internal_id L sdp -> i ∈ U) ->
  node_implementation_add_receiver_ L sdp hs version m = (Ok tt, m') ->
  device_lists m'.
Proof.
  intros HU Hrun.
  destruct (add_receiver_explicit L U m HL Hcf Hwf sdp hs version m' HU Hrun)
    as (i & names & new & g & n & n'' & _ & HiU & _ & Ern & _ & Hrc & _ & Hm').
  cbv zeta in Hm'. destruct Hm' as (-> & Hn & Hn4 & Hnt & Hsh & _ & _).
  fold seed_id nid did in Ern, Hn, Hn4 |- *.
  destruct Hrc as (_ & Hrt & _).
  destruct Hdl as (d & Hd & Hnd1 & Hnd2 & Hs & Hr). fold seed_id did in Hd.
  assert (Hix : i ∈ "" :: U) by (by apply list_elem_of_further).
  assert (Hie : "" ∈ "" :: U) by constructor.
  set (rid := make_id seed_id receiver i) in *.
  assert (N1 : did <> rid) by (apply (make_id_ne U m Hcf); auto).
  assert (N4 : did <> nid) by (apply (make_id_ne U m Hcf); auto).
  set (st1 := <[rid := new_receiver new]> (node_resources m)) in *.
  assert (Hd1 : st1 !! did = Some d).
  { unfold st1. rewrite lookup_insert_ne by exact (not_eq_sym N1). exact Hd. }
  assert (Hss : same_shapes st1
                  (<[nid := n'']> (alter (add_ref receiver rid version) did st1))).
  { eapply same_shapes_trans;
      [apply (same_shapes_alter st1 did), shape_add_ref
      | exact (same_shapes_insert _ nid n n'' Hn4 Hsh)]. }
  destruct (has_type_after_add_receiver (node_resources m) _ rid _ Hrt Ern Hss) as [HR HS].
  destruct (lists_add_ref_receiver rid version d) as [Ear Eas].
  destruct (list_names_grow (fields_receivers d) rid (has_type receiver (node_resources m)) _
              Hnd2 Hr (has_type_None receiver _ _ Ern) HR) as [HND HM].
  exists (add_ref receiver rid version d).
  split.
  { cbn [node_resources model_settings].
    change (fields_seed_id (set_settings_receivers _ (model_settings m))) with seed_id.
    fold did. rewrite lookup_insert_ne by exact (not_eq_sym N4).
    rewrite lookup_alter_eq, Hd1. reflexivity. }
  cbn [node_resources]. rewrite Eas, Ear.
  split; [exact Hnd1|]. split; [exact HND|]. split; [|exact HM].
  exact (list_names_keep _ _ _ Hs HS).
Qed.

Lemma device_lists_remove_sender x hs version r res m' :
  x ∈ U ->
  find_resource (node_resources m) (make_id seed_id sender x, sender) = Some r ->
  node_implementation_remove_connection_ L sender x hs version m = (res, m') ->
  device_lists m'.
Proof.
  intros HxU Hf Hrun.
  destruct (remove_sender_run L U m Hcf Hwf x hs version r HxU Hf)
    as (n & n' & Hn & Hn4 & Hrun' & _ & Hsh & _).
  cbv zeta in Hn4, Hrun'. fold seed_id nid did in Hn, Hn4, Hrun'.
  rewrite Hrun' in Hrun. injection Hrun as _ <-. clear Hrun'.
  apply find_resource_Some in Hf as [Hr0 Hrt].
  destruct (wf_sender U m Hcf Hwf x r HxU Hr0) as (_ & _ & _ & fl & Hfl).
  destruct (wf_flow U m Hcf Hwf x fl HxU Hfl) as (Hflt & _ & src & Hsrc & Hsrct).
  fold seed_id in Hr0, Hfl, Hsrc.
  destruct Hdl as (d & Hd & Hnd1 & Hnd2 & Hs & Hr). fold seed_id did in Hd.
  assert (Hix : x ∈ "" :: U) by (by apply list_elem_of_further).
  assert (Hie : "" ∈ "" :: U) by constructor.
  set (sid := make_id seed_id sender x) in *.
  set (fid := make_id seed_id flow x) in *.
  set (srcid := make_id seed_id source x) in *.
  assert (N1 : did <> sid) by (apply (make_id_ne U m Hcf); auto).
  assert (N2 : did <> fid) by (apply (make_id_ne U m Hcf); auto).
  assert (N3 : did <> srcid) by (apply (make_id_ne U m Hcf); auto).
  assert (N4 : did <> nid) by (apply (make_id_ne U m Hcf); auto).
  set (st3 := delete srcid (delete fid (delete sid (node_resources m)))) in *.
  assert (Hd3 : st3 !! did = Some d).
  { unfold st3. rewrite lookup_delete_ne by exact (not_eq_sym N3).
    rewrite lookup_delete_ne by exact (not_eq_sym N2).
    rewrite lookup_delete_ne by exact (not_eq_sym N1). exact Hd. }
  assert (Hss : same_shapes st3
                  (<[nid := n']> (alter (remove_ref sender sid version) did st3))).
  { eapply same_shapes_trans;
      [apply (same_shapes_alter st3 did), shape_remove_ref
      | exact (same_shapes_insert _ nid n n' Hn4 Hsh)]. }
  destruct (has_type_after_remove_sender (node_resources m) _ sid fid srcid _ _ _
              Hr0 Hrt Hfl Hflt Hsrc Hsrct Hss) as [HS HR].
  destruct (lists_remove_ref_sender sid version d) as [Eas Ear].
  destruct (list_names_shrink (fields_senders d) sid (has_type sender (node_resources m)) _
              Hnd1 Hs HS) as [HND HM].
  exists (remove_ref sender sid version d).
  split.
  { cbn [node_resources model_settings].
    change (fields_seed_id (set_settings_senders _ (model_settings m))) with seed_id.
    fold did. rewrite lookup_insert_ne by exact (not_eq_sym N4).
    rewrite lookup_alter_eq, Hd3. reflexivity. }
  cbn [node_resources]. rewrite Eas, Ear.
  split; [exact HND|]. split; [exact Hnd2|]. split; [exact HM|].
  exact (list_names_keep _ _ _ Hr HR).
Qed.

Lemma device_lists_remove_receiver x hs version r res m' :
  x ∈ U ->
  find_resource (node_resources m) (make_id seed_id receiver x, receiver) = Some r ->
  node_implementation_remove_connection_ L receiver x hs version m = (res, m') ->
  device_lists m'.
Proof.
  intros HxU Hf Hrun.
  destruct (remove_receiver_run L U m Hcf Hwf x hs version r HxU Hf)
    as (n & n' & Hn & Hn4 & Hrun' & _ & Hsh & _).
  cbv zeta in Hn4, Hrun'. fold seed_id nid did in Hn, Hn4, Hrun'.
  rewrite Hrun' in Hrun. injection Hrun as _ <-. clear Hrun'.
  apply find_resource_Some in Hf as [Hr0 Hrt]. fold seed_id in Hr0.
  destruct Hdl as (d & Hd & Hnd1 & Hnd2 & Hs & Hr). fold seed_id did in Hd.
  assert (Hix : x ∈ "" :: U) by (by apply list_elem_of_further).
  assert (Hie : "" ∈ "" :: U) by constructor.
  set (rid := make_id seed_id receiver x) in *.
  assert (N1 : did <> rid) by (apply (make_id_ne U m Hcf); auto).
  assert (N4 : did <> nid) by (apply (make_id_ne U m Hcf); auto).
  set (st1 := delete rid (node_resources m)) in *.
  assert (Hd1 : st1 !! did = Some d).
  { unfold st1. rewrite lookup_delete_ne by exact (not_eq_sym N1). exact Hd. }
  assert (Hss : same_shapes st1
                  (<[nid := n']> (alter (remove_ref receiver rid version) did st1))).
  { eapply same_shapes_trans;
      [apply (same_shapes_alter st1 did), shape_remove_ref
      | exact (same_shapes_insert _ nid n n' Hn4 Hsh)]. }
  destruct (has_type_after_remove_receiver (node_resources m) _ rid _ Hr0 Hrt Hss)
    as [HR HS].
  destruct (lists_remove_ref_receiver rid version d) as [Ear Eas].
  destruct (list_names_shrink (fields_receivers d) rid
              (has_type receiver (node_resources m)) _ Hnd2 Hr HR) as [HND HM].
  exists (remove_ref receiver rid version d).
  split.
  { cbn [node_resources model_settings].
    change (fields_seed_id (set_settings_receivers _ (model_settings m))) with seed_id.
    fold did. rewrite lookup_insert_ne by exact (not_eq_sym N4).
    rewrite lookup_alter_eq, Hd1. reflexivity. }
  cbn [node_resources]. rewrite Eas, Ear.
  split; [exact Hnd1|]. split; [exact HND|]. split; [|exact HM].
  exact (list_names_keep _ _ _ Hs HS).
Qed.

End DeviceLists.

Lemma try_log_Ok_inv {A} (c : M A) m a m' : try_log c m = (Ok a, m') -> c m = (Ok a, m').
Proof. unfold try_log. destruct (c m) as [[a0|ex] m0]; [done | discriminate]. Qed.

Lemma has_type_initial t (d n : resource) a b k :
  resource_type d = device -> resource_type n = node -> t <> device -> t <> node ->
  ~ has_type t (<[a := d]> (<[b := n]> ∅)) k.
Proof.
  intros Hd Hn N1 N2. rewrite !has_type_insert, Hd, Hn.
  intros [[_ ?]|[_ [[_ ?]|[_ (r & Hr & _)]]]]; [done | done |].
  by rewrite lookup_empty in Hr.
Qed.

(** ** What every call of the server keeps *)

(** A property of the model that the four operations keep when they
    succeed, and that does not depend on the log, holds after the creation
    of the server and after every sequence of calls. *)
Section Kept.
Context (L : nmos_cpp) (U : list string) (seed_id : string) (P : node_model -> Prop).
Hypothesis HL : nmos_cpp_laws L.
Hypothesis Hcf : collision_free seed_id U.
Hypothesis P_set_gate : forall g m, P m -> P (set_gate g m).
Hypothesis P_add_sender : forall m sdp hs version m',
  collision_free (fields_seed_id (model_settings m)) U -> wf U m -> P m ->
  (forall i, i ∈ sdp_internal_id L sdp -> i ∈ U) ->
  node_implementation_add_sender_ L sdp hs version m = (Ok tt, m') -> P m'.
Hypothesis P_add_receiver : forall m sdp hs version m',
  collision_free (fields_seed_id (model_settings m)) U -> wf U m -> P m ->
  (forall i, i ∈ sdp_internal_id L sdp -> i ∈ U) ->
  node_implementation_add_receiver_ L sdp hs version m = (Ok tt, m') -> P m'.
Hypothesis P_remove_sender : forall m x hs version r m',
  collision_free (fields_seed_id (model_settings m)) U -> wf U m -> P m -> x ∈ U ->
  find_resource (node_resources m)
    (make_id (fields_seed_id (model_settings m)) sender x, sender) = Some r ->
  node_implementation_remove_connection_ L sender x hs version m = (Ok tt, m') -> P m'.
Hypothesis P_remove_receiver : forall m x hs version r m',
  collision_free (fields_seed_id (model_settings m)) U -> wf U m -> P m -> x ∈ U ->
  find_resource (node_resources m)
    (make_id (fields_seed_id (model_settings m)) receiver x, receiver) = Some r ->
  node_implementation_remove_connection_ L receiver x hs version m = (Ok tt, m') -> P m'.

(** One call of the server, whether it succeeds or not. *)
Lemma server_operation_keeps e op m :
  is_add_or_remove op = true ->
  (forall i, i ∈ operation_ids L op -> i ∈ U) ->
  fields_seed_id (model_settings m) = seed_id ->
  wf U m -> P m ->
  fields_seed_id (model_settings (server_operation L e op m).2) = seed_id
  /\ wf U (server_operation L e op m).2
  /\ P (server_operation L e op m).2.
Proof.
  intros Hop HU Hseed Hwf HP.
  destruct (server_operation_step L U seed_id HL Hcf e op m Hop HU Hseed Hwf)
    as [(m' & Hrun & Hseed' & Hwf' & _)|(ex & g & Hrun)]; rewrite Hrun; cbn [snd];
    [|by split; [|split; [apply wf_set_gate | apply P_set_gate]]].
  split; [exact Hseed'|]. split; [exact Hwf'|].
  pose proof Hcf as Hcf'. rewrite <- Hseed in Hcf'.
  destruct op as [config|config|x|x|x sdp]; [| | | |discriminate]; cbn [server_operation] in Hrun;
    cbn [operation_ids] in HU.
  - unfold server_add_sender in Hrun. apply try_log_Ok_inv in Hrun.
    destruct config as [sdp|]; [|discriminate].
    exact (P_add_sender m sdp _ _ m' Hcf' Hwf HP HU Hrun).
  - unfold server_add_receiver in Hrun. apply try_log_Ok_inv in Hrun.
    destruct config as [sdp|]; [|discriminate].
    exact (P_add_receiver m sdp _ _ m' Hcf' Hwf HP HU Hrun).
  - unfold server_remove_sender in Hrun. apply try_log_Ok_inv in Hrun.
    unfold node_implementation_remove_sender in Hrun.
    assert (Hx : x ∈ U) by (apply HU; constructor).
    destruct (find_resource (node_resources m)
                (make_id (fields_seed_id (model_settings m)) sender x, sender))
      as [r|] eqn:Hf.
    + exact (P_remove_sender m x _ _ r m' Hcf' Hwf HP Hx Hf Hrun).
    + rewrite (remove_connection_missing L sender x _ _ m Hf) in Hrun. discriminate.
  - unfold server_remove_receiver in Hrun. apply try_log_Ok_inv in Hrun.
    unfold node_implementation_remove_receiver in Hrun.
    assert (Hx : x ∈ U) by (apply HU; constructor).
    destruct (find_resource (node_resources m)
                (make_id (fields_seed_id (model_settings m)) receiver x, receiver))
      as [r|] eqn:Hf.
    + exact (P_remove_receiver m x _ _ r m' Hcf' Hwf HP Hx Hf Hrun).
    + rewrite (remove_connection_missing L receiver x _ _ m Hf) in Hrun. discriminate.
Qed.

Lemma apply_operations_keeps (ops : list (env * operation)) s m :
  Forall (fun eo => is_add_or_remove eo.2 = true
                    /\ forall i, i ∈ operation_ids L eo.2 -> i ∈ U) ops ->
  impl s = Some m ->
  fields_seed_id (model_settings m) = seed_id -> wf U m -> P m ->
  exists s' m', apply_operations L ops (Some s) = Some s' /\ impl s' = Some m'
                /\ fields_seed_id (model_settings m') = seed_id /\ wf U m' /\ P m'.
Proof.
  intros Hops. revert s m.
  induction Hops as [|eo ops [Hop HU] Hops IH]; intros s m Hs Hseed Hwf HP.
  - exists s, m. done.
  - destruct (server_operation_keeps eo.1 eo.2 m Hop HU Hseed Hwf HP)
      as (Hseed' & Hwf' & HP').
    unfold apply_operations. cbn [fold_left].
    rewrite (apply_operation_call L _ _ s m Hs). unfold call.
    destruct (server_operation L eo.1 eo.2 m) as [[[]|ex] m1]; cbn [snd] in *;
      exact (IH (set_impl (Some m1) s) m1 eq_refl Hseed' Hwf' HP').
Qed.

Lemma add_all_keeps what (add : string -> M unit) configs :
  (forall sdp m m',
      (forall i, i ∈ sdp_internal_id L sdp -> i ∈ U) ->
      fields_seed_id (model_settings m) = seed_id -> wf U m -> P m ->
      add sdp m = (Ok tt, m') ->
      fields_seed_id (model_settings m') = seed_id /\ wf U m' /\ P m') ->
  (forall sdp i, Some sdp ∈ configs -> i ∈ sdp_internal_id L sdp -> i ∈ U) ->
  forall m m',
    fields_seed_id (model_settings m) = seed_id -> wf U m -> P m ->
    add_all what add configs m = (Ok tt, m') ->
    fields_seed_id (model_settings m') = seed_id /\ wf U m' /\ P m'.
Proof.
  intros Hadd. induction configs as [|[sdp|] configs IH]; intros HU m m' Hseed Hwf HP H.
  - apply ret_Ok in H as [_ ->]. done.
  - simpl in H. apply bind_Ok in H as ([] & m1 & H1 & H).
    destruct (Hadd sdp m m1 (fun i => HU sdp i (list_elem_of_here _ _)) Hseed Hwf HP H1)
      as (Hseed1 & Hwf1 & HP1).
    exact (IH (fun sdp' i Hin => HU sdp' i (list_elem_of_further _ _ _ Hin)) m1 m'
             Hseed1 Hwf1 HP1 H).
  - discriminate.
Qed.

Lemma server_server_keeps e config s m :
  (forall g m2,
      node_implementation_init_ L
        {| node_resources := ∅; connection_resources := ∅; model_settings := s; gate := g |}
      = (Ok tt, m2) -> P m2) ->
  make_settings L config = Ok s ->
  fields_seed_id s = seed_id ->
  server_server L e config = Ok m ->
  (forall sdp i, Some sdp ∈ config_receivers config ++ config_senders config ->
                 i ∈ sdp_internal_id L sdp -> i ∈ U) ->
  fields_seed_id (model_settings m) = seed_id /\ wf U m /\ P m.
Proof.
  intros Hinit Hs Hseed H HU. unfold server_server in H. rewrite Hs in H.
  cbn [mbind result_bind] in H. unfold try_log in H.
  match type of H with
  | match (let (_, _) := ?c ?m0 in _) with _ => _ end = _ =>
      destruct (c m0) as [[[]|ex] m1] eqn:Hrun; [|discriminate]
  end.
  injection H as ->.
  apply bind_Ok in Hrun as ([] & m1 & H1 & Hrun).
  unfold slog, modify_model in H1. injection H1 as <-.
  apply bind_Ok in Hrun as ([] & m2 & H2 & Hrun).
  unfold node_implementation_init in H2.
  apply bind_Ok in Hrun as ([] & m3 & H3 & Hrun).
  apply bind_Ok in Hrun as ([] & m4 & H4 & Hrun).
  apply bind_Ok in Hrun as ([] & m5 & H5 & Hrun).
  unfold slog, modify_model in H5. injection H5 as <-.
  apply bind_Ok in Hrun as ([] & m6 & H6 & Hrun).
  apply lift_Ok in H6 as [_ ->].
  unfold slog, modify_model in Hrun. injection Hrun as <-.
  change (node_implementation_init_ L
            {| node_resources := ∅; connection_resources := ∅; model_settings := s;
               gate := [(info, "Starting NvNmos node")] |} = (Ok tt, m2)) in H2.
  assert (Hinv2 : fields_seed_id (model_settings m2) = seed_id /\ wf U m2 /\ P m2).
  { pose proof Hcf as Hcf'. rewrite <- Hseed in Hcf'.
    destruct (init_run L U HL s [(info, "Starting NvNmos node")] [] Hcf')
      as (m2' & Hrun' & Hwf' & Hseed' & _).
    pose proof H2 as H2'. rewrite Hrun' in H2'. injection H2' as ->.
    split; [congruence|]. split; [exact Hwf'|]. exact (Hinit _ _ H2). }
  destruct Hinv2 as (Hseed2 & Hwf2 & HP2).
  assert (Hinv3 : fields_seed_id (model_settings m3) = seed_id /\ wf U m3 /\ P m3).
  { apply (add_all_keeps "invalid receiver config" (node_implementation_add_receiver L e)
             (config_receivers config)) with m2; [| |exact Hseed2|exact Hwf2|exact HP2|exact H3].
    - intros sdp m m' HU' Hseed' Hwf' HP' Hrun.
      pose proof Hcf as Hcf'. rewrite <- Hseed' in Hcf'.
      unfold node_implementation_add_receiver in Hrun.
      destruct (add_receiver_invariants L U m HL Hcf' Hwf' sdp _ _ _ m' HU' Hrun)
        as [(ex & g & ? & _)|(_ & ? & ? & _)]; [discriminate|].
      split; [congruence|]. split; [assumption|].
      exact (P_add_receiver m sdp _ _ m' Hcf' Hwf' HP' HU' Hrun).
    - intros sdp i Hin. apply HU. apply elem_of_app. by left. }
  destruct Hinv3 as (Hseed3 & Hwf3 & HP3).
  assert (Hinv4 : fields_seed_id (model_settings m4) = seed_id /\ wf U m4 /\ P m4).
  { apply (add_all_keeps "invalid sender config" (node_implementation_add_sender L e)
             (config_senders config)) with m3; [| |exact Hseed3|exact Hwf3|exact HP3|exact H4].
    - intros sdp m m' HU' Hseed' Hwf' HP' Hrun.
      pose proof Hcf as Hcf'. rewrite <- Hseed' in Hcf'.
      unfold node_implementation_add_sender in Hrun.
      destruct (add_sender_invariants L U m HL Hcf' Hwf' sdp _ _ _ m' HU' Hrun)
        as [(ex & g & ? & _)|(_ & ? & ? & _)]; [discriminate|].
      split; [congruence|]. split; [assumption|].
      exact (P_add_sender m sdp _ _ m' Hcf' Hwf' HP' HU' Hrun).
    - intros sdp i Hin. apply HU. apply elem_of_app. by right. }
  destruct Hinv4 as (Hseed4 & Hwf4 & HP4).
  split; [exact Hseed4|]. split; [by do 2 apply wf_set_gate|].
  by do 2 apply P_set_gate.
Qed.

(** After the creation of the server and a sequence of calls. *)
Lemma created_and_operated_keeps e config (s0 s : NvNmosNodeServer) settings_
    (ops : list (env * operation)) :
  (forall g m2,
      node_implementation_init_ L
        {| node_resources := ∅; connection_resources := ∅; model_settings := settings_;
           gate := g |}
      = (Ok tt, m2) -> P m2) ->
  make_settings L config = Ok settings_ ->
  fields_seed_id settings_ = seed_id ->
  (forall sdp i, Some sdp ∈ config_receivers config ++ config_senders config ->
                 i ∈ sdp_internal_id L sdp -> i ∈ U) ->
  create_nmos_node_server L e (Some config) (Some s0) = (true, Some s) ->
  Forall (fun eo => is_add_or_remove eo.2 = true
                    /\ forall i, i ∈ operation_ids L eo.2 -> i ∈ U) ops ->
  exists s' m', apply_operations L ops (Some s) = Some s' /\ impl s' = Some m'
                /\ fields_seed_id (model_settings m') = seed_id /\ wf U m' /\ P m'.
Proof.
  intros Hinit Hs Hseed HU Hcreate Hops.
  unfold create_nmos_node_server in Hcreate.
  destruct (server_server L e config) as [m|] eqn:Hm; [|discriminate].
  injection Hcreate as <-.
  destruct (server_server_keeps e config settings_ m Hinit Hs Hseed Hm HU)
    as (Hseed' & Hwf & HP).
  exact (apply_operations_keeps ops (set_impl (Some m) s0) m Hops eq_refl Hseed' Hwf HP).
Qed.

End Kept.

Lemma device_lists_initial (L : nmos_cpp) (s : settings) g m2 :
  nmos_cpp_laws L -> make_device_lists_law L ->
  make_id (fields_seed_id s) node "" <> make_id (fields_seed_id s) device "" ->
  node_implementation_init_ L
    {| node_resources := ∅; connection_resources := ∅; model_settings := s; gate := g |}
  = (Ok tt, m2) ->
  device_lists m2.
Proof.
  intros HL Hlaw Hne H2.
  rewrite (init_explicit L
             {| node_resources := ∅; connection_resources := ∅; model_settings := s;
                gate := g |} HL Hne) in H2.
  cbn [node_resources model_settings] in H2.
  rewrite !lookup_empty in H2. injection H2 as <-.
  destruct (make_device_law L HL (make_id (fields_seed_id s) device "")
              (make_id (fields_seed_id s) node "") s) as [_ Hdt].
  destruct (make_node_law L HL (make_id (fields_seed_id s) node "")
              [make_internal_clock clk0] s) as (_ & Hnt & _).
  destruct (Hlaw (make_id (fields_seed_id s) device "")
              (make_id (fields_seed_id s) node "") s) as [Es Er].
  exists (initial_device L s).
  split; [apply lookup_insert_eq|].
  change (fields_senders (initial_device L s)) with
    (fields_senders (make_device L (make_id (fields_seed_id s) device "")
                       (make_id (fields_seed_id s) node "") s)).
  change (fields_receivers (initial_device L s)) with
    (fields_receivers (make_device L (make_id (fields_seed_id s) device "")
                         (make_id (fields_seed_id s) node "") s)).
  rewrite Es, Er. split; [apply NoDup_nil_2|]. split; [apply NoDup_nil_2|].
  cbn [node_resources set_model_settings set_node_resources].
  split; intros k; (split; [by intros ?%elem_of_nil|]); intros Hk; exfalso; revert Hk;
    apply has_type_initial; done.
Qed.

Lemma node_id_ne_device_id (U : list string) (seed_id : string) :
  collision_free seed_id U -> make_id seed_id node "" <> make_id seed_id device "".
Proof.
  intros Hcf.
  apply (make_id_ne U {| node_resources := ∅; connection_resources := ∅;
                         model_settings :=
                           {| fields_seed_id := seed_id; fields_node_label := "";
                              fields_node_description := ""; fields_node_tags := [];
                              fields_device_label := ""; fields_device_description := "";
                              fields_device_tags := []; fields_logging_level := 0;
                              fields_settings_clocks := []; fields_settings_senders := [];
                              fields_settings_receivers := []; fields_settings_other := Null |};
                         gate := [] |} Hcf);
    [constructor | constructor | left; discriminate].
Qed.

(** X18. The device resource lists the senders and the receivers of the
    node: after the creation of the server and every sequence of
    [add_sender], [add_receiver], [remove_sender] and [remove_receiver]
    calls, failed ones included, on whatever host interfaces, the
    [senders] array of the device holds exactly the ids of the senders in
    the store and its [receivers] array the ids of the receivers, each id
    once. *)
Theorem device_lists_senders_and_receivers (L : nmos_cpp) (U : list string) (e : env)
    (config : NvNmosNodeConfig) (s0 s : NvNmosNodeServer) (ops : list (env * operation)) :
  nmos_cpp_laws L ->
  make_device_lists_law L ->
  (forall settings_, make_settings L config = Ok settings_ ->
                     collision_free (fields_seed_id settings_) U) ->
  (forall sdp i, Some sdp ∈ config_receivers config ++ config_senders config ->
                 i ∈ sdp_internal_id L sdp -> i ∈ U) ->
  create_nmos_node_server L e (Some config) (Some s0) = (true, Some s) ->
  Forall (fun eo => is_add_or_remove eo.2 = true
                    /\ forall i, i ∈ operation_ids L eo.2 -> i ∈ U) ops ->
  exists s' m' d,
    apply_operations L ops (Some s) = Some s' /\ impl s' = Some m'
    /\ node_resources m' !! make_id (fields_seed_id (model_settings m')) device "" = Some d
    /\ NoDup (fields_senders d) /\ NoDup (fields_receivers d)
    /\ (forall k, k ∈ fields_senders d
                  <-> exists r, node_resources m' !! k = Some r /\ resource_type r = sender)
    /\ (forall k, k ∈ fields_receivers d
                  <-> exists r, node_resources m' !! k = Some r /\ resource_type r = receiver).
Proof.
  intros HL Hlaw Hcf HU Hcreate Hops.
  assert (Hs : exists settings_, make_settings L config = Ok settings_).
  { unfold create_nmos_node_server, server_server in Hcreate.
    destruct (make_settings L config); [eauto|discriminate]. }
  destruct Hs as [settings_ Hs].
  destruct (created_and_operated_keeps L U (fields_seed_id settings_) device_lists HL
              (Hcf _ Hs) (fun g m H => H)
              (fun m sdp hs version m' Hcf' Hwf Hdl HU' Hrun =>
                 device_lists_add_sender L U m HL Hcf' Hwf Hdl sdp hs version m' HU' Hrun)
              (fun m sdp hs version m' Hcf' Hwf Hdl HU' Hrun =>
                 device_lists_add_receiver L U m HL Hcf' Hwf Hdl sdp hs version m' HU' Hrun)
              (fun m x hs version r m' Hcf' Hwf Hdl Hx Hf Hrun =>
                 device_lists_remove_sender L U m Hcf' Hwf Hdl x hs version r _ m' Hx Hf Hrun)
              (fun m x hs version r m' Hcf' Hwf Hdl Hx Hf Hrun =>
                 device_lists_remove_receiver L U m Hcf' Hwf Hdl x hs version r _ m' Hx Hf Hrun)
              e config s0 s settings_ ops
              (fun g m2 H2 =>
                 device_lists_initial L settings_ g m2 HL Hlaw
                   (node_id_ne_device_id U _ (Hcf _ Hs)) H2)
              Hs eq_refl HU Hcreate Hops)
    as (s' & m' & Hrun & Hs' & _ & _ & (d & Hd)).
  exists s', m', d. split; [exact Hrun|]. split; [exact Hs'|]. exact Hd.
Qed.

(** X18, on the example: a sender and a receiver are added and the sender
    is removed again. *)
Lemma device_lists_senders_and_receivers_witness :
  exists s' m' d,
    apply_operations Reference.lib
      [Fixture.add_sink_0; Fixture.add_source_0; (Fixture.e, op_remove_sender "sink-0")]
      (Some (set_impl (Some (Fixture.model_of (Fixture.created Fixture.e))) Fixture.handle))
    = Some s'
    /\ impl s' = Some m'
    /\ node_resources m' !! make_id (fields_seed_id (model_settings m')) device "" = Some d
    /\ NoDup (fields_senders d) /\ NoDup (fields_receivers d)
    /\ (forall k, k ∈ fields_senders d
                  <-> exists r, node_resources m' !! k = Some r /\ resource_type r = sender)
    /\ (forall k, k ∈ fields_receivers d
                  <-> exists r, node_resources m' !! k = Some r /\ resource_type r = receiver).
Proof.
  refine (device_lists_senders_and_receivers Reference.lib Fixture.universe
            Fixture.e Reference.config Fixture.handle _ _
            reference_lib_laws _ _ _ fixture_server _).
  - intros id node_id s. split; reflexivity.
  - intros settings_ Hs.
    assert (E : fields_seed_id <$> make_settings Reference.lib Reference.config
                = Ok Fixture.seed_id) by (vm_compute; reflexivity).
    rewrite Hs in E. injection E as ->. exact fixture_collision_free.
  - intros sdp i Hin. change (Some sdp ∈ @nil (option string)) in Hin.
    apply elem_of_nil in Hin. destruct Hin.
  - constructor; [exact (proj2 fixture_admissible_add_sink_0)|].
    constructor; [exact (proj2 fixture_admissible_add_source_0)|].
    constructor; [exact (proj2 fixture_admissible_remove_sink_0)|]. constructor.
Defined.

(** ** The constraints of a new connection resource *)

Lemma add_constraints_spec field leg tps cs :
  match add_constraints field leg tps cs with
  | Ok cs' =>
      (cs = [] \/ (leg + length cs <= length tps)%nat)
      /\ length cs' = length cs
      /\ forall k cst,
           cs !! k = Some cst ->
           exists tp, tps !! (leg + k)%nat = Some tp
                      /\ cs' !! k
                         = Some (value_set field
                                   (Object [("enum", Array [value_get field tp])]) cst)
  | Throw ex => ex = json_exception /\ (length tps < leg + length cs)%nat
  end.
Proof.
  revert leg. induction cs as [|c cs IH]; intros leg; cbn [add_constraints].
  - split; [by left|]. split; [done|]. intros k cst Hk. by rewrite lookup_nil in Hk.
  - destruct (tps !! leg) as [tp|] eqn:Htp.
    + specialize (IH (S leg)).
      destruct (add_constraints field (S leg) tps cs) as [cs'|ex]; cbn [mbind result_bind].
      * destruct IH as (Hlen & Hlen' & Hk). split; [|split].
        -- right. cbn [length]. destruct Hlen as [->|Hlen]; [|lia].
           apply lookup_lt_Some in Htp. cbn [length]. lia.
        -- cbn [length]. by rewrite Hlen'.
        -- intros [|k] cst Hc.
           ++ injection Hc as <-. exists tp. rewrite Nat.add_0_r. done.
           ++ destruct (Hk k cst Hc) as (tp' & Htp' & Hc').
              exists tp'. rewrite Nat.add_succ_r. done.
      * destruct IH as [-> Hlen]. split; [done|]. cbn [length]. lia.
    + split; [done|]. apply lookup_ge_None in Htp. cbn [length]. lia.
Qed.

(** X19. The connection resource of a new sender or receiver is prepared
    leg by leg: the call fails, with a JSON exception, exactly when the
    connection resource has more legs of constraints than there are
    transport parameters.  Otherwise every leg of the constraints gets, for
    the address field ([source_ip] of a sender, [interface_ip] of a
    receiver), an enumeration of the one address of that leg in the
    transport parameters, which is the value the auto resolver reads from
    it; the other constraints of the leg stay.  The [/active] transport
    parameters are those the auto resolver gives for the new constraints,
    and nothing else of the connection resource changes. *)
Theorem prepared_constraints_are_read_back (L : nmos_cpp) (field : string) (r : resource)
    (tps : list value) (c : connection_resource) :
  match prepare_connection_resource L field r tps c with
  | Ok c' =>
      (length (fields_endpoint_constraints c) <= length tps)%nat
      /\ length (fields_endpoint_constraints c') = length (fields_endpoint_constraints c)
      /\ (forall leg cst,
            fields_endpoint_constraints c !! leg = Some cst ->
            exists tp cst',
              tps !! leg = Some tp
              /\ fields_endpoint_constraints c' !! leg = Some cst'
              /\ value_get field cst' = Object [("enum", Array [value_get field tp])]
              /\ constraint_enum_front field cst' = value_get field tp
              /\ forall k, k <> field -> value_get k cst' = value_get k cst)
      /\ fields_transport_params (fields_endpoint_active c')
         = auto_resolver L r (connection_id c) (connection_type c)
             (fields_endpoint_constraints c')
             (fields_transport_params (fields_endpoint_active c))
      /\ connection_id c' = connection_id c /\ connection_type c' = connection_type c
      /\ connection_version c' = connection_version c
      /\ fields_endpoint_staged c' = fields_endpoint_staged c
      /\ fields_endpoint_transportfile c' = fields_endpoint_transportfile c
      /\ fields_master_enable (fields_endpoint_active c')
         = fields_master_enable (fields_endpoint_active c)
      /\ fields_transport_file (fields_endpoint_active c')
         = fields_transport_file (fields_endpoint_active c)
  | Throw ex =>
      ex = json_exception /\ (length tps < length (fields_endpoint_constraints c))%nat
  end.
Proof.
  unfold prepare_connection_resource.
  pose proof (add_constraints_spec field 0 tps (fields_endpoint_constraints c)) as H.
  destruct (add_constraints field 0 tps (fields_endpoint_constraints c)) as [cs'|ex];
    cbn [mbind result_bind]; [|exact H].
  destruct H as (Hlen & Hlen' & Hk). cbv zeta.
  cbn [fields_endpoint_constraints set_endpoint_constraints set_endpoint_active
       fields_endpoint_active set_transport_params fields_transport_params connection_id
       connection_type connection_version fields_endpoint_staged
       fields_endpoint_transportfile fields_master_enable fields_transport_file].
  split; [destruct Hlen as [->|Hlen]; cbn [length]; lia|].
  split; [exact Hlen'|].
  split; [|done].
  intros leg cst Hc. destruct (Hk leg cst Hc) as (tp & Htp & Hc').
  exists tp, (value_set field (Object [("enum", Array [value_get field tp])]) cst).
  split; [exact Htp|]. split; [exact Hc'|].
  split; [apply value_get_set_eq|].
  split; [|intros k Hne; by apply value_get_set_ne].
  unfold constraint_enum_front. rewrite value_get_set_eq. cbn [value_get assoc_get].
  reflexivity.
Qed.

(** ** The label, the description and the tags of the node and the device *)

Lemma presentation_add_ref t id version d :
  presentation (add_ref t id version d) = presentation d.
Proof. unfold add_ref. by destruct (decide _). Qed.

Lemma presentation_remove_ref t id version d :
  presentation (remove_ref t id version d) = presentation d.
Proof. unfold remove_ref. destruct (existsb _ _); [|done]. by destruct (decide _). Qed.

Section Presents.
Context (L : nmos_cpp) (U : list string) (m : node_model) (s0 : settings).
Let seed_id := fields_seed_id (model_settings m).
Let nid := make_id seed_id node "".
Let did := make_id seed_id device "".
Hypothesis HL : nmos_cpp_laws L.
Hypothesis Hcf : collision_free seed_id U.
Hypothesis Hwf : wf U m.
Hypothesis Hp : presents_settings s0 m.

Lemma presents_add_sender sdp hs version m' :
  (forall i, i ∈ sdp_internal_id L sdp -> i ∈ U) ->
  node_implementation_add_sender_ L sdp hs version m = (Ok tt, m') ->
  presents_settings s0 m'.
Proof.
  intros HU Hrun.
  destruct (add_sender_explicit L U m HL Hcf Hwf sdp hs version m' HU Hrun)
    as (i & new & g & n & n'' & pd & _ & HiU & _ & _ & _ & _ & _ & _ & _ & _ & _ & _ & _ & _
        & Hm').
  cbv zeta in Hm'. destruct Hm' as (-> & Hn & Hn4 & _ & _ & _ & _ & Hpr).
  destruct Hp as (n0 & d & Hn0 & Hd & Hpn & Hpd).
  fold seed_id nid did in Hn, Hn4, Hn0, Hd |- *.
  rewrite Hn in Hn0. injection Hn0 as <-.
  assert (Hix : i ∈ "" :: U) by (by apply list_elem_of_further).
  assert (Hie : "" ∈ "" :: U) by constructor.
  set (sid := make_id seed_id sender i) in *.
  set (fid := make_id seed_id flow i) in *.
  set (srcid := make_id seed_id source i) in *.
  assert (N1 : did <> sid) by (apply (make_id_ne U m Hcf); auto).
  assert (N2 : did <> fid) by (apply (make_id_ne U m Hcf); auto).
  assert (N3 : did <> srcid) by (apply (make_id_ne U m Hcf); auto).
  assert (N4 : did <> nid) by (apply (make_id_ne U m Hcf); auto).
  exists n'', (add_ref sender sid version d).
  cbn [node_resources model_settings].
  change (fields_seed_id (settings_after_add_sender sid sdp pd (model_settings m)))
    with seed_id. fold nid did.
  split; [apply lookup_insert_eq|].
  split.
  { rewrite lookup_insert_ne by exact (not_eq_sym N4). rewrite lookup_alter_eq.
    rewrite lookup_insert_ne by exact (not_eq_sym N1).
    rewrite lookup_insert_ne by exact (not_eq_sym N2).
    rewrite lookup_insert_ne by exact (not_eq_sym N3). rewrite Hd. reflexivity. }
  split; [exact (eq_trans Hpr Hpn)|]. rewrite presentation_add_ref. exact Hpd.
Qed.

Lemma presents_add_receiver sdp hs version m' :
  (forall i, i ∈ sdp_internal_id L sdp -> i ∈ U) ->
  node_implementation_add_receiver_ L sdp hs version m = (Ok tt, m') ->
  presents_settings s0 m'.
Proof.
  intros HU Hrun.
  destruct (add_receiver_explicit L U m HL Hcf Hwf sdp hs version m' HU Hrun)
    as (i & names & new & g & n & n'' & _ & HiU & _ & _ & _ & _ & _ & Hm').
  cbv zeta in Hm'. destruct Hm' as (-> & Hn & Hn4 & _ & _ & _ & _ & Hpr).
  destruct Hp as (n0 & d & Hn0 & Hd & Hpn & Hpd).
  fold seed_id nid did in Hn, Hn4, Hn0, Hd |- *.
  rewrite Hn in Hn0. injection Hn0 as <-.
  assert (Hix : i ∈ "" :: U) by (by apply list_elem_of_further).
  assert (Hie : "" ∈ "" :: U) by constructor.
  set (rid := make_id seed_id receiver i) in *.
  assert (N1 : did <> rid) by (apply (make_id_ne U m Hcf); auto).
  assert (N4 : did <> nid) by (apply (make_id_ne U m Hcf); auto).
  exists n'', (add_ref receiver rid version d).
  cbn [node_resources model_settings].
  change (fields_seed_id (set_settings_receivers _ (model_settings m))) with seed_id.
  fold nid did.
  split; [apply lookup_insert_eq|].
  split.
  { rewrite lookup_insert_ne by exact (not_eq_sym N4). rewrite lookup_alter_eq.
    rewrite lookup_insert_ne by exact (not_eq_sym N1). rewrite Hd. reflexivity. }
  split; [exact (eq_trans Hpr Hpn)|]. rewrite presentation_add_ref. exact Hpd.
Qed.

Lemma presents_remove_sender x hs version r m' :
  x ∈ U ->
  find_resource (node_resources m) (make_id seed_id sender x, sender) = Some r ->
  node_implementation_remove_connection_ L sender x hs version m = (Ok tt, m') ->
  presents_settings s0 m'.
Proof.
  intros HxU Hf Hrun.
  destruct (remove_sender_run L U m Hcf Hwf x hs version r HxU Hf)
    as (n & n' & Hn & Hn4 & Hrun' & _ & _ & _ & Hcases & _).
  cbv zeta in Hn4, Hrun', Hcases. fold seed_id nid did in Hn, Hn4, Hrun', Hcases.
  rewrite Hrun' in Hrun. injection Hrun as <-. clear Hrun'.
  destruct Hp as (n0 & d & Hn0 & Hd & Hpn & Hpd).
  fold seed_id nid did in Hn0, Hd |- *.
  rewrite Hn in Hn0. injection Hn0 as <-.
  assert (Hix : x ∈ "" :: U) by (by apply list_elem_of_further).
  assert (Hie : "" ∈ "" :: U) by constructor.
  set (sid := make_id seed_id sender x) in *.
  set (fid := make_id seed_id flow x) in *.
  set (srcid := make_id seed_id source x) in *.
  assert (N1 : did <> sid) by (apply (make_id_ne U m Hcf); auto).
  assert (N2 : did <> fid) by (apply (make_id_ne U m Hcf); auto).
  assert (N3 : did <> srcid) by (apply (make_id_ne U m Hcf); auto).
  assert (N4 : did <> nid) by (apply (make_id_ne U m Hcf); auto).
  exists n', (remove_ref sender sid version d).
  cbn [node_resources model_settings].
  change (fields_seed_id (set_settings_senders _ (model_settings m))) with seed_id.
  fold nid did.
  split; [apply lookup_insert_eq|].
  split.
  { rewrite lookup_insert_ne by exact (not_eq_sym N4). rewrite lookup_alter_eq.
    rewrite lookup_delete_ne by exact (not_eq_sym N3).
    rewrite lookup_delete_ne by exact (not_eq_sym N2).
    rewrite lookup_delete_ne by exact (not_eq_sym N1). rewrite Hd. reflexivity. }
  split; [|rewrite presentation_remove_ref; exact Hpd].
  destruct Hcases as [->| ->]; exact Hpn.
Qed.

Lemma presents_remove_receiver x hs version r m' :
  x ∈ U ->
  find_resource (node_resources m) (make_id seed_id receiver x, receiver) = Some r ->
  node_implementation_remove_connection_ L receiver x hs version m = (Ok tt, m') ->
  presents_settings s0 m'.
Proof.
  intros HxU Hf Hrun.
  destruct (remove_receiver_run L U m Hcf Hwf x hs version r HxU Hf)
    as (n & n' & Hn & Hn4 & Hrun' & _ & _ & _ & Hcases & _).
  cbv zeta in Hn4, Hrun', Hcases. fold seed_id nid did in Hn, Hn4, Hrun', Hcases.
  rewrite Hrun' in Hrun. injection Hrun as <-. clear Hrun'.
  destruct Hp as (n0 & d & Hn0 & Hd & Hpn & Hpd).
  fold seed_id nid did in Hn0, Hd |- *.
  rewrite Hn in Hn0. injection Hn0 as <-.
  assert (Hix : x ∈ "" :: U) by (by apply list_elem_of_further).
  assert (Hie : "" ∈ "" :: U) by constructor.
  set (rid := make_id seed_id receiver x) in *.
  assert (N1 : did <> rid) by (apply (make_id_ne U m Hcf); auto).
  assert (N4 : did <> nid) by (apply (make_id_ne U m Hcf); auto).
  exists n', (remove_ref receiver rid version d).
  cbn [node_resources model_settings].
  change (fields_seed_id (set_settings_receivers _ (model_settings m))) with seed_id.
  fold nid did.
  split; [apply lookup_insert_eq|].
  split.
  { rewrite lookup_insert_ne by exact (not_eq_sym N4). rewrite lookup_alter_eq.
    rewrite lookup_delete_ne by exact (not_eq_sym N1). rewrite Hd. reflexivity. }
  split; [|rewrite presentation_remove_ref; exact Hpd].
  destruct Hcases as [->| ->]; exact Hpn.
Qed.

End Presents.

Lemma presents_initial (L : nmos_cpp) (s : settings) g m2 :
  nmos_cpp_laws L ->
  make_id (fields_seed_id s) node "" <> make_id (fields_seed_id s) device "" ->
  node_implementation_init_ L
    {| node_resources := ∅; connection_resources := ∅; model_settings := s; gate := g |}
  = (Ok tt, m2) ->
  presents_settings s m2.
Proof.
  intros HL Hne H2.
  rewrite (init_explicit L
             {| node_resources := ∅; connection_resources := ∅; model_settings := s;
                gate := g |} HL Hne) in H2.
  cbn [node_resources model_settings] in H2.
  rewrite !lookup_empty in H2. injection H2 as <-.
  exists (initial_node L s), (initial_device L s).
  cbn [node_resources model_settings set_model_settings set_node_resources].
  change (fields_seed_id (initial_settings s)) with (fields_seed_id s).
  split; [rewrite lookup_insert_ne by exact (not_eq_sym Hne); apply lookup_insert_eq|].
  split; [apply lookup_insert_eq|]. split; reflexivity.
Qed.

(** X20. What the configuration says about the node is what the node and
    the device show, from the creation of the server on and through every
    sequence of [add_sender], [add_receiver], [remove_sender] and
    [remove_receiver] calls: the label and the description of the
    configuration, or those made from the asset tags when the
    configuration has none (manufacturer, product and instance id joined
    by a space; the functions joined by a comma and a space), or the empty
    string; and the asset tags, of which the device also shows the
    functions. *)
Theorem node_and_device_show_configuration (L : nmos_cpp) (U : list string) (e : env)
    (config : NvNmosNodeConfig) (s0 s : NvNmosNodeServer) (ops : list (env * operation)) :
  nmos_cpp_laws L ->
  (forall settings_, make_settings L config = Ok settings_ ->
                     collision_free (fields_seed_id settings_) U) ->
  (forall sdp i, Some sdp ∈ config_receivers config ++ config_senders config ->
                 i ∈ sdp_internal_id L sdp -> i ∈ U) ->
  create_nmos_node_server L e (Some config) (Some s0) = (true, Some s) ->
  Forall (fun eo => is_add_or_remove eo.2 = true
                    /\ forall i, i ∈ operation_ids L eo.2 -> i ∈ U) ops ->
  exists s' m' n d,
    apply_operations L ops (Some s) = Some s' /\ impl s' = Some m'
    /\ node_resources m' !! make_id (fields_seed_id (model_settings m')) node "" = Some n
    /\ node_resources m' !! make_id (fields_seed_id (model_settings m')) device "" = Some d
    /\ fields_label d = fields_label n
    /\ fields_description d = fields_description n
    /\ fields_label n
       = match config_label config, config_asset_tags config with
         | Some l, _ => l
         | None, Some asset => join " " [manufacturer asset; product asset; instance_id asset]
         | None, None => ""
         end
    /\ fields_description n
       = match config_description config, config_asset_tags config with
         | Some d, _ => d
         | None, Some asset => join ", " (functions asset)
         | None, None => ""
         end
    /\ match config_asset_tags config with
       | Some asset =>
           fields_tags n
           = [("urn:x-nmos:tag:asset:manufacturer/v1.0", [manufacturer asset]);
              ("urn:x-nmos:tag:asset:product/v1.0", [product asset]);
              ("urn:x-nmos:tag:asset:instance-id/v1.0", [instance_id asset])]
           /\ fields_tags d
              = fields_tags n ++ [("urn:x-nmos:tag:asset:function/v1.0", functions asset)]
       | None => fields_tags n = [] /\ fields_tags d = []
       end.
Proof.
  intros HL Hcf HU Hcreate Hops.
  assert (Hs : exists settings_, make_settings L config = Ok settings_).
  { unfold create_nmos_node_server, server_server in Hcreate.
    destruct (make_settings L config); [eauto|discriminate]. }
  destruct Hs as [settings_ Hs].
  destruct (created_and_operated_keeps L U (fields_seed_id settings_)
              (presents_settings settings_) HL (Hcf _ Hs) (fun g m H => H)
              (fun m sdp hs version m' Hcf' Hwf Hp HU' Hrun =>
                 presents_add_sender L U m settings_ HL Hcf' Hwf Hp sdp hs version m' HU' Hrun)
              (fun m sdp hs version m' Hcf' Hwf Hp HU' Hrun =>
                 presents_add_receiver L U m settings_ HL Hcf' Hwf Hp sdp hs version m' HU'
                   Hrun)
              (fun m x hs version r m' Hcf' Hwf Hp Hx Hf Hrun =>
                 presents_remove_sender L U m settings_ Hcf' Hwf Hp x hs version r m' Hx Hf
                   Hrun)
              (fun m x hs version r m' Hcf' Hwf Hp Hx Hf Hrun =>
                 presents_remove_receiver L U m settings_ Hcf' Hwf Hp x hs version r m' Hx Hf
                   Hrun)
              e config s0 s settings_ ops
              (fun g m2 H2 =>
                 presents_initial L settings_ g m2 HL (node_id_ne_device_id U _ (Hcf _ Hs)) H2)
              Hs eq_refl HU Hcreate Hops)
    as (s' & m' & Hrun & Hs' & _ & _ & (n & d & Hn & Hd & Hpn & Hpd)).
  exists s', m', n, d.
  split; [exact Hrun|]. split; [exact Hs'|]. split; [exact Hn|]. split; [exact Hd|].
  unfold presentation in Hpn, Hpd.
  injection Hpn as Hn1 Hn2 Hn3. injection Hpd as Hd1 Hd2 Hd3.
  unfold make_settings in Hs.
  destruct (existsb _ (config_log_categories config)); [discriminate|].
  injection Hs as <-.
  cbn [fields_node_label fields_node_description fields_node_tags fields_device_label
       fields_device_description fields_device_tags] in Hn1, Hn2, Hn3, Hd1, Hd2, Hd3.
  rewrite Hn1, Hn2, Hn3, Hd1, Hd2, Hd3.
  split; [reflexivity|]. split; [reflexivity|]. split; [reflexivity|].
  split; [reflexivity|]. destruct (config_asset_tags config); split; reflexivity.
Qed.

(** X20, on the example: a sender and a receiver are added and the sender
    is removed again. *)
Lemma node_and_device_show_configuration_witness :
  exists s' m' n d,
    apply_operations Reference.lib
      [Fixture.add_sink_0; Fixture.add_source_0; (Fixture.e, op_remove_sender "sink-0")]
      (Some (set_impl (Some (Fixture.model_of (Fixture.created Fixture.e))) Fixture.handle))
    = Some s'
    /\ impl s' = Some m'
    /\ node_resources m' !! make_id (fields_seed_id (model_settings m')) node "" = Some n
    /\ node_resources m' !! make_id (fields_seed_id (model_settings m')) device "" = Some d
    /\ fields_label n = "Acme Widget Pro XYZ123-456789"
    /\ fields_label d = fields_label n
    /\ fields_description d = "Example".
Proof.
  assert (Hcf : forall settings_,
             make_settings Reference.lib Reference.config = Ok settings_ ->
             collision_free (fields_seed_id settings_) Fixture.universe).
  { intros settings_ Hs.
    assert (E : fields_seed_id <$> make_settings Reference.lib Reference.config
                = Ok Fixture.seed_id) by (vm_compute; reflexivity).
    rewrite Hs in E. injection E as ->. exact fixture_collision_free. }
  assert (HU : forall sdp i,
             Some sdp ∈ config_receivers Reference.config ++ config_senders Reference.config ->
             i ∈ sdp_internal_id Reference.lib sdp -> i ∈ Fixture.universe).
  { intros sdp i Hin. change (Some sdp ∈ @nil (option string)) in Hin.
    apply elem_of_nil in Hin. destruct Hin. }
  assert (Hops : Forall (fun eo => is_add_or_remove eo.2 = true
                                   /\ forall i, i ∈ operation_ids Reference.lib eo.2 ->
                                                 i ∈ Fixture.universe)
                   [Fixture.add_sink_0; Fixture.add_source_0;
                    (Fixture.e, op_remove_sender "sink-0")]).
  { constructor; [exact (proj2 fixture_admissible_add_sink_0)|].
    constructor; [exact (proj2 fixture_admissible_add_source_0)|].
    constructor; [exact (proj2 fixture_admissible_remove_sink_0)|]. constructor. }
  destruct (node_and_device_show_configuration Reference.lib Fixture.universe
              Fixture.e Reference.config Fixture.handle _ _
              reference_lib_laws Hcf HU fixture_server Hops)
    as (s' & m' & n & d & H1 & H2 & H3 & H4 & H5 & H6 & H7 & H8 & _).
  exists s', m', n, d. split; [exact H1|]. split; [exact H2|]. split; [exact H3|].
  split; [exact H4|]. split; [exact H7|]. split; [exact H5|]. rewrite H6. exact H8.
Defined.

(** ** A receiver is added and removed *)

Lemma remove_after_add_ref_receiver id v v' d :
  id ∉ fields_receivers d ->
  fields_receivers (remove_ref receiver id v' (add_ref receiver id v d)) = fields_receivers d
  /\ fields_senders (remove_ref receiver id v' (add_ref receiver id v d)) = fields_senders d
  /\ fields_version (remove_ref receiver id v' (add_ref receiver id v d)) = v'.
Proof.
  intros Hid. unfold remove_ref, add_ref.
  destruct (decide (sender = receiver)) as [Hn|_]; [discriminate|].
  cbn [fields_receivers set_receivers]. rewrite existsb_eqb_app_last.
  cbn [fields_senders fields_receivers fields_version set_receivers set_version].
  by rewrite erase_first_app_last.
Qed.

Lemma dom_add_remove1 {A} (st : gmap string A) a (x : A) n v v' f f' d :
  is_Some (st !! n) -> n <> a -> st !! a = None ->
  dom (<[n := v']> (alter f' d (delete a (<[n := v]> (alter f d (<[a := x]> st)))))) = dom st.
Proof.
  intros Hn Na Ha.
  rewrite dom_insert_L, dom_alter_L, dom_delete_L, dom_insert_L, dom_alter_L, dom_insert_L.
  apply elem_of_dom in Hn. apply not_elem_of_dom in Ha.
  revert Hn Ha. generalize (dom st). clear -Na. intros D Hn Ha.
  apply set_eq. intros k.
  rewrite !elem_of_union, !elem_of_difference, !elem_of_union, !elem_of_singleton.
  split.
  - intros [->|[[->|[->|?]] ?]]; tauto.
  - intros Hk. destruct (decide (k = n)) as [->|?]; [by left|]. right.
    assert (k <> a) by (intros ->; contradiction). tauto.
Qed.

(** X21. On a well-formed model, a receiver that has just been added can
    be removed, and the removal undoes the addition: the connection store
    is the one before the addition, the node store has the keys it had,
    with the same resources apart from the device and the node, the
    device has its [senders] and [receivers] arrays back (when the id was
    not listed before), and the settings no longer hold a text under the
    id of the receiver; the texts of the senders and the clocks stay. *)
Theorem add_then_remove_receiver (L : nmos_cpp) (U : list string) (m m1 : node_model)
    (e e' : env) (sdp : string) :
  let seed_id := fields_seed_id (model_settings m) in
  let nid := make_id seed_id node "" in
  let did := make_id seed_id device "" in
  nmos_cpp_laws L -> collision_free seed_id U -> wf U m ->
  (forall i, i ∈ sdp_internal_id L sdp -> i ∈ U) ->
  node_implementation_add_receiver L e sdp m = (Ok tt, m1) ->
  exists i m2,
    let rid := make_id seed_id receiver i in
    sdp_internal_id L sdp = [i]
    /\ node_implementation_remove_receiver L e' i m1 = (Ok tt, m2)
    /\ connection_resources m2 = connection_resources m
    /\ dom (node_resources m2) = dom (node_resources m)
    /\ (forall k, k <> nid -> k <> did -> node_resources m2 !! k = node_resources m !! k)
    /\ (forall d, node_resources m !! did = Some d -> rid ∉ fields_receivers d ->
                  exists d2, node_resources m2 !! did = Some d2
                             /\ fields_senders d2 = fields_senders d
                             /\ fields_receivers d2 = fields_receivers d
                             /\ fields_version d2 = make_version e')
    /\ fields_settings_receivers (model_settings m2)
       = assoc_erase rid (fields_settings_receivers (model_settings m))
    /\ fields_settings_senders (model_settings m2)
       = fields_settings_senders (model_settings m)
    /\ fields_settings_clocks (model_settings m2)
       = fields_settings_clocks (model_settings m).
Proof.
  intros seed_id nid did HL Hcf Hwf HU Hrun.
  unfold node_implementation_add_receiver in Hrun.
  destruct (add_receiver_invariants L U m HL Hcf Hwf sdp _ _ _ m1 HU Hrun)
    as [(ex & g & Hex & _)|(_ & Hwf1 & Hseed1 & _)]; [discriminate|].
  destruct (add_receiver_explicit L U m HL Hcf Hwf sdp _ _ m1 HU Hrun)
    as (i & names & new & g & n & n'' & _ & HiU & Hi & Ercv & Ecn & Hr & _
        & Hm1 & Hn & Hn4 & _).
  fold seed_id in Hseed1.
  fold seed_id nid did in Hi, Ercv, Ecn, Hr, Hm1, Hn, Hn4.
  destruct Hr as (_ & Hrt & _).
  exists i.
  set (rid := make_id seed_id receiver i) in *.
  assert (Hix : i ∈ "" :: U) by (by apply list_elem_of_further).
  assert (Hie : "" ∈ "" :: U) by constructor.
  assert (Hne : forall t t' i i', i ∈ "" :: U -> i' ∈ "" :: U -> t <> t' \/ i <> i' ->
                  make_id seed_id t i <> make_id seed_id t' i')
    by exact (make_id_ne U m Hcf).
  assert (N3 : rid <> did) by (apply Hne; auto).
  assert (N4 : rid <> nid) by (apply Hne; auto).
  assert (N10 : did <> nid) by (apply Hne; auto).
  assert (Hnr : node_resources m1
                = <[nid := n'']> (alter (add_ref receiver rid (make_version e)) did
                    (<[rid := new_receiver new]> (node_resources m))))
    by (rewrite Hm1; reflexivity).
  assert (Hcr : connection_resources m1
                = <[rid := new_connection_receiver new]> (connection_resources m))
    by (rewrite Hm1; reflexivity).
  assert (Hst : model_settings m1
                = set_settings_receivers
                    (assoc_set rid sdp (fields_settings_receivers (model_settings m)))
                    (model_settings m))
    by (rewrite Hm1; reflexivity).
  clear Hm1.
  assert (Hcf1 : collision_free (fields_seed_id (model_settings m1)) U)
    by (rewrite Hseed1; exact Hcf).
  assert (Hfind : find_resource (node_resources m1)
                    (make_id (fields_seed_id (model_settings m1)) receiver i, receiver)
                  = Some (new_receiver new)).
  { rewrite Hseed1. fold rid. apply find_resource_Some. split; [|exact Hrt].
    rewrite Hnr. rewrite lookup_insert_ne by exact (not_eq_sym N4).
    rewrite lookup_alter_ne by exact (not_eq_sym N3). apply lookup_insert_eq. }
  destruct (remove_receiver_run L U m1 Hcf1 Hwf1 i (host_interfaces e') (make_version e')
              (new_receiver new) HiU Hfind)
    as (n1 & n1' & Hn1 & _ & Hrun2 & _).
  rewrite Hseed1 in Hrun2. fold rid did nid in Hrun2.
  eexists. cbv zeta. split; [exact Hi|].
  split; [exact Hrun2|].
  cbn [node_resources connection_resources model_settings].
  split. { rewrite Hcr. apply delete_insert_id. exact Ecn. }
  split.
  { rewrite Hnr.
    apply dom_add_remove1; [exists n; exact Hn | exact (not_eq_sym N4) | exact Ercv]. }
  split.
  { intros k K1 K2. rewrite lookup_insert_ne by exact (not_eq_sym K1).
    rewrite lookup_alter_ne by exact (not_eq_sym K2).
    destruct (decide (k = rid)) as [->|K5]; [rewrite lookup_delete_eq; exact (eq_sym Ercv)|].
    rewrite lookup_delete_ne by exact (not_eq_sym K5).
    rewrite Hnr. rewrite lookup_insert_ne by exact (not_eq_sym K1).
    rewrite lookup_alter_ne by exact (not_eq_sym K2).
    apply lookup_insert_ne. exact (not_eq_sym K5). }
  split.
  { intros d Hd Hnot. eexists. split.
    - rewrite lookup_insert_ne by exact (not_eq_sym N10).
      rewrite lookup_alter_eq.
      rewrite lookup_delete_ne by exact N3.
      rewrite Hnr. rewrite lookup_insert_ne by exact (not_eq_sym N10).
      rewrite lookup_alter_eq.
      rewrite lookup_insert_ne by exact N3. rewrite Hd. reflexivity.
    - destruct (remove_after_add_ref_receiver rid (make_version e) (make_version e') d Hnot)
        as (E1 & E2 & E3).
      split; [exact E2|]. split; [exact E1 | exact E3]. }
  rewrite Hst.
  cbn [fields_settings_senders fields_settings_receivers fields_settings_clocks
       set_settings_receivers].
  split; [apply assoc_erase_set|]. split; reflexivity.
Qed.

(** X21, on the example: "source-1" is added to the model and removed
    again. *)
Lemma add_then_remove_receiver_witness :
  let r := node_implementation_add_receiver Reference.lib Fixture.e Reference.source_1
             Fixture.model_1 in
  r.1 = Ok tt
  /\ exists m2,
       node_implementation_remove_receiver Reference.lib Fixture.e "source-1" r.2 = (Ok tt, m2)
       /\ connection_resources m2 = connection_resources Fixture.model_1
       /\ dom (node_resources m2) = dom (node_resources Fixture.model_1).
Proof.
  cbv zeta.
  assert (H1 : (node_implementation_add_receiver Reference.lib Fixture.e Reference.source_1
                  Fixture.model_1).1 = Ok tt) by (vm_compute; reflexivity).
  split; [exact H1|].
  pose proof (pair_eq_of_fst _ _ H1) as H.
  destruct (fixture_invariant _ fixture_added) as (Hseed & Hwf & _).
  change (Fixture.model_after _) with Fixture.model_1 in Hseed, Hwf.
  pose proof fixture_collision_free as Hcf. rewrite <- Hseed in Hcf.
  assert (E : sdp_internal_id Reference.lib Reference.source_1 = ["source-1"])
    by (vm_compute; reflexivity).
  assert (HU : forall i, i ∈ sdp_internal_id Reference.lib Reference.source_1
                         -> i ∈ Fixture.universe).
  { intros i Hi. rewrite E in Hi. apply list_elem_of_singleton in Hi as ->.
    repeat constructor. }
  destruct (add_then_remove_receiver Reference.lib Fixture.universe Fixture.model_1 _
              Fixture.e Fixture.e Reference.source_1 reference_lib_laws Hcf Hwf HU H)
    as (i & m2 & Hi & Hrun & Hcr & Hdom & _).
  rewrite E in Hi. injection Hi as <-. exists m2.
  split; [exact Hrun|]. split; [exact Hcr | exact Hdom].
Defined.

(** ** The connection activation handler *)

Lemma length_resize {A} (n : nat) (x : A) xs : length (resize n x xs) = n.
Proof. unfold resize. rewrite length_app, length_take, length_replicate. lia. Qed.

Lemma lookup_resize {A} (n : nat) (x : A) xs k :
  (k < n)%nat -> resize n x xs !! k = Some (default x (xs !! k)).
Proof.
  intros Hk. unfold resize. destruct (decide (k < length xs)%nat) as [Hlt|Hge].
  - rewrite lookup_app_l by (rewrite length_take; lia).
    rewrite lookup_take_lt by exact Hk.
    destruct (lookup_lt_is_Some_2 xs k Hlt) as [y Hy]. by rewrite Hy.
  - rewrite lookup_app_r by (rewrite length_take; lia).
    rewrite length_take. rewrite (proj2 (lookup_ge_None xs k)) by lia.
    apply lookup_replicate_2. lia.
Qed.

(** X22. The session parameters of an activation fit the legs of the
    connection.  The session version is the current NTP time in seconds.
    With at most one leg nothing else changes.  With [n > 1] legs the
    group semantics is [DUP]; the media stream ids are kept when there are
    at least [n] of them and are "0" to "n-1" otherwise; and the ts-refclk
    entries, unless there is none, become exactly [n]: the first [n] of
    them, filled up with copies of the first.  The other parameters
    stay. *)
Theorem activation_sdp_parameters_legs (e : env) (transport_params : list value)
    (p : sdp_parameters) :
  let n := length transport_params in
  let p' := activation_sdp_parameters e transport_params p in
  origin_session_version p' = Z.shiftr (ntp_now e) 32
  /\ session_name p' = session_name p /\ fmtp p' = fmtp p
  /\ bandwidth_type p' = bandwidth_type p /\ bandwidth p' = bandwidth p
  /\ packet_time p' = packet_time p /\ max_packet_time p' = max_packet_time p
  /\ sdp_parameters_other p' = sdp_parameters_other p
  /\ ((n <= 1)%nat -> p' = set_origin_session_version (Z.shiftr (ntp_now e) 32) p)
  /\ ((1 < n)%nat ->
      group_semantics p' = group_semantics_duplication
      /\ (n <= length (group_media_stream_ids p'))%nat
      /\ ((n <= length (group_media_stream_ids p))%nat ->
          group_media_stream_ids p' = group_media_stream_ids p)
      /\ ((length (group_media_stream_ids p) < n)%nat ->
          length (group_media_stream_ids p') = n
          /\ forall k, (k < n)%nat ->
                       group_media_stream_ids p' !! k = Some (to_string_t (Z.of_nat k)))
      /\ (ts_refclk p = [] -> ts_refclk p' = [])
      /\ (forall front rest,
            ts_refclk p = front :: rest ->
            length (ts_refclk p') = n
            /\ forall k, (k < n)%nat ->
                         ts_refclk p' !! k = Some (default front (ts_refclk p !! k)))).
Proof.
  cbv zeta. unfold activation_sdp_parameters.
  destruct (1 <? length transport_params)%nat eqn:En.
  - apply Nat.ltb_lt in En. cbv zeta.
    set (ids := if (length (group_media_stream_ids p) <? length transport_params)%nat
                then _ else _).
    assert (Hids : (length transport_params <= length ids)%nat
                   /\ ((length transport_params <= length (group_media_stream_ids p))%nat ->
                       ids = group_media_stream_ids p)
                   /\ ((length (group_media_stream_ids p) < length transport_params)%nat ->
                       length ids = length transport_params
                       /\ forall k, (k < length transport_params)%nat ->
                                    ids !! k = Some (to_string_t (Z.of_nat k)))).
    { unfold ids.
      destruct (length (group_media_stream_ids p) <? length transport_params)%nat eqn:Ei.
      - apply Nat.ltb_lt in Ei.
        split; [rewrite length_map, length_seq; lia|].
        split; [intros Hle; lia|].
        intros _. split; [by rewrite length_map, length_seq|].
        intros k Hk. rewrite list_lookup_fmap, lookup_seq_lt by exact Hk. reflexivity.
      - apply Nat.ltb_ge in Ei.
        split; [exact Ei|]. split; [reflexivity|]. intros Hlt. lia. }
    clearbody ids. destruct Hids as (Hi1 & Hi2 & Hi3).
    cbn [set_group ts_refclk].
    destruct (ts_refclk p) as [|front rest] eqn:Et;
      cbn [set_origin_session_version set_ts_refclk set_group origin_session_version
           session_name fmtp ts_refclk group_semantics group_media_stream_ids bandwidth_type
           bandwidth packet_time max_packet_time sdp_parameters_other];
      (do 8 (split; [reflexivity|])); (split; [intros Hle; lia|]); intros _;
      (split; [reflexivity|]); (split; [exact Hi1|]); (split; [exact Hi2|]);
      (split; [exact Hi3|]).
    + split; [done|]. intros front rest Hfr. discriminate.
    + split; [discriminate|]. intros front' rest' [= <- <-].
      split; [apply length_resize|]. intros k Hk. by apply lookup_resize.
  - apply Nat.ltb_ge in En.
    cbn [set_origin_session_version origin_session_version
         session_name fmtp ts_refclk group_semantics group_media_stream_ids bandwidth_type
         bandwidth packet_time max_packet_time sdp_parameters_other].
    do 8 (split; [reflexivity|]).
    split; [reflexivity|]. intros Hlt. lia.
Qed.

Lemma make_session_description_internal_id (L : nmos_cpp) t internal_id group_hint session_info
    p tps sd :
  make_session_description L t internal_id group_hint session_info p tps = Ok sd ->
  {| nv_name := attributes_internal_id; nv_value := Str internal_id |} ∈ sd_attributes sd.
Proof.
  unfold make_session_description.
  destruct (nmos_make_session_description L p tps) as [sd0|ex]; [|discriminate].
  cbn [mbind result_bind]. cbv zeta.
  destruct (add_custom_media_attributes t tps _) as [mds|ex] eqn:E; [|discriminate].
  cbn [mbind result_bind]. intros [= <-].
  destruct (negb (String.eqb session_info ""));
    cbn [sd_attributes set_sd_media_descriptions set_sd_information set_sd_attributes];
    apply elem_of_app; right; apply list_elem_of_here.
Qed.

Lemma set_gate_set_gate g g' m : set_gate g' (set_gate g m) = set_gate g' m.
Proof. reflexivity. Qed.

Lemma rtp_connection_activated_run activated id sdp m :
  rtp_connection_activated activated id sdp m
  = (Ok tt,
     set_gate (gate m
               ++ match activated with
                  | Some f =>
                      if f id (if negb (String.eqb sdp "") then Some sdp else None)
                      then [] else [(warning, "Activation failed for internal id: " +:+ id)]
                  | None => []
                  end) m).
Proof.
  unfold rtp_connection_activated. destruct activated as [f|].
  - cbv zeta. destruct (f id _); cbn [negb].
    + rewrite app_nil_r. by destruct m.
    + reflexivity.
  - rewrite app_nil_r. by destruct m.
Qed.

Section Handler.
Context (L : nmos_cpp) (e : env).
Context (r : resource) (c : connection_resource) (m : node_model).
Let message := (info, "Activating " +:+ id_type_text L (resource_id r, resource_type r)).
Let configs :=
  if decide (sender = resource_type r)
  then fields_settings_senders (model_settings m)
  else fields_settings_receivers (model_settings m).
Let handled :=
  is_Some (assoc_get (resource_id r) configs)
  /\ transport_base L (fields_transport r) = transports_rtp.

(** What the handler has for the host, by the state of the connection. *)
Lemma connection_activation_arguments_run :
  exists res,
    connection_activation_arguments L e r c m
    = (res, set_gate (gate m ++ [message]) m)
    /\ (~ handled -> res = Ok None)
    /\ (handled -> fields_master_enable (fields_endpoint_active c) = false ->
        res = Ok (Some (get_internal_id r, "")))
    /\ (handled -> fields_master_enable (fields_endpoint_active c) = true ->
        forall a, res = Ok a ->
                  exists sd,
                    a = Some (get_internal_id r, sdp_make_session_description L sd)
                    /\ {| nv_name := attributes_internal_id;
                          nv_value := Str (get_internal_id r) |} ∈ sd_attributes sd).
Proof.
  unfold connection_activation_arguments.
  unfold bind at 1. unfold slog at 1, modify_model. fold message.
  unfold bind at 1. cbn [get_model]. cbv zeta.
  cbn [model_settings set_gate]. fold configs.
  destruct (assoc_get (resource_id r) configs) as [config_sdp|] eqn:Ec.
  2:{ eexists. split; [reflexivity|]. split; [done|].
      split; intros [[x Hx] _]; discriminate. }
  destruct (String.eqb transports_rtp (transport_base L (fields_transport r))) eqn:Er.
  2:{ apply String.eqb_neq in Er. eexists. split; [reflexivity|]. split; [done|].
      split; intros [_ Hr]; congruence. }
  apply String.eqb_eq in Er.
  assert (Hh : handled) by (split; [by eexists | done]).
  destruct (fields_master_enable (fields_endpoint_active c)) eqn:Ea.
  2:{ eexists. split; [reflexivity|]. split; [done|]. split; [done|]. discriminate. }
  unfold bind at 1. unfold lift at 1.
  match goal with
  | |- context [match ?d with Ok _ => _ | Throw _ => _ end] =>
      destruct d as [transportfile_data|ex] eqn:Ed
  end.
  2:{ eexists. split; [reflexivity|]. split; [done|]. split; [discriminate|].
      intros _ _ a Ha. discriminate. }
  unfold bind at 1. unfold lift at 1.
  destruct (parse_session_description L transportfile_data) as [parsed_sdp|ex].
  2:{ eexists. split; [reflexivity|]. split; [done|]. split; [discriminate|].
      intros _ _ a Ha. discriminate. }
  unfold bind at 1. unfold lift at 1.
  destruct (get_session_description_sdp_parameters L parsed_sdp) as [sdp_params|ex].
  2:{ eexists. split; [reflexivity|]. split; [done|]. split; [discriminate|].
      intros _ _ a Ha. discriminate. }
  unfold bind at 1. unfold lift at 1.
  destruct (make_session_description L _ _ _ _ _ _) as [merged_sdp|ex] eqn:Em.
  2:{ eexists. split; [reflexivity|]. split; [done|]. split; [discriminate|].
      intros _ _ a Ha. discriminate. }
  eexists. split; [reflexivity|]. split; [done|]. split; [discriminate|].
  intros _ _ a [= <-]. exists merged_sdp. split; [reflexivity|].
  exact (make_session_description_internal_id _ _ _ _ _ _ _ _ Em).
Qed.

End Handler.

(** X23. The connection activation handler reports to the host and does
    nothing else.  It writes only to the log: the message "Activating ..."
    and, when the function of the host returns false, one warning; the
    answer of the host is not passed on, so the handler returns or throws
    as it does without a function of the host.  For a resource without a
    configured text, or with another transport than RTP, the host is not
    called.  For a connection whose [master_enable] is false the host gets
    the internal id of the resource and a null SDP, and the handler
    returns.  For an active connection the host gets the internal id and
    the text of a session description that carries the internal id. *)
Theorem activation_handler_reports (L : nmos_cpp) (e : env)
    (activated : option (string -> option string -> bool))
    (r : resource) (c : connection_resource) (m : node_model) :
  let message := (info, "Activating " +:+ id_type_text L (resource_id r, resource_type r)) in
  let failed := (warning, "Activation failed for internal id: " +:+ get_internal_id r) in
  let answer sdp :=
    match activated with
    | Some f => if f (get_internal_id r) sdp then [] else [failed]
    | None => []
    end in
  let configs :=
    if decide (sender = resource_type r)
    then fields_settings_senders (model_settings m)
    else fields_settings_receivers (model_settings m) in
  let handled :=
    is_Some (assoc_get (resource_id r) configs)
    /\ transport_base L (fields_transport r) = transports_rtp in
  let run := connection_activation_handler L e activated r c m in
  (run.2 = set_gate (gate m ++ [message]) m
   \/ run.2 = set_gate (gate m ++ [message; failed]) m)
  /\ run.1 = (connection_activation_handler L e None r c m).1
  /\ (~ handled -> run = (Ok tt, set_gate (gate m ++ [message]) m))
  /\ (handled -> fields_master_enable (fields_endpoint_active c) = false ->
      run = (Ok tt, set_gate (gate m ++ message :: answer None) m))
  /\ (handled -> fields_master_enable (fields_endpoint_active c) = true ->
      run.1 = Ok tt ->
      exists sd,
        let sdp := sdp_make_session_description L sd in
        connection_activation_arguments L e r c m
        = (Ok (Some (get_internal_id r, sdp)), set_gate (gate m ++ [message]) m)
        /\ {| nv_name := attributes_internal_id; nv_value := Str (get_internal_id r) |}
           ∈ sd_attributes sd
        /\ run = (Ok tt,
                  set_gate (gate m ++ message
                              :: answer (if negb (String.eqb sdp "") then Some sdp else None))
                    m)).
Proof.
  cbv zeta.
  destruct (connection_activation_arguments_run L e r c m)
    as (res & Hargs & Hnot & Hoff & Hon).
  assert (Hrun : forall activated',
             connection_activation_handler L e activated' r c m
             = match res with
               | Ok (Some (internal_id, sdp_data)) =>
                   rtp_connection_activated activated' internal_id sdp_data
                     (set_gate (gate m ++ [(info, "Activating "
                                                    +:+ id_type_text L (resource_id r,
                                                                      resource_type r))]) m)
               | Ok None =>
                   (Ok tt, set_gate (gate m ++ [(info, "Activating "
                                                         +:+ id_type_text L (resource_id r,
                                                                           resource_type r))])
                             m)
               | Throw ex =>
                   (Throw ex, set_gate (gate m ++ [(info, "Activating "
                                                            +:+ id_type_text L (resource_id r,
                                                                              resource_type r))])
                                m)
               end).
  { intros activated'. unfold connection_activation_handler, bind. rewrite Hargs.
    destruct res as [[[internal_id sdp_data]|]|ex]; reflexivity. }
  rewrite !Hrun. clear Hrun.
  split; [|split; [|split; [|split]]].
  - destruct res as [[[internal_id sdp_data]|]|ex]; [|by left|by left].
    assert (Hid : internal_id = get_internal_id r).
    { assert (Hdec : forall P : Prop, Decision P -> P \/ ~ P)
        by (intros P [HP|HP]; [by left | by right]).
      destruct (Hdec (is_Some (assoc_get (resource_id r)
                  (if decide (sender = resource_type r)
                   then fields_settings_senders (model_settings m)
                   else fields_settings_receivers (model_settings m)))
                /\ transport_base L (fields_transport r) = transports_rtp) _) as [Hh|Hn];
        [|specialize (Hnot Hn); discriminate].
      destruct (fields_master_enable (fields_endpoint_active c)) eqn:Ea.
      - destruct (Hon Hh eq_refl _ eq_refl) as (sd & [= -> _] & _). reflexivity.
      - specialize (Hoff Hh eq_refl). by injection Hoff as -> _. }
    subst internal_id. rewrite rtp_connection_activated_run. cbn [snd gate set_gate].
    destruct activated as [f|]; [destruct (f _ _)|]; rewrite ?app_nil_r; [left|right|left];
      try reflexivity.
    by rewrite <- app_assoc.
  - destruct res as [[[internal_id sdp_data]|]|ex]; try reflexivity.
    by rewrite !rtp_connection_activated_run.
  - intros Hn. rewrite (Hnot Hn). reflexivity.
  - intros Hh Ha. rewrite (Hoff Hh Ha). rewrite rtp_connection_activated_run.
    cbn [gate set_gate negb String.eqb]. rewrite set_gate_set_gate.
    by rewrite <- app_assoc.
  - intros Hh Ha Hok.
    destruct res as [a|ex]; [|discriminate].
    destruct (Hon Hh Ha a eq_refl) as (sd & -> & Hattr).
    exists sd. cbv zeta. split; [exact Hargs|]. split; [exact Hattr|].
    rewrite rtp_connection_activated_run. cbn [gate set_gate]. rewrite set_gate_set_gate.
    by rewrite <- app_assoc.
Qed.

(** ** The references between the resources *)

Section References.
Context (U : list string) (m : node_model).
Let seed_id := fields_seed_id (model_settings m).
Hypothesis Hcf : collision_free seed_id U.
Hypothesis Hwf : wf U m.

(** A sender of a well-formed store has its flow and its source. *)
Lemma sender_references k r :
  node_resources m !! k = Some r -> resource_type r = sender ->
  exists i fl src,
    i ∈ U /\ k = make_id seed_id sender i
    /\ fields_flow_id r = Some (make_id seed_id flow i)
    /\ node_resources m !! make_id seed_id flow i = Some fl /\ resource_type fl = flow
    /\ fields_source_id fl = make_id seed_id source i
    /\ node_resources m !! make_id seed_id source i = Some src /\ resource_type src = source
    /\ find_source_for_sender (node_resources m) r = Some src
    /\ fields_device_id r = make_id seed_id device "".
Proof.
  intros Hk Ht.
  pose proof (wf_resources U m Hwf k r Hk) as Hok. unfold resource_ok in Hok.
  rewrite Ht in Hok. fold seed_id in Hok.
  destruct Hok as (i & HiU & -> & Hfid & Hdid & _).
  destruct (wf_sender U m Hcf Hwf i r HiU Hk) as (_ & _ & _ & fl & Hfl).
  destruct (wf_flow U m Hcf Hwf i fl HiU Hfl) as (Hflt & Hsid & src & Hsrc & Hsrct).
  fold seed_id in Hfl, Hsid, Hsrc.
  exists i, fl, src.
  split; [exact HiU|]. split; [reflexivity|]. split; [exact Hfid|].
  split; [exact Hfl|]. split; [exact Hflt|]. split; [exact Hsid|].
  split; [exact Hsrc|]. split; [exact Hsrct|]. split; [|exact Hdid].
  unfold find_source_for_sender. rewrite Hfid.
  rewrite (proj2 (find_resource_Some _ _ flow fl) (conj Hfl Hflt)).
  rewrite Hsid. apply find_resource_Some. split; [exact Hsrc | exact Hsrct].
Qed.

Lemma receiver_references k r :
  node_resources m !! k = Some r -> resource_type r = receiver ->
  exists i, i ∈ U /\ k = make_id seed_id receiver i
            /\ fields_device_id r = make_id seed_id device "".
Proof.
  intros Hk Ht.
  pose proof (wf_resources U m Hwf k r Hk) as Hok. unfold resource_ok in Hok.
  rewrite Ht in Hok. fold seed_id in Hok.
  destruct Hok as (i & HiU & -> & Hdid). exists i. done.
Qed.

End References.

(** X24. No reference between the resources dangles, after the creation
    of the server and after every sequence of [add_sender],
    [add_receiver], [remove_sender] and [remove_receiver] calls: the
    [flow_id] of every sender in the store is the id of a flow in the
    store, whose [source_id] is the id of a source in the store, which is
    the source that [find_source_for_sender] finds; the [device_id] of
    every sender and receiver is the id of the device, which is in the
    store; and every connection resource has the id of a sender or a
    receiver in the store. *)
Theorem references_resolve (L : nmos_cpp) (U : list string) (e : env)
    (config : NvNmosNodeConfig) (s0 s : NvNmosNodeServer) (ops : list (env * operation)) :
  nmos_cpp_laws L ->
  (forall settings_, make_settings L config = Ok settings_ ->
                     collision_free (fields_seed_id settings_) U) ->
  (forall sdp i, Some sdp ∈ config_receivers config ++ config_senders config ->
                 i ∈ sdp_internal_id L sdp -> i ∈ U) ->
  create_nmos_node_server L e (Some config) (Some s0) = (true, Some s) ->
  Forall (fun eo => is_add_or_remove eo.2 = true
                    /\ forall i, i ∈ operation_ids L eo.2 -> i ∈ U) ops ->
  exists s' m' d,
    apply_operations L ops (Some s) = Some s' /\ impl s' = Some m'
    /\ resource_type d = device
    /\ (forall k r,
          node_resources m' !! k = Some r -> resource_type r = sender ->
          exists flow_id fl src,
            fields_flow_id r = Some flow_id
            /\ node_resources m' !! flow_id = Some fl /\ resource_type fl = flow
            /\ node_resources m' !! fields_source_id fl = Some src
            /\ resource_type src = source
            /\ find_source_for_sender (node_resources m') r = Some src
            /\ node_resources m' !! fields_device_id r = Some d)
    /\ (forall k r,
          node_resources m' !! k = Some r -> resource_type r = receiver ->
          node_resources m' !! fields_device_id r = Some d)
    /\ (forall k c,
          connection_resources m' !! k = Some c ->
          exists r, node_resources m' !! k = Some r
                    /\ (resource_type r = sender \/ resource_type r = receiver)).
Proof.
  intros HL Hcf HU Hcreate Hops.
  assert (Hs : exists settings_, make_settings L config = Ok settings_).
  { unfold create_nmos_node_server, server_server in Hcreate.
    destruct (make_settings L config); [eauto|discriminate]. }
  destruct Hs as [settings_ Hs].
  destruct (created_and_operated_keeps L U (fields_seed_id settings_)
              (presents_settings settings_) HL (Hcf _ Hs) (fun g m H => H)
              (fun m sdp hs version m' Hcf' Hwf Hp HU' Hrun =>
                 presents_add_sender L U m settings_ HL Hcf' Hwf Hp sdp hs version m' HU' Hrun)
              (fun m sdp hs version m' Hcf' Hwf Hp HU' Hrun =>
                 presents_add_receiver L U m settings_ HL Hcf' Hwf Hp sdp hs version m' HU'
                   Hrun)
              (fun m x hs version r m' Hcf' Hwf Hp Hx Hf Hrun =>
                 presents_remove_sender L U m settings_ Hcf' Hwf Hp x hs version r m' Hx Hf
                   Hrun)
              (fun m x hs version r m' Hcf' Hwf Hp Hx Hf Hrun =>
                 presents_remove_receiver L U m settings_ Hcf' Hwf Hp x hs version r m' Hx Hf
                   Hrun)
              e config s0 s settings_ ops
              (fun g m2 H2 =>
                 presents_initial L settings_ g m2 HL (node_id_ne_device_id U _ (Hcf _ Hs)) H2)
              Hs eq_refl HU Hcreate Hops)
    as (s' & m' & Hrun & Hs' & Hseed & Hwf & (n & d & _ & Hd & _)).
  pose proof (Hcf _ Hs) as Hcf'. rewrite <- Hseed in Hcf'.
  exists s', m', d. split; [exact Hrun|]. split; [exact Hs'|].
  split; [exact (wf_key_type U m' Hcf' Hwf device "" d (list_elem_of_here _ _) Hd)|].
  split; [|split].
  - intros k r Hk Ht.
    destruct (sender_references U m' Hcf' Hwf k r Hk Ht)
      as (i & fl & src & _ & _ & Hfid & Hfl & Hflt & Hsid & Hsrc & Hsrct & Hfind & Hdid).
    exists (make_id (fields_seed_id (model_settings m')) flow i), fl, src.
    split; [exact Hfid|]. split; [exact Hfl|]. split; [exact Hflt|].
    split; [rewrite Hsid; exact Hsrc|]. split; [exact Hsrct|]. split; [exact Hfind|].
    rewrite Hdid. exact Hd.
  - intros k r Hk Ht.
    destruct (receiver_references U m' Hwf k r Hk Ht) as (i & _ & _ & Hdid).
    rewrite Hdid. exact Hd.
  - exact (wf_connections U m' Hwf).
Qed.

(** X24, on the example: a sender and a receiver are added and the sender
    is removed again. *)
Lemma references_resolve_witness :
  exists s' m',
    apply_operations Reference.lib
      [Fixture.add_sink_0; Fixture.add_source_0; (Fixture.e, op_remove_sender "sink-0")]
      (Some (set_impl (Some (Fixture.model_of (Fixture.created Fixture.e))) Fixture.handle))
    = Some s'
    /\ impl s' = Some m'
    /\ forall k c,
         connection_resources m' !! k = Some c ->
         exists r, node_resources m' !! k = Some r
                   /\ (resource_type r = sender \/ resource_type r = receiver).
Proof.
  assert (Hcf : forall settings_,
             make_settings Reference.lib Reference.config = Ok settings_ ->
             collision_free (fields_seed_id settings_) Fixture.universe).
  { intros settings_ Hs.
    assert (E : fields_seed_id <$> make_settings Reference.lib Reference.config
                = Ok Fixture.seed_id) by (vm_compute; reflexivity).
    rewrite Hs in E. injection E as ->. exact fixture_collision_free. }
  assert (HU : forall sdp i,
             Some sdp ∈ config_receivers Reference.config ++ config_senders Reference.config ->
             i ∈ sdp_internal_id Reference.lib sdp -> i ∈ Fixture.universe).
  { intros sdp i Hin. change (Some sdp ∈ @nil (option string)) in Hin.
    apply elem_of_nil in Hin. destruct Hin. }
  assert (Hops : Forall (fun eo => is_add_or_remove eo.2 = true
                                   /\ forall i, i ∈ operation_ids Reference.lib eo.2 ->
                                                i ∈ Fixture.universe)
                   [Fixture.add_sink_0; Fixture.add_source_0;
                    (Fixture.e, op_remove_sender "sink-0")]).
  { constructor; [exact (proj2 fixture_admissible_add_sink_0)|].
    constructor; [exact (proj2 fixture_admissible_add_source_0)|].
    constructor; [exact (proj2 fixture_admissible_remove_sink_0)|]. constructor. }
  destruct (references_resolve Reference.lib Fixture.universe
              Fixture.e Reference.config Fixture.handle _ _
              reference_lib_laws Hcf HU fixture_server Hops)
    as (s' & m' & d & H1 & H2 & _ & _ & _ & H3).
  exists s', m'. split; [exact H1|]. split; [exact H2 | exact H3].
Defined.

(** * The round trip of the internal form *)

Section RoundTrip.
Context (L : nmos_cpp).






End RoundTrip.


